(** * SelfHAR experiment pipeline: a shallow embedding of
      [run_self_har.py] and [self_har_models.py].

    The development follows the two source files.  Python dictionaries
    with string keys are finite maps, Python lists are lists, exceptions
    are an error monad, and the objects that the code mutates in place
    (Keras layers, the experiment configs, the dataset cache) live in an
    explicit store that is threaded through the computation. *)

From Stdlib Require Import ZArith QArith Qpower String List Lia.
From stdpp Require Import base option list gmap strings fin_maps.

Set Warnings "-register-all".

Local Open Scope string_scope.
Local Open Scope Z_scope.
Local Open Scope list_scope.

(** ** Python values and exceptions *)

Module Py.

(** JSON-like values held by an experiment config.  Floats are kept as
    exact rationals: the code only stores, compares and scales them. *)
Inductive value : Type :=
| VNone
| VBool (b : bool)
| VInt (z : Z)
| VFloat (q : Q)
| VStr (s : string)
| VList (l : list value)
| VDict (d : list (string * value)).

Inductive exn : Type :=
| IndexError
| TypeError
| KeyError (key : string)
| NameError (name : string)
| UnboundLocalError (name : string)
| AttributeError (name : string)
| ZeroDivisionError
| ValueError.

Inductive result (A : Type) : Type :=
| Ok (a : A)
| Raise (e : exn).
Arguments Ok {A} a.
Arguments Raise {A} e.

Definition rbind {A B} (r : result A) (k : A -> result B) : result B :=
  match r with
  | Ok a => k a
  | Raise e => Raise e
  end.

(** [v == 'literal'] *)
Definition eq_str (v : value) (s : string) : bool :=
  match v with
  | VStr s' => String.eqb s' s
  | _ => false
  end.

(** [v == z] for an integer literal [z]; Python's numeric tower makes
    [False == 0] and [0.0 == 0] true. *)
Definition eq_int (v : value) (z : Z) : bool :=
  match v with
  | VInt z' => Z.eqb z' z
  | VBool b => Z.eqb (if b then 1 else 0) z
  | VFloat q => Qeq_bool q (inject_Z z)
  | _ => false
  end.

(** Truth value of [v] in an [if]. *)
Definition truthy (v : value) : bool :=
  match v with
  | VNone => false
  | VBool b => b
  | VInt z => negb (Z.eqb z 0)
  | VFloat q => negb (Qeq_bool q 0)
  | VStr s => negb (String.eqb s "")
  | VList l => match l with [] => false | _ => true end
  | VDict d => match d with [] => false | _ => true end
  end.

(** [i - v] for an integer [i]; the result is an [int] only when [v] is
    an [int] or a [bool]. *)
Definition int_sub (i : Z) (v : value) : result value :=
  match v with
  | VInt z => Ok (VInt (i - z))
  | VBool b => Ok (VInt (i - (if b then 1 else 0)))
  | VFloat q => Ok (VFloat (inject_Z i - q))
  | _ => Raise TypeError
  end.

(** Position designated by the subscript [l[k]]: negative subscripts
    count from the end, anything outside [-len, len) raises. *)
Definition index_pos (len : nat) (k : Z) : result nat :=
  if (0 <=? k) && (k <? Z.of_nat len) then Ok (Z.to_nat k)
  else if (- Z.of_nat len <=? k) && (k <? 0) then Ok (Z.to_nat (k + Z.of_nat len))
  else Raise IndexError.

(** [l[v]] where the subscript is a Python value. *)
Definition subscript_pos (len : nat) (v : value) : result nat :=
  match v with
  | VInt k => index_pos len k
  | VBool b => index_pos len (if b then 1 else 0)
  | _ => Raise TypeError
  end.

(** [l[:k]] *)
Definition slice_to {A} (l : list A) (k : Z) : list A :=
  if 0 <=? k then take (Z.to_nat k) l
  else take (Z.to_nat (Z.of_nat (length l) + k)) l.

(** [l[k:]] *)
Definition slice_from {A} (l : list A) (k : Z) : list A :=
  if 0 <=? k then drop (Z.to_nat k) l
  else drop (Z.to_nat (Z.of_nat (length l) + k)) l.

End Py.
Export Py.

(** ** [run_self_har.get_config_default_value_if_none] *)

Module Config.

(** What the function prints. *)
Inductive notice : Type :=
| InfoDefault (entry : string) (default_value : value).

(** The [if]/[elif] chain of lines 184-212; [now] is the string that
    [datetime.datetime.now().strftime("%Y%m%d-%H%M%S")] yields at the
    call.  [None] is the fall-through that leaves [default_value]
    unbound. *)
Definition default_value (now : string) (entry : string) : option value :=
  if String.eqb entry "type" then Some (VStr "none")
  else if String.eqb entry "tag" then Some (VStr now)
  else if String.eqb entry "previous_config_offset" then Some (VInt 0)
  else if String.eqb entry "initial_learning_rate" then Some (VFloat (3 # 10000))
  else if String.eqb entry "epochs" then Some (VInt 30)
  else if String.eqb entry "batch_size" then Some (VInt 300)
  else if String.eqb entry "optimizer" then Some (VStr "adam")
  else if String.eqb entry "self_training_samples_per_class" then Some (VInt 10000)
  else if String.eqb entry "self_training_minimum_confidence" then Some (VFloat 0)
  else if String.eqb entry "self_training_plurality_only" then Some (VBool true)
  else if String.eqb entry "trained_model_path" then Some (VStr "")
  else if String.eqb entry "trained_model_type" then Some (VStr "unknown")
  else if String.eqb entry "eval_results" then Some (VDict [])
  else if String.eqb entry "eval_har" then Some (VBool false)
  else None.

(** Returns the value, the config after the call (the dict is mutated in
    place when the default is written back) and the lines printed. *)
Definition get_config_default_value_if_none (now : string)
    (experiment_config : gmap string value) (entry : string) (set_value : bool)
  : result (value * gmap string value * list notice) :=
  match experiment_config !! entry with
  | Some v => Ok (v, experiment_config, [])
  | None =>
      match default_value now entry with
      | None => Raise (UnboundLocalError "default_value")
      | Some d =>
          if set_value
          then Ok (d, <[entry := d]> experiment_config, [InfoDefault entry d])
          else Ok (d, experiment_config, [])
      end
  end.

(** The default table as the specification documents it. *)
Definition documented_defaults (now : string) : list (string * value) :=
  [ ("type", VStr "none");
    ("tag", VStr now);
    ("previous_config_offset", VInt 0);
    ("initial_learning_rate", VFloat (3 # 10000));
    ("epochs", VInt 30);
    ("batch_size", VInt 300);
    ("optimizer", VStr "adam");
    ("self_training_samples_per_class", VInt 10000);
    ("self_training_minimum_confidence", VFloat 0);
    ("self_training_plurality_only", VBool true);
    ("trained_model_path", VStr "");
    ("trained_model_type", VStr "unknown");
    ("eval_results", VDict []);
    ("eval_har", VBool false) ].

End Config.
Export Config.

(** ** [self_har_models.py] over a store of Keras layer objects *)

Module Keras.

(** A symbolic Keras tensor is known by its history: the layer that
    produced it and the tensor that layer was called on.  Layers are named
    by their address in the store, so two tensors share a layer exactly
    when the addresses agree. *)
Inductive tensor : Type :=
| TInput (layer : nat)
| TCall (layer : nat) (x : tensor).

Inductive optimizer : Type :=
| Adam (learning_rate : value)
| SGD (learning_rate : value).

Inductive loss : Type :=
| CategoricalCrossentropy
| BinaryCrossentropy.

Record compile_args : Type := {
  c_optimizer : optimizer;
  c_loss : list loss;
  c_metrics : list string }.

(** The part of a functional [tf.keras.Model] the code reads. *)
Record model : Type := {
  m_inputs : list tensor;
  m_outputs : list tensor;
  m_layers : list nat;
  m_compiled : option compile_args }.

Inductive layer_class : Type :=
| InputLayer (shape : list Z)
| Conv1D (filters kernel_size : Z) (activation : string)
| Dropout (rate : Q)
| GlobalMaxPool1D
| Dense (units : Z) (activation : option string)
| Softmax
| Functional (m : model).

(** [l_name = None] stands for a name Keras generates itself. *)
Record layer : Type := {
  l_name : option string;
  l_class : layer_class;
  trainable : bool }.

(** Computations that allocate or mutate layer objects and may raise. *)
Definition K (A : Type) : Type := list layer -> result (A * list layer).

Definition ret {A} (a : A) : K A := fun h => Ok (a, h).

Definition bind {A B} (c : K A) (k : A -> K B) : K B :=
  fun h => match c h with
           | Ok (a, h') => k a h'
           | Raise e => Raise e
           end.

Definition raise {A} (e : exn) : K A := fun _ => Raise e.

Declare Scope keras_scope.
Delimit Scope keras_scope with keras.
Notation "x <- c ;; k" := (bind c (fun x => k))
  (at level 100, c at next level, right associativity) : keras_scope.
Local Open Scope keras_scope.

Definition alloc (l : layer) : K nat :=
  fun h => Ok (length h, h ++ [l]).

Definition get_model (id : nat) : K model :=
  fun h => match h !! id with
           | Some {| l_class := Functional m |} => Ok (m, h)
           | _ => Raise (AttributeError "layers")
           end.

(** *** The layer list of [tf.keras.Model(inputs, outputs)]

    Keras walks the graph back from the outputs, gives every layer the
    length of the longest path from it to an output as its depth, and
    lists the layers by decreasing depth, layers of equal depth in the
    order the walk met them.  Input layers the walk never reached are
    given depth 0 and come first at that depth.  In the graphs built here
    every layer is called once and on one tensor. *)

Fixpoint chain (t : tensor) : list nat :=
  match t with
  | TInput l => [l]
  | TCall l x => l :: chain x
  end.

(** Layers in the order of their first visit. *)
Fixpoint first_visits (seen : list nat) (l : list nat) : list nat :=
  match l with
  | [] => []
  | x :: l' =>
      if bool_decide (x ∈ seen) then first_visits seen l'
      else x :: first_visits (x :: seen) l'
  end.

Definition traversal (outputs : list tensor) : list nat :=
  first_visits [] (outputs ≫= chain).

(** Largest position of [l] in the path [c] whose head has position [i]. *)
Fixpoint max_pos (l : nat) (c : list nat) (i : nat) : option nat :=
  match c with
  | [] => None
  | x :: c' =>
      match max_pos l c' (S i) with
      | Some p => Some p
      | None => if Nat.eqb x l then Some i else None
      end
  end.

Definition layer_depth (outputs : list tensor) (l : nat) : nat :=
  foldr (fun o d => Nat.max (default 0%nat (max_pos l (chain o) 0)) d) 0%nat outputs.

Definition max_depth (outputs : list tensor) : nat :=
  foldr (fun o d => Nat.max (length (chain o) - 1) d) 0%nat outputs.

Definition layers_at (outputs : list tensor) (d : nat) : list nat :=
  filter (fun l => layer_depth outputs l = d) (traversal outputs).

Definition unreached_inputs (inputs outputs : list tensor) : list nat :=
  first_visits (traversal outputs) (inputs ≫= chain).

Definition graph_layers (inputs outputs : list tensor) : list nat :=
  (reverse (seq 1 (max_depth outputs)) ≫= layers_at outputs)
  ++ unreached_inputs inputs outputs ++ layers_at outputs 0.

(** [tf.keras.Input(shape=..., name=...)] *)
Definition Input (shape : list Z) (name : string) : K tensor :=
  id <- alloc {| l_name := Some name; l_class := InputLayer shape; trainable := true |} ;;
  ret (TInput id).

(** [Cls(...)(x)]: construct a layer and call it on [x]. *)
Definition apply_new (cls : layer_class) (name : option string) (x : tensor) : K tensor :=
  id <- alloc {| l_name := name; l_class := cls; trainable := true |} ;;
  ret (TCall id x).

(** [tf.keras.Model(inputs=..., outputs=..., name=...)] *)
Definition Model (inputs outputs : list tensor) (name : string) : K nat :=
  alloc {| l_name := Some name;
           l_class := Functional {| m_inputs := inputs; m_outputs := outputs;
                                    m_layers := graph_layers inputs outputs;
                                    m_compiled := None |};
           trainable := true |}.

(** [model.compile(optimizer=..., loss=..., metrics=...)] *)
Definition compile (id : nat) (args : compile_args) : K unit :=
  m <- get_model id ;;
  fun h => Ok (tt, alter (fun l => {| l_name := l_name l;
                                      l_class := Functional {| m_inputs := m_inputs m;
                                                               m_outputs := m_outputs m;
                                                               m_layers := m_layers m;
                                                               m_compiled := Some args |};
                                      trainable := trainable l |}) id h).

(** [model.input.shape[1:]] for a model with one input. *)
Definition input_shape_of (id : nat) : K (list Z) :=
  m <- get_model id ;;
  match m_inputs m with
  | [TInput i] =>
      fun h => match h !! i with
               | Some {| l_class := InputLayer shape |} => Ok (shape, h)
               | _ => Raise (AttributeError "shape")
               end
  | _ => raise (AttributeError "shape")
  end.

Definition har_metrics : list string :=
  ["categorical_accuracy"; "auc"; "precision"; "recall"].

(** The time steps of a window array of shape [(steps, channels)]; a
    shape of another rank, with a negative entry or without a channel is
    refused with [ValueError], by [Input] or by the first layer that is
    called on it. *)
Definition time_steps (input_shape : list Z) : K Z :=
  match input_shape with
  | [steps; channels] =>
      if (0 <=? steps) && (1 <=? channels) then ret steps else raise ValueError
  | _ => raise ValueError
  end.

(** [Conv1D(filters, kernel_size, activation=...)(x)] on a tensor with
    [steps] time steps.  The padding is the default ["valid"] and the
    stride is 1: the output has [steps - kernel_size + 1] time steps,
    and the call raises [ValueError] when that is not positive. *)
Definition conv1d (filters kernel_size : Z) (activation : string) (x : tensor)
    (steps : Z) : K (tensor * Z) :=
  if kernel_size <=? steps then
    y <- apply_new (Conv1D filters kernel_size activation) None x ;;
    ret (y, steps - kernel_size + 1)
  else raise ValueError.

Definition create_1d_conv_core_model (input_shape : list Z) (model_name : string) : K nat :=
  steps <- time_steps input_shape ;;
  inputs <- Input input_shape "input" ;;
  xs <- conv1d 32 24 "relu" inputs steps ;;
  x <- apply_new (Dropout (1 # 10)) None xs.1 ;;
  xs <- conv1d 64 16 "relu" x xs.2 ;;
  x <- apply_new (Dropout (1 # 10)) None xs.1 ;;
  xs <- conv1d 96 8 "relu" x xs.2 ;;
  x <- apply_new (Dropout (1 # 10)) None xs.1 ;;
  x <- apply_new GlobalMaxPool1D (Some "global_max_pooling1d") x ;;
  Model [inputs] [x] model_name.

Definition extract_core_model (composite_model : nat) : K nat :=
  m <- get_model composite_model ;;
  match m_layers m !! 1%nat with
  | Some core => ret core
  | None => raise IndexError
  end.

Definition extract_har_model (multitask_model : nat) (optimizer : optimizer)
    (output_index : Z) (model_name : string) : K nat :=
  m <- get_model multitask_model ;;
  match rbind (index_pos (length (m_outputs m)) output_index)
              (fun p => match m_outputs m !! p with
                        | Some o => Ok o
                        | None => Raise IndexError
                        end) with
  | Raise e => raise e
  | Ok o =>
      model <- Model (m_inputs m) [o] model_name ;;
      _ <- compile model {| c_optimizer := optimizer;
                            c_loss := [CategoricalCrossentropy];
                            c_metrics := har_metrics |} ;;
      ret model
  end.

(** [layer.trainable = b].  A layer that is itself a model passes the
    value on to each of its layers, and so on downwards; [depth] bounds
    how far down, and no chain of nested models is longer than the
    store. *)
Fixpoint set_trainable_to (depth : nat) (b : bool) (h : list layer) (id : nat)
  : list layer :=
  let h1 := alter (fun l => {| l_name := l_name l; l_class := l_class l;
                                trainable := b |}) id h in
  match depth with
  | O => h1
  | S d =>
      match h !! id with
      | Some {| l_class := Functional m |} => foldl (set_trainable_to d b) h1 (m_layers m)
      | _ => h1
      end
  end.

Definition set_trainable (b : bool) (h : list layer) (id : nat) : list layer :=
  set_trainable_to (length h) b h id.

Definition set_freeze_layers (model : nat) (num_freeze_layer_index : option Z) : K unit :=
  m <- get_model model ;;
  match num_freeze_layer_index with
  | None => fun h => Ok (tt, foldl (set_trainable false) h (m_layers m))
  | Some k =>
      fun h =>
        let h1 := foldl (set_trainable false) h (slice_to (m_layers m) k) in
        Ok (tt, foldl (set_trainable true) h1 (slice_from (m_layers m) k))
  end.

Definition attach_full_har_classification_head (core_model : nat) (output_shape : Z)
    (optimizer : optimizer) (num_units : Z) (model_name : string) : K nat :=
  shape <- input_shape_of core_model ;;
  inputs <- Input shape "input" ;;
  let intermediate_x := TCall core_model inputs in
  x <- apply_new (Dense num_units (Some "relu")) None intermediate_x ;;
  x <- apply_new (Dense output_shape None) None x ;;
  outputs <- apply_new Softmax None x ;;
  model <- Model [inputs] [outputs] model_name ;;
  _ <- compile model {| c_optimizer := optimizer;
                        c_loss := [CategoricalCrossentropy];
                        c_metrics := har_metrics |} ;;
  ret model.

Definition attach_linear_classification_head (core_model : nat) (output_shape : Z)
    (optimizer : optimizer) (model_name : string) : K nat :=
  shape <- input_shape_of core_model ;;
  inputs <- Input shape "input" ;;
  let intermediate_x := TCall core_model inputs in
  x <- apply_new (Dense output_shape None) None intermediate_x ;;
  outputs <- apply_new Softmax None x ;;
  model <- Model [inputs] [outputs] model_name ;;
  _ <- compile model {| c_optimizer := optimizer;
                        c_loss := [CategoricalCrossentropy];
                        c_metrics := har_metrics |} ;;
  ret model.

(** The [for task in output_tasks] loop of lines 196-199. *)
Fixpoint task_heads (intermediate_x : tensor) (output_tasks : list string)
    (outputs : list tensor) : K (list tensor) :=
  match output_tasks with
  | [] => ret outputs
  | task :: rest =>
      x <- apply_new (Dense 256 (Some "relu")) None intermediate_x ;;
      pred <- apply_new (Dense 1 (Some "sigmoid")) (Some task) x ;;
      task_heads intermediate_x rest (outputs ++ [pred])
  end.

Definition attach_multitask_transform_head (core_model : nat) (output_tasks : list string)
    (optimizer : optimizer) (with_har_head : bool) (har_output_shape : option Z)
    (num_units_har : Z) (model_name : string) : K nat :=
  shape <- input_shape_of core_model ;;
  inputs <- Input shape "input" ;;
  let intermediate_x := TCall core_model inputs in
  let losses := map (fun _ => BinaryCrossentropy) output_tasks in
  outputs <- task_heads intermediate_x output_tasks [] ;;
  ol <- (if with_har_head then
           match har_output_shape with
           | None => raise TypeError
           | Some n =>
               x <- apply_new (Dense num_units_har (Some "relu")) None intermediate_x ;;
               x <- apply_new (Dense n None) None x ;;
               har_pred <- apply_new Softmax (Some "har") x ;;
               ret (outputs ++ [har_pred], losses ++ [CategoricalCrossentropy])
           end
         else ret (outputs, losses)) ;;
  model <- Model [inputs] ol.1 model_name ;;
  _ <- compile model {| c_optimizer := optimizer; c_loss := ol.2;
                        c_metrics := ["accuracy"] |} ;;
  ret model.

End Keras.

(** ** [run_self_har.py] *)

Module Run.
Import Keras.

Declare Scope run_scope.
Delimit Scope run_scope with run.

(** *** Data handled by the pipeline *)

(** Two-dimensional float arrays: one-hot labels, class probabilities. *)
Definition labels : Type := list (list Q).

(** The collaborators that are not part of the two source files:
    the pickled datasets, [data_pre_processing], [self_har_utilities],
    [self_har_trainers], numpy, scikit-learn, the Keras runtime and the
    wall clock.  [window] is one row of a windowed feature array, [raw]
    the per-user recordings of a pickled dataset, [task_labels] the label
    block that [create_individual_transform_dataset] builds. *)
Class Services : Type := {
  window : Type;
  raw : Type;
  task_labels : Type;
  strftime_now : nat -> string;
  format_value : value -> string;
  pickle_load : string -> raw * list string;
  raw_users : raw -> list string;
  np_sort : list string -> list string;
  shape_tail : list window -> list Z;
  np_argmax_rows : labels -> list Z;
  np_add : value -> value -> result value;
  np_div : value -> Z -> result value;
  confusion_matrix : list Z -> list Z -> result value;
  load_model : value -> K nat;
  predict : nat -> list layer -> list window -> option value -> labels;
  evaluate_model_simple : labels -> labels -> value;
  create_individual_transform_dataset :
    list window -> option labels -> list window * task_labels * labels;
  map_multitask_y : task_labels -> list string -> gmap string labels;
  multitask_train_test_split :
    list window * gmap string labels ->
    list window * gmap string labels * list window * gmap string labels;
  pick_top_samples_per_class_np :
    list window -> labels -> value -> value -> value -> list window * labels;
  train_test_split :
    list window -> labels -> list window * list window * labels * labels }.

Section Pipeline.
Context {S : Services}.

Definition xy : Type := list window * labels.

(** [test_users] is one user name in a fixed split and a list otherwise. *)
Inductive users_arg : Type :=
| OneUser (u : string)
| UserList (l : list string).

Record preprocess_args : Type := {
  pa_user_datasets : raw;
  pa_label_map : gmap string nat;
  pa_output_shape : nat;
  pa_train_users : list string;
  pa_test_users : users_arg;
  pa_window_size : Z;
  pa_shift : Z;
  pa_normalise_dataset : bool;
  pa_validation_split_proportion : Q;
  pa_verbose : Z }.

(** What [prepare_dataset] returns. *)
Record bundle : Type := {
  b_train : xy;
  b_val : xy;
  b_test : xy;
  b_label_map : gmap string nat;
  b_input_shape : list Z;
  b_output_shape : nat }.

(** A value of the [prepared_datasets] dictionary. *)
Inductive prepared : Type :=
| PBundle (b : bundle)
| PArray (a : list window).

(** Training and validation sets handed to the trainer. *)
Inductive dataset : Type :=
| HarData (d : xy)
| MultiTaskData (x : list window) (y : gmap string labels).

Inductive callback : Type :=
| LearningRateScheduler (schedule : Z -> result value).

Record train_request : Type := {
  full_model : nat;
  training_set : dataset;
  validation_set : dataset;
  working_directory : string;
  callbacks : list callback;
  epochs : value;
  batch_size : value;
  tag : string;
  use_tensor_board_logging : bool;
  tr_verbose : Z }.

(** Lines printed and calls made to the outside, in order. *)
Inductive event : Type :=
| PrintLoadingDataset (path : string)
| PrintUsers (test_users : users_arg) (train_users : list string)
| PrintUnlabelledShape (n : nat)
| PrintCombinedShape (n : nat)
| PrintInfoDefault (entry : string) (default_value : value)
| PrintStarting (i : nat) (config : gmap string value)
| PrintErrorEvaluationModel
| PrintErrorNoPreviousModel
| PrintCreatingNewModel
| PrintLoadingPreviousModel (path : value)
| PrintTransformDatasetShape (n : nat)
| PrintUnlabelledDatasetShape (n : nat)
| PrintEvalResults (r : value)
| ReadPickle (path : string)
| LoadModel (path : value)
| Summary (model : nat)
| Train (req : train_request) (store : list layer)
| LabelUnlabelledDataset (model : nat).

(** The command line. *)
Record arguments : Type := {
  a_working_directory : string;
  a_labelled_dataset_path : string;
  a_unlabelled_dataset_path : string;
  a_window_size : Z;
  a_max_unlabelled_windows : option Z;
  a_use_tensor_board_logging : bool;
  a_verbose : Z }.

(** The parsed JSON configuration file. *)
Record config_file : Type := {
  cf_tag : value;
  cf_experiment_configs : list (gmap string value) }.

(** [data_pre_processing] and [self_har_trainers]. *)
Class Trainer : Type := {
  pre_process_dataset_composite : preprocess_args -> xy * xy * xy;
  composite_train_model : train_request -> list layer -> string * string }.
Context {T : Trainer}.

(** *** [prepare_dataset], lines 106-147 *)

(** [u in s] for two strings. *)
Definition str_in (u s : string) : bool :=
  match String.index 0 u s with Some _ => true | None => false end.

(** [dict([(l, i) for i, l in enumerate(label_list)])] *)
Definition enumerate_labels (label_list : list string) : gmap string nat :=
  foldl (fun m il => <[il.2 := il.1]> m) ∅ (imap pair label_list).

Definition prepare_dataset (dataset_path : string) (window_size : Z)
    (get_train_test_users : list string -> result (list string * users_arg))
    (validation_split_proportion : Q) (verbose : Z) (target : option (gmap string nat))
  : result (bundle * list event) :=
  let out0 := if 0 <? verbose then [PrintLoadingDataset dataset_path] else [] in
  let dataset_dict := pickle_load dataset_path in
  let user_datasets := dataset_dict.1 in
  let label_list := np_sort dataset_dict.2 in
  let label_map0 := enumerate_labels label_list in
  let output_shape0 := length label_list in
  let label_map := match target with Some t => t | None => label_map0 end in
  let output_shape := match target with Some t => size t | None => output_shape0 end in
  let har_users := raw_users user_datasets in
  match get_train_test_users har_users with
  | Raise e => Raise e
  | Ok (train_users, test_users) =>
      let out1 := if 0 <? verbose then [PrintUsers test_users train_users] else [] in
      let np := pre_process_dataset_composite
                  {| pa_user_datasets := user_datasets;
                     pa_label_map := label_map;
                     pa_output_shape := output_shape;
                     pa_train_users := train_users;
                     pa_test_users := test_users;
                     pa_window_size := window_size;
                     pa_shift := window_size;
                     pa_normalise_dataset := true;
                     pa_validation_split_proportion := validation_split_proportion;
                     pa_verbose := verbose |} in
      Ok ({| b_train := np.1.1; b_val := np.1.2; b_test := np.2;
             b_label_map := label_map;
             b_input_shape := shape_tail np.1.1.1;
             b_output_shape := output_shape |},
          out0 ++ [ReadPickle dataset_path] ++ out1)
  end.

(** *** [generate_unlabelled_datasets_variations], lines 149-162 *)

Definition generate_unlabelled_datasets_variations
    (unlabelled_data_x labelled_data_x : list window) (labelled_repeat : nat) (verbose : Z)
  : gmap string prepared * list event :=
  let labelled_data_repeat := labelled_data_x ≫= replicate labelled_repeat in
  let np_unlabelled_combined := unlabelled_data_x ++ labelled_data_repeat in
  (<["unlabelled_combined" := PArray np_unlabelled_combined]>
     (<["labelled_x_repeat" := PArray labelled_data_repeat]> ∅),
   (if 0 <? verbose then [PrintUnlabelledShape (length unlabelled_data_x)] else []) ++
   (if 0 <? verbose then [PrintCombinedShape (length np_unlabelled_combined)] else [])).

(** *** [load_unlabelled_dataset], lines 164-178

    The function assigns to ['unlabelled'] of the dictionary it was
    passed and then returns a new, merged dictionary.  The first
    component of the result is the caller's dictionary after the call,
    the second the dictionary returned. *)

Definition get_bundle (prepared_datasets : gmap string prepared) (key : string)
  : result bundle :=
  match prepared_datasets !! key with
  | None => Raise (KeyError key)
  | Some (PBundle b) => Ok b
  | Some (PArray _) => Raise IndexError
  end.

Definition get_array (prepared_datasets : gmap string prepared) (key : string)
  : result (list window) :=
  match prepared_datasets !! key with
  | None => Raise (KeyError key)
  | Some (PArray a) => Ok a
  | Some (PBundle _) => Raise (AttributeError "shape")
  end.

Definition get_empty_test_users (har_users : list string)
  : result (list string * users_arg) :=
  Ok (har_users, UserList []).

Definition load_unlabelled_dataset (prepared_datasets : gmap string prepared)
    (unlabelled_dataset_path : string) (window_size : Z) (labelled_repeat : nat)
    (max_unlabelled_windows : option Z) (verbose : Z)
  : result (gmap string prepared * gmap string prepared * labels * list event) :=
  rbind (get_bundle prepared_datasets "labelled") (fun labelled =>
  rbind (prepare_dataset unlabelled_dataset_path window_size get_empty_test_users
           0 verbose (Some (b_label_map labelled))) (fun r =>
  let unlabelled := (b_train r.1).1 in
  let label := (b_train r.1).2 in
  let pd1 := <["unlabelled" := PArray unlabelled]> prepared_datasets in
  rbind (match max_unlabelled_windows with
         | None => Ok pd1
         | Some k =>
             rbind (get_array pd1 "unlabelled") (fun u =>
             Ok (<["unlabelled" := PArray (slice_to u k)]> pd1))
         end) (fun pd2 =>
  rbind (get_array pd2 "unlabelled") (fun u =>
  rbind (get_bundle pd2 "labelled") (fun l =>
  let g := generate_unlabelled_datasets_variations u (b_train l).1 labelled_repeat 1 in
  Ok (pd2, g.1 ∪ pd2, label, r.2 ++ g.2)))))).

(** *** The state of the main program

    The module-level variables that survive from one experiment to the
    next, the store of Keras objects, the clock and the output. *)
Record state : Type := {
  experiment_configs : list (gmap string value);
  prepared_datasets : gmap string prepared;
  store : list layer;
  var_optimizer : option optimizer;
  var_model : option nat;
  ev : list value;
  conv : list value;
  y_true : list (list Z);
  y_pred : list (list Z);
  clock : nat;
  out : list event }.

Definition D (A : Type) : Type := state -> result (A * state).

Definition dret {A} (a : A) : D A := fun st => Ok (a, st).

Definition dbind {A B} (c : D A) (k : A -> D B) : D B :=
  fun st => match c st with
            | Ok (a, st') => k a st'
            | Raise e => Raise e
            end.

Definition draise {A} (e : exn) : D A := fun _ => Raise e.

Notation "x <- c ;; k" := (dbind c (fun x => k))
  (at level 100, c at next level, right associativity) : run_scope.
Local Open Scope run_scope.

Definition lift_result {A} (r : result A) : D A :=
  fun st => match r with Ok a => Ok (a, st) | Raise e => Raise e end.

Definition set_configs (cs : list (gmap string value)) (st : state) : state :=
  {| experiment_configs := cs; prepared_datasets := prepared_datasets st;
     store := store st; var_optimizer := var_optimizer st; var_model := var_model st;
     ev := ev st; conv := conv st; y_true := y_true st; y_pred := y_pred st;
     clock := clock st; out := out st |}.

Definition set_prepared (pd : gmap string prepared) (st : state) : state :=
  {| experiment_configs := experiment_configs st; prepared_datasets := pd;
     store := store st; var_optimizer := var_optimizer st; var_model := var_model st;
     ev := ev st; conv := conv st; y_true := y_true st; y_pred := y_pred st;
     clock := clock st; out := out st |}.

Definition set_store (h : list layer) (st : state) : state :=
  {| experiment_configs := experiment_configs st;
     prepared_datasets := prepared_datasets st;
     store := h; var_optimizer := var_optimizer st; var_model := var_model st;
     ev := ev st; conv := conv st; y_true := y_true st; y_pred := y_pred st;
     clock := clock st; out := out st |}.

Definition set_optimizer (o : option optimizer) (st : state) : state :=
  {| experiment_configs := experiment_configs st;
     prepared_datasets := prepared_datasets st;
     store := store st; var_optimizer := o; var_model := var_model st;
     ev := ev st; conv := conv st; y_true := y_true st; y_pred := y_pred st;
     clock := clock st; out := out st |}.

Definition set_model (m : option nat) (st : state) : state :=
  {| experiment_configs := experiment_configs st;
     prepared_datasets := prepared_datasets st;
     store := store st; var_optimizer := var_optimizer st; var_model := m;
     ev := ev st; conv := conv st; y_true := y_true st; y_pred := y_pred st;
     clock := clock st; out := out st |}.

Definition set_pooled (ev' conv' : list value) (yt yp : list (list Z)) (st : state)
  : state :=
  {| experiment_configs := experiment_configs st;
     prepared_datasets := prepared_datasets st;
     store := store st; var_optimizer := var_optimizer st; var_model := var_model st;
     ev := ev'; conv := conv'; y_true := yt; y_pred := yp;
     clock := clock st; out := out st |}.

Definition set_clock (n : nat) (st : state) : state :=
  {| experiment_configs := experiment_configs st;
     prepared_datasets := prepared_datasets st;
     store := store st; var_optimizer := var_optimizer st; var_model := var_model st;
     ev := ev st; conv := conv st; y_true := y_true st; y_pred := y_pred st;
     clock := n; out := out st |}.

Definition set_out (o : list event) (st : state) : state :=
  {| experiment_configs := experiment_configs st;
     prepared_datasets := prepared_datasets st;
     store := store st; var_optimizer := var_optimizer st; var_model := var_model st;
     ev := ev st; conv := conv st; y_true := y_true st; y_pred := y_pred st;
     clock := clock st; out := o |}.

Definition emit (es : list event) : D unit :=
  fun st => Ok (tt, set_out (out st ++ es) st).

Definition lift_keras {A} (c : K A) : D A :=
  fun st => match c (store st) with
            | Ok (a, h) => Ok (a, set_store h st)
            | Raise e => Raise e
            end.

(** [datetime.datetime.now().strftime("%Y%m%d-%H%M%S")] *)
Definition now : D string :=
  fun st => Ok (strftime_now (clock st), set_clock (Datatypes.S (clock st)) st).

(** [get_config_default_value_if_none(experiment_configs[idx], entry,
    set_value)] on the config stored at position [idx]; the clock is
    read only where the function reaches its ['tag'] default. *)
Definition notice_event (n : notice) : event :=
  match n with InfoDefault e d => PrintInfoDefault e d end.

Definition config_at (idx : nat) : D (gmap string value) :=
  fun st => match experiment_configs st !! idx with
            | Some c => Ok (c, st)
            | None => Raise IndexError
            end.

Definition config_default (idx : nat) (entry : string) (set_value : bool) : D value :=
  c <- config_at idx ;;
  t <- (match c !! entry with
        | None => if String.eqb entry "tag" then now else dret ""
        | Some _ => dret ""
        end) ;;
  r <- lift_result (get_config_default_value_if_none t c entry set_value) ;;
  _ <- (fun st => Ok (tt, set_configs (<[idx := r.1.2]> (experiment_configs st)) st)) ;;
  _ <- emit (map notice_event r.2) ;;
  dret r.1.1.

(** [experiment_configs[idx][entry]] *)
Definition config_item (idx : nat) (entry : string) : D value :=
  c <- config_at idx ;;
  match c !! entry with
  | Some v => dret v
  | None => draise (KeyError entry)
  end.

(** [experiment_configs[idx][entry] = v] *)
Definition config_set (idx : nat) (entry : string) (v : value) : D unit :=
  c <- config_at idx ;;
  fun st => Ok (tt, set_configs (<[idx := <[entry := v]> c]> (experiment_configs st)) st).

(** What stays fixed while the experiments of one fold run. *)
Record fold_env : Type := {
  args : arguments;
  percentage : Q;
  tune_on_unlabelled_data : bool;
  labelled_repeat : nat;
  current_time_string : string;
  file_tag : value;
  input_shape : list Z;
  output_shape : nat }.

Definition transform_funcs_names : list string :=
  ["noised"; "scaled"; "rotated"; "negated"; "time_flipped"; "permuted";
   "time_warped"; "channel_shuffled"].

Inductive control : Type :=
| Next
| Break.

Section Experiment.
Variable env : fold_env.

Definition verbose : Z := a_verbose (args env).

Definition emit_verbose (es : list event) : D unit :=
  if 0 <? verbose then emit es else dret tt.

Definition get_optimizer : D optimizer :=
  fun st => match var_optimizer st with
            | Some o => Ok (o, st)
            | None => Raise (NameError "optimizer")
            end.

Definition labelled : D bundle :=
  fun st => match get_bundle (prepared_datasets st) "labelled" with
            | Ok b => Ok (b, st)
            | Raise e => Raise e
            end.

Definition prepared_array (key : string) : D (list window) :=
  fun st => match get_array (prepared_datasets st) key with
            | Ok a => Ok (a, st)
            | Raise e => Raise e
            end.

Definition do_load_model (path : value) : D nat :=
  _ <- emit [LoadModel path] ;;
  lift_keras (load_model path).

Definition do_predict (model : nat) (x : list window) (batch_size : option value)
  : D labels :=
  fun st => Ok (predict model (store st) x batch_size, st).

Definition do_train (req : train_request) : D (string * string) :=
  fun st => Ok (composite_train_model req (store st),
                set_out (out st ++ [Train req (store st)]) st).

(** Lines 350-353. *)
Definition resolve_previous_config (i : nat) : D (option nat) :=
  offset <- config_default i "previous_config_offset" true ;;
  if eq_int offset 0 then dret None
  else
    off <- config_item i "previous_config_offset" ;;
    k <- lift_result (int_sub (Z.of_nat i) off) ;;
    n <- (fun st => Ok (length (experiment_configs st), st)) ;;
    p <- lift_result (subscript_pos n k) ;;
    dret (Some p).

(** [previous_config is None or
     get_config_default_value_if_none(previous_config,
       'trained_model_path', set_value=False) == ''] *)
Definition previous_missing (previous_config : option nat) : D bool :=
  match previous_config with
  | None => dret true
  | Some p =>
      v <- config_default p "trained_model_path" false ;;
      dret (eq_str v "")
  end.

(** The unlabelled pool is loaded under the guard
    ['unlabelled' not in prepared_datasets] and the name
    [prepared_datasets] is rebound to the merged dictionary. *)
Definition ensure_unlabelled (verbose_arg : Z) : D unit :=
  fun st =>
    match prepared_datasets st !! "unlabelled" with
    | Some _ => Ok (tt, st)
    | None =>
        match load_unlabelled_dataset (prepared_datasets st)
                (a_unlabelled_dataset_path (args env)) (a_window_size (args env))
                (labelled_repeat env) (a_max_unlabelled_windows (args env))
                verbose_arg with
        | Raise e => Raise e
        | Ok (_, merged, _, es) =>
            Ok (tt, set_out (out st ++ es) (set_prepared merged st))
        end
    end.

(** Numeric value of an operand of a float multiplication. *)
Definition as_number (v : value) : option Q :=
  match v with
  | VInt z => Some (inject_Z z)
  | VBool b => Some (inject_Z (if b then 1 else 0))
  | VFloat q => Some q
  | _ => None
  end.

(** [initial_learning_rate * (0.5 ** (epoch // 15))], lines 418-422. *)
Definition training_rate_schedule_transform (initial_learning_rate : value) (epoch : Z)
  : result value :=
  match as_number initial_learning_rate with
  | Some q => Ok (VFloat (q * Qpower (1 # 2) (epoch / 15)))
  | None => Raise TypeError
  end.

(** [rate = initial_learning_rate], lines 485-489. *)
Definition training_rate_schedule_har (initial_learning_rate : value) (epoch : Z)
  : result value :=
  Ok initial_learning_rate.

(** [0.0003 * (0.5 ** (epoch // 15))], lines 555-559. *)
Definition training_rate_schedule_self (epoch : Z) : result value :=
  Ok (VFloat ((3 # 10000) * Qpower (1 # 2) (epoch / 15))).

Definition make_request (model : nat) (training validation : dataset)
    (schedule : Z -> result value) (epochs batch_size : value) (tag : string)
  : train_request :=
  {| full_model := model;
     training_set := training;
     validation_set := validation;
     working_directory := a_working_directory (args env);
     callbacks := [LearningRateScheduler schedule];
     epochs := epochs;
     batch_size := batch_size;
     tag := tag;
     use_tensor_board_logging := a_use_tensor_board_logging (args env);
     tr_verbose := verbose |}.

(** Lines 359-378. *)
Definition eval_har_branch (i : nat) (previous_config : option nat) (tag : string)
  : D control :=
  missing <- previous_missing previous_config ;;
  if missing then
    _ <- emit [PrintErrorEvaluationModel] ;;
    dret Next
  else
    match previous_config with
    | None => dret Next
    | Some p =>
        t <- config_default p "trained_model_type" true ;;
        _ <- (if eq_str t "har_model" then
                path <- config_item p "trained_model_path" ;;
                previous_model <- do_load_model path ;;
                fun st => Ok (tt, set_model (Some previous_model) st)
              else
                t' <- config_default p "trained_model_type" true ;;
                if eq_str t' "transform_with_har_model" then
                  path <- config_item p "trained_model_path" ;;
                  previous_model <- do_load_model path ;;
                  optimizer <- get_optimizer ;;
                  model <- lift_keras (extract_har_model previous_model optimizer (-1) tag) ;;
                  fun st => Ok (tt, set_model (Some model) st)
                else dret tt) ;;
        model <- (fun st => match var_model st with
                            | Some m => Ok (m, st)
                            | None => Raise (NameError "model")
                            end) ;;
        l <- labelled ;;
        pred <- do_predict model (b_test l).1 None ;;
        let eval_results := evaluate_model_simple pred (b_test l).2 in
        _ <- emit_verbose [PrintEvalResults eval_results] ;;
        _ <- config_set i "eval_results" eval_results ;;
        dret Next
    end.

(** Lines 391-440. *)
Definition transform_train_branch (i : nat) (previous_config : option nat)
    (tag : string) (initial_learning_rate epochs batch_size : value) : D unit :=
  _ <- ensure_unlabelled verbose ;;
  missing <- previous_missing previous_config ;;
  core_model <-
    (match missing, previous_config with
     | false, Some p =>
         _ <- (if 0 <? verbose
               then path <- config_item p "trained_model_path" ;;
                    emit [PrintLoadingPreviousModel path]
               else dret tt) ;;
         path <- config_item p "trained_model_path" ;;
         previous_model <- do_load_model path ;;
         lift_keras (extract_core_model previous_model)
     | _, _ =>
         _ <- emit_verbose [PrintCreatingNewModel] ;;
         lift_keras (create_1d_conv_core_model (input_shape env) "base_model")
     end) ;;
  optimizer <- get_optimizer ;;
  transform_model <-
    lift_keras (attach_multitask_transform_head core_model transform_funcs_names
                  optimizer false None 1024 "multitask_transform") ;;
  _ <- emit [Summary transform_model] ;;
  _ <- (if 0 <? verbose
        then a <- prepared_array "unlabelled_combined" ;;
             emit [PrintTransformDatasetShape (length a)]
        else dret tt) ;;
  unlabelled_combined <- prepared_array "unlabelled_combined" ;;
  let multitask_transform_dataset :=
    create_individual_transform_dataset unlabelled_combined None in
  let multitask_transform_train :=
    (multitask_transform_dataset.1.1,
     map_multitask_y multitask_transform_dataset.1.2 transform_funcs_names) in
  let multitask_split := multitask_train_test_split multitask_transform_train in
  let multitask_train := MultiTaskData multitask_split.1.1.1 multitask_split.1.1.2 in
  let multitask_val := MultiTaskData multitask_split.1.2 multitask_split.2 in
  files <- do_train (make_request transform_model multitask_train multitask_val
                       (training_rate_schedule_transform initial_learning_rate)
                       epochs batch_size tag) ;;
  _ <- config_set i "trained_model_path" (VStr files.1) ;;
  config_set i "trained_model_type" (VStr "transform_model").

(** The model that lines 444-466 leave behind: a bare feature extractor
    ([is_core_model = True]) or a complete HAR model. *)
Inductive har_start : Type :=
| CoreModel (core_model : nat)
| HarModel (har_model : nat).

(** Lines 444-466. *)
Definition har_start_model (experiment_type : value) (previous_config : option nat)
    (tag : string) : D har_start :=
  missing <- previous_missing previous_config ;;
  match missing, previous_config with
  | false, Some p =>
      _ <- (if 0 <? verbose
            then path <- config_item p "trained_model_path" ;;
                 emit [PrintLoadingPreviousModel path]
            else dret tt) ;;
      path <- config_item p "trained_model_path" ;;
      previous_model <- do_load_model path ;;
      if eq_str experiment_type "har_linear_train" then
        core_model <- lift_keras (extract_core_model previous_model) ;;
        dret (CoreModel core_model)
      else
        t <- config_default p "trained_model_type" true ;;
        if eq_str t "har_model" then dret (HarModel previous_model)
        else
          t' <- config_item p "trained_model_type" ;;
          if eq_str t' "transform_with_har_model" then
            optimizer <- get_optimizer ;;
            har_model <- lift_keras (extract_har_model previous_model optimizer (-1) tag) ;;
            dret (HarModel har_model)
          else
            core_model <- lift_keras (extract_core_model previous_model) ;;
            dret (CoreModel core_model)
  | _, _ =>
      _ <- emit_verbose [PrintCreatingNewModel] ;;
      core_model <- lift_keras (create_1d_conv_core_model (input_shape env) "base_model") ;;
      dret (CoreModel core_model)
  end.

(** Lines 468-483: the layers are frozen according to the experiment
    type and, for a bare feature extractor, the head is attached. *)
Definition freeze_and_attach (experiment_type : value) (start : har_start) : D nat :=
  match start with
  | CoreModel core_model =>
      if eq_str experiment_type "har_linear_train" then
        _ <- lift_keras (set_freeze_layers core_model None) ;;
        optimizer <- get_optimizer ;;
        lift_keras (attach_linear_classification_head core_model
                      (Z.of_nat (output_shape env)) optimizer "Linear")
      else if eq_str experiment_type "har_full_train" then
        _ <- lift_keras (set_freeze_layers core_model (Some 0)) ;;
        optimizer <- get_optimizer ;;
        lift_keras (attach_full_har_classification_head core_model
                      (Z.of_nat (output_shape env)) optimizer 1024 "HAR")
      else if eq_str experiment_type "har_full_fine_tune" then
        _ <- lift_keras (set_freeze_layers core_model (Some 5)) ;;
        optimizer <- get_optimizer ;;
        lift_keras (attach_full_har_classification_head core_model
                      (Z.of_nat (output_shape env)) optimizer 1024 "HAR")
      else draise (NameError "har_model")
  | HarModel har_model =>
      _ <- (if eq_str experiment_type "har_full_train" then
              core <- lift_keras (extract_core_model har_model) ;;
              lift_keras (set_freeze_layers core (Some 0))
            else if eq_str experiment_type "har_full_fine_tune" then
              core <- lift_keras (extract_core_model har_model) ;;
              lift_keras (set_freeze_layers core (Some 5))
            else dret tt) ;;
      dret har_model
  end.

(** Lines 442-520. *)
Definition har_train_branch (i : nat) (experiment_type : value)
    (previous_config : option nat) (tag : string)
    (initial_learning_rate epochs batch_size : value) : D unit :=
  start <- har_start_model experiment_type previous_config tag ;;
  har_model <- freeze_and_attach experiment_type start ;;
  l <- labelled ;;
  let req := make_request har_model (HarData (b_train l)) (HarData (b_val l))
               (training_rate_schedule_har initial_learning_rate)
               epochs batch_size tag in
  files <- (if str_in "Student_Fine_Tune" tag && tune_on_unlabelled_data env
            then do_train req else do_train req) ;;
  _ <- config_set i "trained_model_path" (VStr files.1) ;;
  config_set i "trained_model_type" (VStr "har_model").

(** [d[key]] for a dictionary value. *)
Definition dict_item (d : value) (key : string) : result value :=
  match d with
  | VDict kvs =>
      match list_find (fun kv => kv.1 = key) kvs with
      | Some (_, kv) => Ok kv.2
      | None => Raise (KeyError key)
      end
  | _ => Raise TypeError
  end.

(** Lines 524-607. *)
Definition self_training_branch (i : nat) (experiment_type : value)
    (previous_config : option nat) (tag : string)
    (epochs batch_size : value) : D control :=
  _ <- ensure_unlabelled 1 ;;
  missing <- previous_missing previous_config ;;
  match missing, previous_config with
  | false, Some p =>
      _ <- (if 0 <? verbose
            then path <- config_item p "trained_model_path" ;;
                 emit [PrintLoadingPreviousModel path]
            else dret tt) ;;
      path <- config_item p "trained_model_path" ;;
      teacher_model <- do_load_model path ;;
      _ <- (if 0 <? verbose
            then a <- prepared_array "unlabelled_combined" ;;
                 emit [PrintUnlabelledDatasetShape (length a)]
            else dret tt) ;;
      unlabelled_combined <- prepared_array "unlabelled_combined" ;;
      unlabelled_pred_prob <- do_predict teacher_model unlabelled_combined (Some batch_size) ;;
      unlabelled_combined' <- prepared_array "unlabelled_combined" ;;
      num_samples_per_class <- config_default i "self_training_samples_per_class" true ;;
      minimum_threshold <- config_default i "self_training_minimum_confidence" true ;;
      plurality_only <- config_default i "self_training_plurality_only" true ;;
      let np_self_labelled :=
        pick_top_samples_per_class_np unlabelled_combined' unlabelled_pred_prob
          num_samples_per_class minimum_threshold plurality_only in
      let multitask := create_individual_transform_dataset np_self_labelled.1
                         (Some np_self_labelled.2) in
      let multitask_X := multitask.1.1 in
      let multitask_transform_y := multitask.1.2 in
      let multitask_har_y := multitask.2 in
      core_model <- lift_keras (create_1d_conv_core_model (input_shape env) "base_model") ;;
      sets <-
        (if eq_str experiment_type "self_training" then
           optimizer <- get_optimizer ;;
           student_model <-
             lift_keras (attach_full_har_classification_head core_model
                           (Z.of_nat (output_shape env)) optimizer 1024 "StudentPreTrain") ;;
           _ <- emit [Summary student_model] ;;
           let pre_train_split := train_test_split np_self_labelled.1 np_self_labelled.2 in
           dret (student_model,
                 HarData (pre_train_split.1.1.1, pre_train_split.1.2),
                 HarData (pre_train_split.1.1.2, pre_train_split.2))
         else
           let multitask_transform_y_mapped :=
             <["har" := multitask_har_y]>
               (map_multitask_y multitask_transform_y transform_funcs_names) in
           optimizer <- get_optimizer ;;
           student_model <-
             lift_keras (attach_multitask_transform_head core_model transform_funcs_names
                           optimizer true (Some (Z.of_nat (output_shape env))) 1024
                           "StudentPreTrain") ;;
           _ <- emit [Summary student_model] ;;
           let pre_train_split :=
             multitask_train_test_split (multitask_X, multitask_transform_y_mapped) in
           dret (student_model,
                 MultiTaskData pre_train_split.1.1.1 pre_train_split.1.1.2,
                 MultiTaskData pre_train_split.1.2 pre_train_split.2)) ;;
      files <- do_train (make_request sets.1.1 sets.1.2 sets.2
                           training_rate_schedule_self epochs batch_size tag) ;;
      _ <- config_set i "trained_model_path" (VStr files.1) ;;
      _ <- (if eq_str experiment_type "self_training"
            then config_set i "trained_model_type" (VStr "har_model")
            else config_set i "trained_model_type" (VStr "transform_with_har_model")) ;;
      dret Next
  | _, _ =>
      _ <- emit [PrintErrorNoPreviousModel] ;;
      dret Break
  end.

(** Lines 684-696 and 728-739: the pool is loaded again, without a
    guard, through the dictionary [prepared_datasets] names; the merged
    dictionary is bound to [data] only. *)
Definition evaluate_on_unlabelled (i : nat) (best_har_model : nat) (pred : labels)
    (eval_results : value) (print_results : bool) : D unit :=
  loaded <- (fun st =>
    match load_unlabelled_dataset (prepared_datasets st)
            (a_unlabelled_dataset_path (args env)) (a_window_size (args env))
            (labelled_repeat env) (a_max_unlabelled_windows (args env)) verbose with
    | Raise e => Raise e
    | Ok (mutated, data, label, es) =>
        Ok ((data, label), set_out (out st ++ es) (set_prepared mutated st))
    end) ;;
  unlabelled <- lift_result (get_array loaded.1 "unlabelled") ;;
  classes <- do_predict best_har_model unlabelled None ;;
  let ev_i := evaluate_model_simple classes loaded.2 in
  _ <- (fun st => Ok (tt, set_pooled (<[i := ev_i]> (ev st)) (conv st)
                            (y_true st) (y_pred st) st)) ;;
  _ <- (if print_results then emit [PrintEvalResults eval_results] else dret tt) ;;
  cm <- lift_result (dict_item ev_i "Confusion Matrix") ;;
  conv_i <- (fun st => match conv st !! i with
                       | Some c => Ok (c, st)
                       | None => Raise IndexError
                       end) ;;
  total <- lift_result (np_add conv_i cm) ;;
  _ <- (fun st => Ok (tt, set_pooled (ev st) (<[i := total]> (conv st))
                            (y_true st) (y_pred st) st)) ;;
  l <- labelled ;;
  yt <- (fun st => match y_true st !! (i - 2)%nat with
                   | Some c => Ok (c, st)
                   | None => Raise IndexError
                   end) ;;
  _ <- (fun st => Ok (tt, set_pooled (ev st) (conv st)
                            (<[(i - 2)%nat := yt ++ np_argmax_rows (b_test l).2]> (y_true st))
                            (y_pred st) st)) ;;
  yp <- (fun st => match y_pred st !! (i - 2)%nat with
                   | Some c => Ok (c, st)
                   | None => Raise IndexError
                   end) ;;
  fun st => Ok (tt, set_pooled (ev st) (conv st) (y_true st)
                      (<[(i - 2)%nat := yp ++ np_argmax_rows pred]> (y_pred st)) st).

(** Lines 610-745. *)
Definition eval_flag_branch (i : nat) (tag : string) : D control :=
  flag <- config_default i "eval_har" false ;;
  if truthy flag then
    t <- config_default i "trained_model_type" true ;;
    best <-
      (if eq_str t "har_model" then
         path <- config_item i "trained_model_path" ;;
         m <- do_load_model path ;;
         dret (Some m)
       else
         t' <- config_default i "trained_model_type" true ;;
         if eq_str t' "transform_with_har_model" then
           path <- config_item i "trained_model_path" ;;
           previous_model <- do_load_model path ;;
           optimizer <- get_optimizer ;;
           m <- lift_keras (extract_har_model previous_model optimizer (-1) tag) ;;
           dret (Some m)
         else dret None) ;;
    match best with
    | None => dret Next
    | Some best_har_model =>
        l <- labelled ;;
        pred <- do_predict best_har_model (b_test l).1 None ;;
        let eval_results := evaluate_model_simple pred (b_test l).2 in
        _ <- (if Nat.eqb i 3 && Qeq_bool (percentage env) (1 # 2)
              then emit [LabelUnlabelledDataset best_har_model] else dret tt) ;;
        _ <- (if Nat.eqb i 2
              then evaluate_on_unlabelled i best_har_model pred eval_results true
              else dret tt) ;;
        _ <- (if Nat.eqb i 3
              then evaluate_on_unlabelled i best_har_model pred eval_results false
              else dret tt) ;;
        _ <- emit_verbose [PrintEvalResults eval_results] ;;
        _ <- config_set i "eval_results" eval_results ;;
        dret Next
    end
  else dret Next.

(** Lines 391-745: the three training blocks, one after the other, and
    the evaluation that the [eval_har] flag asks for. *)
Definition train_and_evaluate (i : nat) (experiment_type : value)
    (previous_config : option nat) (tag : string)
    (initial_learning_rate epochs batch_size : value) : D control :=
  _ <- (if eq_str experiment_type "transform_train"
        then transform_train_branch i previous_config tag
               initial_learning_rate epochs batch_size
        else dret tt) ;;
  _ <- (if eq_str experiment_type "har_full_train"
           || eq_str experiment_type "har_full_fine_tune"
           || eq_str experiment_type "har_linear_train"
        then har_train_branch i experiment_type previous_config tag
               initial_learning_rate epochs batch_size
        else dret tt) ;;
  ctl <- (if eq_str experiment_type "self_training"
             || eq_str experiment_type "self_har"
          then self_training_branch i experiment_type previous_config tag
                 epochs batch_size
          else dret Next) ;;
  match ctl with
  | Break => dret Break
  | Next => eval_flag_branch i tag
  end.

(** Lines 357-389: what runs once [previous_config] is known. *)
Definition dispatch (i : nat) (experiment_type : value) (previous_config : option nat)
  : D control :=
  tag_value <- config_default i "tag" true ;;
  let tag := (current_time_string env +:+ "_" +:+ format_value (file_tag env)
              +:+ "_" +:+ format_value tag_value)%string in
  if eq_str experiment_type "eval_har" then eval_har_branch i previous_config tag
  else
    initial_learning_rate <- config_default i "initial_learning_rate" true ;;
    epochs <- config_default i "epochs" true ;;
    batch_size <- config_default i "batch_size" true ;;
    optimizer_type <- config_default i "optimizer" true ;;
    _ <- (if eq_str optimizer_type "adam"
          then fun st => Ok (tt, set_optimizer (Some (Adam initial_learning_rate)) st)
          else if eq_str optimizer_type "sgd"
          then fun st => Ok (tt, set_optimizer (Some (SGD initial_learning_rate)) st)
          else dret tt) ;;
    train_and_evaluate i experiment_type previous_config tag
      initial_learning_rate epochs batch_size.

(** The body of the loop over [enumerate(experiment_configs)],
    lines 335-745. *)
Definition run_experiment (i : nat) : D control :=
  c <- config_at i ;;
  _ <- emit_verbose [PrintStarting i c] ;;
  experiment_type <- config_default i "type" true ;;
  if eq_str experiment_type "none" then dret Next
  else
    previous_config <- resolve_previous_config i ;;
    dispatch i experiment_type previous_config.

(** The [for] loop over the experiments; the result tells whether the
    loop ran to its end or was left by [break]. *)
Fixpoint run_from (indices : list nat) : D control :=
  match indices with
  | [] => dret Next
  | i :: rest =>
      ctl <- run_experiment i ;;
      match ctl with
      | Break => dret Break
      | Next => run_from rest
      end
  end.

Definition run_experiments : D control :=
  fun st => run_from (seq 0 (length (experiment_configs st))) st.

End Experiment.
(** *** One cross-validation fold and the aggregation over folds *)

(** [a + b] where [a] is a running total: exact on Python numbers, numpy
    otherwise. *)
Definition as_int (v : value) : option Z :=
  match v with
  | VInt z => Some z
  | VBool b => Some (if b then 1 else 0)
  | _ => None
  end.

Definition py_add (a b : value) : result value :=
  match as_int a, as_int b with
  | Some x, Some y => Ok (VInt (x + y))
  | _, _ =>
      match as_number a, as_number b with
      | Some x, Some y => Ok (VFloat (x + y))
      | _, _ => np_add a b
      end
  end.

(** [a / n] for [n = len(users)]. *)
Definition py_div (a : value) (n : nat) : result value :=
  match as_number a with
  | Some x =>
      if Nat.eqb n 0 then Raise ZeroDivisionError
      else Ok (VFloat (x / inject_Z (Z.of_nat n)))
  | None => np_div a (Z.of_nat n)
  end.

(** The accumulators that lines 270-279 create for one labelled-data
    percentage, and [path], which only the per-fold summary assigns. *)
Record report : Type := {
  performance_labelled_dataset : gmap string (gmap string value);
  performance_unlabelled_dataset : gmap string (gmap string value);
  performance_unlabelled_dataset_dictionary : gmap nat (list value);
  var_path : option string }.

(** Keys of the dictionaries of lines 270-273, in the order of the
    literal. *)
Definition performance_keys : list string :=
  ["Confusion Matrix"; "F1 Macro"; "F1 Micro"; "F1 Weighted"; "Precision"; "Recall";
   "Kappa"].

Definition zero_performance : gmap string value :=
  list_to_map (map (fun k => (k, VInt 0)) performance_keys).

Definition initial_performance : gmap string (gmap string value) :=
  <["Experiment 2" := zero_performance]> (<["Experiment 3" := zero_performance]> ∅).

(** [f"Experiment {i}"] at the two indices the code uses it for. *)
Definition experiment_key (i : nat) : string :=
  if Nat.eqb i 2 then "Experiment 2" else "Experiment 3".

(** [perf[key][k]] *)
Definition perf_item (perf : gmap string (gmap string value)) (key k : string)
  : result value :=
  match perf !! key with
  | None => Raise (KeyError key)
  | Some inner =>
      match inner !! k with
      | None => Raise (KeyError k)
      | Some v => Ok v
      end
  end.

(** [perf[key][k] = v] *)
Definition perf_set (perf : gmap string (gmap string value)) (key k : string) (v : value)
  : result (gmap string (gmap string value)) :=
  match perf !! key with
  | None => Raise (KeyError key)
  | Some inner => Ok (<[key := <[k := v]> inner]> perf)
  end.

Definition list_item (l : list value) (i : nat) : result value :=
  match l !! i with
  | Some v => Ok v
  | None => Raise IndexError
  end.

(** Lines 762-766 for one key [k]. *)
Definition accumulate_key (i : nat) (config : gmap string value) (ev : list value)
    (r : report) (k : string) : result report :=
  if String.eqb k "Confusion Matrix" then Ok r
  else
    rbind (perf_item (performance_labelled_dataset r) (experiment_key i) k) (fun old_l =>
    rbind (match config !! "eval_results" with
           | Some e => dict_item e k
           | None => Raise (KeyError "eval_results")
           end) (fun x =>
    rbind (py_add old_l x) (fun new_l =>
    rbind (perf_set (performance_labelled_dataset r) (experiment_key i) k new_l) (fun pl =>
    rbind (perf_item (performance_unlabelled_dataset r) (experiment_key i) k) (fun old_u =>
    rbind (rbind (list_item ev i) (fun e => dict_item e k)) (fun y =>
    rbind (py_add old_u y) (fun new_u =>
    rbind (perf_set (performance_unlabelled_dataset r) (experiment_key i) k new_u) (fun pu =>
    Ok {| performance_labelled_dataset := pl;
          performance_unlabelled_dataset := pu;
          performance_unlabelled_dataset_dictionary :=
            performance_unlabelled_dataset_dictionary r;
          var_path := var_path r |})))))))).

Fixpoint accumulate_keys (i : nat) (config : gmap string value) (ev : list value)
    (r : report) (keys : list string) : result report :=
  match keys with
  | [] => Ok r
  | k :: rest => rbind (accumulate_key i config ev r k) (fun r' =>
                 accumulate_keys i config ev r' rest)
  end.

(** Lines 754-766: the loop over [enumerate(experiment_configs)] of the
    summary. *)
Fixpoint accumulate_configs (j : nat) (i : nat) (configs : list (gmap string value))
    (ev : list value) (r : report) : result report :=
  match configs with
  | [] => Ok r
  | config :: rest =>
      let r1 := {| performance_labelled_dataset := performance_labelled_dataset r;
                   performance_unlabelled_dataset := performance_unlabelled_dataset r;
                   performance_unlabelled_dataset_dictionary :=
                     <[j := ev]> (performance_unlabelled_dataset_dictionary r);
                   var_path := var_path r |} in
      rbind (if Nat.eqb i 2 || Nat.eqb i 3
             then accumulate_keys i config ev r1 performance_keys
             else Ok r1) (fun r2 =>
      accumulate_configs j (Datatypes.S i) rest ev r2)
  end.

(** Lines 749-774: everything here sits under [if verbose > 0]. *)
Definition fold_summary (verbose : Z) (report_path : string) (j : nat) (st : state)
    (r : report) : result report :=
  if 0 <? verbose then
    rbind (accumulate_configs j 0 (experiment_configs st) (ev st) r) (fun r' =>
    Ok {| performance_labelled_dataset := performance_labelled_dataset r';
          performance_unlabelled_dataset := performance_unlabelled_dataset r';
          performance_unlabelled_dataset_dictionary :=
            performance_unlabelled_dataset_dictionary r';
          var_path := Some report_path |})
  else Ok r.

(** [get_fixed_split_users], lines 310-313, for fold [j]. *)
Definition get_fixed_split_users (j : nat) (har_users : list string)
  : result (list string * users_arg) :=
  match har_users !! j with
  | None => Raise IndexError
  | Some test_users =>
      Ok (filter (fun u => str_in u test_users = false) har_users, OneUser test_users)
  end.

(** Lines 281-782: one iteration of the loop over the users. *)
Definition run_fold (a : arguments) (pct : Q) (cf : config_file) (report_path : string)
    (j : nat) (sr : state * report) : result (state * report) :=
  let st := sr.1 in
  let time := strftime_now (clock st) in
  let st := set_clock (Datatypes.S (clock st)) st in
  rbind (prepare_dataset (a_labelled_dataset_path a) (a_window_size a)
           (get_fixed_split_users j) (1 - pct) (a_verbose a) None) (fun b =>
  let st := set_out (out st ++ b.2) st in
  let st := set_prepared (<["labelled" := PBundle b.1]> ∅) st in
  let st := set_configs (cf_experiment_configs cf) st in
  let env := {| args := a; percentage := pct; tune_on_unlabelled_data := true;
                labelled_repeat := 1; current_time_string := time;
                file_tag := cf_tag cf;
                input_shape := b_input_shape b.1;
                output_shape := b_output_shape b.1 |} in
  rbind (run_experiments env st) (fun r =>
  rbind (fold_summary (a_verbose a) report_path j r.2 sr.2) (fun rep =>
  Ok (r.2, rep)))).

Fixpoint run_folds (a : arguments) (pct : Q) (cf : config_file) (report_path : string)
    (js : list nat) (sr : state * report) : result (state * report) :=
  match js with
  | [] => Ok sr
  | j :: rest => rbind (run_fold a pct cf report_path j sr)
                       (run_folds a pct cf report_path rest)
  end.

(** Lines 784-791 for one key [k]. *)
Definition normalise_key (n : nat) (r : report) (k : string) : result report :=
  if String.eqb k "Confusion Matrix" then Ok r
  else
    let divide perf key :=
      rbind (perf_item perf key k) (fun v =>
      rbind (py_div v n) (fun v' => perf_set perf key k v')) in
    rbind (divide (performance_labelled_dataset r) "Experiment 2") (fun pl =>
    rbind (divide pl "Experiment 3") (fun pl' =>
    rbind (divide (performance_unlabelled_dataset r) "Experiment 2") (fun pu =>
    rbind (divide pu "Experiment 3") (fun pu' =>
    Ok {| performance_labelled_dataset := pl';
          performance_unlabelled_dataset := pu';
          performance_unlabelled_dataset_dictionary :=
            performance_unlabelled_dataset_dictionary r;
          var_path := var_path r |})))).

Fixpoint normalise_keys (n : nat) (r : report) (keys : list string) : result report :=
  match keys with
  | [] => Ok r
  | k :: rest => rbind (normalise_key n r k) (fun r' => normalise_keys n r' rest)
  end.

Definition pooled (l : list (list Z)) (i : nat) : result (list Z) :=
  match l !! i with
  | Some x => Ok x
  | None => Raise IndexError
  end.

(** Lines 784-797. *)
Definition finalise (n : nat) (st : state) (r : report) : result report :=
  rbind (normalise_keys n r performance_keys) (fun r1 =>
  rbind (rbind (list_item (conv st) 2) (fun c => py_div c n)) (fun c2 =>
  rbind (perf_set (performance_unlabelled_dataset r1) "Experiment 2"
           "Confusion Matrix" c2) (fun pu =>
  rbind (rbind (list_item (conv st) 3) (fun c => py_div c n)) (fun c3 =>
  rbind (perf_set pu "Experiment 3" "Confusion Matrix" c3) (fun pu' =>
  rbind (pooled (y_true st) 0) (fun t0 =>
  rbind (pooled (y_pred st) 0) (fun p0 =>
  rbind (confusion_matrix t0 p0) (fun cm2 =>
  rbind (perf_set (performance_labelled_dataset r1) "Experiment 2"
           "Confusion Matrix" cm2) (fun pl =>
  rbind (pooled (y_true st) 1) (fun t1 =>
  rbind (pooled (y_pred st) 1) (fun p1 =>
  rbind (confusion_matrix t1 p1) (fun cm3 =>
  rbind (perf_set pl "Experiment 3" "Confusion Matrix" cm3) (fun pl' =>
  Ok {| performance_labelled_dataset := pl';
        performance_unlabelled_dataset := pu';
        performance_unlabelled_dataset_dictionary :=
          performance_unlabelled_dataset_dictionary r1;
        var_path := var_path r1 |}))))))))))))).

(** Lines 275-278: [ev], [conv], [y_true] and [y_pred] as they are
    before the loop over the users. *)
Definition initial_pools (st : state) : state :=
  set_pooled (replicate 4 VNone) (replicate 4 (VInt 0)) [[]; []] [[]; []] st.

(** Lines 270-273 and 279. *)
Definition initial_report (path : option string) : report :=
  {| performance_labelled_dataset := initial_performance;
     performance_unlabelled_dataset := initial_performance;
     performance_unlabelled_dataset_dictionary := ∅;
     var_path := path |}.

(** Lines 265-805 for one labelled-data percentage.  [st] and [path]
    carry what earlier iterations of the outer loops left behind.  The
    result files are opened under [path], which is bound only by a fold
    summary. *)
Definition run_percentage (a : arguments) (pct : Q) (cf : config_file)
    (report_path : string) (st : state) (path : option string)
  : result (state * report) :=
  let users := raw_users (pickle_load (a_labelled_dataset_path a)).1 in
  let st0 := initial_pools st in
  let r0 := initial_report path in
  rbind (run_folds a pct cf report_path (seq 0 (length users)) (st0, r0)) (fun sr =>
  rbind (finalise (length users) sr.1 sr.2) (fun rep =>
  match var_path rep with
  | None => Raise (NameError "path")
  | Some _ => Ok (sr.1, rep)
  end)).

Definition initial_state : state :=
  {| experiment_configs := []; prepared_datasets := ∅; store := [];
     var_optimizer := None; var_model := None; ev := []; conv := [];
     y_true := []; y_pred := []; clock := 0; out := [] |}.

End Pipeline.

Notation "x <- c ;; k" := (dbind c (fun x => k))
  (at level 100, c at next level, right associativity) : run_scope.

End Run.

(** ** A small instance of the collaborators

    Windows are numbers, a pickled dataset is its list of users, a saved
    model is rebuilt from scratch when it is loaded and every evaluation
    reports the same scores. *)

Module Toy.
Import Keras Run.
Local Open Scope keras_scope.

Definition scores : value :=
  VDict [("Confusion Matrix", VList [VList [VInt 1]]); ("F1 Macro", VFloat (1 # 2));
         ("F1 Micro", VFloat (1 # 2)); ("F1 Weighted", VFloat (1 # 2));
         ("Precision", VFloat (1 # 2)); ("Recall", VFloat (1 # 2));
         ("Kappa", VFloat (1 # 4))].

Definition toy_load_model (path : value) : K nat :=
  core <- create_1d_conv_core_model [52; 3] "base_model" ;;
  attach_full_har_classification_head core 2 (Adam (VFloat (1 # 1000))) 1024 "HAR".

#[export] Instance services : Services := {|
  window := nat;
  raw := list string;
  task_labels := unit;
  strftime_now := fun n => "t";
  format_value := fun v => match v with VStr s => s | _ => "?" end;
  pickle_load := fun path => (["u1"; "u2"], ["sit"; "walk"]);
  raw_users := fun r => r;
  np_sort := fun l => l;
  shape_tail := fun _ => [52; 3];
  np_argmax_rows := fun l => map (fun _ => 0) l;
  np_add := fun a b => Ok b;
  np_div := fun a n => Ok a;
  confusion_matrix := fun t p =>
    match t with
    | [] => Raise ValueError
    | _ => Ok (VList [VList [VInt (Z.of_nat (length t))]])
    end;
  load_model := toy_load_model;
  predict := fun m h x b => map (fun _ => [1%Q; 0%Q]) x;
  evaluate_model_simple := fun p y => scores;
  create_individual_transform_dataset := fun x o => (x, tt, default [] o);
  map_multitask_y := fun t names => ∅;
  multitask_train_test_split := fun d => (d.1, d.2, [], d.2);
  pick_top_samples_per_class_np := fun x p n m pl => (x, p);
  train_test_split := fun x y => (x, [], y, [])
|}.

#[export] Instance trainer : Trainer := {|
  pre_process_dataset_composite := fun a =>
    (([1%nat; 2%nat], [[1%Q; 0%Q]; [0%Q; 1%Q]]), ([3%nat], [[1%Q; 0%Q]]),
     ([4%nat], [[0%Q; 1%Q]]));
  composite_train_model := fun req h => (tag req, tag req)
|}.

Definition toy_args (verbose : Z) : arguments :=
  {| a_working_directory := "run";
     a_labelled_dataset_path := "labelled.pkl";
     a_unlabelled_dataset_path := "unlabelled.pkl";
     a_window_size := 52;
     a_max_unlabelled_windows := Some 3;
     a_use_tensor_board_logging := true;
     a_verbose := verbose |}.

Definition config (l : list (string * value)) : gmap string value := list_to_map l.

(** The labelled data of the fold that holds out the first user, half of
    it used for training. *)
Definition toy_bundle : bundle :=
  match prepare_dataset "labelled.pkl" 52 (get_fixed_split_users 0) (1 # 2) 0 None with
  | Ok (b, _) => b
  | Raise _ => {| b_train := ([], []); b_val := ([], []); b_test := ([], []);
                  b_label_map := ∅; b_input_shape := []; b_output_shape := 0 |}
  end.

Definition toy_env (verbose : Z) : fold_env :=
  {| args := toy_args verbose; percentage := 1 # 2; tune_on_unlabelled_data := true;
     labelled_repeat := 1; current_time_string := "t"; file_tag := VStr "f";
     input_shape := b_input_shape toy_bundle;
     output_shape := b_output_shape toy_bundle |}.

(** The state in which the experiments of that fold start. *)
Definition toy_state (configs : list (gmap string value)) : state :=
  initial_pools
    (set_configs configs
       (set_prepared (<["labelled" := PBundle toy_bundle]> ∅) initial_state)).

End Toy.


(** * Vocabulary of the statements *)

(** ** Stores, heads and flags *)

Module KerasSpec.
Import Keras.
Local Open Scope string_scope.
Local Open Scope Z_scope.
Local Open Scope list_scope.
Local Open Scope nat_scope.
Local Open Scope keras_scope.

Definition new_layer (cls : layer_class) (name : option string) : layer :=
  {| l_name := name; l_class := cls; trainable := true |}.

Fixpoint task_layers (tasks : list string) : list layer :=
  match tasks with
  | [] => []
  | task :: rest =>
      new_layer (Dense 256 (Some "relu")) None
      :: new_layer (Dense 1 (Some "sigmoid")) (Some task) :: task_layers rest
  end.

Fixpoint task_outputs (base : nat) (x : tensor) (tasks : list string) : list tensor :=
  match tasks with
  | [] => []
  | _ :: rest => TCall (S base) (TCall base x) :: task_outputs (S (S base)) x rest
  end.

Definition compiled_model (inputs outputs : list tensor) (name : string)
    (args : compile_args) : layer :=
  {| l_name := Some name;
     l_class := Functional {| m_inputs := inputs; m_outputs := outputs;
                              m_layers := graph_layers inputs outputs;
                              m_compiled := Some args |};
     trainable := true |}.

(** What the three head constructors leave in the store: the layers of
    the head after the old store, then the compiled model. *)
Definition full_head (shape : list Z) (num_units output_shape : Z) : list layer :=
  [new_layer (InputLayer shape) (Some "input");
   new_layer (Dense num_units (Some "relu")) None;
   new_layer (Dense output_shape None) None;
   new_layer Softmax None].

Definition linear_head (shape : list Z) (output_shape : Z) : list layer :=
  [new_layer (InputLayer shape) (Some "input");
   new_layer (Dense output_shape None) None;
   new_layer Softmax None].

Definition har_head_layers (with_har_head : bool) (num_units_har n : Z) : list layer :=
  if with_har_head
  then [new_layer (Dense num_units_har (Some "relu")) None;
        new_layer (Dense n None) None;
        new_layer Softmax (Some "har")]
  else [].

Definition har_head_outputs (with_har_head : bool) (base : nat) (x : tensor) : list tensor :=
  if with_har_head then [TCall (base + 2) (TCall (base + 1) (TCall base x))] else [].

Definition har_head_losses (with_har_head : bool) : list loss :=
  if with_har_head then [CategoricalCrossentropy] else [].

Definition multitask_head (shape : list Z) (tasks : list string) (with_har_head : bool)
    (num_units_har n : Z) : list layer :=
  [new_layer (InputLayer shape) (Some "input")] ++ task_layers tasks
  ++ har_head_layers with_har_head num_units_har n.

Definition multitask_outputs (inp core : nat) (tasks : list string) (with_har_head : bool)
  : list tensor :=
  task_outputs (inp + 1) (TCall core (TInput inp)) tasks
  ++ har_head_outputs with_har_head (inp + 1 + 2 * length tasks) (TCall core (TInput inp)).

Definition with_trainable (b : bool) (l : layer) : layer :=
  {| l_name := l_name l; l_class := l_class l; trainable := b |}.

(** The flag of the layer stored at [id]. *)
Definition flag (h : list layer) (id : nat) : option bool := trainable <$> h !! id.

Definition class_of (h : list layer) (id : nat) : option layer_class := l_class <$> h !! id.

(** The object at [id] is not a model: it has no layers of its own. *)
Definition plain (h : list layer) (id : nat) : Prop :=
  forall m, class_of h id <> Some (Functional m).

(** Assignment of the flag to the one object at [id]. *)
Definition set_flag (b : bool) (h : list layer) (id : nat) : list layer :=
  alter (with_trainable b) id h.

Definition allocated (n : nat) (t : tensor) : Prop := Forall (fun x => x < n) (chain t).

Definition wf_model (n : nat) (m : model) : Prop :=
  NoDup (m_layers m)
  /\ Forall (fun x => x < n) (m_layers m)
  /\ Forall (allocated n) (m_inputs m)
  /\ Forall (allocated n) (m_outputs m).

(** The objects a model refers to: its layers and what the paths of its
    inputs and outputs go through. *)
Definition mentions (m : model) (x : nat) : Prop :=
  x ∈ m_layers m \/ x ∈ m_inputs m ≫= chain \/ x ∈ m_outputs m ≫= chain.

(** A model nested in [m] has no model among its own layers: models are
    at most two levels deep, a complete model around a feature
    extractor. *)
Definition shallow (h : list layer) (m : model) : Prop :=
  forall x mx, mentions m x -> class_of h x = Some (Functional mx) ->
    Forall (plain h) (m_layers mx).

(** The layers of the model at [model] are plain. *)
Definition flat (h : list layer) (model : nat) : Prop :=
  forall m, class_of h model = Some (Functional m) -> Forall (plain h) (m_layers m).

(** Every model in the store lists each of its layers once, all the
    layers it mentions are objects of the store, and the models nested in
    it are made of plain layers. *)
Definition wf_store (h : list layer) : Prop :=
  forall id l m, h !! id = Some l -> l_class l = Functional m ->
    wf_model (length h) m /\ shallow h m.

Definition core_layers (shape : list Z) : list layer :=
  [new_layer (InputLayer shape) (Some "input");
   new_layer (Conv1D 32 24 "relu") None;
   new_layer (Dropout (1 # 10)) None;
   new_layer (Conv1D 64 16 "relu") None;
   new_layer (Dropout (1 # 10)) None;
   new_layer (Conv1D 96 8 "relu") None;
   new_layer (Dropout (1 # 10)) None;
   new_layer GlobalMaxPool1D (Some "global_max_pooling1d")].

Fixpoint stack (base : nat) (n : nat) : tensor :=
  match n with
  | O => TInput base
  | Datatypes.S k => TCall (base + Datatypes.S k) (stack base k)
  end.

Definition plain_model (inputs outputs : list tensor) (name : string) : layer :=
  {| l_name := Some name;
     l_class := Functional {| m_inputs := inputs; m_outputs := outputs;
                              m_layers := graph_layers inputs outputs;
                              m_compiled := None |};
     trainable := true |}.

(** The windows [create_1d_conv_core_model] accepts: two dimensions, at
    least one channel, and enough time steps for the three convolutions,
    whose kernels of 24, 16 and 8 take 45 steps away. *)
Definition valid_window (shape : list Z) : bool :=
  match shape with
  | [steps; channels] => (46 <=? steps)%Z && (1 <=? channels)%Z
  | _ => false
  end.

(** The layers of [model] carry the flags [expected] gives by position. *)
Definition layer_flags (expected : nat -> bool) (model : nat) (h : list layer) : Prop :=
  exists m, get_model model h = Ok (m, h)
    /\ forall i id, m_layers m !! i = Some id -> flag h id = Some (expected i).

(** The feature extractor of the model [full], its layer at index 1,
    carries the flags [expected]. *)
Definition frozen_as (expected : nat -> bool) (full : nat) (h : list layer) : Prop :=
  exists core, extract_core_model full h = Ok (core, h) /\ layer_flags expected core h.

Definition boundary_flags (boundary : option nat) (i : nat) : bool :=
  match boundary with
  | None => false
  | Some k => bool_decide (k <= i)
  end.

(** Where the slices [l[:k]] and [l[k:]] of a list of length [n] meet. *)
Definition slice_boundary (n : nat) (k : Z) : nat :=
  if (0 <=? k)%Z then Z.to_nat k else Z.to_nat (Z.of_nat n + k).

(** The classes of the layers of the base model, input first. *)
Definition core_classes (shape : list Z) : list layer_class :=
  [InputLayer shape; Conv1D 32 24 "relu"; Dropout (1 # 10); Conv1D 64 16 "relu";
   Dropout (1 # 10); Conv1D 96 8 "relu"; Dropout (1 # 10); GlobalMaxPool1D].

(** A model [top] over the layers [a] and [b] and a model [sub] that
    calls the layer [a] again: the objects are, in the order they are
    built, the input of [top], [a], [b], the input of [sub], [sub] and
    [top]. *)
Definition shared_layer_model : K nat :=
  inputs <- Input [4%Z] "input" ;;
  xa <- apply_new (Dense 4 (Some "relu")) (Some "a") inputs ;;
  xb <- apply_new (Dense 4 (Some "relu")) (Some "b") xa ;;
  inner <- Input [4%Z] "inner" ;;
  sub <- Model [inner] [TCall 1 inner] "sub" ;;
  Model [inputs] [TCall sub xb] "top".

End KerasSpec.

(** ** Runs of the dispatcher *)

Module RunSpec.
Import Keras Run KerasSpec.
Local Open Scope string_scope.
Local Open Scope Z_scope.
Local Open Scope list_scope.
Local Open Scope run_scope.

Section Vocabulary.
Context {S : Services} {T : Trainer}.

(** A computation preserves [R] when every normal run relates the state
    before to the state after. *)
Definition preserves {A} (R : state -> state -> Prop) (c : D A) : Prop :=
  forall st a st', c st = Ok (a, st') -> R st st'.

(** The output grows by events that satisfy [P]. *)
Definition out_ext (P : event -> Prop) (st st' : state) : Prop :=
  exists es, out st' = out st ++ es /\ Forall P es.

Definition is_print (e : event) : Prop :=
  match e with
  | Train _ _ => False
  | _ => True
  end.

(** Properties of events that every plain event has. *)
Class PrintOk (P : event -> Prop) : Prop :=
  print_ok : forall e, is_print e -> P e.

(** Every training call hands [f] to the trainer as its only callback. *)
Definition uses_schedule (f : Z -> result value) (e : event) : Prop :=
  match e with
  | Train req _ => callbacks req = [LearningRateScheduler f]
  | _ => True
  end.

Definition any_event (e : event) : Prop := True.

Definition is_train (e : event) : Prop :=
  match e with
  | Train _ _ => True
  | _ => False
  end.

(** Every normal run of the computation calls the trainer. *)
Definition trains {A} (c : D A) : Prop :=
  forall st a st', c st = Ok (a, st') ->
    exists es, out st' = out st ++ es /\ Exists is_train es.

(** The value [get_config_default_value_if_none] settles on. *)
Definition resolved (now : string) (c : gmap string value) (entry : string) : option value :=
  match c !! entry with
  | Some v => Some v
  | None => default_value now entry
  end.

(** The config after the call. *)
Definition memoized (c : gmap string value) (entry : string) (v : value) (set_value : bool)
  : gmap string value :=
  match c !! entry with
  | Some _ => c
  | None => if set_value then <[entry := v]> c else c
  end.

Definition memo_notice (c : gmap string value) (entry : string) (v : value)
    (set_value : bool) : list event :=
  match c !! entry with
  | Some _ => []
  | None => if set_value then [PrintInfoDefault entry v] else []
  end.

(** What a step that only resolves config fields leaves alone: the
    datasets, the Keras store and the pooled results stay, the output
    grows by plain lines, and every config keeps its place and all its
    fields outside [K]. *)
Record frame (K : list string) (st st' : state) : Prop := {
  fr_prepared : prepared_datasets st' = prepared_datasets st;
  fr_store : store st' = store st;
  fr_ev : ev st' = ev st;
  fr_conv : conv st' = conv st;
  fr_y_true : y_true st' = y_true st;
  fr_y_pred : y_pred st' = y_pred st;
  fr_out : out_ext is_print st st';
  fr_length : length (experiment_configs st') = length (experiment_configs st);
  fr_configs : forall j c, experiment_configs st !! j = Some c ->
    exists c', experiment_configs st' !! j = Some c' /\ forall k, k ∉ K -> c' !! k = c !! k }.

(** The state in which the type of experiment [i] is looked up: with
    [verbose > 0] the start of the experiment has been announced. *)
Definition started (env : fold_env) (i : nat) (c : gmap string value) (st : state) : state :=
  if 0 <? verbose env then set_out (out st ++ [PrintStarting i c]) st else st.

(** The offset an experiment resolves to. *)
Definition offset_of (c : gmap string value) : value :=
  default (VInt 0) (c !! "previous_config_offset").

(** [experiment_configs[i - offset]] as a position. *)
Definition previous_position (n i : nat) (offset : value) : result nat :=
  rbind (int_sub (Z.of_nat i) offset) (subscript_pos n).

(** The previous config is absent or holds no trained model. *)
Definition untrained (configs : list (gmap string value)) (previous_config : option nat)
  : Prop :=
  match previous_config with
  | None => True
  | Some p => exists cp, configs !! p = Some cp
                /\ eq_str (default (VStr "") (cp !! "trained_model_path")) "" = true
  end.

(** What lines 350-353 compute from the config list, as a function. *)
Definition previous_of (configs : list (gmap string value)) (i : nat)
    (c : gmap string value) : result (option nat) :=
  if eq_int (offset_of c) 0 then Ok None
  else rbind (previous_position (length configs) i (offset_of c)) (fun p => Ok (Some p)).

Definition make_tag (env : fold_env) (tag_value : value) : string :=
  (current_time_string env +:+ "_" +:+ format_value (file_tag env)
   +:+ "_" +:+ format_value tag_value)%string.

(** Fields the loop body may fill in before it reaches a branch. *)
Definition prefix_fields : list string :=
  ["previous_config_offset"; "tag"; "initial_learning_rate"; "epochs"; "batch_size";
   "optimizer"].

(** The state in which the training blocks start. *)
Definition with_optimizer (optimizer_type initial_learning_rate : value) (st : state)
  : state :=
  if eq_str optimizer_type "adam" then set_optimizer (Some (Adam initial_learning_rate)) st
  else if eq_str optimizer_type "sgd" then set_optimizer (Some (SGD initial_learning_rate)) st
  else st.

Definition field_or (c : gmap string value) (entry : string) (d : value) : value :=
  default d (c !! entry).

Definition step_decayed (lr : value) (f : Z -> result value) : Prop :=
  forall q, as_number lr = Some q ->
  forall epoch, exists r r',
    f epoch = Ok (VFloat r)
    /\ (r == q * Qpower (1 # 2) (epoch / 15))%Q
    /\ f (epoch + 15) = Ok (VFloat r')
    /\ (r' == r * (1 # 2))%Q.

Definition constant_rate (lr : value) (f : Z -> result value) : Prop :=
  forall epoch, f epoch = Ok lr.

(** Every training call among the events hands the trainer one schedule
    and that schedule satisfies [Q]. *)
Definition scheduled (Q : (Z -> result value) -> Prop) (es : list event) : Prop :=
  Exists is_train es
  /\ Forall (fun e => forall req h, e = Train req h ->
               exists f, callbacks req = [LearningRateScheduler f] /\ Q f) es.

Definition har_training_type (t : string) : Prop :=
  t = "har_full_train" \/ t = "har_full_fine_tune" \/ t = "har_linear_train".

(** Some experiment carries an offset that points forward or before the
    start of the list. *)
Definition has_invalid_offset (configs : list (gmap string value)) : Prop :=
  exists i c off,
    configs !! i = Some c
    /\ c !! "previous_config_offset" = Some (VInt off)
    /\ (off < 0 \/ Z.of_nat i < off).

(** What a validation pass ahead of the experiments would guarantee: a
    config list with an invalid offset never gets as far as training. *)
Definition rejected_before_training (env : fold_env) (st : state) : Prop :=
  has_invalid_offset (experiment_configs st) ->
  forall ctl st', run_experiments env st = Ok (ctl, st') -> Forall is_print (out st').

(** How often the pickled dataset at [path] has been read. *)
Definition reads (path : string) (e : event) : bool :=
  match e with
  | ReadPickle p => String.eqb p path
  | _ => false
  end.

Definition pickle_reads (path : string) (es : list event) : nat :=
  length (filter (fun e => reads path e = true) es).

(** The exception a computation ends with, if any. *)
Definition outcome {A} (r : result A) : option exn :=
  match r with
  | Ok _ => None
  | Raise e => Some e
  end.

(** [perf[key][k]], when both keys are present. *)
Definition metric (perf : gmap string (gmap string value)) (key k : string)
  : option value :=
  match perf !! key with
  | Some inner => inner !! k
  | None => None
  end.

(** The scalar entries of a performance dictionary. *)
Definition scalar_keys : list string :=
  ["F1 Macro"; "F1 Micro"; "F1 Weighted"; "Precision"; "Recall"; "Kappa"].

(** [config['eval_results'][k]] *)
Definition config_metric (config : gmap string value) (k : string) : result value :=
  match config !! "eval_results" with
  | Some e => dict_item e k
  | None => Raise (KeyError "eval_results")
  end.

(** [ev[i][k]] *)
Definition ev_metric (ev : list value) (i : nat) (k : string) : result value :=
  rbind (list_item ev i) (fun e => dict_item e k).

(** What experiment [i] of a fold contributes to the labelled and to the
    unlabelled total of [k], read off the state the fold ends in. *)
Definition labelled_metric (i : nat) (k : string) (st : state) : result value :=
  match experiment_configs st !! i with
  | Some config => config_metric config k
  | None => Raise IndexError
  end.

Definition unlabelled_metric (i : nat) (k : string) (st : state) : result value :=
  ev_metric (ev st) i k.

(** [sum(vs, acc)] *)
Fixpoint py_sum (acc : value) (vs : list value) : result value :=
  match vs with
  | [] => Ok acc
  | v :: rest => rbind (py_add acc v) (fun acc' => py_sum acc' rest)
  end.

(** One step of the accumulation: the entry [(key, k)] of both
    dictionaries grows by the fold's values, every other entry stays. *)
Record accumulated (key k : string) (x y : value) (r r' : report) : Prop := {
  acc_labelled : exists old new,
    metric (performance_labelled_dataset r) key k = Some old
    /\ py_add old x = Ok new
    /\ forall key' k',
         metric (performance_labelled_dataset r') key' k'
         = if decide (key' = key /\ k' = k) then Some new
           else metric (performance_labelled_dataset r) key' k';
  acc_unlabelled : exists old new,
    metric (performance_unlabelled_dataset r) key k = Some old
    /\ py_add old y = Ok new
    /\ forall key' k',
         metric (performance_unlabelled_dataset r') key' k'
         = if decide (key' = key /\ k' = k) then Some new
           else metric (performance_unlabelled_dataset r) key' k';
  acc_path : var_path r' = var_path r }.

(** The entry [(key, k)] of both dictionaries has grown by [x] and [y]. *)
Definition grown (key k : string) (x y : value) (r r' : report) : Prop :=
  exists ol nl ou nu,
    metric (performance_labelled_dataset r) key k = Some ol
    /\ py_add ol x = Ok nl
    /\ metric (performance_labelled_dataset r') key k = Some nl
    /\ metric (performance_unlabelled_dataset r) key k = Some ou
    /\ py_add ou y = Ok nu
    /\ metric (performance_unlabelled_dataset r') key k = Some nu.

Definition same_cell (key k : string) (r r' : report) : Prop :=
  metric (performance_labelled_dataset r') key k
    = metric (performance_labelled_dataset r) key k
  /\ metric (performance_unlabelled_dataset r') key k
     = metric (performance_unlabelled_dataset r) key k.

(** The config list keeps its length. *)
Definition same_length (st st' : state) : Prop :=
  length (experiment_configs st') = length (experiment_configs st).

(** Every list of the pool has been extended at its end. *)
Definition grows (l l' : list (list Z)) : Prop :=
  length l' = length l
  /\ forall idx x, l !! idx = Some x -> exists y, l' !! idx = Some (x ++ y).

Definition pools_grow (st st' : state) : Prop :=
  grows (y_true st) (y_true st') /\ grows (y_pred st) (y_pred st').

Definition pools_same (st st' : state) : Prop :=
  y_true st' = y_true st /\ y_pred st' = y_pred st.

(** The states in which the folds [js] end, as long as they complete. *)
Fixpoint fold_states (a : arguments) (pct : Q) (cf : config_file) (report_path : string)
    (js : list nat) (sr : state * report) : list state :=
  match js with
  | [] => []
  | j :: rest =>
      match run_fold a pct cf report_path j sr with
      | Ok sr1 => sr1.1 :: fold_states a pct cf report_path rest sr1
      | Raise _ => []
      end
  end.

(** The entry [(key, k)] of both dictionaries has been divided by [n]. *)
Definition divided (key k : string) (n : nat) (r r' : report) : Prop :=
  exists vl vl' vu vu',
    metric (performance_labelled_dataset r) key k = Some vl
    /\ py_div vl n = Ok vl'
    /\ metric (performance_labelled_dataset r') key k = Some vl'
    /\ metric (performance_unlabelled_dataset r) key k = Some vu
    /\ py_div vu n = Ok vu'
    /\ metric (performance_unlabelled_dataset r') key k = Some vu'.

(** The labelled bundle stays the object it was. *)
Definition labelled_same (st st' : state) : Prop :=
  prepared_datasets st' !! "labelled" = prepared_datasets st !! "labelled".

(** The field [k] of config [t], when there is one. *)
Definition config_field (t : nat) (k : string) (st : state) : option value :=
  match experiment_configs st !! t with
  | Some c => c !! k
  | None => None
  end.

(** Experiment [t] is left alone: its two pooled lists, the labelled
    bundle and the fields [K] of its config are what they were. *)
Definition quiet (t : nat) (K : list string) (st st' : state) : Prop :=
  y_true st' !! (t - 2)%nat = y_true st !! (t - 2)%nat
  /\ y_pred st' !! (t - 2)%nat = y_pred st !! (t - 2)%nat
  /\ labelled_same st st'
  /\ forall k, k ∈ K -> config_field t k st' = config_field t k st.

(** The pooled lists of experiment [t] have received the classes of the
    test split of the labelled bundle and the classes a model predicts
    for its windows. *)
Definition appended (t : nat) (st st' : state) : Prop :=
  exists l m h yt yp,
    prepared_datasets st !! "labelled" = Some (PBundle l)
    /\ y_true st !! (t - 2)%nat = Some yt
    /\ y_true st' !! (t - 2)%nat = Some (yt ++ np_argmax_rows (b_test l).2)
    /\ y_pred st !! (t - 2)%nat = Some yp
    /\ y_pred st' !! (t - 2)%nat
       = Some (yp ++ np_argmax_rows (predict m h (b_test l).1 None)).

(** On its normal runs [c] leaves experiment [t] alone or pools the
    labels of the fold for it. *)
Definition either {A} (t : nat) (K : list string) (c : D A) : Prop :=
  forall st a st', c st = Ok (a, st') -> quiet t K st st' \/ appended t st st'.

(** The pair [c] holds the classes of the test windows of fold [j], the
    windows of the user the fold holds out, and the classes a model
    predicts for these windows. *)
Definition fold_pooled (a : arguments) (pct : Q) (j : nat) (c : list Z * list Z) : Prop :=
  exists b es m h,
    prepare_dataset (a_labelled_dataset_path a) (a_window_size a)
      (get_fixed_split_users j) (1 - pct) (a_verbose a) None = Ok (b, es)
    /\ c = (np_argmax_rows (b_test b).2,
            np_argmax_rows (predict m h (b_test b).1 None)).

(** Experiment [t] of the file is evaluated by its own ['eval_har']
    flag: it is not an ['eval_har'] experiment, which evaluates without
    pooling, and the file does not come with results for it. *)
Definition evaluates_itself (cf : config_file) (t : nat) : Prop :=
  exists c0 ty,
    cf_experiment_configs cf !! t = Some c0
    /\ c0 !! "type" = Some (VStr ty) /\ ty <> "eval_har"
    /\ c0 !! "eval_results" = None.

(** What fold [j] adds to the pooled lists of experiment [t]. *)
Definition fold_chunk (a : arguments) (pct : Q) (cf : config_file) (t : nat)
    (j : nat) (c : list Z * list Z) : Prop :=
  (c = ([], []) \/ fold_pooled a pct j c)
  /\ (evaluates_itself cf t -> fold_pooled a pct j c).

(** The lines a skipped experiment prints. *)
Definition skipped_lines (env : fold_env) (i : nat) (c : gmap string value) : list event :=
  (if 0 <? verbose env then [PrintStarting i c] else [])
  ++ match c !! "type" with
     | Some _ => []
     | None => [PrintInfoDefault "type" (VStr "none")]
     end.

(** What a completed self-training experiment has printed and called. *)
Definition self_trained (ctl : control) (es : list event) : Prop :=
  match ctl with
  | Next => Exists is_train es
  | Break => Forall is_print es /\ PrintErrorNoPreviousModel ∈ es
  end.

(** Every config keeps its place and the value of each field it has,
    the fields of [K] apart. *)
Definition kept (K : list string) (st st' : state) : Prop :=
  forall j c, experiment_configs st !! j = Some c ->
    exists c', experiment_configs st' !! j = Some c'
               /\ forall k v, k ∉ K -> c !! k = Some v -> c' !! k = Some v.

(** The fields the experiments write their results to. *)
Definition result_fields : list string :=
  ["trained_model_path"; "trained_model_type"; "eval_results"].

(** The clock only moves forward. *)
Definition clock_on (st st' : state) : Prop := (clock st <= clock st')%nat.

(** A training call was made and what it returned was written down:
    the events since [st] are plain lines around one call of the
    trainer, and config [i] holds the first file name that call returned
    under ['trained_model_path'] and [ty] under ['trained_model_type']. *)
Definition recorded (i : nat) (ty : string) (st st' : state) : Prop :=
  exists es1 req h es2 c',
    out st' = out st ++ es1 ++ Train req h :: es2
    /\ Forall is_print es1 /\ Forall is_print es2
    /\ experiment_configs st' !! i = Some c'
    /\ c' !! "trained_model_path" = Some (VStr (composite_train_model req h).1)
    /\ c' !! "trained_model_type" = Some (VStr ty).

Definition records {A} (i : nat) (ty : string) (P : A -> Prop) (c : D A) : Prop :=
  forall st a st', c st = Ok (a, st') -> P a -> recorded i ty st st'.

(** The model type each training experiment records, lines 439, 519,
    603 and 607. *)
Definition recorded_type (experiment_type : string) : option string :=
  if String.eqb experiment_type "transform_train" then Some "transform_model"
  else if String.eqb experiment_type "har_full_train"
          || String.eqb experiment_type "har_full_fine_tune"
          || String.eqb experiment_type "har_linear_train" then Some "har_model"
  else if String.eqb experiment_type "self_training" then Some "har_model"
  else if String.eqb experiment_type "self_har" then Some "transform_with_har_model"
  else None.

End Vocabulary.

End RunSpec.

(** ** Freezing *)

Module FreezeSpec.
Import Keras Run KerasSpec RunSpec.
Local Open Scope string_scope.
Local Open Scope Z_scope.
Local Open Scope list_scope.
Local Open Scope nat_scope.

Section Vocabulary.
Context {S : Services} {T : Trainer}.

(** What a computation returns on its normal runs. *)
Definition returns {A} (P : A -> Prop) (c : D A) : Prop :=
  forall st a st', c st = Ok (a, st') -> P a.

(** The flags each training mode asks for, by position in the layer
    list of the feature extractor. *)
Definition mode_flags (experiment_type : string) (i : nat) : bool :=
  if String.eqb experiment_type "har_linear_train" then false
  else if String.eqb experiment_type "har_full_train" then true
  else bool_decide (5 <= i).

(** A call of the trainer is made on a model whose extractor carries the
    flags [expected]. *)
Definition frozen_event (expected : nat -> bool) (e : event) : Prop :=
  match e with
  | Train req h => frozen_as expected (full_model req) h
  | _ => True
  end.

(** [tf.keras.models.load_model] gives back a model whose layers are
    distinct objects of the store. *)
Definition load_model_wf : Prop :=
  forall path h id h', load_model path h = Ok (id, h') -> wf_store h -> wf_store h'.

Definition wf_rel (st st' : state) : Prop := wf_store (store st) -> wf_store (store st').

(** A bare feature extractor is made of plain layers. *)
Definition flat_start (start : har_start) (h : list layer) : Prop :=
  match start with
  | CoreModel core => flat h core
  | HarModel _ => True
  end.

(** On a well-formed store, [c] gives a start model with a flat
    extractor. *)
Definition starts_flat (c : D har_start) : Prop :=
  forall st a st', wf_store (store st) -> c st = Ok (a, st') -> flat_start a (store st').

End Vocabulary.

End FreezeSpec.

(** ** Experiment lists of the examples *)

Module Scenarios.
Import Keras Run KerasSpec RunSpec FreezeSpec Toy.
Local Open Scope string_scope.
Local Open Scope Z_scope.
Local Open Scope list_scope.

(** Experiment lists of the examples. *)
Definition forward_configs : list (gmap string value) :=
  [config [("type", VStr "har_full_train"); ("previous_config_offset", VInt (-1))];
   config [("type", VStr "none")]].

Definition out_of_range_configs : list (gmap string value) :=
  [config [("type", VStr "har_full_train")];
   config [("type", VStr "har_full_train"); ("previous_config_offset", VInt 5)]].

Definition reload_configs : list (gmap string value) :=
  [config [("type", VStr "transform_train")];
   config [("type", VStr "none")];
   config [("type", VStr "har_full_train"); ("eval_har", VBool true)]].

Definition stale_configs : list (gmap string value) :=
  [config [("type", VStr "none")];
   config [("type", VStr "none")];
   config [("type", VStr "har_full_train"); ("eval_har", VBool true)];
   config [("type", VStr "transform_train")]].

Definition no_training (es : list event) : bool :=
  forallb (fun e => match e with Train _ _ => false | _ => true end) es.

Definition core_store : list layer :=
  match create_1d_conv_core_model [52; 3] "base_model" [] with
  | Ok (_, h) => h
  | Raise _ => []
  end.

Definition toy_config_file : config_file :=
  {| cf_tag := VStr "f";
     cf_experiment_configs :=
       [config [("type", VStr "none")];
        config [("type", VStr "none")];
        config [("type", VStr "har_full_train"); ("eval_har", VBool true)];
        config [("type", VStr "har_linear_train"); ("eval_har", VBool true)]] |}.

(** The store after a multi-task model with a HAR head has been built on
    the fresh feature extractor. *)
Definition multitask_store : list layer :=
  match attach_multitask_transform_head 8 transform_funcs_names
          (Adam (VFloat (3 # 10000))) true (Some 2) 1024 "StudentPreTrain" core_store with
  | Ok (_, h) => h
  | Raise _ => []
  end.

(** A previous experiment that has recorded a HAR model, and a
    self-training experiment that starts from it. *)
Definition teacher_configs : list (gmap string value) :=
  [config [("type", VStr "none"); ("trained_model_path", VStr "teacher.hdf5");
           ("trained_model_type", VStr "har_model")];
   config [("type", VStr "self_training"); ("previous_config_offset", VInt 1);
           ("initial_learning_rate", VFloat (1 # 100))]].

(** A previous experiment that has recorded a bare transformation model,
    and an evaluation that points to it. *)
Definition transform_only_configs : list (gmap string value) :=
  [config [("type", VStr "none"); ("trained_model_path", VStr "transform.hdf5");
           ("trained_model_type", VStr "transform_model")];
   config [("type", VStr "eval_har"); ("previous_config_offset", VInt 1)]].

(** A labelled dataset without users. *)
Definition no_user_services : Services :=
  {| window := nat;
     raw := list string;
     task_labels := unit;
     strftime_now := fun n => "t";
     format_value := fun v => "?";
     pickle_load := fun path => ([], ["sit"; "walk"]);
     raw_users := fun r => r;
     np_sort := fun l => l;
     shape_tail := fun _ => [52; 3];
     np_argmax_rows := fun l => map (fun _ => 0) l;
     np_add := fun a b => Ok b;
     np_div := fun a n => Ok a;
     confusion_matrix := fun t p => Ok (VList []);
     load_model := toy_load_model;
     predict := fun m h x b => map (fun _ => [1%Q; 0%Q]) x;
     evaluate_model_simple := fun p y => scores;
     create_individual_transform_dataset := fun x o => (x, tt, default [] o);
     map_multitask_y := fun t names => ∅;
     multitask_train_test_split := fun d => (d.1, d.2, [], d.2);
     pick_top_samples_per_class_np := fun x p n m pl => (x, p);
     train_test_split := fun x y => (x, [], y, []) |}.

Definition no_user_trainer : @Trainer no_user_services :=
  {| pre_process_dataset_composite := fun a => (([], []), ([], []), ([], []));
     composite_train_model := fun req h => (tag req, tag req) |}.

End Scenarios.

(** * Properties *)

(** ** The config resolver *)

Module ConfigFacts.

Lemma default_value_documented now entry d :
  In (entry, d) (documented_defaults now) -> default_value now entry = Some d.
Proof.
  unfold documented_defaults. simpl.
  intros H.
  repeat (destruct H as [H | H]; [injection H as <- <-; reflexivity |]).
  destruct H.
Qed.

(** C4.  For every field of the documented default table, resolving a
    config that lacks the field returns the documented default; with
    [set_value] the default is written back, so the field is present
    afterwards, and a notice is printed; with the opt-out flag the config
    is left as it was.  A field that is present is returned as stored and
    the config is unchanged. *)
Theorem get_config_default_value_if_none_spec
    (now : string) (entry : string) (d : value) (c : gmap string value)
    (Htable : In (entry, d) (documented_defaults now)) :
  (c !! entry = None ->
     get_config_default_value_if_none now c entry true
       = Ok (d, <[entry := d]> c, [InfoDefault entry d])
     /\ (<[entry := d]> c) !! entry = Some d
     /\ get_config_default_value_if_none now c entry false = Ok (d, c, []))
  /\ (forall v set_value, c !! entry = Some v ->
        get_config_default_value_if_none now c entry set_value = Ok (v, c, [])).
Proof.
  apply default_value_documented in Htable.
  split.
  - intros Hnone. unfold get_config_default_value_if_none.
    rewrite Hnone, Htable. repeat split.
    apply lookup_insert_eq.
  - intros v set_value Hsome. unfold get_config_default_value_if_none.
    now rewrite Hsome.
Qed.

Lemma get_config_default_value_if_none_spec_witness :
  In ("epochs", VInt 30) (documented_defaults "20211231-235959")
  /\ get_config_default_value_if_none "20211231-235959" ∅ "epochs" true
      = Ok (VInt 30, <["epochs" := VInt 30]> ∅, [InfoDefault "epochs" (VInt 30)]).
Proof.
  assert (H : In ("epochs", VInt 30) (documented_defaults "20211231-235959")).
  { unfold documented_defaults. simpl. tauto. }
  split; [exact H |].
  apply (get_config_default_value_if_none_spec "20211231-235959" "epochs" (VInt 30) ∅ H).
  reflexivity.
Defined.

(** A field outside the table has no default: the lookup fails only when
    the field is resolved. *)
Lemma get_config_default_value_if_none_unknown now c entry set_value :
  c !! entry = None -> default_value now entry = None ->
  get_config_default_value_if_none now c entry set_value
    = Raise (UnboundLocalError "default_value").
Proof.
  intros H1 H2. unfold get_config_default_value_if_none. now rewrite H1, H2.
Qed.

End ConfigFacts.

(** ** The layer list of a functional model *)

Module GraphFacts.
Import Keras Run KerasSpec RunSpec FreezeSpec.
Local Open Scope string_scope.
Local Open Scope Z_scope.
Local Open Scope list_scope.
Local Open Scope nat_scope.
Local Open Scope keras_scope.

Lemma first_visits_not_seen seen l x : x ∈ first_visits seen l -> x ∉ seen.
Proof.
  revert seen. induction l as [|y l IH]; simpl; intros seen H.
  - inversion H.
  - case_bool_decide.
    + eauto.
    + apply elem_of_cons in H as [-> | H]; [done |].
      apply IH in H. set_solver.
Qed.

Lemma first_visits_NoDup seen l : NoDup (first_visits seen l).
Proof.
  revert seen. induction l as [|y l IH]; simpl; intros seen.
  - constructor.
  - case_bool_decide; [apply IH |].
    constructor; [| apply IH].
    intros Hin. apply first_visits_not_seen in Hin. set_solver.
Qed.

Lemma first_visits_elem seen l x : x ∈ l -> x ∉ seen -> x ∈ first_visits seen l.
Proof.
  revert seen. induction l as [|y l IH]; simpl; intros seen H Hs.
  - inversion H.
  - apply elem_of_cons in H as [-> | H].
    + rewrite bool_decide_eq_false_2 by done. set_solver.
    + case_bool_decide; [by apply IH |].
      destruct (decide (x = y)) as [-> | Hne]; [set_solver |].
      apply elem_of_cons. right. apply IH; [done | set_solver].
Qed.

Lemma first_visits_subset seen l x : x ∈ first_visits seen l -> x ∈ l.
Proof.
  revert seen. induction l as [|y l IH]; simpl; intros seen H.
  - inversion H.
  - case_bool_decide.
    + apply elem_of_cons. right. eauto.
    + apply elem_of_cons in H as [-> | H]; [set_solver |].
      apply elem_of_cons. right. eauto.
Qed.

Lemma traversal_NoDup outputs : NoDup (traversal outputs).
Proof. apply first_visits_NoDup. Qed.

Lemma traversal_elem outputs o x :
  o ∈ outputs -> x ∈ chain o -> x ∈ traversal outputs.
Proof.
  intros Ho Hx. apply first_visits_elem; [| set_solver].
  apply list_elem_of_bind. eauto.
Qed.

Lemma traversal_chain outputs x :
  x ∈ traversal outputs -> exists o, o ∈ outputs /\ x ∈ chain o.
Proof.
  intros H. apply first_visits_subset in H.
  apply list_elem_of_bind in H as (o & Hx & Ho). eauto.
Qed.

(** Position of the last occurrence. *)
Lemma max_pos_none l c i : l ∉ c -> max_pos l c i = None.
Proof.
  revert i. induction c as [|x c IH]; simpl; intros i H; [done |].
  rewrite IH by set_solver.
  destruct (Nat.eqb_spec x l); [set_solver | done].
Qed.

Lemma max_pos_bound l c i p : max_pos l c i = Some p -> i <= p < i + length c.
Proof.
  revert i p. induction c as [|x c IH]; simpl; intros i p H; [done |].
  destruct (max_pos l c (S i)) as [q|] eqn:E.
  - injection H as <-. apply IH in E. lia.
  - destruct (Nat.eqb x l); [injection H as <-; lia | done].
Qed.

Lemma max_pos_app_last l c y i :
  max_pos l (c ++ [y]) i =
    if Nat.eqb y l then Some (i + length c) else max_pos l c i.
Proof.
  revert i. induction c as [|x c IH]; simpl; intros i.
  - destruct (Nat.eqb y l); [f_equal; lia | done].
  - rewrite IH. destruct (Nat.eqb y l); [f_equal; lia | done].
Qed.

Lemma filter_none {A} (P : A -> Prop) {Hdec : forall x, Decision (P x)} (l : list A) :
  (forall y, y ∈ l -> ~ P y) -> filter P l = [].
Proof.
  induction l as [|y l IH]; intros H; [done |].
  rewrite filter_cons_False by (apply H; set_solver).
  apply IH. intros z Hz. apply H. set_solver.
Qed.

Lemma filter_unique {A} (P : A -> Prop) {Hdec : forall x, Decision (P x)} (l : list A) x :
  NoDup l -> x ∈ l -> P x -> (forall y, y ∈ l -> P y -> y = x) -> filter P l = [x].
Proof.
  induction 1 as [|y l Hy Hnd IH]; intros Hx HP Huniq.
  - inversion Hx.
  - destruct (decide (P y)) as [HPy | HPy].
    + assert (y = x) as -> by (apply Huniq; [set_solver | done]).
      rewrite filter_cons_True by done. f_equal.
      apply filter_none. intros z Hz HPz.
      assert (z = x) as -> by (apply Huniq; [set_solver | done]). done.
    + rewrite filter_cons_False by done. apply IH; [| done |].
      * apply elem_of_cons in Hx as [-> | Hx]; done.
      * intros z Hz. apply Huniq. set_solver.
Qed.

(** Depth of a layer through pointwise facts about the paths. *)
Lemma layer_depth_ext outputs l (f : tensor -> nat) :
  (forall o, o ∈ outputs -> default 0 (max_pos l (chain o) 0) = f o) ->
  layer_depth outputs l = foldr (fun o d => Nat.max (f o) d) 0 outputs.
Proof.
  unfold layer_depth. induction outputs as [|o os IH]; simpl; intros H; [done |].
  rewrite H by set_solver. f_equal. apply IH. intros o' Ho'. apply H. set_solver.
Qed.

Lemma layer_depth_le outputs l b :
  (forall o, o ∈ outputs -> default 0 (max_pos l (chain o) 0) <= b) ->
  layer_depth outputs l <= b.
Proof.
  unfold layer_depth. induction outputs as [|o os IH]; simpl; intros H; [lia |].
  apply Nat.max_lub; [apply H; set_solver |].
  apply IH. intros o' Ho'. apply H. set_solver.
Qed.

Lemma foldr_max_pred (f : tensor -> nat) outputs :
  foldr (fun o d => Nat.max (f o - 1) d) 0 outputs
  = foldr (fun o d => Nat.max (f o) d) 0 outputs - 1.
Proof. induction outputs as [|o os IH]; simpl; [done | rewrite IH; lia]. Qed.

Lemma foldr_max_ge (f : tensor -> nat) outputs o :
  o ∈ outputs -> f o <= foldr (fun o d => Nat.max (f o) d) 0 outputs.
Proof.
  induction outputs as [|o' os IH]; intros H; [inversion H |].
  simpl. apply elem_of_cons in H as [-> | H]; [lia |]. apply IH in H. lia.
Qed.

Lemma nonempty_elem {A} (l : list A) : l <> [] -> exists x, x ∈ l.
Proof. destruct l as [|x l]; [done |]. intros _. exists x. set_solver. Qed.

(** The layer list of a model whose output paths all end in the same
    two layers: some layer [core] called on the input [inp]. *)
Section TwoLayerStem.
Variables (inp core : nat) (outputs : list tensor).
Hypothesis Hne : core <> inp.
Hypothesis Hout : outputs <> [].
Hypothesis Hstem : forall o, o ∈ outputs ->
  exists pre, chain o = pre ++ [core; inp] /\ pre <> [] /\ (core ∉ pre) /\ (inp ∉ pre).

Lemma stem_depth_inp : layer_depth outputs inp = max_depth outputs.
Proof.
  unfold max_depth. apply layer_depth_ext. intros o Ho.
  destruct (Hstem o Ho) as (pre & -> & _).
  replace (pre ++ [core; inp]) with ((pre ++ [core]) ++ [inp]) by (by rewrite <- app_assoc).
  rewrite max_pos_app_last, Nat.eqb_refl. simpl. rewrite !length_app. simpl. lia.
Qed.

Lemma stem_depth_core : layer_depth outputs core = max_depth outputs - 1.
Proof.
  unfold max_depth. rewrite <- foldr_max_pred. apply layer_depth_ext. intros o Ho.
  destruct (Hstem o Ho) as (pre & -> & _ & Hc & _).
  replace (pre ++ [core; inp]) with ((pre ++ [core]) ++ [inp]) by (by rewrite <- app_assoc).
  rewrite max_pos_app_last.
  destruct (Nat.eqb_spec inp core) as [E | _]; [congruence |].
  rewrite max_pos_app_last, Nat.eqb_refl. simpl. rewrite !length_app. simpl. lia.
Qed.

Lemma stem_max_depth : 2 <= max_depth outputs.
Proof.
  destruct (nonempty_elem _ Hout) as [o Ho].
  destruct (Hstem o Ho) as (pre & Hc & Hp & _).
  unfold max_depth.
  etransitivity; [| apply (foldr_max_ge (fun o => length (chain o) - 1) _ o Ho)].
  simpl. rewrite Hc, length_app. simpl.
  destruct pre; [done |]. simpl. lia.
Qed.

Lemma stem_depth_other l :
  l <> core -> l <> inp -> layer_depth outputs l <= max_depth outputs - 2.
Proof.
  intros Hc Hi.
  transitivity (foldr (fun o d => Nat.max (length (chain o) - 1 - 1 - 1) d) 0 outputs).
  - unfold layer_depth.
    clear Hout. induction outputs as [|o os IH]; simpl; [lia |].
    apply Nat.max_le_compat.
    + destruct (Hstem o) as (pre & -> & _); [set_solver |].
      replace (pre ++ [core; inp]) with ((pre ++ [core]) ++ [inp])
        by (by rewrite <- app_assoc).
      rewrite !max_pos_app_last.
      destruct (Nat.eqb_spec inp l) as [E | _]; [congruence |].
      destruct (Nat.eqb_spec core l) as [E | _]; [congruence |].
      rewrite !length_app. simpl.
      destruct (max_pos l pre 0) as [p|] eqn:E; simpl; [| lia].
      apply max_pos_bound in E. lia.
    + apply IH. intros o' Ho'. apply Hstem. set_solver.
  - unfold max_depth.
    rewrite (foldr_max_pred (fun o => length (chain o) - 1 - 1)).
    rewrite (foldr_max_pred (fun o => length (chain o) - 1)). lia.
Qed.

Lemma stem_layers_at_top : layers_at outputs (max_depth outputs) = [inp].
Proof.
  pose proof stem_max_depth as HD.
  destruct (nonempty_elem _ Hout) as [o Ho].
  destruct (Hstem o Ho) as (pre & Hc & _).
  unfold layers_at. apply filter_unique.
  - apply traversal_NoDup.
  - apply (traversal_elem _ o); [done | rewrite Hc; set_solver].
  - apply stem_depth_inp.
  - intros y _ Hy.
    destruct (decide (y = inp)) as [| Hi]; [done |].
    destruct (decide (y = core)) as [-> | Hcore].
    + rewrite stem_depth_core in Hy. lia.
    + pose proof (stem_depth_other y Hcore Hi). lia.
Qed.

Lemma stem_layers_at_next : layers_at outputs (max_depth outputs - 1) = [core].
Proof.
  pose proof stem_max_depth as HD.
  destruct (nonempty_elem _ Hout) as [o Ho].
  destruct (Hstem o Ho) as (pre & Hc & _).
  unfold layers_at. apply filter_unique.
  - apply traversal_NoDup.
  - apply (traversal_elem _ o); [done | rewrite Hc; set_solver].
  - apply stem_depth_core.
  - intros y _ Hy.
    destruct (decide (y = core)) as [| Hcore]; [done |].
    destruct (decide (y = inp)) as [-> | Hi].
    + rewrite stem_depth_inp in Hy. lia.
    + pose proof (stem_depth_other y Hcore Hi). lia.
Qed.

Lemma stem_graph_layers inputs :
  exists rest, graph_layers inputs outputs = inp :: core :: rest.
Proof.
  pose proof stem_max_depth as HD.
  unfold graph_layers.
  destruct (max_depth outputs) as [|[|d]] eqn:E; [lia | lia |].
  rewrite seq_S, reverse_snoc, seq_S, reverse_snoc. simpl.
  rewrite <- E, stem_layers_at_top.
  replace (S d) with (max_depth outputs - 1) by lia.
  rewrite stem_layers_at_next. simpl. eauto.
Qed.
End TwoLayerStem.

End GraphFacts.

(** ** The three heads *)

Module HeadFacts.
Import Keras Run KerasSpec RunSpec FreezeSpec GraphFacts.
Local Open Scope string_scope.
Local Open Scope Z_scope.
Local Open Scope list_scope.
Local Open Scope nat_scope.
Local Open Scope keras_scope.

Lemma task_layers_length tasks : length (task_layers tasks) = 2 * length tasks.
Proof. induction tasks as [|t r IH]; simpl; [done | rewrite IH; lia]. Qed.

Lemma task_outputs_length base x tasks : length (task_outputs base x tasks) = length tasks.
Proof. revert base. induction tasks as [|t r IH]; simpl; intros; [done | by rewrite IH]. Qed.

Lemma task_heads_run x tasks outs h :
  task_heads x tasks outs h
  = Ok (outs ++ task_outputs (length h) x tasks, h ++ task_layers tasks).
Proof.
  revert outs h. induction tasks as [|t r IH]; intros outs h; simpl.
  - unfold ret. by rewrite !app_nil_r.
  - unfold bind, apply_new, alloc, ret. simpl. rewrite IH.
    rewrite !length_app. simpl. rewrite <- !app_assoc. simpl.
    by rewrite !Nat.add_1_r.
Qed.

Lemma get_model_run id h l m :
  h !! id = Some l -> l_class l = Functional m -> get_model id h = Ok (m, h).
Proof. intros H1 H2. unfold get_model. rewrite H1. destruct l. simpl in *. by subst. Qed.

Lemma get_model_inv id h m h' :
  get_model id h = Ok (m, h') ->
  h' = h /\ exists l, h !! id = Some l /\ l_class l = Functional m.
Proof.
  unfold get_model. destruct (h !! id) as [[n c t]|] eqn:E; [| done].
  destruct c; try done. intros [= <- <-]. split; [done |]. eauto.
Qed.

Lemma input_shape_of_inv core h shape h' :
  input_shape_of core h = Ok (shape, h') ->
  h' = h /\ exists l m, h !! core = Some l /\ l_class l = Functional m.
Proof.
  unfold input_shape_of, bind. destruct (get_model core h) as [[m h1]|] eqn:E; [| done].
  apply get_model_inv in E as [-> (l & Hl & Hm)].
  destruct (m_inputs m) as [|[i|] [|]]; try done.
  destruct (h !! i) as [[n c t]|]; [| done]. destruct c; try done.
  intros [= <- <-]. eauto.
Qed.

Lemma bind_Ok {A B} (c : K A) (k : A -> K B) h a h' :
  c h = Ok (a, h') -> bind c k h = k a h'.
Proof. unfold bind. by intros ->. Qed.

Lemma bind_Raise {A B} (c : K A) (k : A -> K B) h e :
  c h = Raise e -> bind c k h = Raise e.
Proof. unfold bind. by intros ->. Qed.

Lemma bind_inv {A B} (c : K A) (k : A -> K B) h b h2 :
  bind c k h = Ok (b, h2) -> exists a h1, c h = Ok (a, h1) /\ k a h1 = Ok (b, h2).
Proof. unfold bind. destruct (c h) as [[a h1]|]; [eauto | done]. Qed.

Lemma Input_run shape name h :
  Input shape name h = Ok (TInput (length h), h ++ [new_layer (InputLayer shape) (Some name)]).
Proof. reflexivity. Qed.

Lemma apply_new_run cls name x h :
  apply_new cls name x h = Ok (TCall (length h) x, h ++ [new_layer cls name]).
Proof. reflexivity. Qed.

Lemma Model_compile_run inputs outputs name args h :
  (model <- Model inputs outputs name ;; _ <- compile model args ;; ret model) h
  = Ok (length h, h ++ [compiled_model inputs outputs name args]).
Proof.
  unfold bind, Model, alloc, compile, bind, get_model, ret.
  rewrite list_lookup_middle by done. simpl.
  rewrite alter_app_r_alt by lia. by rewrite Nat.sub_diag.
Qed.

Ltac kstep :=
  first [ erewrite bind_Ok by apply Input_run
        | erewrite bind_Ok by apply apply_new_run
        | erewrite bind_Ok by eassumption ].

Lemma task_outputs_stem inp core base tasks o :
  core < inp -> inp < base ->
  o ∈ task_outputs base (TCall core (TInput inp)) tasks ->
  exists pre, chain o = pre ++ [core; inp] /\ pre <> [] /\ (core ∉ pre) /\ (inp ∉ pre).
Proof.
  intros Hc. revert base. induction tasks as [|t r IH]; simpl; intros base Hb Ho.
  - inversion Ho.
  - apply elem_of_cons in Ho as [-> | Ho].
    + exists [S base; base]. simpl. split; [done |]. split; [done |].
      split; intros H; repeat (apply elem_of_cons in H as [H | H]; [lia |]); inversion H.
    + apply (IH (S (S base))); [lia | done].
Qed.

Lemma attach_full_har_classification_head_run core output_shape opt num_units name h shape :
  input_shape_of core h = Ok (shape, h) ->
  let inp := length h in
  let out := TCall (inp + 3) (TCall (inp + 2) (TCall (inp + 1) (TCall core (TInput inp)))) in
  let hp := h ++ full_head shape num_units output_shape in
  attach_full_har_classification_head core output_shape opt num_units name h
  = Ok (length hp,
        hp ++ [compiled_model [TInput inp] [out] name
                 {| c_optimizer := opt; c_loss := [CategoricalCrossentropy];
                    c_metrics := har_metrics |}]).
Proof.
  intros Hs. simpl. unfold attach_full_har_classification_head.
  do 5 kstep. rewrite Model_compile_run.
  unfold full_head. rewrite <- !app_assoc. simpl.
  rewrite !length_app. simpl.
  rewrite <- ?Nat.add_assoc. reflexivity.
Qed.

Lemma attach_linear_classification_head_run core output_shape opt name h shape :
  input_shape_of core h = Ok (shape, h) ->
  let inp := length h in
  let out := TCall (inp + 2) (TCall (inp + 1) (TCall core (TInput inp))) in
  let hp := h ++ linear_head shape output_shape in
  attach_linear_classification_head core output_shape opt name h
  = Ok (length hp,
        hp ++ [compiled_model [TInput inp] [out] name
                 {| c_optimizer := opt; c_loss := [CategoricalCrossentropy];
                    c_metrics := har_metrics |}]).
Proof.
  intros Hs. simpl. unfold attach_linear_classification_head.
  do 4 kstep. rewrite Model_compile_run.
  unfold linear_head. rewrite <- !app_assoc. simpl.
  rewrite !length_app. simpl.
  rewrite <- ?Nat.add_assoc. reflexivity.
Qed.

Lemma attach_multitask_transform_head_run core tasks opt with_har_head ho n num_units_har
    name h shape :
  input_shape_of core h = Ok (shape, h) ->
  (with_har_head = true -> ho = Some n) ->
  let inp := length h in
  let hp := h ++ multitask_head shape tasks with_har_head num_units_har n in
  attach_multitask_transform_head core tasks opt with_har_head ho num_units_har name h
  = Ok (length hp,
        hp ++ [compiled_model [TInput inp] (multitask_outputs inp core tasks with_har_head)
                 name
                 {| c_optimizer := opt;
                    c_loss := map (fun _ => BinaryCrossentropy) tasks
                              ++ har_head_losses with_har_head;
                    c_metrics := ["accuracy"] |}]).
Proof.
  intros Hs Hho. simpl. unfold attach_multitask_transform_head.
  do 2 kstep. erewrite bind_Ok by apply task_heads_run.
  unfold multitask_head, multitask_outputs.
  destruct with_har_head; simpl.
  - rewrite Hho by done.
    erewrite bind_Ok; [| do 3 kstep; reflexivity ]. simpl.
    rewrite Model_compile_run.
    rewrite <- !app_assoc. simpl.
    rewrite !length_app. simpl. rewrite !length_app, task_layers_length. simpl.
    rewrite <- ?Nat.add_assoc. simpl. rewrite <- ?app_assoc. simpl. reflexivity.
  - erewrite bind_Ok by reflexivity. simpl. rewrite Model_compile_run.
    rewrite <- !app_assoc. simpl.
    rewrite !length_app. simpl. rewrite !app_nil_r. reflexivity.
Qed.

Lemma extract_core_model_compiled hp inputs outputs name args a core rest :
  graph_layers inputs outputs = a :: core :: rest ->
  extract_core_model (length hp) (hp ++ [compiled_model inputs outputs name args])
  = Ok (core, hp ++ [compiled_model inputs outputs name args]).
Proof.
  intros Hg. unfold extract_core_model.
  erewrite bind_Ok.
  2:{ eapply get_model_run; [apply list_lookup_middle; done | reflexivity]. }
  simpl. by rewrite Hg.
Qed.

Lemma not_elem_of_above (l : list nat) (x : nat) :
  Forall (fun y => x < y) l -> x ∉ l.
Proof. intros H Hx. rewrite Forall_forall in H. apply H in Hx. lia. Qed.

Lemma multitask_outputs_stem inp core tasks with_har_head o :
  core < inp -> o ∈ multitask_outputs inp core tasks with_har_head ->
  exists pre, chain o = pre ++ [core; inp] /\ pre <> [] /\ (core ∉ pre) /\ (inp ∉ pre).
Proof.
  intros Hc Ho. unfold multitask_outputs in Ho. apply elem_of_app in Ho as [Ho | Ho].
  - eapply task_outputs_stem; [done | | done]. lia.
  - destruct with_har_head; simpl in Ho; [| inversion Ho].
    apply list_elem_of_singleton in Ho as ->. eexists [_; _; _]. simpl.
    split; [reflexivity |]. split; [done |].
    split; apply not_elem_of_above; repeat constructor; lia.
Qed.

(** C9.  Each of the three head constructors, applied to a core model
    with one input, returns a composite model whose layer at index 1 is
    that very core model: [extract_core_model] gives back the address
    the head was attached to, and the object stored there is untouched.
    The multi-task constructor is taken with at least one head. *)
Theorem extract_core_model_attach (h : list layer) (core : nat) (shape : list Z)
    (Hcore : input_shape_of core h = Ok (shape, h)) :
  (forall output_shape opt num_units name,
     exists m h',
       attach_full_har_classification_head core output_shape opt num_units name h
         = Ok (m, h')
       /\ extract_core_model m h' = Ok (core, h')
       /\ h' !! core = h !! core)
  /\ (forall output_shape opt name,
     exists m h',
       attach_linear_classification_head core output_shape opt name h = Ok (m, h')
       /\ extract_core_model m h' = Ok (core, h')
       /\ h' !! core = h !! core)
  /\ (forall tasks opt with_har_head har_output_shape num_units_har name,
     tasks <> [] \/ with_har_head = true ->
     (with_har_head = true -> is_Some har_output_shape) ->
     exists m h',
       attach_multitask_transform_head core tasks opt with_har_head har_output_shape
         num_units_har name h = Ok (m, h')
       /\ extract_core_model m h' = Ok (core, h')
       /\ h' !! core = h !! core).
Proof.
  destruct (input_shape_of_inv _ _ _ _ Hcore) as (_ & l & m0 & Hl & _).
  pose proof (lookup_lt_Some _ _ _ Hl) as Hlt.
  split; [| split].
  - intros output_shape opt num_units name.
    rewrite (attach_full_har_classification_head_run _ _ _ _ _ _ _ Hcore).
    eexists _, _. split; [reflexivity |].
    destruct (stem_graph_layers (length h) core
                [TCall (length h + 3) (TCall (length h + 2)
                   (TCall (length h + 1) (TCall core (TInput (length h)))))]
                ltac:(lia) ltac:(done)) with (inputs := [TInput (length h)])
      as [rest Hrest].
    { intros o Ho. apply list_elem_of_singleton in Ho as ->.
      eexists [_; _; _]. simpl. split; [reflexivity |]. split; [done |].
      split; apply not_elem_of_above; repeat constructor; lia. }
    split; [by eapply extract_core_model_compiled |].
    rewrite <- app_assoc. by apply lookup_app_l.
  - intros output_shape opt name.
    rewrite (attach_linear_classification_head_run _ _ _ _ _ _ Hcore).
    eexists _, _. split; [reflexivity |].
    destruct (stem_graph_layers (length h) core
                [TCall (length h + 2) (TCall (length h + 1)
                   (TCall core (TInput (length h))))]
                ltac:(lia) ltac:(done)) with (inputs := [TInput (length h)])
      as [rest Hrest].
    { intros o Ho. apply list_elem_of_singleton in Ho as ->.
      eexists [_; _]. simpl. split; [reflexivity |]. split; [done |].
      split; apply not_elem_of_above; repeat constructor; lia. }
    split; [by eapply extract_core_model_compiled |].
    rewrite <- app_assoc. by apply lookup_app_l.
  - intros tasks opt with_har_head ho num_units_har name Hheads Hho.
    rewrite (attach_multitask_transform_head_run _ _ _ _ _ (default 0%Z ho) _ _ _ _ Hcore).
    2:{ intros Hw. destruct (Hho Hw) as [n ->]. done. }
    eexists _, _. split; [reflexivity |].
    destruct (stem_graph_layers (length h) core
                (multitask_outputs (length h) core tasks with_har_head)
                ltac:(lia)) with (inputs := [TInput (length h)])
      as [rest Hrest].
    { unfold multitask_outputs. destruct Hheads as [Ht | ->].
      - destruct tasks; [done |]. simpl. done.
      - simpl. intros E. apply app_eq_nil in E as [_ E]. done. }
    { intros o Ho. by eapply multitask_outputs_stem. }
    split; [by eapply extract_core_model_compiled |].
    rewrite <- app_assoc. by apply lookup_app_l.
Qed.

End HeadFacts.

(** ** The HAR output of a multi-task model *)

Module HarOutputFacts.
Import Keras Run KerasSpec RunSpec FreezeSpec GraphFacts HeadFacts.
Local Open Scope string_scope.
Local Open Scope Z_scope.
Local Open Scope list_scope.
Local Open Scope nat_scope.
Local Open Scope keras_scope.

Lemma index_pos_last (len : nat) :
  0 < len -> index_pos len (-1) = Ok (len - 1).
Proof.
  intros H. unfold index_pos.
  replace (0 <=? -1)%Z with false by done. simpl.
  replace (- Z.of_nat len <=? -1)%Z with true by (symmetry; apply Z.leb_le; lia).
  simpl. f_equal. lia.
Qed.

Lemma task_outputs_lookup base x tasks k task :
  tasks !! k = Some task ->
  task_outputs base x tasks !! k = Some (TCall (base + 2 * k + 1) (TCall (base + 2 * k) x)).
Proof.
  revert base k. induction tasks as [|t r IH]; intros base k H; [done |].
  destruct k as [|k]; simpl in *.
  - do 3 f_equal; lia.
  - rewrite (IH _ _ H). do 3 f_equal; lia.
Qed.

Lemma task_layers_lookup tasks k task :
  tasks !! k = Some task ->
  task_layers tasks !! (2 * k + 1) = Some (new_layer (Dense 1 (Some "sigmoid")) (Some task)).
Proof.
  revert k. induction tasks as [|t r IH]; intros k H; [done |].
  destruct k as [|k]; simpl in *.
  - by injection H as ->.
  - replace (k + S (k + 0) + 1) with (S (2 * k + 1)) by lia. simpl. by apply IH.
Qed.

Lemma lookup_app_add {A} (l1 l2 : list A) i j :
  i = length l1 + j -> (l1 ++ l2) !! i = l2 !! j.
Proof.
  intros ->. rewrite lookup_app_r by lia. f_equal. lia.
Qed.

Lemma extract_har_model_compiled hp inputs outs o name args opt' name' :
  let h := hp ++ [compiled_model inputs (outs ++ [o]) name args] in
  extract_har_model (length hp) opt' (-1) name' h
  = Ok (length h,
        h ++ [compiled_model inputs [o] name'
                {| c_optimizer := opt'; c_loss := [CategoricalCrossentropy];
                   c_metrics := har_metrics |}]).
Proof.
  simpl. unfold extract_har_model.
  erewrite bind_Ok.
  2:{ eapply get_model_run; [apply list_lookup_middle; done | reflexivity]. }
  simpl. rewrite index_pos_last by (rewrite length_app; simpl; lia). simpl.
  rewrite length_app. simpl.
  replace (length outs + 1 - 1) with (length outs) by lia.
  rewrite list_lookup_middle by done.
  apply Model_compile_run.
Qed.

(** C10.  A multi-task model built with [with_har_head=True] lists one
    sigmoid output per transformation task, in the order of the tasks,
    and after them the softmax layer named ['har']: the HAR output is the
    last one.  [extract_har_model] with its default [output_index] of -1
    then returns a model whose only output is that HAR output. *)
Theorem har_output_is_last (h : list layer) (core : nat) (shape : list Z)
    (tasks : list string) (opt : optimizer) (n num_units_har : Z) (name : string)
    (Hcore : input_shape_of core h = Ok (shape, h)) :
  exists m h' mm har x,
    attach_multitask_transform_head core tasks opt true (Some n) num_units_har name h
      = Ok (m, h')
    /\ get_model m h' = Ok (mm, h')
    /\ length (m_outputs mm) = length tasks + 1
    /\ (forall k task, tasks !! k = Some task ->
          exists l y, m_outputs mm !! k = Some (TCall l y)
                      /\ h' !! l = Some (new_layer (Dense 1 (Some "sigmoid")) (Some task)))
    /\ last (m_outputs mm) = Some (TCall har x)
    /\ h' !! har = Some (new_layer Softmax (Some "har"))
    /\ (forall opt' name',
          exists e h'' me,
            extract_har_model m opt' (-1) name' h' = Ok (e, h'')
            /\ get_model e h'' = Ok (me, h'')
            /\ m_outputs me = [TCall har x]).
Proof.
  rewrite (attach_multitask_transform_head_run _ _ _ _ _ n _ _ _ _ Hcore) by done.
  unfold multitask_outputs, har_head_outputs.
  set (inp := length h).
  set (hp := h ++ multitask_head shape tasks true num_units_har n).
  eexists _, _, _, _, _. split; [reflexivity |].
  split; [eapply get_model_run; [apply list_lookup_middle; done | reflexivity] |].
  simpl. split; [rewrite length_app, task_outputs_length; simpl; lia |].
  split; [| split; [apply last_snoc | split] ].
  - intros k task Hk. eexists _, _. split.
    + apply lookup_app_l_Some. by eapply task_outputs_lookup.
    + apply lookup_app_l_Some. unfold hp, multitask_head.
      rewrite (lookup_app_add _ _ _ (1 + (2 * k + 1))) by (unfold inp; lia).
      rewrite (lookup_app_add _ _ _ (2 * k + 1)) by (simpl; lia).
      apply lookup_app_l_Some. by eapply task_layers_lookup.
  - apply lookup_app_l_Some. unfold hp, multitask_head.
    rewrite (lookup_app_add _ _ _ (1 + (2 * length tasks + 2))) by (unfold inp; lia).
    rewrite (lookup_app_add _ _ _ (2 * length tasks + 2)) by (simpl; lia).
    by rewrite (lookup_app_add _ _ _ 2) by (rewrite task_layers_length; lia).
  - intros opt' name'. eexists _, _, _.
    split; [apply extract_har_model_compiled |].
    split; [eapply get_model_run; [apply list_lookup_middle; done | reflexivity] |].
    reflexivity.
Qed.

End HarOutputFacts.

(** ** [set_freeze_layers] *)

Module FreezeFacts.
Import Keras Run KerasSpec RunSpec FreezeSpec GraphFacts HeadFacts HarOutputFacts.
Local Open Scope string_scope.
Local Open Scope Z_scope.
Local Open Scope list_scope.
Local Open Scope nat_scope.
Local Open Scope keras_scope.

(** ** Freezing *)

Lemma set_trainable_to_plain depth b h id :
  plain h id -> set_trainable_to depth b h id = set_flag b h id.
Proof.
  intros Hp. destruct depth as [|d]; [done |]. cbn [set_trainable_to].
  destruct (h !! id) as [[n [] t]|] eqn:E; try done.
  exfalso. apply (Hp m). unfold class_of. by rewrite E.
Qed.

Lemma set_trainable_plain b h id : plain h id -> set_trainable b h id = set_flag b h id.
Proof. apply set_trainable_to_plain. Qed.

Lemma set_flag_class b h x id : class_of (set_flag b h x) id = class_of h id.
Proof.
  unfold class_of, set_flag. destruct (decide (x = id)) as [-> | Hne].
  - rewrite list_lookup_alter_eq. by destruct (h !! id).
  - by rewrite list_lookup_alter_ne.
Qed.

Lemma set_flag_plain b h x id : plain h id -> plain (set_flag b h x) id.
Proof. intros Hp m. rewrite set_flag_class. apply Hp. Qed.

Lemma foldl_set_trainable_plain b ids h :
  Forall (plain h) ids -> foldl (set_trainable b) h ids = foldl (set_flag b) h ids.
Proof.
  revert h. induction ids as [|x ids IH]; intros h Hp; [done |].
  apply Forall_cons in Hp as [Hx Hp]. cbn [foldl].
  rewrite set_trainable_plain by done. apply IH.
  eapply Forall_impl; [exact Hp |]. intros y. apply set_flag_plain.
Qed.

Lemma foldl_set_flag_lookup b ids h id :
  foldl (set_flag b) h ids !! id
  = if decide (id ∈ ids) then with_trainable b <$> h !! id else h !! id.
Proof.
  revert h. induction ids as [|x ids IH]; intros h; cbn [foldl].
  - destruct (decide (id ∈ [])) as [H | H]; [inversion H | done].
  - rewrite IH. unfold set_flag.
    destruct (decide (x = id)) as [-> | Hne].
    + rewrite list_lookup_alter_eq.
      destruct (decide (id ∈ ids)), (decide (id ∈ id :: ids)); try set_solver;
        destruct (h !! id); done.
    + rewrite list_lookup_alter_ne by done.
      destruct (decide (id ∈ ids)), (decide (id ∈ x :: ids)); try set_solver; done.
Qed.

Lemma foldl_set_flag_plain b ids h id : plain h id -> plain (foldl (set_flag b) h ids) id.
Proof.
  intros Hp m. unfold class_of. rewrite foldl_set_flag_lookup.
  case_decide; [| apply Hp].
  specialize (Hp m). unfold class_of in Hp. by destruct (h !! id).
Qed.

Lemma foldl_set_trainable_lookup b ids h id :
  Forall (plain h) ids ->
  foldl (set_trainable b) h ids !! id
  = if decide (id ∈ ids) then with_trainable b <$> h !! id else h !! id.
Proof. intros Hp. rewrite foldl_set_trainable_plain by done. apply foldl_set_flag_lookup. Qed.

Lemma foldl_set_flag_length b ids h : length (foldl (set_flag b) h ids) = length h.
Proof.
  revert h. induction ids as [|x ids IH]; intros h; simpl; [done |].
  rewrite IH. unfold set_flag. apply length_alter.
Qed.

Lemma set_freeze_layers_run model boundary h m :
  get_model model h = Ok (m, h) ->
  Forall (plain h) (m_layers m) ->
  exists h',
    set_freeze_layers model (Z.of_nat <$> boundary) h = Ok (tt, h')
    /\ length h' = length h
    /\ (forall id, class_of h' id = class_of h id)
    /\ (forall id, id ∉ m_layers m -> h' !! id = h !! id)
    /\ (forall i id, m_layers m !! i = Some id -> id < length h ->
        (boundary = None \/ boundary = Some 0 \/ NoDup (m_layers m)) ->
        flag h' id = Some (match boundary with
                           | None => false
                           | Some k => bool_decide (k <= i)
                           end)).
Proof.
  intros Hm Hp. unfold set_freeze_layers. erewrite bind_Ok by exact Hm.
  destruct boundary as [k|]; simpl.
  - unfold slice_to, slice_from.
    replace (0 <=? Z.of_nat k)%Z with true by (symmetry; apply Z.leb_le; lia).
    rewrite Nat2Z.id.
    assert (Hp1 : Forall (plain h) (take k (m_layers m))).
    { apply Forall_forall. intros x Hx. rewrite Forall_forall in Hp. apply Hp.
      by eapply subseteq_take. }
    rewrite (foldl_set_trainable_plain false _ h Hp1).
    assert (Hp2 : Forall (plain (foldl (set_flag false) h (take k (m_layers m))))
                    (drop k (m_layers m))).
    { apply Forall_forall. intros x Hx. apply foldl_set_flag_plain.
      rewrite Forall_forall in Hp. apply Hp. by eapply subseteq_drop. }
    rewrite (foldl_set_trainable_plain true _ _ Hp2).
    eexists. split; [reflexivity |].
    split; [by rewrite !foldl_set_flag_length |].
    split; [| split].
    + intros id. unfold class_of. rewrite !foldl_set_flag_lookup.
      repeat case_decide; destruct (h !! id); done.
    + intros id Hid. rewrite !foldl_set_flag_lookup.
      repeat case_decide; try done.
      * exfalso. apply Hid. by eapply subseteq_drop.
      * exfalso. apply Hid. by eapply subseteq_drop.
      * exfalso. apply Hid. by eapply subseteq_take.
    + intros i id Hi Hlt Hnd. unfold flag. rewrite !foldl_set_flag_lookup.
      destruct (lookup_lt_is_Some_2 h id Hlt) as [l Hl]. rewrite Hl.
      destruct (decide (k <= i)) as [Hge | Hlt'].
      * rewrite (decide_True (P := id ∈ drop k (m_layers m))).
        2:{ apply list_elem_of_lookup. exists (i - k). rewrite lookup_drop.
            by replace (k + (i - k)) with i by lia. }
        rewrite bool_decide_eq_true_2 by done.
        case_decide; done.
      * assert (Hnd' : NoDup (m_layers m)).
        { destruct Hnd as [? | [? | ?]]; [done | | done]. simplify_eq. lia. }
        rewrite (decide_False (P := id ∈ drop k (m_layers m))).
        2:{ intros Hin. apply list_elem_of_lookup in Hin as [j Hj].
            rewrite lookup_drop in Hj.
            pose proof (NoDup_lookup _ _ _ _ Hnd' Hi Hj). lia. }
        rewrite (decide_True (P := id ∈ take k (m_layers m))).
        2:{ apply list_elem_of_lookup. exists i. rewrite lookup_take_lt by lia. done. }
        rewrite bool_decide_eq_false_2 by done. done.
  - rewrite (foldl_set_trainable_plain false _ h Hp).
    eexists. split; [reflexivity |].
    split; [by rewrite foldl_set_flag_length |].
    split; [| split].
    + intros id. unfold class_of. rewrite foldl_set_flag_lookup.
      case_decide; destruct (h !! id); done.
    + intros id Hid. rewrite foldl_set_flag_lookup. by rewrite decide_False.
    + intros i id Hi Hlt _. unfold flag. rewrite foldl_set_flag_lookup.
      rewrite decide_True by (by eapply list_elem_of_lookup_2).
      destruct (lookup_lt_is_Some_2 h id Hlt) as [l ->]. done.
Qed.

End FreezeFacts.

(** ** Well-formed stores *)

Module StoreFacts.
Import Keras Run KerasSpec RunSpec FreezeSpec GraphFacts HeadFacts HarOutputFacts
  FreezeFacts.
Local Open Scope string_scope.
Local Open Scope Z_scope.
Local Open Scope list_scope.
Local Open Scope nat_scope.
Local Open Scope keras_scope.

(** ** Well-formed stores *)

Lemma NoDup_bind_disjoint {A B} (f : A -> list B) (l : list A) :
  NoDup l -> (forall a, a ∈ l -> NoDup (f a)) ->
  (forall a a' x, a ∈ l -> a' ∈ l -> x ∈ f a -> x ∈ f a' -> a = a') ->
  NoDup (l ≫= f).
Proof.
  induction 1 as [|a l Ha Hl IH]; intros Hf Hd; simpl; [constructor |].
  apply NoDup_app. split; [apply Hf; set_solver |]. split.
  - intros x Hx Hx'. apply list_elem_of_bind in Hx' as (a' & Hxa' & Ha').
    assert (a = a') as -> by (eapply Hd; [| | exact Hx | exact Hxa']; set_solver).
    done.
  - apply IH; [intros; apply Hf; set_solver |].
    intros a1 a2 x H1 H2. apply Hd; set_solver.
Qed.

Lemma layers_at_NoDup outputs d : NoDup (layers_at outputs d).
Proof. unfold layers_at. apply NoDup_filter, traversal_NoDup. Qed.

Lemma layers_at_elem outputs d x :
  x ∈ layers_at outputs d -> layer_depth outputs x = d /\ x ∈ traversal outputs.
Proof. unfold layers_at. intros H. by apply list_elem_of_filter in H. Qed.

Lemma graph_layers_NoDup inputs outputs : NoDup (graph_layers inputs outputs).
Proof.
  unfold graph_layers. apply NoDup_app. split; [| split].
  - apply NoDup_bind_disjoint.
    + rewrite reverse_Permutation. apply NoDup_seq.
    + intros. apply layers_at_NoDup.
    + intros a a' x _ _ H1 H2.
      apply layers_at_elem in H1 as [<- _]. by apply layers_at_elem in H2 as [<- _].
  - intros x Hx Hx'. apply list_elem_of_bind in Hx as (d & Hxd & Hd).
    apply layers_at_elem in Hxd as [Hdx Htr].
    rewrite elem_of_reverse, elem_of_seq in Hd.
    apply elem_of_app in Hx' as [Hu | H0].
    + apply first_visits_not_seen in Hu. done.
    + apply layers_at_elem in H0 as [H0 _]. lia.
  - apply NoDup_app. split; [apply first_visits_NoDup |]. split; [| apply layers_at_NoDup].
    intros x Hu H0. apply first_visits_not_seen in Hu.
    by apply layers_at_elem in H0 as [_ H0].
Qed.

Lemma graph_layers_elem inputs outputs x :
  x ∈ graph_layers inputs outputs -> x ∈ outputs ≫= chain \/ x ∈ inputs ≫= chain.
Proof.
  unfold graph_layers. intros H.
  apply elem_of_app in H as [H | H]; [| apply elem_of_app in H as [H | H]].
  - apply list_elem_of_bind in H as (d & H & _).
    apply layers_at_elem in H as [_ H]. apply first_visits_subset in H. by left.
  - apply first_visits_subset in H. by right.
  - apply layers_at_elem in H as [_ H]. apply first_visits_subset in H. by left.
Qed.

Lemma graph_layers_allocated n inputs outputs :
  Forall (allocated n) inputs -> Forall (allocated n) outputs ->
  Forall (fun x => x < n) (graph_layers inputs outputs).
Proof.
  intros Hi Ho. apply Forall_forall. intros x Hx.
  apply graph_layers_elem in Hx as [Hx | Hx];
    apply list_elem_of_bind in Hx as (t & Hxt & Ht).
  - rewrite Forall_forall in Ho. specialize (Ho t Ht).
    unfold allocated in Ho. rewrite Forall_forall in Ho. auto.
  - rewrite Forall_forall in Hi. specialize (Hi t Ht).
    unfold allocated in Hi. rewrite Forall_forall in Hi. auto.
Qed.

Lemma allocated_mono n n' t : n <= n' -> allocated n t -> allocated n' t.
Proof. intros Hle H. eapply Forall_impl; [exact H |]. simpl. intros. lia. Qed.

Lemma wf_model_mono n n' m : n <= n' -> wf_model n m -> wf_model n' m.
Proof.
  intros Hle (H1 & H2 & H3 & H4). repeat split; [done | | |].
  - eapply Forall_impl; [exact H2 |]. simpl. intros. lia.
  - eapply Forall_impl; [exact H3 |]. intros t. by apply allocated_mono.
  - eapply Forall_impl; [exact H4 |]. intros t. by apply allocated_mono.
Qed.

Lemma class_of_app h ls x : x < length h -> class_of (h ++ ls) x = class_of h x.
Proof. intros Hx. unfold class_of. by rewrite lookup_app_l. Qed.

Lemma class_of_new h ls x c :
  length h <= x -> class_of (h ++ ls) x = Some c ->
  exists l, l ∈ ls /\ l_class l = c.
Proof.
  intros Hx H. unfold class_of in H. rewrite lookup_app_r in H by done.
  apply fmap_Some in H as (l & Hl & ->). exists l. split; [| done].
  by eapply list_elem_of_lookup_2.
Qed.

Lemma plain_app h ls x : x < length h -> plain h x -> plain (h ++ ls) x.
Proof. intros Hx Hp m. rewrite class_of_app by done. apply Hp. Qed.

Lemma mentions_allocated n m x : wf_model n m -> mentions m x -> x < n.
Proof.
  intros (_ & Hl & Hi & Ho) [H | [H | H]].
  - rewrite Forall_forall in Hl. by apply Hl.
  - apply list_elem_of_bind in H as (t & Hx & Ht). rewrite Forall_forall in Hi.
    specialize (Hi t Ht). unfold allocated in Hi. rewrite Forall_forall in Hi. auto.
  - apply list_elem_of_bind in H as (t & Hx & Ht). rewrite Forall_forall in Ho.
    specialize (Ho t Ht). unfold allocated in Ho. rewrite Forall_forall in Ho. auto.
Qed.

Lemma wf_store_layers h x mx :
  wf_store h -> class_of h x = Some (Functional mx) ->
  Forall (fun y => y < length h) (m_layers mx).
Proof.
  intros Hwf Hx. unfold class_of in Hx. apply fmap_Some in Hx as (l & Hl & Hc).
  by destruct (Hwf x l mx Hl (eq_sym Hc)) as [(_ & H & _) _].
Qed.

Lemma plain_layers_app h ls x mx :
  wf_store h -> class_of h x = Some (Functional mx) ->
  Forall (plain h) (m_layers mx) -> Forall (plain (h ++ ls)) (m_layers mx).
Proof.
  intros Hwf Hx Hp. pose proof (wf_store_layers h x mx Hwf Hx) as Hlt.
  rewrite Forall_forall in Hlt, Hp. apply Forall_forall. intros y Hy.
  apply plain_app; auto.
Qed.

Lemma shallow_app h ls m :
  wf_store h -> wf_model (length h) m -> shallow h m -> shallow (h ++ ls) m.
Proof.
  intros Hwf Hm Hs x mx Hx Hc.
  pose proof (mentions_allocated _ _ _ Hm Hx) as Hlt.
  rewrite class_of_app in Hc by done.
  eapply plain_layers_app; eauto.
Qed.

Lemma wf_store_app h ls :
  wf_store h ->
  (forall l m, l ∈ ls -> l_class l = Functional m ->
     wf_model (length (h ++ ls)) m /\ shallow (h ++ ls) m) ->
  wf_store (h ++ ls).
Proof.
  intros Hh Hls id l m Hl Hm.
  apply lookup_app_Some in Hl as [Hl | [_ Hl]].
  - destruct (Hh _ _ _ Hl Hm) as [Hw Hs]. split.
    + eapply wf_model_mono; [| done]. rewrite length_app. lia.
    + by apply shallow_app.
  - eapply Hls; [| done]. by eapply list_elem_of_lookup_2.
Qed.

(** Plain layers appended to a store leave it well formed. *)
Lemma wf_store_app_plain h ls :
  wf_store h -> Forall (fun l => forall m, l_class l <> Functional m) ls ->
  wf_store (h ++ ls).
Proof.
  intros Hwf Hp. apply wf_store_app; [done |]. intros l m Hl Hm.
  rewrite Forall_forall in Hp. by destruct (Hp l Hl m).
Qed.

Lemma plain_new h ls y :
  length h <= y -> Forall (fun l => forall m, l_class l <> Functional m) ls ->
  plain (h ++ ls) y.
Proof.
  intros Hy Hp m Hc. apply class_of_new in Hc as (l & Hl & Hcl); [| done].
  rewrite Forall_forall in Hp. by destruct (Hp l Hl m).
Qed.

(** A new model over plain new layers: the models it mentions in the old
    store must be made of plain layers. *)
Lemma wf_store_new_model h ls l m :
  wf_store h ->
  Forall (fun l => forall m, l_class l <> Functional m) ls ->
  l_class l = Functional m ->
  wf_model (length (h ++ ls)) m ->
  (forall x mx, mentions m x -> class_of h x = Some (Functional mx) ->
     Forall (plain h) (m_layers mx)) ->
  wf_store ((h ++ ls) ++ [l]).
Proof.
  intros Hwf Hp Hl Hm Hold. apply wf_store_app; [by apply wf_store_app_plain |].
  intros l' m' Hl' Hm'. apply list_elem_of_singleton in Hl' as ->.
  assert (m' = m) as -> by congruence. split.
  - eapply wf_model_mono; [| done]. rewrite (length_app (h ++ ls)). lia.
  - intros x mx Hx Hc.
    pose proof (mentions_allocated _ _ _ Hm Hx) as Hlt.
    rewrite class_of_app in Hc by done.
    destruct (decide (x < length h)) as [Hxh | Hxh].
    + rewrite class_of_app in Hc by done. rewrite <- app_assoc.
      eapply plain_layers_app; eauto.
    + exfalso. eapply (plain_new h ls x); [lia | done | exact Hc].
Qed.

Lemma mentions_graph inputs outputs c x :
  mentions {| m_inputs := inputs; m_outputs := outputs;
              m_layers := graph_layers inputs outputs; m_compiled := c |} x ->
  x ∈ inputs ≫= chain \/ x ∈ outputs ≫= chain.
Proof.
  intros [H | [H | H]]; simpl in H; [| by left | by right].
  apply graph_layers_elem in H. tauto.
Qed.

Lemma wf_compiled_model n inputs outputs name args m :
  l_class (compiled_model inputs outputs name args) = Functional m ->
  Forall (allocated n) inputs -> Forall (allocated n) outputs -> wf_model n m.
Proof.
  simpl. intros [= <-] Hi Ho. repeat split; simpl; try done.
  - apply graph_layers_NoDup.
  - by apply graph_layers_allocated.
Qed.

Lemma extract_har_model_inv model opt idx name h e h' :
  extract_har_model model opt idx name h = Ok (e, h') ->
  exists m o, get_model model h = Ok (m, h) /\ o ∈ m_outputs m
    /\ e = length h
    /\ h' = h ++ [compiled_model (m_inputs m) [o] name
                    {| c_optimizer := opt; c_loss := [CategoricalCrossentropy];
                       c_metrics := har_metrics |}].
Proof.
  unfold extract_har_model. intros H.
  apply bind_inv in H as (m & h1 & Hm & H).
  pose proof (get_model_inv _ _ _ _ Hm) as [-> _].
  destruct (index_pos (length (m_outputs m)) idx) as [p|] eqn:Ep; simpl in H; [| done].
  destruct (m_outputs m !! p) as [o|] eqn:Eo; [| done].
  rewrite Model_compile_run in H. injection H as <- <-.
  exists m, o. repeat split; [done | by eapply list_elem_of_lookup_2].
Qed.

Lemma extract_har_model_wf model opt idx name h e h' :
  wf_store h -> extract_har_model model opt idx name h = Ok (e, h') -> wf_store h'.
Proof.
  intros Hwf H. apply extract_har_model_inv in H as (m & o & Hm & Ho & -> & ->).
  apply get_model_inv in Hm as (_ & l & Hl & Hc).
  destruct (Hwf _ _ _ Hl Hc) as [(_ & _ & Hi & Hos) Hsh].
  rewrite <- (app_nil_r h) at 1.
  eapply (wf_store_new_model h []); [done | apply List.Forall_nil | reflexivity | |].
  - rewrite app_nil_r. eapply (wf_compiled_model _ _ _ name); [reflexivity | done |].
    constructor; [| constructor]. rewrite Forall_forall in Hos. by apply Hos.
  - intros x mx Hx Hcx. apply mentions_graph in Hx. apply (Hsh x mx); [| done].
    destruct Hx as [Hx | Hx]; [right; by left |]. right. right.
    rewrite bind_cons, app_nil_r in Hx.
    apply list_elem_of_bind. eauto.
Qed.

Lemma extract_core_model_inv model h core h' :
  extract_core_model model h = Ok (core, h') ->
  h' = h /\ exists m, get_model model h = Ok (m, h) /\ m_layers m !! 1 = Some core.
Proof.
  unfold extract_core_model. intros H.
  apply bind_inv in H as (m & h1 & Hm & H).
  pose proof (get_model_inv _ _ _ _ Hm) as [-> _].
  destruct (m_layers m !! 1) as [c|] eqn:E; [| done].
  injection H as <- <-. eauto.
Qed.

Lemma conv1d_run filters kernel activation x steps h :
  (kernel <= steps)%Z ->
  conv1d filters kernel activation x steps h
  = Ok ((TCall (length h) x, (steps - kernel + 1)%Z),
        h ++ [new_layer (Conv1D filters kernel activation) None]).
Proof. intros H. unfold conv1d. by rewrite (proj2 (Z.leb_le _ _) H). Qed.

Lemma conv1d_raise filters kernel activation x steps h :
  (steps < kernel)%Z -> conv1d filters kernel activation x steps h = Raise ValueError.
Proof. intros H. unfold conv1d. by rewrite (proj2 (Z.leb_gt _ _) H). Qed.

Lemma create_1d_conv_core_model_run shape name h :
  create_1d_conv_core_model shape name h
  = if valid_window shape
    then Ok (length h + 8,
             (h ++ core_layers shape)
             ++ [plain_model [TInput (length h)] [stack (length h) 7] name])
    else Raise ValueError.
Proof.
  unfold create_1d_conv_core_model, valid_window.
  destruct shape as [|steps [|channels [|? ?]]]; try reflexivity.
  unfold time_steps.
  destruct (Z.leb_spec 1 channels) as [Hc | Hc]; cbn [andb];
    [| rewrite andb_false_r; by destruct (46 <=? steps)%Z].
  rewrite andb_true_r.
  destruct (Z.leb_spec 0 steps) as [H0 | H0];
    [| rewrite (proj2 (Z.leb_gt 46 steps)) by lia; reflexivity].
  rewrite (bind_Ok _ _ h steps h) by reflexivity. kstep.
  destruct (Z.leb_spec 46 steps) as [Hs | Hs].
  - erewrite bind_Ok by (apply conv1d_run; lia). kstep.
    erewrite bind_Ok by (apply conv1d_run; simpl; lia). kstep.
    erewrite bind_Ok by (apply conv1d_run; simpl; lia). do 2 kstep.
    unfold Model, alloc, core_layers, plain_model.
    rewrite <- !app_assoc. simpl. rewrite !length_app. simpl.
    rewrite <- ?Nat.add_assoc. simpl. reflexivity.
  - destruct (Z.lt_ge_cases steps 24) as [H1 | H1];
      [by erewrite bind_Raise by (apply conv1d_raise; lia) |].
    erewrite bind_Ok by (apply conv1d_run; lia). kstep.
    destruct (Z.lt_ge_cases steps 39) as [H2 | H2];
      [by erewrite bind_Raise by (apply conv1d_raise; simpl; lia) |].
    erewrite bind_Ok by (apply conv1d_run; simpl; lia). kstep.
    by erewrite bind_Raise by (apply conv1d_raise; simpl; lia).
Qed.

Lemma create_1d_conv_core_model_inv shape name h core h' :
  create_1d_conv_core_model shape name h = Ok (core, h') ->
  valid_window shape = true
  /\ core = length h + 8
  /\ h' = (h ++ core_layers shape)
          ++ [plain_model [TInput (length h)] [stack (length h) 7] name].
Proof.
  rewrite create_1d_conv_core_model_run. destruct (valid_window shape); [| done].
  by intros [= <- <-].
Qed.

Lemma core_layers_plain shape :
  Forall (fun l => forall m, l_class l <> Functional m) (core_layers shape).
Proof. unfold core_layers. repeat constructor; done. Qed.

Lemma stack_chain base n : chain (stack base n) = reverse (seq base (Datatypes.S n)).
Proof.
  induction n as [|n IH]; [done |].
  cbn [stack chain]. rewrite IH. rewrite (seq_S (Datatypes.S n) base), reverse_snoc. done.
Qed.

Lemma stack_allocated base n k : base + n < k -> allocated k (stack base n).
Proof.
  intros H. unfold allocated. rewrite stack_chain. apply Forall_forall. intros x Hx.
  rewrite elem_of_reverse, elem_of_seq in Hx. lia.
Qed.

Lemma stack_mentions base x :
  mentions {| m_inputs := [TInput base]; m_outputs := [stack base 7];
              m_layers := graph_layers [TInput base] [stack base 7];
              m_compiled := None |} x ->
  base <= x < base + 8.
Proof.
  intros Hx. apply mentions_graph in Hx. rewrite !bind_cons, !app_nil_r in Hx.
  destruct Hx as [Hx | Hx].
  - simpl in Hx. apply list_elem_of_singleton in Hx. lia.
  - rewrite stack_chain, elem_of_reverse, elem_of_seq in Hx. lia.
Qed.

Lemma create_1d_conv_core_model_wf shape name h core h' :
  wf_store h -> create_1d_conv_core_model shape name h = Ok (core, h') -> wf_store h'.
Proof.
  intros Hwf H. apply create_1d_conv_core_model_inv in H as (_ & -> & ->).
  eapply wf_store_new_model; [done | apply core_layers_plain | reflexivity | |].
  - rewrite !length_app. simpl.
    split; [apply graph_layers_NoDup |]. simpl.
    assert (allocated (length h + 8) (TInput (length h))) as Hin
      by (repeat constructor; lia).
    assert (allocated (length h + 8) (stack (length h) 7)) as Hout
      by (apply stack_allocated; lia).
    assert (Forall (allocated (length h + 8)) [TInput (length h)]) as Hins
      by (apply Forall_cons_2; [done | apply List.Forall_nil]).
    assert (Forall (allocated (length h + 8)) [stack (length h) 7]) as Houts
      by (apply Forall_cons_2; [done | apply List.Forall_nil]).
    split; [by apply graph_layers_allocated | by split].
  - intros x mx Hx Hc. apply stack_mentions in Hx.
    unfold class_of in Hc. apply fmap_Some in Hc as (l & Hl & _).
    apply lookup_lt_Some in Hl. lia.
Qed.

(** The layers of a fresh feature extractor are plain. *)
Lemma create_1d_conv_core_model_plain shape name h core h' :
  create_1d_conv_core_model shape name h = Ok (core, h') -> flat h' core.
Proof.
  intros H mc Hc. apply create_1d_conv_core_model_inv in H as (_ & -> & ->).
  unfold class_of in Hc. rewrite list_lookup_middle in Hc
    by (rewrite length_app; simpl; lia).
  simpl in Hc. injection Hc as <-. simpl.
  apply Forall_forall. intros y Hy.
  assert (length h <= y < length h + 8) as Hr.
  { apply stack_mentions. left. exact Hy. }
  apply plain_app; [rewrite length_app; simpl; lia |].
  apply plain_new; [lia | apply core_layers_plain].
Qed.

Lemma attach_full_har_classification_head_wf core os opt nu name h m h' :
  wf_store h -> flat h core ->
  attach_full_har_classification_head core os opt nu name h = Ok (m, h') -> wf_store h'.
Proof.
  intros Hwf Hcore H. pose proof H as H0. unfold attach_full_har_classification_head in H0.
  apply bind_inv in H0 as (shape & h1 & Hs & _).
  pose proof (input_shape_of_inv _ _ _ _ Hs) as (-> & l & m0 & Hl & _).
  pose proof (lookup_lt_Some _ _ _ Hl) as Hlt.
  rewrite (attach_full_har_classification_head_run _ _ _ _ _ _ _ Hs) in H.
  injection H as <- <-.
  eapply wf_store_new_model; [done | | reflexivity | |].
  - unfold full_head. repeat constructor; done.
  - eapply (wf_compiled_model _ _ _ name); [reflexivity | |]; rewrite !length_app; simpl;
      (apply Forall_cons_2; [| apply List.Forall_nil]);
      unfold allocated; simpl; repeat (apply Forall_cons_2; [lia |]);
      apply List.Forall_nil.
  - intros x mx Hx Hc. apply mentions_graph in Hx.
    rewrite !bind_cons, !app_nil_r in Hx. simpl in Hx.
    assert (x = core \/ length h <= x) as [-> | Hge].
    { destruct Hx as [Hx | Hx]; rewrite ?elem_of_cons in Hx;
        repeat (destruct Hx as [-> | Hx]; [first [by left | right; lia] |]);
        by apply elem_of_nil in Hx. }
    + by apply Hcore.
    + unfold class_of in Hc. apply fmap_Some in Hc as (l' & Hl' & _).
      apply lookup_lt_Some in Hl'. lia.
Qed.

(** The layer at index 1 of a model of a well-formed store is flat. *)
Lemma extract_core_model_flat har h core h' :
  wf_store h -> extract_core_model har h = Ok (core, h') -> flat h core.
Proof.
  intros Hwf H. apply extract_core_model_inv in H as (_ & m & Hm & Hcore).
  apply get_model_inv in Hm as (_ & l & Hl & Hc).
  destruct (Hwf _ _ _ Hl Hc) as [_ Hsh]. intros mc Hmc.
  apply (Hsh core mc); [| done]. left. by eapply list_elem_of_lookup_2.
Qed.

End StoreFacts.

(** ** Output of the dispatcher *)

Module EventFacts.
Import Keras Run KerasSpec RunSpec FreezeSpec GraphFacts HeadFacts HarOutputFacts
  FreezeFacts StoreFacts.
Local Open Scope string_scope.
Local Open Scope Z_scope.
Local Open Scope list_scope.
Local Open Scope run_scope.

Section RunFacts.
Context {S : Services} {T : Trainer}.

Lemma dbind_Ok {A B} (c : D A) (k : A -> D B) st a st1 :
  c st = Ok (a, st1) -> dbind c k st = k a st1.
Proof. unfold dbind. by intros ->. Qed.

Lemma dbind_Raise {A B} (c : D A) (k : A -> D B) st e :
  c st = Raise e -> dbind c k st = Raise e.
Proof. unfold dbind. by intros ->. Qed.

Lemma dbind_inv {A B} (c : D A) (k : A -> D B) st b st2 :
  dbind c k st = Ok (b, st2) -> exists a st1, c st = Ok (a, st1) /\ k a st1 = Ok (b, st2).
Proof. unfold dbind. destruct (c st) as [[a st1]|]; [eauto | done]. Qed.

Section Preserves.
Context (R : state -> state -> Prop) `{!PreOrder R}.

Lemma preserves_dret {A} (a : A) : preserves R (dret a).
Proof. intros st a' st' [= <- <-]. reflexivity. Qed.

Lemma preserves_draise {A} e : preserves R (draise (A:=A) e).
Proof. intros st a' st' [=]. Qed.

Lemma preserves_dbind {A B} (c : D A) (k : A -> D B) :
  preserves R c -> (forall a, preserves R (k a)) -> preserves R (dbind c k).
Proof.
  intros Hc Hk st b st2 H. apply dbind_inv in H as (a & st1 & H1 & H2).
  transitivity st1; [by eapply Hc | by eapply Hk].
Qed.

Lemma preserves_lift_result {A} (r : result A) : preserves R (lift_result r).
Proof. intros st a st' H. unfold lift_result in H. destruct r; [| done]. by injection H as <- <-. Qed.

End Preserves.

Global Instance out_ext_preorder P : PreOrder (out_ext P).
Proof.
  split.
  - intros st. exists []. by rewrite app_nil_r.
  - intros st1 st2 st3 (es1 & H1 & F1) (es2 & H2 & F2).
    exists (es1 ++ es2). rewrite H2, H1, app_assoc. split; [done |].
    by apply Forall_app.
Qed.

Lemma out_ext_same P st st' : out st' = out st -> out_ext P st st'.
Proof. intros H. exists []. by rewrite app_nil_r. Qed.

Lemma out_ext_app P st st' es : out st' = out st ++ es -> Forall P es -> out_ext P st st'.
Proof. intros H F. by exists es. Qed.

Global Instance is_print_ok : PrintOk is_print.
Proof. by intros e. Qed.

Lemma prints_ok P `{!PrintOk P} es : Forall is_print es -> Forall P es.
Proof. intros H. eapply Forall_impl; [exact H | apply print_ok]. Qed.

Lemma Forall_notice_event l : Forall is_print (map notice_event l).
Proof. induction l as [|[e d] l IH]; simpl; constructor; auto. exact I. Qed.

Lemma rbind_inv {A B} (r : result A) (k : A -> result B) b :
  rbind r k = Ok b -> exists a, r = Ok a /\ k a = Ok b.
Proof. destruct r; [eauto | done]. Qed.

Lemma prepare_dataset_prints path ws users vsp v target b es :
  prepare_dataset path ws users vsp v target = Ok (b, es) -> Forall is_print es.
Proof.
  unfold prepare_dataset. destruct (users _) as [[tr te]|]; [| done].
  intros [= _ <-]. repeat (apply Forall_app; split); repeat case_match; repeat constructor.
Qed.

Lemma load_unlabelled_dataset_prints pd path ws rep max v mutated merged label es :
  load_unlabelled_dataset pd path ws rep max v = Ok (mutated, merged, label, es) ->
  Forall is_print es.
Proof.
  unfold load_unlabelled_dataset. intros H.
  repeat (apply rbind_inv in H as (? & ? & H)).
  injection H as <- <- <- <-.
  apply Forall_app. split.
  - destruct x0 as [b es0]. by eapply prepare_dataset_prints.
  - unfold generate_unlabelled_datasets_variations. simpl. repeat constructor.
Qed.

End RunFacts.

(** Walks through a computation of the dispatcher: binds and branches
    are taken apart, the named steps are unfolded, and [close] is run on
    every state update that remains. *)
Ltac preserves_leaf close :=
  let st := fresh "st" in let a := fresh "a" in let st' := fresh "st'" in
  let H := fresh "H" in
  intros st a st' H; cbv beta in H;
  repeat (case_match; try discriminate);
  simplify_eq; close.

Ltac preserves_walk special close :=
  first [ special |
  lazymatch goal with
  | |- preserves _ (dbind _ _) =>
      apply preserves_dbind; [tc_solve | preserves_walk special close | intros ?; preserves_walk special close]
  | |- preserves _ (dret _) => apply preserves_dret; tc_solve
  | |- preserves _ (draise _) => apply preserves_draise
  | |- preserves _ (lift_result _) => apply preserves_lift_result; tc_solve
  | |- preserves _ (if ?b then _ else _) => destruct b; preserves_walk special close
  | |- preserves _ (match ?x with _ => _ end) => destruct x; preserves_walk special close
  | |- preserves _ (emit_verbose _ _) => unfold emit_verbose; preserves_walk special close
  | |- preserves _ (config_default _ _ _) => unfold config_default; preserves_walk special close
  | |- preserves _ (config_item _ _) => unfold config_item; preserves_walk special close
  | |- preserves _ (config_set _ _ _) => unfold config_set; preserves_walk special close
  | |- preserves _ (do_load_model _) => unfold do_load_model; preserves_walk special close
  | |- preserves _ (previous_missing _) => unfold previous_missing; preserves_walk special close
  | |- preserves _ (resolve_previous_config _) =>
      unfold resolve_previous_config; preserves_walk special close
  | |- preserves _ (har_start_model _ _ _ _) => unfold har_start_model; preserves_walk special close
  | |- preserves _ (freeze_and_attach _ _ _) => unfold freeze_and_attach; preserves_walk special close
  | |- preserves _ (evaluate_on_unlabelled _ _ _ _ _ _) =>
      unfold evaluate_on_unlabelled; preserves_walk special close
  | |- preserves _ (eval_flag_branch _ _ _) => unfold eval_flag_branch; preserves_walk special close
  | |- preserves _ (eval_har_branch _ _ _ _) => unfold eval_har_branch; preserves_walk special close
  | |- preserves _ (transform_train_branch _ _ _ _ _ _ _) =>
      unfold transform_train_branch; preserves_walk special close
  | |- preserves _ (har_train_branch _ _ _ _ _ _ _ _) =>
      unfold har_train_branch; preserves_walk special close
  | |- preserves _ (self_training_branch _ _ _ _ _ _ _) =>
      unfold self_training_branch; preserves_walk special close
  | |- preserves _ (emit _) => unfold emit; preserves_leaf close
  | |- preserves _ now => unfold now; preserves_leaf close
  | |- preserves _ (config_at _) => unfold config_at; preserves_leaf close
  | |- preserves _ get_optimizer => unfold get_optimizer; preserves_leaf close
  | |- preserves _ labelled => unfold labelled; preserves_leaf close
  | |- preserves _ (prepared_array _) => unfold prepared_array; preserves_leaf close
  | |- preserves _ (do_predict _ _ _) => unfold do_predict; preserves_leaf close
  | |- preserves _ (do_train _) => unfold do_train; preserves_leaf close
  | |- preserves _ (lift_keras _) => unfold lift_keras; preserves_leaf close
  | |- preserves _ (ensure_unlabelled _ _) => unfold ensure_unlabelled; preserves_leaf close
  | |- preserves _ (fun _ => _) => preserves_leaf close
  | |- preserves _ (train_and_evaluate _ _ _ _ _ _ _ _) =>
      unfold train_and_evaluate; preserves_walk special close
  | |- preserves _ (dispatch _ _ _ _) => unfold dispatch; preserves_walk special close
  | |- preserves _ (run_experiment _ _) => unfold run_experiment; preserves_walk special close
  end ].

Ltac preserves_go close := preserves_walk ltac:(fail) close.

Ltac events_tac :=
  first
    [ exact (List.Forall_nil _)
    | apply List.Forall_cons; [hnf; first [exact I | exact eq_refl] | events_tac]
    | apply prints_ok;
      [ tc_solve
      | first [ apply Forall_notice_event
              | eapply load_unlabelled_dataset_prints; eassumption
              | repeat (apply List.Forall_cons; [exact I |]); exact (List.Forall_nil _) ] ] ].

Ltac close_out :=
  first
    [ apply out_ext_same; reflexivity
    | eapply out_ext_app; [reflexivity | events_tac] ].

Section Schedules.
Context {S : Services} {T : Trainer}.

Global Instance uses_schedule_ok f : PrintOk (uses_schedule f).
Proof. intros [] H; try exact I. destruct H. Qed.

Global Instance any_event_ok : PrintOk any_event.
Proof. by intros e. Qed.

Lemma trains_bind_l {A B} (c : D A) (k : A -> D B) :
  trains c -> (forall a, preserves (out_ext any_event) (k a)) -> trains (dbind c k).
Proof.
  intros Hc Hk st b st2 H. apply dbind_inv in H as (a & st1 & H1 & H2).
  destruct (Hc _ _ _ H1) as (es1 & E1 & X1).
  destruct (Hk _ _ _ _ H2) as (es2 & E2 & _).
  exists (es1 ++ es2). rewrite E2, E1, app_assoc. split; [done |].
  apply Exists_app. by left.
Qed.

Lemma trains_bind_r {A B} (c : D A) (k : A -> D B) :
  preserves (out_ext any_event) c -> (forall a, trains (k a)) -> trains (dbind c k).
Proof.
  intros Hc Hk st b st2 H. apply dbind_inv in H as (a & st1 & H1 & H2).
  destruct (Hc _ _ _ H1) as (es1 & E1 & _).
  destruct (Hk _ _ _ _ H2) as (es2 & E2 & X2).
  exists (es1 ++ es2). rewrite E2, E1, app_assoc. split; [done |].
  apply Exists_app. by right.
Qed.

Lemma trains_do_train req : trains (do_train req).
Proof.
  intros st a st' [= <- <-]. exists [Train req (store st)]. split; [done |].
  constructor. exact I.
Qed.

Lemma trains_draise {A} e : trains (draise (A:=A) e).
Proof. intros st a st' [=]. Qed.

End Schedules.

Ltac trains_go :=
  lazymatch goal with
  | |- trains (dbind (do_train _) _) =>
      apply trains_bind_l; [apply trains_do_train | intros ?; preserves_go close_out]
  | |- trains (dbind (if ?b then do_train _ else do_train _) _) =>
      apply trains_bind_l;
      [destruct b; apply trains_do_train | intros ?; preserves_go close_out]
  | |- trains (dbind _ _) =>
      apply trains_bind_r; [preserves_go close_out | intros ?; trains_go]
  | |- trains (draise _) => apply trains_draise
  | |- trains (if ?b then _ else _) => destruct b; trains_go
  | |- trains (match ?x with _ => _ end) => destruct x; trains_go
  end.

Section Branches.
Context {S : Services} {T : Trainer}.

Lemma transform_train_branch_schedule env i prev tag lr epochs batch :
  preserves (out_ext (uses_schedule (training_rate_schedule_transform lr)))
    (transform_train_branch env i prev tag lr epochs batch).
Proof. preserves_go close_out. Qed.

Lemma har_train_branch_schedule env i t prev tag lr epochs batch :
  preserves (out_ext (uses_schedule (training_rate_schedule_har lr)))
    (har_train_branch env i t prev tag lr epochs batch).
Proof. preserves_go close_out. Qed.

Lemma eval_flag_branch_plain P `{!PrintOk P} env i tag :
  preserves (out_ext P) (eval_flag_branch env i tag).
Proof. preserves_go close_out. Qed.

Lemma transform_train_branch_trains env i prev tag lr epochs batch :
  trains (transform_train_branch env i prev tag lr epochs batch).
Proof. unfold transform_train_branch. trains_go. Qed.

Lemma har_train_branch_trains env i t prev tag lr epochs batch :
  trains (har_train_branch env i t prev tag lr epochs batch).
Proof. unfold har_train_branch. trains_go. Qed.

End Branches.

End EventFacts.

(** ** Config lookups of the dispatcher *)

Module ConfigStepFacts.
Import Keras Run KerasSpec RunSpec FreezeSpec GraphFacts HeadFacts HarOutputFacts
  FreezeFacts StoreFacts EventFacts.
Local Open Scope string_scope.
Local Open Scope Z_scope.
Local Open Scope list_scope.
Local Open Scope run_scope.

Section ConfigSteps.
Context {S : Services} {T : Trainer}.

Lemma config_default_inv idx entry set_value st v st' :
  config_default idx entry set_value st = Ok (v, st') ->
  exists c,
    experiment_configs st !! idx = Some c
    /\ resolved (strftime_now (clock st)) c entry = Some v
    /\ experiment_configs st' = <[idx := memoized c entry v set_value]> (experiment_configs st)
    /\ out st' = out st ++ memo_notice c entry v set_value
    /\ prepared_datasets st' = prepared_datasets st
    /\ store st' = store st
    /\ var_optimizer st' = var_optimizer st
    /\ var_model st' = var_model st
    /\ ev st' = ev st /\ conv st' = conv st
    /\ y_true st' = y_true st /\ y_pred st' = y_pred st.
Proof.
  unfold config_default. intros H.
  apply dbind_inv in H as (c' & st1 & Hc & H).
  unfold config_at in Hc. destruct (experiment_configs st !! idx) as [c|] eqn:E; [| done].
  injection Hc as <- <-. exists c. split; [done |].
  unfold resolved, memoized, memo_notice.
  apply dbind_inv in H as (t & st2 & Ht & H).
  apply dbind_inv in H as (r & st3 & Hr & H).
  unfold lift_result in Hr.
  destruct (get_config_default_value_if_none t c entry set_value) as [[[v0 c1] ns]|] eqn:G;
    [| done].
  injection Hr as <- <-. simpl in H. injection H as <- <-. simpl.
  unfold get_config_default_value_if_none in G.
  destruct (c !! entry) as [v1|] eqn:Ee.
  - injection G as <- <- <-. injection Ht as <- <-. simpl.
    repeat split; try done.
  - destruct (String.eqb_spec entry "tag") as [-> | Hne].
    + unfold now in Ht. injection Ht as <- <-. simpl in *.
      destruct set_value; injection G as <- <- <-; simpl; repeat split; done.
    + injection Ht as <- <-.
      assert (Hd : default_value (strftime_now (clock st)) entry = default_value "" entry).
      { unfold default_value. apply String.eqb_neq in Hne. by rewrite Hne. }
      rewrite Hd.
      destruct (default_value "" entry) as [d|]; [| done].
      destruct set_value; injection G as <- <- <-; simpl; repeat split; done.
Qed.

Lemma config_default_present idx entry set_value st c v :
  experiment_configs st !! idx = Some c -> c !! entry = Some v ->
  config_default idx entry set_value st = Ok (v, st).
Proof.
  intros Hc He. unfold config_default.
  erewrite dbind_Ok by (unfold config_at; by rewrite Hc).
  rewrite He. erewrite dbind_Ok by reflexivity.
  unfold get_config_default_value_if_none. rewrite He. simpl.
  unfold dbind, emit, dret. simpl. do 2 f_equal.
  destruct st. unfold set_out, set_configs. simpl in *.
  by rewrite app_nil_r, list_insert_id.
Qed.

Lemma config_default_run idx entry set_value st c v :
  experiment_configs st !! idx = Some c ->
  resolved (strftime_now (clock st)) c entry = Some v ->
  exists st', config_default idx entry set_value st = Ok (v, st').
Proof.
  intros Hc Hr. unfold resolved in Hr.
  destruct (c !! entry) as [v0|] eqn:He.
  - injection Hr as ->. exists st. by eapply config_default_present.
  - unfold config_default.
    erewrite dbind_Ok by (unfold config_at; by rewrite Hc).
    rewrite He.
    destruct (String.eqb_spec entry "tag") as [-> | Hne].
    + erewrite dbind_Ok by reflexivity.
      unfold get_config_default_value_if_none. rewrite He, Hr.
      destruct set_value; simpl; eauto.
    + erewrite dbind_Ok by reflexivity.
      assert (Hd : default_value "" entry = Some v).
      { rewrite <- Hr. unfold default_value. apply String.eqb_neq in Hne. by rewrite Hne. }
      unfold get_config_default_value_if_none. rewrite He, Hd.
      destruct set_value; simpl; eauto.
Qed.

Global Instance frame_preorder K : PreOrder (frame K).
Proof.
  split.
  - intros st. split; try done; first [reflexivity | eauto].
  - intros st1 st2 st3 [] []. split; try congruence.
    + by etransitivity.
    + intros j c Hj. destruct (fr_configs0 j c Hj) as (c' & Hc' & Ha).
      destruct (fr_configs1 j c' Hc') as (c'' & Hc'' & Ha').
      exists c''. split; [done |]. intros k Hk. rewrite Ha', Ha; done.
Qed.

Lemma frame_weaken K K' st st' : K ⊆ K' -> frame K st st' -> frame K' st st'.
Proof.
  intros Hsub []. split; try done.
  intros j c Hj. destruct (fr_configs0 j c Hj) as (c' & Hc' & Ha).
  exists c'. split; [done |]. intros k Hk. apply Ha. set_solver.
Qed.

Lemma config_default_frame idx entry set_value st v st' :
  config_default idx entry set_value st = Ok (v, st') -> frame [entry] st st'.
Proof.
  intros H. apply config_default_inv in H
    as (c & Hc & Hr & Hcs & Hout & ? & ? & ? & ? & ? & ? & ? & ?).
  split; try done.
  - eapply out_ext_app; [done |]. unfold memo_notice. repeat case_match; repeat constructor.
  - rewrite Hcs. apply length_insert.
  - intros j cj Hj. rewrite Hcs. destruct (decide (j = idx)) as [-> | Hne].
    + rewrite list_lookup_insert_eq by (by eapply lookup_lt_Some).
      eexists. split; [done |]. intros k Hk. rewrite Hj in Hc. injection Hc as ->.
      unfold memoized. repeat case_match; try done.
      rewrite lookup_insert_ne; [done | set_solver].
    + rewrite list_lookup_insert_ne by done. eauto.
Qed.

End ConfigSteps.

End ConfigStepFacts.

(** ** Resolution of the previous config *)

Module ResolutionFacts.
Import Keras Run KerasSpec RunSpec FreezeSpec GraphFacts HeadFacts HarOutputFacts
  FreezeFacts StoreFacts EventFacts ConfigStepFacts.
Local Open Scope string_scope.
Local Open Scope Z_scope.
Local Open Scope list_scope.
Local Open Scope run_scope.

Section Resolution.
Context {S : Services} {T : Trainer}.

Lemma offset_resolved now c :
  resolved now c "previous_config_offset" = Some (offset_of c).
Proof. unfold resolved, offset_of. by destruct (c !! "previous_config_offset"). Qed.

Lemma resolve_previous_config_run i st c :
  experiment_configs st !! i = Some c ->
  exists st1,
    config_default i "previous_config_offset" true st = Ok (offset_of c, st1)
    /\ frame ["previous_config_offset"] st st1
    /\ config_item i "previous_config_offset" st1 = Ok (offset_of c, st1)
    /\ resolve_previous_config i st =
       if eq_int (offset_of c) 0 then Ok (None, st1)
       else match previous_position (length (experiment_configs st)) i (offset_of c) with
            | Ok p => Ok (Some p, st1)
            | Raise e => Raise e
            end.
Proof.
  intros Hc.
  destruct (config_default_run i "previous_config_offset" true st c (offset_of c) Hc
              (offset_resolved _ c)) as [st1 H1].
  exists st1. split; [done |].
  pose proof (config_default_frame _ _ _ _ _ _ H1) as Hf. split; [done |].
  pose proof (config_default_inv _ _ _ _ _ _ H1) as (c0 & Hc0 & _ & Hcs & _).
  rewrite Hc in Hc0. injection Hc0 as <-.
  assert (Hitem : config_item i "previous_config_offset" st1 = Ok (offset_of c, st1)).
  { unfold config_item. erewrite dbind_Ok.
    2:{ unfold config_at. rewrite Hcs, list_lookup_insert_eq by (by eapply lookup_lt_Some).
        reflexivity. }
    unfold memoized, offset_of.
    destruct (c !! "previous_config_offset") as [v|] eqn:E; simpl.
    - by rewrite E.
    - by rewrite lookup_insert_eq. }
  split; [done |].
  unfold resolve_previous_config. erewrite dbind_Ok by exact H1.
  destruct (eq_int (offset_of c) 0); [done |].
  erewrite dbind_Ok by exact Hitem.
  unfold previous_position.
  destruct (int_sub (Z.of_nat i) (offset_of c)) as [k|e]; simpl; [| done].
  rewrite (dbind_Ok _ _ _ k st1) by done.
  rewrite (dbind_Ok _ _ _ (length (experiment_configs st1)) st1) by done.
  rewrite (fr_length _ _ _ Hf).
  destruct (subscript_pos (length (experiment_configs st)) k) as [p|e]; simpl; [| done].
  by rewrite (dbind_Ok _ _ _ p st1).
Qed.

Lemma previous_position_int n i off :
  (0 <= Z.of_nat i - off < Z.of_nat n ->
   previous_position n i (VInt off) = Ok (Z.to_nat (Z.of_nat i - off)))
  /\ (- Z.of_nat n <= Z.of_nat i - off < 0 ->
      previous_position n i (VInt off) = Ok (Z.to_nat (Z.of_nat i - off + Z.of_nat n)))
  /\ (Z.of_nat i - off < - Z.of_nat n \/ Z.of_nat n <= Z.of_nat i - off ->
      previous_position n i (VInt off) = Raise IndexError).
Proof.
  unfold previous_position. simpl. unfold index_pos.
  repeat split; intros H.
  - replace (0 <=? Z.of_nat i - off) with true by (symmetry; apply Z.leb_le; lia).
    by replace (Z.of_nat i - off <? Z.of_nat n) with true by (symmetry; apply Z.ltb_lt; lia).
  - replace (0 <=? Z.of_nat i - off) with false by (symmetry; apply Z.leb_gt; lia).
    replace (- Z.of_nat n <=? Z.of_nat i - off) with true by (symmetry; apply Z.leb_le; lia).
    by replace (Z.of_nat i - off <? 0) with true by (symmetry; apply Z.ltb_lt; lia).
  - destruct H as [H | H].
    + replace (0 <=? Z.of_nat i - off) with false by (symmetry; apply Z.leb_gt; lia).
      by replace (- Z.of_nat n <=? Z.of_nat i - off) with false
        by (symmetry; apply Z.leb_gt; lia).
    + replace (Z.of_nat i - off <? Z.of_nat n) with false by (symmetry; apply Z.ltb_ge; lia).
      replace (Z.of_nat i - off <? 0) with false by (symmetry; apply Z.ltb_ge; lia).
      by rewrite !andb_false_r.
Qed.

Lemma run_experiment_started env i st c t :
  experiment_configs st !! i = Some c -> c !! "type" = Some t ->
  run_experiment env i st =
    if eq_str t "none" then Ok (Next, started env i c st)
    else dbind (resolve_previous_config i) (dispatch env i t) (started env i c st).
Proof.
  intros Hc Ht. unfold run_experiment.
  erewrite dbind_Ok by (unfold config_at; by rewrite Hc).
  assert (Hs : emit_verbose env [PrintStarting i c] st = Ok (tt, started env i c st)).
  { unfold emit_verbose, started. by destruct (0 <? verbose env). }
  erewrite dbind_Ok by exact Hs.
  assert (Hc' : experiment_configs (started env i c st) !! i = Some c).
  { unfold started. by destruct (0 <? verbose env). }
  erewrite dbind_Ok by (by eapply config_default_present).
  by destruct (eq_str t "none").
Qed.

(** C1.  With [v] the value the experiment's [previous_config_offset]
    resolves to (0 when the field is missing): dependency resolution
    yields no previous config exactly when [v == 0]; otherwise it yields
    the position that the subscript [experiment_configs[i - v]]
    designates in the same list, that is [i - v] itself whenever the
    offset points at an earlier config, and raises where that subscript
    raises.  For every experiment whose type is not ['none'] the loop
    body consists of this resolution followed by the branches. *)
Theorem resolve_previous_config_spec (i : nat) (st : state) (c : gmap string value)
    (Hc : experiment_configs st !! i = Some c) :
  let n := length (experiment_configs st) in
  ((exists st', resolve_previous_config i st = Ok (None, st'))
     <-> eq_int (offset_of c) 0 = true)
  /\ (eq_int (offset_of c) 0 = false ->
      match previous_position n i (offset_of c) with
      | Ok p => exists st', resolve_previous_config i st = Ok (Some p, st')
                            /\ frame ["previous_config_offset"] st st'
      | Raise e => resolve_previous_config i st = Raise e
      end)
  /\ (forall off, offset_of c = VInt off -> 0 < off <= Z.of_nat i ->
      exists st' cp,
        resolve_previous_config i st = Ok (Some (i - Z.to_nat off)%nat, st')
        /\ experiment_configs st !! (i - Z.to_nat off)%nat = Some cp)
  /\ (forall env t, c !! "type" = Some t -> eq_str t "none" = false ->
      run_experiment env i st
      = dbind (resolve_previous_config i) (dispatch env i t) (started env i c st)).
Proof.
  intros n.
  destruct (resolve_previous_config_run i st c Hc) as (st1 & _ & Hf & _ & Hres).
  split; [| split; [| split]].
  - rewrite Hres. split.
    + intros [st' H]. destruct (eq_int (offset_of c) 0); [done |].
      destruct (previous_position _ _ _); done.
    + intros ->. eauto.
  - intros Hne. rewrite Hres, Hne. fold n.
    destruct (previous_position n i (offset_of c)); eauto.
  - intros off Hoff Hrange.
    assert (Hi : (i < n)%nat) by (by eapply lookup_lt_Some).
    destruct (lookup_lt_is_Some_2 (experiment_configs st) (i - Z.to_nat off)%nat)
      as [cp Hcp]; [fold n; lia |].
    exists st1, cp. split; [| done].
    rewrite Hres, Hoff. simpl.
    replace (off =? 0) with false by (symmetry; apply Z.eqb_neq; lia).
    destruct (previous_position_int (length (experiment_configs st)) i off) as (Hp & _).
    rewrite Hp by (unfold n in Hi; lia).
    do 3 f_equal. lia.
  - intros env t Ht Hnone. rewrite (run_experiment_started env i st c t Hc Ht).
    by rewrite Hnone.
Qed.

End Resolution.

End ResolutionFacts.

(** ** The way to the branches *)

Module DispatchFacts.
Import Keras Run KerasSpec RunSpec FreezeSpec GraphFacts HeadFacts HarOutputFacts
  FreezeFacts StoreFacts EventFacts ConfigStepFacts ResolutionFacts.
Local Open Scope string_scope.
Local Open Scope Z_scope.
Local Open Scope list_scope.
Local Open Scope run_scope.

Section MissingPrevious.
Context {S : Services} {T : Trainer}.

Lemma resolved_default now c entry d :
  default_value now entry = Some d -> resolved now c entry = Some (default d (c !! entry)).
Proof. intros H. unfold resolved. by destruct (c !! entry). Qed.

Lemma config_default_step idx entry set_value st c v :
  experiment_configs st !! idx = Some c ->
  resolved (strftime_now (clock st)) c entry = Some v ->
  exists st', config_default idx entry set_value st = Ok (v, st') /\ frame [entry] st st'.
Proof.
  intros Hc Hr. destruct (config_default_run idx entry set_value st c v Hc Hr) as [st' H].
  exists st'. split; [done |]. by eapply config_default_frame.
Qed.

Lemma config_default_noset idx entry st c v :
  experiment_configs st !! idx = Some c ->
  resolved "" c entry = Some v -> entry <> "tag" ->
  config_default idx entry false st = Ok (v, st).
Proof.
  intros Hc Hr Hne. unfold config_default.
  erewrite dbind_Ok by (unfold config_at; by rewrite Hc).
  apply String.eqb_neq in Hne. rewrite Hne.
  rewrite (dbind_Ok _ _ _ "" st) by (by destruct (c !! entry)).
  unfold resolved in Hr. unfold get_config_default_value_if_none.
  destruct (c !! entry) as [v0|] eqn:He.
  - injection Hr as ->. simpl. unfold dbind, emit, dret. simpl. do 2 f_equal.
    destruct st. unfold set_out, set_configs. simpl in *.
    by rewrite app_nil_r, list_insert_id.
  - rewrite Hr. simpl. unfold dbind, emit, dret. simpl. do 2 f_equal.
    destruct st. unfold set_out, set_configs. simpl in *.
    by rewrite app_nil_r, list_insert_id.
Qed.

Lemma previous_missing_untrained prev st :
  untrained (experiment_configs st) prev -> previous_missing prev st = Ok (true, st).
Proof.
  destruct prev as [p|]; simpl; [| done]. intros (cp & Hcp & Hempty).
  unfold previous_missing.
  erewrite dbind_Ok.
  2:{ eapply config_default_noset; [done | | done]. by apply resolved_default. }
  by rewrite Hempty.
Qed.

Lemma untrained_frame K st st' prev :
  "trained_model_path" ∉ K -> frame K st st' ->
  untrained (experiment_configs st) prev -> untrained (experiment_configs st') prev.
Proof.
  intros HK Hf. destruct prev as [p|]; simpl; [| done]. intros (cp & Hcp & Hempty).
  destruct (fr_configs _ _ _ Hf p cp Hcp) as (cp' & Hcp' & Ha).
  exists cp'. split; [done |]. by rewrite Ha.
Qed.

Lemma eval_har_branch_untrained env i prev tag st :
  untrained (experiment_configs st) prev ->
  eval_har_branch env i prev tag st
  = Ok (Next, set_out (out st ++ [PrintErrorEvaluationModel]) st).
Proof.
  intros H. unfold eval_har_branch.
  erewrite dbind_Ok by (by apply previous_missing_untrained).
  reflexivity.
Qed.

Lemma ensure_unlabelled_run env v st b :
  prepared_datasets st !! "labelled" = Some (PBundle b) ->
  exists st', ensure_unlabelled env v st = Ok (tt, st')
    /\ experiment_configs st' = experiment_configs st
    /\ store st' = store st
    /\ out_ext is_print st st'.
Proof.
  intros Hl. unfold ensure_unlabelled.
  destruct (prepared_datasets st !! "unlabelled") as [u|] eqn:Eu.
  - exists st. repeat split; [reflexivity].
  - destruct (load_unlabelled_dataset (prepared_datasets st)
                (a_unlabelled_dataset_path (args env)) (a_window_size (args env))
                (labelled_repeat env) (a_max_unlabelled_windows (args env)) v)
      as [[[[mutated merged] label] es]|e] eqn:El.
    + eexists. split; [reflexivity |]. repeat split.
      eapply out_ext_app; [reflexivity |]. by eapply load_unlabelled_dataset_prints.
    + exfalso. revert El. unfold load_unlabelled_dataset, get_bundle.
      rewrite Hl. simpl. unfold get_empty_test_users. simpl.
      destruct (a_max_unlabelled_windows (args env)); simpl;
        unfold get_array, get_bundle; simpl;
        repeat (rewrite ?lookup_insert_eq, ?lookup_insert_ne by done; simpl);
        rewrite ?Hl; simpl; done.
Qed.

Lemma resolve_previous_config_of i st c :
  experiment_configs st !! i = Some c ->
  match previous_of (experiment_configs st) i c with
  | Ok prev => exists st', resolve_previous_config i st = Ok (prev, st')
                           /\ frame ["previous_config_offset"] st st'
  | Raise e => resolve_previous_config i st = Raise e
  end.
Proof.
  intros Hc. destruct (resolve_previous_config_run i st c Hc) as (st1 & _ & Hf & _ & Hres).
  unfold previous_of. rewrite Hres.
  destruct (eq_int (offset_of c) 0); [eauto |].
  destruct (previous_position _ _ _); simpl; eauto.
Qed.

Lemma started_frame env i c st : frame [] st (started env i c st).
Proof.
  unfold started. destruct (0 <? verbose env); [| reflexivity].
  split; try done; [| eauto].
  eapply out_ext_app; [reflexivity |]. repeat constructor.
Qed.

Lemma resolved_tag now c : exists v, resolved now c "tag" = Some v.
Proof. unfold resolved. destruct (c !! "tag"); eauto. Qed.

(** An [eval_har] experiment reaches its branch with the state changed
    only by the defaults it has filled in. *)
Lemma run_experiment_eval_har env i st c prev :
  experiment_configs st !! i = Some c ->
  c !! "type" = Some (VStr "eval_har") ->
  previous_of (experiment_configs st) i c = Ok prev ->
  exists st2 tag_value,
    frame prefix_fields st st2
    /\ run_experiment env i st = eval_har_branch env i prev (make_tag env tag_value) st2.
Proof.
  intros Hc Ht Hprev.
  rewrite (run_experiment_started env i st c _ Hc Ht). simpl.
  pose proof (started_frame env i c st) as F0.
  destruct (fr_configs _ _ _ F0 i c Hc) as (c0 & Hc0 & A0).
  pose proof (resolve_previous_config_of i _ c0 Hc0) as Hres.
  assert (E0 : previous_of (experiment_configs (started env i c st)) i c0 = Ok prev).
  { unfold previous_of, offset_of. rewrite (fr_length _ _ _ F0), A0 by set_solver. done. }
  rewrite E0 in Hres. destruct Hres as (st1 & Hres & F1).
  erewrite dbind_Ok by exact Hres.
  destruct (fr_configs _ _ _ F1 i c0 Hc0) as (c1 & Hc1 & A1).
  destruct (resolved_tag (strftime_now (clock st1)) c1) as [tv Htv].
  destruct (config_default_step i "tag" true st1 c1 tv Hc1 Htv) as (st2 & H2 & F2).
  unfold dispatch. erewrite dbind_Ok by exact H2. simpl.
  exists st2, tv. split; [| done].
  etransitivity; [eapply frame_weaken; [| exact F0]; set_solver |].
  etransitivity; [eapply frame_weaken; [| exact F1]; set_solver |].
  eapply frame_weaken; [| exact F2]. unfold prefix_fields. set_solver.
Qed.

Lemma default_step_frame K i entry d st st_k c :
  frame K st st_k ->
  experiment_configs st !! i = Some c ->
  entry ∉ K -> default_value "" entry = Some d -> entry <> "tag" ->
  exists st', config_default i entry true st_k = Ok (field_or c entry d, st')
              /\ frame (entry :: K) st st'.
Proof.
  intros F Hc HK Hd Hne.
  destruct (fr_configs _ _ _ F i c Hc) as (ck & Hck & Ak).
  destruct (config_default_step i entry true st_k ck (field_or c entry d) Hck)
    as (st' & H & F').
  { unfold field_or. rewrite <- Ak by done. apply resolved_default.
    rewrite <- Hd. unfold default_value. apply String.eqb_neq in Hne. by rewrite Hne. }
  exists st'. split; [done |].
  etransitivity; [eapply frame_weaken; [| exact F]; set_solver |].
  eapply frame_weaken; [| exact F']. set_solver.
Qed.

Lemma with_optimizer_frame K t lr st : frame K st (with_optimizer t lr st).
Proof.
  unfold with_optimizer.
  repeat case_match;
    (split; try done; first [reflexivity | by apply out_ext_same | eauto]).
Qed.

Lemma run_experiment_training env i st c t prev :
  experiment_configs st !! i = Some c ->
  c !! "type" = Some t ->
  eq_str t "none" = false -> eq_str t "eval_har" = false ->
  previous_of (experiment_configs st) i c = Ok prev ->
  exists st3 tag_value,
    frame prefix_fields st st3
    /\ run_experiment env i st
       = train_and_evaluate env i t prev (make_tag env tag_value)
           (field_or c "initial_learning_rate" (VFloat (3 # 10000)))
           (field_or c "epochs" (VInt 30))
           (field_or c "batch_size" (VInt 300))
           (with_optimizer (field_or c "optimizer" (VStr "adam"))
              (field_or c "initial_learning_rate" (VFloat (3 # 10000))) st3).
Proof.
  intros Hc Ht Hnone Heval Hprev.
  rewrite (run_experiment_started env i st c _ Hc Ht), Hnone.
  pose proof (started_frame env i c st) as F0.
  destruct (fr_configs _ _ _ F0 i c Hc) as (c0 & Hc0 & A0).
  pose proof (resolve_previous_config_of i _ c0 Hc0) as Hres.
  assert (E0 : previous_of (experiment_configs (started env i c st)) i c0 = Ok prev).
  { unfold previous_of, offset_of. rewrite (fr_length _ _ _ F0), A0 by set_solver. done. }
  rewrite E0 in Hres. destruct Hres as (st1 & Hres & F1).
  erewrite dbind_Ok by exact Hres.
  assert (F01 : frame ["previous_config_offset"] st st1).
  { etransitivity; [eapply frame_weaken; [| exact F0]; set_solver | done]. }
  destruct (fr_configs _ _ _ F01 i c Hc) as (c1 & Hc1 & A1).
  destruct (resolved_tag (strftime_now (clock st1)) c1) as [tv Htv].
  destruct (config_default_step i "tag" true st1 c1 tv Hc1 Htv) as (st2 & H2 & F2).
  unfold dispatch. erewrite dbind_Ok by exact H2. rewrite Heval.
  assert (F02 : frame ["tag"; "previous_config_offset"] st st2).
  { etransitivity; [eapply frame_weaken; [| exact F01]; set_solver |].
    eapply frame_weaken; [| exact F2]. set_solver. }
  destruct (default_step_frame _ i "initial_learning_rate" _ st st2 c F02 Hc
              ltac:(set_solver) eq_refl ltac:(done)) as (st3 & H3 & F3).
  erewrite dbind_Ok by exact H3.
  destruct (default_step_frame _ i "epochs" _ st st3 c F3 Hc
              ltac:(set_solver) eq_refl ltac:(done)) as (st4 & H4 & F4).
  erewrite dbind_Ok by exact H4.
  destruct (default_step_frame _ i "batch_size" _ st st4 c F4 Hc
              ltac:(set_solver) eq_refl ltac:(done)) as (st5 & H5 & F5).
  erewrite dbind_Ok by exact H5.
  destruct (default_step_frame _ i "optimizer" _ st st5 c F5 Hc
              ltac:(set_solver) eq_refl ltac:(done)) as (st6 & H6 & F6).
  erewrite dbind_Ok by exact H6.
  exists st6, tv. split.
  - eapply frame_weaken; [| exact F6]. unfold prefix_fields. set_solver.
  - erewrite dbind_Ok; [reflexivity |].
    unfold with_optimizer. by repeat case_match.
Qed.

Lemma run_experiment_unresolved env i st c t e :
  experiment_configs st !! i = Some c ->
  c !! "type" = Some t -> eq_str t "none" = false ->
  previous_of (experiment_configs st) i c = Raise e ->
  run_experiment env i st = Raise e.
Proof.
  intros Hc Ht Hnone Hprev.
  rewrite (run_experiment_started env i st c _ Hc Ht), Hnone.
  pose proof (started_frame env i c st) as F0.
  destruct (fr_configs _ _ _ F0 i c Hc) as (c0 & Hc0 & A0).
  pose proof (resolve_previous_config_of i _ c0 Hc0) as Hres.
  assert (E0 : previous_of (experiment_configs (started env i c st)) i c0 = Raise e).
  { unfold previous_of, offset_of. rewrite (fr_length _ _ _ F0), A0 by set_solver. done. }
  rewrite E0 in Hres. by apply dbind_Raise.
Qed.

(** A completed loop body of a training experiment has run
    [train_and_evaluate] from a state that differs from the initial one
    by printed lines and resolved config fields only. *)
Lemma run_experiment_reaches_training env i st c ctl st' t :
  experiment_configs st !! i = Some c ->
  run_experiment env i st = Ok (ctl, st') ->
  c !! "type" = Some (VStr t) ->
  eq_str (VStr t) "none" = false -> eq_str (VStr t) "eval_har" = false ->
  exists st3 prev tv es0 epochs batch,
    out st3 = out st ++ es0 /\ Forall is_print es0 /\ store st3 = store st
    /\ train_and_evaluate env i (VStr t) prev (make_tag env tv)
         (field_or c "initial_learning_rate" (VFloat (3 # 10000))) epochs batch st3
       = Ok (ctl, st').
Proof.
  intros Hc Hrun Ht Hn He.
  destruct (previous_of (experiment_configs st) i c) as [prev|e] eqn:Hprev.
  - destruct (run_experiment_training env i st c _ prev Hc Ht Hn He Hprev)
      as (st3 & tv & F & E).
    rewrite E in Hrun.
    pose proof (with_optimizer_frame prefix_fields
                  (field_or c "optimizer" (VStr "adam"))
                  (field_or c "initial_learning_rate" (VFloat (3 # 10000))) st3) as Fo.
    pose proof (transitivity F Fo) as F'.
    destruct (fr_out _ _ _ F') as (es0 & E0 & F0).
    eexists _, prev, tv, es0, _, _. split; [exact E0 |]. split; [done |].
    split; [exact (fr_store _ _ _ F') | exact Hrun].
  - rewrite (run_experiment_unresolved env i st c _ e Hc Ht Hn Hprev) in Hrun. done.
Qed.

End MissingPrevious.

End DispatchFacts.

(** ** Experiments without a previous model *)

Module MissingPreviousFacts.
Import Keras Run KerasSpec RunSpec FreezeSpec GraphFacts HeadFacts HarOutputFacts
  FreezeFacts StoreFacts EventFacts ConfigStepFacts ResolutionFacts DispatchFacts.
Local Open Scope string_scope.
Local Open Scope Z_scope.
Local Open Scope list_scope.
Local Open Scope run_scope.

Section MissingPreviousTheorem.
Context {S : Services} {T : Trainer}.

Lemma self_training_branch_untrained env i t prev tag epochs batch st b :
  prepared_datasets st !! "labelled" = Some (PBundle b) ->
  untrained (experiment_configs st) prev ->
  exists st1,
    self_training_branch env i t prev tag epochs batch st
    = Ok (Break, set_out (out st1 ++ [PrintErrorNoPreviousModel]) st1)
    /\ experiment_configs st1 = experiment_configs st
    /\ store st1 = store st
    /\ out_ext is_print st st1.
Proof.
  intros Hl Hun.
  destruct (ensure_unlabelled_run env 1 st b Hl) as (st1 & H1 & Hcs & Hst & Hout).
  exists st1. split; [| done].
  unfold self_training_branch. erewrite dbind_Ok by exact H1.
  erewrite dbind_Ok by (apply previous_missing_untrained; by rewrite Hcs).
  by destruct prev.
Qed.

Lemma run_from_cons env i rest st ctl st' :
  run_experiment env i st = Ok (ctl, st') ->
  run_from env (i :: rest) st =
    match ctl with Break => Ok (Break, st') | Next => run_from env rest st' end.
Proof. intros H. simpl. erewrite dbind_Ok by exact H. by destruct ctl. Qed.

(** C2.  Let the previous config of experiment [i] be absent or hold an
    empty [trained_model_path].  An ['eval_har'] experiment then prints
    its error and lets the loop go on with the next experiment: no model
    is loaded, and [eval_results] of its own config is what it was.  A
    ['self_training'] or ['self_har'] experiment prints its error and
    leaves the loop, so none of the remaining experiments of the fold
    runs. *)
Theorem missing_previous_model (env : fold_env) (i : nat) (st : state)
    (c : gmap string value) (rest : list nat) (prev : option nat) (b : bundle)
    (Hc : experiment_configs st !! i = Some c)
    (Hprev : previous_of (experiment_configs st) i c = Ok prev)
    (Hun : untrained (experiment_configs st) prev)
    (Hlab : prepared_datasets st !! "labelled" = Some (PBundle b)) :
  (c !! "type" = Some (VStr "eval_har") ->
   exists st' es c',
     run_experiment env i st = Ok (Next, st')
     /\ out st' = out st ++ es ++ [PrintErrorEvaluationModel]
     /\ Forall is_print es
     /\ experiment_configs st' !! i = Some c'
     /\ c' !! "eval_results" = c !! "eval_results"
     /\ store st' = store st
     /\ run_from env (i :: rest) st = run_from env rest st')
  /\ (c !! "type" = Some (VStr "self_training") \/ c !! "type" = Some (VStr "self_har") ->
      exists st' es,
        run_experiment env i st = Ok (Break, st')
        /\ out st' = out st ++ es ++ [PrintErrorNoPreviousModel]
        /\ Forall is_print es
        /\ store st' = store st
        /\ run_from env (i :: rest) st = Ok (Break, st')).
Proof.
  split.
  - intros Ht.
    destruct (run_experiment_eval_har env i st c prev Hc Ht Hprev) as (st2 & tv & F & Hrun).
    rewrite eval_har_branch_untrained in Hrun
      by (eapply untrained_frame; [| exact F | exact Hun]; unfold prefix_fields; set_solver).
    destruct (fr_out _ _ _ F) as (es & Hout & Hes).
    destruct (fr_configs _ _ _ F i c Hc) as (c' & Hc' & A).
    eexists _, es, c'. split; [exact Hrun |].
    rewrite (run_from_cons _ _ rest _ _ _ Hrun). simpl.
    split; [by rewrite Hout, <- app_assoc |].
    split; [done |]. split; [done |].
    split; [apply A; unfold prefix_fields; set_solver |].
    split; [apply (fr_store _ _ _ F) | done].
  - intros Ht.
    assert (exists t, c !! "type" = Some t /\ eq_str t "none" = false
                      /\ eq_str t "eval_har" = false
                      /\ eq_str t "transform_train" = false
                      /\ eq_str t "har_full_train" || eq_str t "har_full_fine_tune"
                         || eq_str t "har_linear_train" = false
                      /\ eq_str t "self_training" || eq_str t "self_har" = true)
      as (t & Ht' & Hn & He & Htt & Hh & Hs).
    { destruct Ht as [Ht | Ht]; eexists; (split; [exact Ht |]); by vm_compute. }
    destruct (run_experiment_training env i st c t prev Hc Ht' Hn He Hprev)
      as (st3 & tv & F & Hrun).
    set (s := with_optimizer _ _ st3) in Hrun.
    assert (Fs : frame prefix_fields st s).
    { etransitivity; [exact F | apply with_optimizer_frame]. }
    destruct (self_training_branch_untrained env i t prev (make_tag env tv)
                (field_or c "epochs" (VInt 30)) (field_or c "batch_size" (VInt 300)) s b)
      as (s1 & Hself & Hcs & Hst & Hout1).
    { by rewrite (fr_prepared _ _ _ Fs). }
    { eapply untrained_frame; [| exact Fs | exact Hun]. unfold prefix_fields. set_solver. }
    unfold train_and_evaluate in Hrun. rewrite Htt, Hh, Hs in Hrun.
    rewrite (dbind_Ok _ _ _ tt s) in Hrun by done.
    rewrite (dbind_Ok _ _ _ tt s) in Hrun by done.
    erewrite dbind_Ok in Hrun by exact Hself.
    destruct (fr_out _ _ _ Fs) as (es & Hout & Hes).
    destruct Hout1 as (es1 & Hout1 & Hes1).
    eexists _, (es ++ es1). split; [exact Hrun |].
    rewrite (run_from_cons _ _ rest _ _ _ Hrun). simpl.
    split; [by rewrite Hout1, Hout, <- !app_assoc |].
    split; [by apply Forall_app |].
    split; [by rewrite Hst, (fr_store _ _ _ Fs) | done].
Qed.

End MissingPreviousTheorem.

End MissingPreviousFacts.

(** ** Learning-rate schedules *)

Module ScheduleFacts.
Import Keras Run KerasSpec RunSpec FreezeSpec GraphFacts HeadFacts HarOutputFacts
  FreezeFacts StoreFacts EventFacts ConfigStepFacts ResolutionFacts DispatchFacts
  MissingPreviousFacts.
Local Open Scope string_scope.
Local Open Scope Z_scope.
Local Open Scope list_scope.
Local Open Scope run_scope.

Section ScheduleTheorem.
Context {S : Services} {T : Trainer}.

Lemma half_power_step (k : Z) : (Qpower (1 # 2) (k + 1) == Qpower (1 # 2) k * (1 # 2))%Q.
Proof. rewrite Qpower_plus by discriminate. reflexivity. Qed.

Lemma epoch_block_next (e : Z) : (e + 15) / 15 = e / 15 + 1.
Proof. replace (e + 15) with (e + 1 * 15) by lia. apply Z.div_add. lia. Qed.

(** The rate of the step-decay schedule: [lr * 0.5 ** (epoch // 15)],
    so it is [lr] during the first fifteen epochs and is halved every
    fifteen epochs. *)
Lemma training_rate_schedule_transform_rate lr q epoch :
  as_number lr = Some q ->
  exists r r',
    training_rate_schedule_transform lr epoch = Ok (VFloat r)
    /\ (r == q * Qpower (1 # 2) (epoch / 15))%Q
    /\ training_rate_schedule_transform lr (epoch + 15) = Ok (VFloat r')
    /\ (r' == r * (1 # 2))%Q
    /\ (0 <= epoch < 15 -> (r == q)%Q).
Proof.
  intros Hq. unfold training_rate_schedule_transform. rewrite Hq.
  eexists _, _. split; [reflexivity |]. split; [reflexivity |].
  split; [reflexivity |]. split.
  - rewrite epoch_block_next, half_power_step. ring.
  - intros H. rewrite Z.div_small by lia. simpl. ring.
Qed.

Lemma scheduled_intro Q f es :
  Q f -> Exists is_train es -> Forall (uses_schedule f) es -> scheduled Q es.
Proof.
  intros HQ HX HF. split; [done |].
  eapply Forall_impl; [exact HF |]. intros e He req h ->. simpl in He. eauto.
Qed.

Lemma train_and_evaluate_transform env i prev tag lr epochs batch st ctl st' :
  train_and_evaluate env i (VStr "transform_train") prev tag lr epochs batch st
    = Ok (ctl, st') ->
  exists es, out st' = out st ++ es /\ Exists is_train es
             /\ Forall (uses_schedule (training_rate_schedule_transform lr)) es.
Proof.
  unfold train_and_evaluate.
  replace (eq_str (VStr "transform_train") "transform_train") with true by done.
  replace (eq_str (VStr "transform_train") "har_full_train"
           || eq_str (VStr "transform_train") "har_full_fine_tune"
           || eq_str (VStr "transform_train") "har_linear_train") with false by done.
  replace (eq_str (VStr "transform_train") "self_training"
           || eq_str (VStr "transform_train") "self_har") with false by done.
  intros H. apply dbind_inv in H as ([] & st1 & H1 & H2).
  destruct (transform_train_branch_trains _ _ _ _ _ _ _ _ _ _ H1) as (es1 & E1 & X1).
  destruct (transform_train_branch_schedule _ _ _ _ _ _ _ _ _ _ H1) as (es1' & E1' & F1).
  assert (es1' = es1) as -> by (rewrite E1 in E1'; by apply app_inv_head in E1').
  rewrite (dbind_Ok _ _ _ tt st1) in H2 by done.
  rewrite (dbind_Ok _ _ _ Next st1) in H2 by done.
  destruct (eval_flag_branch_plain (uses_schedule (training_rate_schedule_transform lr))
              _ _ _ _ _ _ H2) as (es2 & E2 & F2).
  exists (es1 ++ es2). rewrite E2, E1, app_assoc. split; [done |].
  split; [apply Exists_app; by left | by apply Forall_app].
Qed.

Lemma train_and_evaluate_har env i t prev tag lr epochs batch st ctl st' :
  har_training_type t ->
  train_and_evaluate env i (VStr t) prev tag lr epochs batch st = Ok (ctl, st') ->
  exists es, out st' = out st ++ es /\ Exists is_train es
             /\ Forall (uses_schedule (training_rate_schedule_har lr)) es.
Proof.
  intros Ht. unfold train_and_evaluate.
  assert (eq_str (VStr t) "transform_train" = false
          /\ eq_str (VStr t) "har_full_train" || eq_str (VStr t) "har_full_fine_tune"
             || eq_str (VStr t) "har_linear_train" = true
          /\ eq_str (VStr t) "self_training" || eq_str (VStr t) "self_har" = false)
    as (-> & -> & ->).
  { destruct Ht as [-> | [-> | ->]]; by vm_compute. }
  intros H. rewrite (dbind_Ok _ _ _ tt st) in H by done.
  apply dbind_inv in H as ([] & st1 & H1 & H2).
  destruct (har_train_branch_trains _ _ _ _ _ _ _ _ _ _ _ H1) as (es1 & E1 & X1).
  destruct (har_train_branch_schedule _ _ _ _ _ _ _ _ _ _ _ H1) as (es1' & E1' & F1).
  assert (es1' = es1) as -> by (rewrite E1 in E1'; by apply app_inv_head in E1').
  rewrite (dbind_Ok _ _ _ Next st1) in H2 by done.
  destruct (eval_flag_branch_plain (uses_schedule (training_rate_schedule_har lr))
              _ _ _ _ _ _ H2) as (es2 & E2 & F2).
  exists (es1 ++ es2). rewrite E2, E1, app_assoc. split; [done |].
  split; [apply Exists_app; by left | by apply Forall_app].
Qed.

(** C6.  Whenever the loop body completes for a ['transform_train']
    experiment it has called the trainer, and every such call carries a
    schedule whose rate at epoch [e] is the experiment's
    [initial_learning_rate] times [0.5 ** (e // 15)], hence half of the
    rate fifteen epochs earlier.  For ['har_full_train'],
    ['har_full_fine_tune'] and ['har_linear_train'] the schedule returns
    [initial_learning_rate] at every epoch. *)
Theorem training_rate_schedules (env : fold_env) (i : nat) (st : state)
    (c : gmap string value) (ctl : control) (st' : state)
    (Hc : experiment_configs st !! i = Some c)
    (Hrun : run_experiment env i st = Ok (ctl, st')) :
  let lr := field_or c "initial_learning_rate" (VFloat (3 # 10000)) in
  (c !! "type" = Some (VStr "transform_train") ->
   exists es, out st' = out st ++ es /\ scheduled (step_decayed lr) es)
  /\ (forall t, c !! "type" = Some (VStr t) -> har_training_type t ->
      exists es, out st' = out st ++ es /\ scheduled (constant_rate lr) es).
Proof.
  intros lr.
  split.
  - intros Ht.
    destruct (run_experiment_reaches_training _ _ _ _ _ _ _ Hc Hrun Ht eq_refl eq_refl)
      as (st3 & prev & tv & es0 & ep & bs & E0 & F0 & _ & H).
    apply train_and_evaluate_transform in H as (es & E & X & F).
    exists (es0 ++ es). rewrite E, E0, app_assoc. split; [done |].
    apply (scheduled_intro _ (training_rate_schedule_transform lr)).
    + intros q Hq epoch.
      destruct (training_rate_schedule_transform_rate lr q epoch Hq)
        as (r & r' & ? & ? & ? & ? & _).
      by exists r, r'.
    + apply Exists_app. by right.
    + apply Forall_app. split; [eapply prints_ok; [tc_solve | done] | done].
  - intros t Ht Hty.
    assert (eq_str (VStr t) "none" = false /\ eq_str (VStr t) "eval_har" = false)
      as [Hn He] by (destruct Hty as [-> | [-> | ->]]; by vm_compute).
    destruct (run_experiment_reaches_training _ _ _ _ _ _ _ Hc Hrun Ht Hn He)
      as (st3 & prev & tv & es0 & ep & bs & E0 & F0 & _ & H).
    apply train_and_evaluate_har in H as (es & E & X & F); [| done].
    exists (es0 ++ es). rewrite E, E0, app_assoc. split; [done |].
    apply (scheduled_intro _ (training_rate_schedule_har lr)).
    + by intros epoch.
    + apply Exists_app. by right.
    + apply Forall_app. split; [eapply prints_ok; [tc_solve | done] | done].
Qed.

End ScheduleTheorem.

End ScheduleFacts.

(** ** Frozen extractors *)

Module FrozenFacts.
Import Keras Run KerasSpec RunSpec FreezeSpec GraphFacts HeadFacts HarOutputFacts
  FreezeFacts StoreFacts EventFacts ConfigStepFacts ResolutionFacts DispatchFacts
  MissingPreviousFacts ScheduleFacts.
Local Open Scope string_scope.
Local Open Scope Z_scope.
Local Open Scope list_scope.
Local Open Scope nat_scope.
Local Open Scope keras_scope.

(** ** Freezing by experiment mode *)

Lemma get_model_class h h' x m :
  class_of h' x = class_of h x -> get_model x h = Ok (m, h) -> get_model x h' = Ok (m, h').
Proof.
  intros Hc Hm. apply get_model_inv in Hm as (_ & l & Hl & Hcl).
  unfold class_of in Hc. rewrite Hl in Hc. simpl in Hc.
  apply fmap_Some in Hc as (l' & Hl' & Hcl').
  eapply get_model_run; [exact Hl' | congruence].
Qed.

Lemma extract_core_model_class h h' x core :
  class_of h' x = class_of h x ->
  extract_core_model x h = Ok (core, h) -> extract_core_model x h' = Ok (core, h').
Proof.
  intros Hc H. apply extract_core_model_inv in H as (_ & m & Hm & Hcore).
  unfold extract_core_model. erewrite bind_Ok by (eapply get_model_class; eauto).
  by rewrite Hcore.
Qed.

Lemma set_freeze_layers_inv model b h u h' :
  set_freeze_layers model b h = Ok (u, h') -> exists m, get_model model h = Ok (m, h).
Proof.
  unfold set_freeze_layers. intros H. apply bind_inv in H as (m & h1 & Hm & _).
  pose proof (get_model_inv _ _ _ _ Hm) as [-> _]. eauto.
Qed.

Lemma set_freeze_layers_flags model boundary h u h' :
  wf_store h -> flat h model ->
  set_freeze_layers model (Z.of_nat <$> boundary) h = Ok (u, h') ->
  (forall id, class_of h' id = class_of h id)
  /\ layer_flags (boundary_flags boundary) model h'.
Proof.
  intros Hwf Hflat H. destruct (set_freeze_layers_inv _ _ _ _ _ H) as [m Hm].
  pose proof (get_model_inv _ _ _ _ Hm) as (_ & l & Hl & Hcl).
  assert (Hp : Forall (plain h) (m_layers m)).
  { apply Hflat. unfold class_of. rewrite Hl. simpl. by rewrite Hcl. }
  destruct (set_freeze_layers_run model boundary h m Hm Hp)
    as (h'' & E & _ & Hc & _ & Hf).
  rewrite E in H. injection H as _ <-.
  split; [done |]. exists m. split; [eapply get_model_class; eauto |].
  intros i id Hi.
  destruct (Hwf _ _ _ Hl Hcl) as [(Hnd & Hall & _) _].
  apply Hf; [done | | auto].
  rewrite Forall_forall in Hall. apply Hall. by eapply list_elem_of_lookup_2.
Qed.

Lemma flag_app h ls id b : flag h id = Some b -> flag (h ++ ls) id = Some b.
Proof.
  unfold flag. intros H. apply fmap_Some in H as (l & Hl & ->).
  by rewrite (lookup_app_l_Some _ _ _ _ Hl).
Qed.

Lemma layer_flags_app expected model h ls :
  layer_flags expected model h -> layer_flags expected model (h ++ ls).
Proof.
  intros (m & Hm & Hf). exists m. split.
  - apply get_model_inv in Hm as (_ & l & Hl & Hcl).
    eapply get_model_run; [by apply lookup_app_l_Some | done].
  - intros i id Hi. apply flag_app. by eapply Hf.
Qed.

Lemma full_head_graph core inp :
  core < inp ->
  exists rest,
    graph_layers [TInput inp]
      [TCall (inp + 3) (TCall (inp + 2) (TCall (inp + 1) (TCall core (TInput inp))))]
    = inp :: core :: rest.
Proof.
  intros Hlt. apply stem_graph_layers; [lia | done |].
  intros o Ho. apply list_elem_of_singleton in Ho as ->.
  eexists [_; _; _]. simpl. split; [reflexivity |]. split; [done |].
  split; apply not_elem_of_above; repeat constructor; lia.
Qed.

Lemma linear_head_graph core inp :
  core < inp ->
  exists rest,
    graph_layers [TInput inp] [TCall (inp + 2) (TCall (inp + 1) (TCall core (TInput inp)))]
    = inp :: core :: rest.
Proof.
  intros Hlt. apply stem_graph_layers; [lia | done |].
  intros o Ho. apply list_elem_of_singleton in Ho as ->.
  eexists [_; _]. simpl. split; [reflexivity |]. split; [done |].
  split; apply not_elem_of_above; repeat constructor; lia.
Qed.

Lemma attach_full_har_classification_head_frozen expected core os opt nu name h hm h' :
  attach_full_har_classification_head core os opt nu name h = Ok (hm, h') ->
  layer_flags expected core h -> frozen_as expected hm h'.
Proof.
  intros H Hf. pose proof H as H0. unfold attach_full_har_classification_head in H0.
  apply bind_inv in H0 as (shape & h1 & Hs & _).
  pose proof (input_shape_of_inv _ _ _ _ Hs) as (-> & l & m0 & Hl & _).
  pose proof (lookup_lt_Some _ _ _ Hl) as Hlt.
  rewrite (attach_full_har_classification_head_run _ _ _ _ _ _ _ Hs) in H.
  injection H as <- <-. exists core. split.
  - destruct (full_head_graph core (length h) Hlt) as [rest Hrest].
    by eapply extract_core_model_compiled.
  - by do 2 apply layer_flags_app.
Qed.

Lemma attach_linear_classification_head_frozen expected core os opt name h hm h' :
  attach_linear_classification_head core os opt name h = Ok (hm, h') ->
  layer_flags expected core h -> frozen_as expected hm h'.
Proof.
  intros H Hf. pose proof H as H0. unfold attach_linear_classification_head in H0.
  apply bind_inv in H0 as (shape & h1 & Hs & _).
  pose proof (input_shape_of_inv _ _ _ _ Hs) as (-> & l & m0 & Hl & _).
  pose proof (lookup_lt_Some _ _ _ Hl) as Hlt.
  rewrite (attach_linear_classification_head_run _ _ _ _ _ _ Hs) in H.
  injection H as <- <-. exists core. split.
  - destruct (linear_head_graph core (length h) Hlt) as [rest Hrest].
    by eapply extract_core_model_compiled.
  - by do 2 apply layer_flags_app.
Qed.

(** Freezing the extractor of a complete model. *)
Lemma set_freeze_layers_frozen har core boundary h u h' :
  wf_store h ->
  extract_core_model har h = Ok (core, h) ->
  set_freeze_layers core (Z.of_nat <$> boundary) h = Ok (u, h') ->
  frozen_as (boundary_flags boundary) har h'.
Proof.
  intros Hwf Hc H.
  pose proof (extract_core_model_flat _ _ _ _ Hwf Hc) as Hflat.
  destruct (set_freeze_layers_flags _ _ _ _ _ Hwf Hflat H) as [Hcl Hf].
  exists core. split; [| done]. eapply extract_core_model_class; eauto.
Qed.

End FrozenFacts.

(** ** Freezing by experiment type *)

Module FreezingFacts.
Import Keras Run KerasSpec RunSpec FreezeSpec GraphFacts HeadFacts HarOutputFacts
  FreezeFacts StoreFacts EventFacts ConfigStepFacts ResolutionFacts DispatchFacts
  MissingPreviousFacts ScheduleFacts FrozenFacts.
Local Open Scope string_scope.
Local Open Scope Z_scope.
Local Open Scope list_scope.
Local Open Scope nat_scope.

Section Freezing.
Context {S : Services} {T : Trainer}.

Lemma lift_keras_inv {A} (c : K A) st a st' :
  lift_keras c st = Ok (a, st') -> exists h, c (store st) = Ok (a, h) /\ st' = set_store h st.
Proof.
  unfold lift_keras. destruct (c (store st)) as [[a0 h]|]; [| done].
  intros [= <- <-]. eauto.
Qed.

Lemma get_optimizer_inv st o st' : get_optimizer st = Ok (o, st') -> st' = st.
Proof. unfold get_optimizer. destruct (var_optimizer st); [| done]. by intros [= _ <-]. Qed.

Lemma dret_inv {A} (a b : A) st st' : dret a st = Ok (b, st') -> a = b /\ st = st'.
Proof. by intros [= <- <-]. Qed.

Lemma returns_dbind {A B} (P : B -> Prop) (c : D A) (k : A -> D B) :
  (forall a, returns P (k a)) -> returns P (dbind c k).
Proof. intros Hk st b st2 H. apply dbind_inv in H as (a & st1 & _ & H). by eapply Hk. Qed.

Lemma returns_dret {A} (P : A -> Prop) (a : A) : P a -> returns P (dret a).
Proof. by intros H st b st' [= <- _]. Qed.

Global Instance frozen_event_ok expected : PrintOk (frozen_event expected).
Proof. intros [] H; try exact I. destruct H. Qed.

Global Instance wf_rel_preorder : PreOrder wf_rel.
Proof. split; [intros st H; exact H | intros st1 st2 st3 H1 H2 Hwf; exact (H2 (H1 Hwf))]. Qed.

Lemma starts_flat_dbind {A} (c : D A) (k : A -> D har_start) :
  preserves wf_rel c -> (forall a, starts_flat (k a)) -> starts_flat (dbind c k).
Proof.
  intros Hc Hk st b st2 Hwf H. apply dbind_inv in H as (a & st1 & H1 & H2).
  eapply Hk; [| exact H2]. by eapply Hc.
Qed.

Lemma starts_flat_har har : starts_flat (dret (HarModel har)).
Proof. by intros st a st' _ [= <- _]. Qed.

Lemma starts_flat_extract previous :
  starts_flat (dbind (lift_keras (extract_core_model previous))
                 (fun core => dret (CoreModel core))).
Proof.
  intros st a st' Hwf H. apply dbind_inv in H as (core & st1 & H1 & H2).
  apply lift_keras_inv in H1 as (h & H1 & ->). injection H2 as <- <-. simpl.
  pose proof (extract_core_model_inv _ _ _ _ H1) as [-> _].
  by eapply extract_core_model_flat.
Qed.

Lemma starts_flat_create shape name :
  starts_flat (dbind (lift_keras (create_1d_conv_core_model shape name))
                 (fun core => dret (CoreModel core))).
Proof.
  intros st a st' Hwf H. apply dbind_inv in H as (core & st1 & H1 & H2).
  apply lift_keras_inv in H1 as (h & H1 & ->). injection H2 as <- <-. simpl.
  by eapply create_1d_conv_core_model_plain.
Qed.

Lemma frozen_as_ext f g full h :
  (forall i, f i = g i) -> frozen_as f full h -> frozen_as g full h.
Proof.
  intros Hfg (core & Hc & m & Hm & Hf). exists core. split; [done |].
  exists m. split; [done |]. intros i id Hi. rewrite <- Hfg. by eapply Hf.
Qed.

End Freezing.

Ltac run_inv :=
  repeat match goal with
  | H : dbind _ _ _ = Ok _ |- _ =>
      let H1 := fresh "H" in let H2 := fresh "H" in
      apply dbind_inv in H as (? & ? & H1 & H2); cbv beta in H2
  | H : lift_keras _ _ = Ok _ |- _ => apply lift_keras_inv in H as (? & ? & ->)
  | H : get_optimizer _ = Ok _ |- _ => apply get_optimizer_inv in H as ->
  | H : dret _ _ = Ok _ |- _ => apply dret_inv in H as [<- <-]
  end.

Ltac close_wf Hload :=
  let Hwf := fresh "Hwf" in
  intros Hwf; simpl;
  first
    [ assumption
    | eapply Hload; eassumption
    | eapply extract_har_model_wf; eassumption
    | eapply create_1d_conv_core_model_wf; eassumption
    | match goal with
      | H : extract_core_model _ _ = Ok _ |- _ =>
          apply extract_core_model_inv in H as [-> _]; assumption
      end ].

Ltac returns_go :=
  lazymatch goal with
  | |- returns _ (dbind _ _) => apply returns_dbind; intros ?; returns_go
  | |- returns _ (dret _) => apply returns_dret; eauto
  | |- returns _ (if ?b then _ else _) => destruct b; returns_go
  | |- returns _ (match ?x with _ => _ end) => destruct x; returns_go
  end.

Ltac starts_go Hload :=
  lazymatch goal with
  | |- starts_flat (dbind (lift_keras (extract_core_model _)) _) =>
      apply starts_flat_extract
  | |- starts_flat (dbind (lift_keras (create_1d_conv_core_model _ _)) _) =>
      apply starts_flat_create
  | |- starts_flat (dbind _ _) =>
      apply starts_flat_dbind;
      [preserves_go ltac:(close_wf Hload) | intros ?; starts_go Hload]
  | |- starts_flat (dret (HarModel _)) => apply starts_flat_har
  | |- starts_flat (if ?b then _ else _) => destruct b; starts_go Hload
  | |- starts_flat (match ?x with _ => _ end) => destruct x; starts_go Hload
  end.

Section FreezingRun.
Context {S : Services} {T : Trainer}.
Hypothesis Hload : load_model_wf.

Lemma har_start_model_wf env t prev tag :
  preserves wf_rel (har_start_model env t prev tag).
Proof. preserves_go ltac:(close_wf Hload). Qed.

Lemma har_start_model_flat env t prev tag : starts_flat (har_start_model env t prev tag).
Proof. unfold har_start_model. starts_go Hload. Qed.

Lemma har_start_model_events P `{!PrintOk P} env t prev tag :
  preserves (out_ext P) (har_start_model env t prev tag).
Proof. preserves_go close_out. Qed.

Lemma har_start_model_linear env prev tag :
  returns (fun start => exists core, start = CoreModel core)
    (har_start_model env (VStr "har_linear_train") prev tag).
Proof.
  unfold har_start_model.
  change (eq_str (VStr "har_linear_train") "har_linear_train") with true.
  cbv iota. returns_go.
Qed.

Lemma freeze_and_attach_frozen env t start st hm st' :
  wf_store (store st) -> flat_start start (store st) -> har_training_type t ->
  (t = "har_linear_train" -> exists core, start = CoreModel core) ->
  freeze_and_attach env (VStr t) start st = Ok (hm, st') ->
  out st' = out st /\ frozen_as (mode_flags t) hm (store st').
Proof.
  intros Hwf Hflat Ht Hlin H. unfold freeze_and_attach in H.
  destruct Ht as [-> | [-> | ->]]; [| | destruct (Hlin eq_refl) as [core ->]];
    try destruct start as [core | har];
    repeat match type of H with
           | context [eq_str ?a ?b] =>
               let v := eval vm_compute in (eq_str a b) in
               change (eq_str a b) with v in H
           end;
    cbv iota in H; run_inv; simpl; (split; [reflexivity |]).
  all: simpl in *.
  all: try match goal with
       | H : extract_core_model _ _ = Ok _ |- _ =>
           pose proof (extract_core_model_inv _ _ _ _ H) as [-> _]
       end.
  all: match goal with
       | Hf : set_freeze_layers ?core ?b _ = Ok _,
         Ha : attach_full_har_classification_head _ _ _ _ _ _ = Ok _ |- _ =>
           eapply frozen_as_ext;
           [| eapply attach_full_har_classification_head_frozen;
              [exact Ha | eapply (set_freeze_layers_flags core (Z.to_nat <$> b)); eassumption]]
       | Hf : set_freeze_layers ?core ?b _ = Ok _,
         Ha : attach_linear_classification_head _ _ _ _ _ = Ok _ |- _ =>
           eapply frozen_as_ext;
           [| eapply attach_linear_classification_head_frozen;
              [exact Ha | eapply (set_freeze_layers_flags core (Z.to_nat <$> b)); eassumption]]
       | He : extract_core_model ?har _ = Ok _,
         Hf : set_freeze_layers ?core ?b _ = Ok _ |- _ =>
           eapply frozen_as_ext;
           [| eapply (set_freeze_layers_frozen har core (Z.to_nat <$> b)); eassumption]
       end.
  all: intros i; unfold mode_flags, boundary_flags; simpl;
    try (apply bool_decide_eq_true_2; lia); reflexivity.
Qed.

Lemma har_train_branch_frozen env i t prev tag lr epochs batch st u st' :
  wf_store (store st) -> har_training_type t ->
  har_train_branch env i (VStr t) prev tag lr epochs batch st = Ok (u, st') ->
  exists es, out st' = out st ++ es /\ Exists is_train es
             /\ Forall (frozen_event (mode_flags t)) es.
Proof.
  intros Hwf Ht H. unfold har_train_branch in H.
  apply dbind_inv in H as (start & s1 & H1 & H).
  apply dbind_inv in H as (hm & s2 & H2 & H).
  apply dbind_inv in H as (l & s3 & H3 & H).
  apply dbind_inv in H as (files & s4 & H4 & H).
  destruct (har_start_model_events (frozen_event (mode_flags t)) _ _ _ _ _ _ _ H1)
    as (es1 & E1 & F1).
  pose proof (har_start_model_wf _ _ _ _ _ _ _ H1 Hwf) as Hwf1.
  assert (t = "har_linear_train" -> exists core, start = CoreModel core) as Hlin.
  { intros ->. by eapply har_start_model_linear. }
  pose proof (har_start_model_flat _ _ _ _ _ _ _ Hwf H1) as Hflat.
  destruct (freeze_and_attach_frozen _ _ _ _ _ _ Hwf1 Hflat Ht Hlin H2) as [E2 Hfr].
  assert (s3 = s2) as ->.
  { unfold labelled in H3. destruct (get_bundle _ _); [| done]. by injection H3 as _ <-. }
  assert (out s4 = out s2 ++ [Train (make_request env hm (HarData (b_train l))
                                       (HarData (b_val l))
                                       (training_rate_schedule_har lr) epochs batch tag)
                                (store s2)]) as E4.
  { destruct (_ && _); injection H4 as _ <-; reflexivity. }
  assert (preserves (out_ext (frozen_event (mode_flags t)))
            (dbind (config_set i "trained_model_path" (VStr files.1))
               (fun _ => config_set i "trained_model_type" (VStr "har_model")))) as Hrest
    by preserves_go close_out.
  destruct (Hrest _ _ _ H) as (es3 & E3 & F3).
  eexists (es1 ++ [_] ++ es3). rewrite E3, E4, E2, E1, <- !app_assoc.
  split; [reflexivity |]. split.
  - apply Exists_app. right. constructor. exact I.
  - apply Forall_app. split; [done |]. constructor; [exact Hfr | done].
Qed.

End FreezingRun.

Section FreezingTheorem.
Context {S : Services} {T : Trainer}.

Lemma train_and_evaluate_frozen env i t prev tag lr epochs batch st ctl st' :
  load_model_wf -> wf_store (store st) -> har_training_type t ->
  train_and_evaluate env i (VStr t) prev tag lr epochs batch st = Ok (ctl, st') ->
  exists es, out st' = out st ++ es /\ Exists is_train es
             /\ Forall (frozen_event (mode_flags t)) es.
Proof.
  intros Hload Hwf Ht. unfold train_and_evaluate.
  assert (eq_str (VStr t) "transform_train" = false
          /\ eq_str (VStr t) "har_full_train" || eq_str (VStr t) "har_full_fine_tune"
             || eq_str (VStr t) "har_linear_train" = true
          /\ eq_str (VStr t) "self_training" || eq_str (VStr t) "self_har" = false)
    as (-> & -> & ->).
  { destruct Ht as [-> | [-> | ->]]; by vm_compute. }
  intros H. rewrite (dbind_Ok _ _ _ tt st) in H by done.
  apply dbind_inv in H as ([] & st1 & H1 & H2).
  destruct (har_train_branch_frozen Hload _ _ _ _ _ _ _ _ _ _ _ Hwf Ht H1)
    as (es1 & E1 & X1 & F1).
  rewrite (dbind_Ok _ _ _ Next st1) in H2 by done.
  destruct (eval_flag_branch_plain (frozen_event (mode_flags t)) _ _ _ _ _ _ H2)
    as (es2 & E2 & F2).
  exists (es1 ++ es2). rewrite E2, E1, app_assoc. split; [done |].
  split; [apply Exists_app; by left | by apply Forall_app].
Qed.

Lemma run_experiment_frozen env i st c ctl st' t :
  load_model_wf -> wf_store (store st) ->
  experiment_configs st !! i = Some c ->
  run_experiment env i st = Ok (ctl, st') ->
  c !! "type" = Some (VStr t) -> har_training_type t ->
  exists es, out st' = out st ++ es /\ Exists is_train es
             /\ Forall (frozen_event (mode_flags t)) es.
Proof.
  intros Hload Hwf Hc Hrun Ht Hty.
  assert (eq_str (VStr t) "none" = false /\ eq_str (VStr t) "eval_har" = false)
    as [Hn He] by (destruct Hty as [-> | [-> | ->]]; by vm_compute).
  destruct (run_experiment_reaches_training _ _ _ _ _ _ _ Hc Hrun Ht Hn He)
    as (st3 & prev & tv & es0 & ep & bs & E0 & F0 & Es & H).
  apply train_and_evaluate_frozen in H as (es & E & X & F);
    [| done | by rewrite Es | done].
  exists (es0 ++ es). rewrite E, E0, app_assoc. split; [done |].
  split; [apply Exists_app; by right |].
  apply Forall_app. split; [eapply prints_ok; [tc_solve | done] | done].
Qed.

(** C7.  Whenever the loop body completes for a HAR training experiment
    it has called the trainer, and at every such call the feature
    extractor of the model being trained, its layer at index 1, has its
    layers flagged by the experiment type: under ['har_linear_train'] no
    layer of the extractor is trainable, under ['har_full_train'] every
    layer is, and under ['har_full_fine_tune'] the layers before index 5
    are not trainable and the layers from index 5 on are.  Models are
    taken to list distinct layers that exist and to nest at most one
    model deep, a complete model around an extractor of plain layers, so
    that setting the flag of a layer of the extractor changes no other
    layer; this holds for every model built here and is assumed of the
    models [load_model] returns. *)
Theorem freeze_layers_by_mode (env : fold_env) (i : nat) (st : state)
    (c : gmap string value) (ctl : control) (st' : state)
    (Hload : load_model_wf) (Hwf : wf_store (store st))
    (Hc : experiment_configs st !! i = Some c)
    (Hrun : run_experiment env i st = Ok (ctl, st')) :
  (c !! "type" = Some (VStr "har_linear_train") ->
   exists es, out st' = out st ++ es /\ Exists is_train es
              /\ Forall (frozen_event (fun _ => false)) es)
  /\ (c !! "type" = Some (VStr "har_full_train") ->
   exists es, out st' = out st ++ es /\ Exists is_train es
              /\ Forall (frozen_event (fun _ => true)) es)
  /\ (c !! "type" = Some (VStr "har_full_fine_tune") ->
   exists es, out st' = out st ++ es /\ Exists is_train es
              /\ Forall (frozen_event (fun i => bool_decide (5 <= i))) es).
Proof.
  split; [| split]; intros Ht.
  - apply (run_experiment_frozen env i st c ctl st' "har_linear_train"); try done.
    right. by right.
  - apply (run_experiment_frozen env i st c ctl st' "har_full_train"); try done.
    by left.
  - apply (run_experiment_frozen env i st c ctl st' "har_full_fine_tune"); try done.
    right. by left.
Qed.

End FreezingTheorem.

End FreezingFacts.

(** ** Where configuration errors surface *)

Module ValidationFacts.
Import Keras Run KerasSpec RunSpec FreezeSpec GraphFacts HeadFacts HarOutputFacts
  FreezeFacts StoreFacts EventFacts ConfigStepFacts ResolutionFacts DispatchFacts
  MissingPreviousFacts ScheduleFacts FrozenFacts FreezingFacts.
Local Open Scope string_scope.
Local Open Scope Z_scope.
Local Open Scope list_scope.
Local Open Scope run_scope.

Section Validation.
Context {S : Services} {T : Trainer}.

Lemma run_from_app env l1 l2 st :
  run_from env (l1 ++ l2) st =
    match run_from env l1 st with
    | Ok (Next, s) => run_from env l2 s
    | Ok (Break, s) => Ok (Break, s)
    | Raise e => Raise e
    end.
Proof.
  revert st. induction l1 as [|i l1 IH]; intros st; [done |].
  cbn [app run_from]. unfold dbind.
  destruct (run_experiment env i st) as [[[] s]|e]; [apply IH | done | done].
Qed.

Lemma started_config env i c st :
  experiment_configs st !! i = Some c ->
  experiment_configs (started env i c st) !! i = Some c
  /\ length (experiment_configs (started env i c st)) = length (experiment_configs st).
Proof. intros H. unfold started. by destruct (0 <? verbose env). Qed.

(** The loop body of an experiment whose offset is a non-zero integer. *)
Lemma run_experiment_offset env i st c t off :
  experiment_configs st !! i = Some c ->
  c !! "type" = Some t -> eq_str t "none" = false ->
  c !! "previous_config_offset" = Some (VInt off) -> off <> 0 ->
  match previous_position (length (experiment_configs st)) i (VInt off) with
  | Ok p => exists st1, frame ["previous_config_offset"] (started env i c st) st1
                        /\ run_experiment env i st = dispatch env i t (Some p) st1
  | Raise e => run_experiment env i st = Raise e
  end.
Proof.
  intros Hc Ht Hnone Hoff Hne.
  rewrite (run_experiment_started env i st c t Hc Ht), Hnone.
  destruct (started_config env i c st Hc) as [Hc' Hlen].
  destruct (resolve_previous_config_run i _ c Hc') as (st1 & _ & Hf & _ & Hres).
  assert (offset_of c = VInt off) as Ho by (unfold offset_of; by rewrite Hoff).
  rewrite Ho, Hlen in Hres. simpl in Hres.
  replace (off =? 0) with false in Hres by (symmetry; apply Z.eqb_neq; lia).
  destruct (previous_position _ i (VInt off)) as [p|e].
  - exists st1. split; [done |]. by erewrite dbind_Ok by exact Hres.
  - by erewrite dbind_Raise by exact Hres.
Qed.

(** C8, as amended.  Nothing is validated ahead of the experiments: the
    loop starts with the first experiment, and the steps before
    experiment [i] have run, training included, when experiment [i] is
    looked at.  Its non-zero integer offset is then resolved as the
    Python subscript [i - offset]: whenever that index lies in the list,
    also when it points forward, at the experiment itself or, being
    negative, wraps around the end, the experiment goes on with the
    config found there; where it lies outside, [IndexError] is raised at
    this step.  A field that has no listed default makes the resolver
    raise at the call that asks for it. *)
Theorem configuration_errors_at_their_step (env : fold_env) (i : nat) (st : state)
    (c : gmap string value) (t : value) (off : Z)
    (Hc : experiment_configs st !! i = Some c)
    (Ht : c !! "type" = Some t) (Hnone : eq_str t "none" = false)
    (Hoff : c !! "previous_config_offset" = Some (VInt off)) (Hne : off <> 0) :
  let n := Z.of_nat (length (experiment_configs st)) in
  let k := Z.of_nat i - off in
  (0 <= k < n ->
   exists st1, frame ["previous_config_offset"] (started env i c st) st1
               /\ run_experiment env i st = dispatch env i t (Some (Z.to_nat k)) st1)
  /\ (- n <= k < 0 ->
   exists st1, frame ["previous_config_offset"] (started env i c st) st1
               /\ run_experiment env i st = dispatch env i t (Some (Z.to_nat (k + n))) st1)
  /\ (k < - n \/ n <= k -> run_experiment env i st = Raise IndexError)
  /\ (forall before st0 rest,
        run_from env before st0 = Ok (Next, st) ->
        run_from env (before ++ i :: rest) st0 =
          match run_experiment env i st with
          | Ok (Next, s) => run_from env rest s
          | Ok (Break, s) => Ok (Break, s)
          | Raise e => Raise e
          end)
  /\ (forall now c' entry set_value,
        c' !! entry = None -> Config.default_value now entry = None ->
        get_config_default_value_if_none now c' entry set_value
          = Raise (UnboundLocalError "default_value")).
Proof.
  intros n k.
  pose proof (run_experiment_offset env i st c t off Hc Ht Hnone Hoff Hne) as H.
  destruct (previous_position_int (length (experiment_configs st)) i off) as (P1 & P2 & P3).
  split; [| split; [| split; [| split]]].
  - intros Hk. by rewrite P1 in H.
  - intros Hk. by rewrite P2 in H.
  - intros Hk. by rewrite P3 in H.
  - intros before st0 rest Hb. rewrite run_from_app, Hb. cbn [run_from]. unfold dbind.
    by destruct (run_experiment env i st) as [[[] s]|e].
  - intros now c' entry set_value H1 H2. unfold get_config_default_value_if_none.
    by rewrite H1, H2.
Qed.

End Validation.

Section Reload.
Context {S : Services} {T : Trainer}.

Lemma outcome_raise {A} (r : result A) e : outcome r = Some e -> r = Raise e.
Proof. destruct r; [done |]. by intros [= ->]. Qed.

End Reload.

End ValidationFacts.

(** ** Accumulation over the experiments of a fold *)

Module AccumulationFacts.
Import Keras Run KerasSpec RunSpec FreezeSpec GraphFacts HeadFacts HarOutputFacts
  FreezeFacts StoreFacts EventFacts ConfigStepFacts ResolutionFacts DispatchFacts
  MissingPreviousFacts ScheduleFacts FrozenFacts FreezingFacts ValidationFacts.
Local Open Scope string_scope.
Local Open Scope Z_scope.
Local Open Scope list_scope.
Local Open Scope run_scope.

Section Aggregation.
Context {S : Services} {T : Trainer}.

Lemma perf_item_metric perf key k v :
  perf_item perf key k = Ok v -> metric perf key k = Some v.
Proof.
  unfold perf_item, metric. destruct (perf !! key) as [inner|]; [| done].
  destruct (inner !! k); [| done]. by intros [= ->].
Qed.

Lemma perf_set_metric perf key k v perf' :
  perf_set perf key k v = Ok perf' ->
  forall key' k',
    metric perf' key' k'
    = if decide (key' = key /\ k' = k) then Some v else metric perf key' k'.
Proof.
  unfold perf_set, metric. destruct (perf !! key) as [inner|] eqn:E; [| done].
  intros [= <-] key' k'.
  destruct (decide (key' = key)) as [-> | Hne].
  - rewrite lookup_insert_eq, E.
    destruct (decide (k' = k)) as [-> | Hne'].
    + rewrite lookup_insert_eq. by rewrite decide_True.
    + rewrite lookup_insert_ne by done. rewrite decide_False by tauto. done.
  - rewrite lookup_insert_ne by done. rewrite decide_False by tauto. done.
Qed.

Lemma accumulate_key_run i config ev r k r' :
  accumulate_key i config ev r k = Ok r' ->
  if String.eqb k "Confusion Matrix" then r' = r
  else exists x y, config_metric config k = Ok x /\ ev_metric ev i k = Ok y
                   /\ accumulated (experiment_key i) k x y r r'.
Proof.
  unfold accumulate_key. destruct (String.eqb k "Confusion Matrix"); [by intros [= ->] |].
  intros H.
  apply rbind_inv in H as (old_l & H1 & H).
  apply rbind_inv in H as (x & H2 & H).
  apply rbind_inv in H as (new_l & H3 & H).
  apply rbind_inv in H as (pl & H4 & H).
  apply rbind_inv in H as (old_u & H5 & H).
  apply rbind_inv in H as (y & H6 & H).
  apply rbind_inv in H as (new_u & H7 & H).
  apply rbind_inv in H as (pu & H8 & H).
  injection H as <-. exists x, y. split; [exact H2 |]. split; [exact H6 |].
  split; simpl.
  - exists old_l, new_l. split; [by apply perf_item_metric |]. split; [done |].
    by apply perf_set_metric.
  - exists old_u, new_u. split; [by apply perf_item_metric |]. split; [done |].
    by apply perf_set_metric.
  - done.
Qed.

Lemma same_cell_refl key k r : same_cell key k r r.
Proof. by split. Qed.

Lemma same_cell_trans key k r1 r2 r3 :
  same_cell key k r1 r2 -> same_cell key k r2 r3 -> same_cell key k r1 r3.
Proof. intros [A B] [C D]. split; congruence. Qed.

Lemma grown_same key k x y r1 r2 r3 :
  grown key k x y r1 r2 -> same_cell key k r2 r3 -> grown key k x y r1 r3.
Proof.
  intros (ol & nl & ou & nu & A & B & C & D & E & F) [G H].
  exists ol, nl, ou, nu. repeat split; congruence.
Qed.

Lemma same_grown key k x y r1 r2 r3 :
  same_cell key k r1 r2 -> grown key k x y r2 r3 -> grown key k x y r1 r3.
Proof.
  intros [G H] (ol & nl & ou & nu & A & B & C & D & E & F).
  exists ol, nl, ou, nu. repeat split; congruence.
Qed.

Lemma accumulated_grown key k x y r r' :
  accumulated key k x y r r' -> grown key k x y r r'.
Proof.
  intros [(ol & nl & A & B & C) (ou & nu & D & E & F) _].
  exists ol, nl, ou, nu. repeat split; try done.
  - rewrite C. by rewrite decide_True.
  - rewrite F. by rewrite decide_True.
Qed.

Lemma accumulated_same key k x y r r' key' k' :
  accumulated key k x y r r' -> ~ (key' = key /\ k' = k) -> same_cell key' k' r r'.
Proof.
  intros [(ol & nl & A & B & C) (ou & nu & D & E & F) _] Hne.
  split; [rewrite C | rewrite F]; by rewrite decide_False.
Qed.

Lemma accumulate_keys_run i config ev keys :
  NoDup keys ->
  forall r r', accumulate_keys i config ev r keys = Ok r' ->
  var_path r' = var_path r
  /\ forall key k,
       if decide (key = experiment_key i /\ k ∈ keys /\ k <> "Confusion Matrix")
       then exists x y, config_metric config k = Ok x /\ ev_metric ev i k = Ok y
                        /\ grown key k x y r r'
       else same_cell key k r r'.
Proof.
  induction 1 as [|k1 keys Hk1 Hnd IH]; intros r r' H.
  - injection H as <-. split; [done |]. intros key k.
    rewrite decide_False by (intros (_ & Hin & _); inversion Hin).
    apply same_cell_refl.
  - cbn [accumulate_keys] in H. apply rbind_inv in H as (r1 & H1 & H2).
    destruct (IH _ _ H2) as [Hp Hrest].
    apply accumulate_key_run in H1.
    destruct (String.eqb k1 "Confusion Matrix") eqn:Ecm.
    + subst r1. apply String.eqb_eq in Ecm as ->. split; [done |].
      intros key k. specialize (Hrest key k).
      destruct (decide (key = experiment_key i /\ k ∈ keys /\ k <> "Confusion Matrix"))
        as [(A & B & C) | Hn].
      * rewrite decide_True by set_solver. done.
      * rewrite decide_False; [done |]. intros (A & B & C). apply Hn.
        repeat split; try done. set_solver.
    + apply String.eqb_neq in Ecm.
      destruct H1 as (x1 & y1 & Hx1 & Hy1 & Hacc).
      split; [rewrite Hp; apply (acc_path _ _ _ _ _ _ Hacc) |].
      intros key k. specialize (Hrest key k).
      destruct (decide (key = experiment_key i /\ k ∈ keys /\ k <> "Confusion Matrix"))
        as [(A & B & C) | Hn].
      * rewrite decide_True by set_solver.
        destruct Hrest as (x & y & Hx & Hy & Hg). exists x, y. split; [done |].
        split; [done |]. eapply same_grown; [| exact Hg].
        eapply accumulated_same; [exact Hacc |]. intros [_ ->]. done.
      * destruct (decide (key = experiment_key i /\ k = k1)) as [[-> ->] | Hn'].
        -- rewrite decide_True by set_solver. exists x1, y1. split; [done |].
           split; [done |]. eapply grown_same; [| exact Hrest].
           by apply accumulated_grown.
        -- rewrite decide_False.
           ++ eapply same_cell_trans; [| exact Hrest].
              by eapply accumulated_same.
           ++ intros (A & B & C). apply elem_of_cons in B as [-> | B]; tauto.
Qed.

Lemma performance_keys_NoDup : NoDup performance_keys.
Proof. apply (bool_decide_unpack _). by vm_compute. Qed.

Lemma scalar_key_performance k :
  k ∈ scalar_keys -> k ∈ performance_keys /\ k <> "Confusion Matrix".
Proof.
  unfold scalar_keys, performance_keys. intros Hk.
  repeat (apply elem_of_cons in Hk as [-> | Hk]; [split; [set_solver | done] |]).
  inversion Hk.
Qed.

Lemma experiment_key_inj i t :
  (i = 2 \/ i = 3)%nat -> (t = 2 \/ t = 3)%nat -> experiment_key t = experiment_key i -> t = i.
Proof. intros [-> | ->] [-> | ->]; by vm_compute. Qed.

Lemma accumulate_configs_run j t k ev configs :
  (t = 2 \/ t = 3)%nat -> k ∈ scalar_keys ->
  forall i0 r r', accumulate_configs j i0 configs ev r = Ok r' ->
  var_path r' = var_path r
  /\ if decide (i0 <= t < i0 + length configs)%nat
     then exists config x y,
            configs !! (t - i0)%nat = Some config
            /\ config_metric config k = Ok x /\ ev_metric ev t k = Ok y
            /\ grown (experiment_key t) k x y r r'
     else same_cell (experiment_key t) k r r'.
Proof.
  intros Ht Hk. destruct (scalar_key_performance k Hk) as [Hin Hcm].
  induction configs as [|config rest IH]; intros i0 r r' H.
  - injection H as <-. split; [done |]. rewrite decide_False by (simpl; lia).
    apply same_cell_refl.
  - cbn [accumulate_configs] in H. apply rbind_inv in H as (r2 & H1 & H2).
    destruct (IH _ _ _ H2) as [Hp Hrest]. clear IH.
    set (r1 := {| performance_labelled_dataset := performance_labelled_dataset r;
                  performance_unlabelled_dataset := performance_unlabelled_dataset r;
                  performance_unlabelled_dataset_dictionary :=
                    <[j := ev]> (performance_unlabelled_dataset_dictionary r);
                  var_path := var_path r |}) in *.
    assert (same_cell (experiment_key t) k r r1) as Hr1 by (by split).
    destruct (decide (i0 = t)) as [-> | Hne].
    + assert (Nat.eqb t 2 || Nat.eqb t 3 = true) as Hflag by (by destruct Ht as [-> | ->]).
      rewrite Hflag in H1.
      destruct (accumulate_keys_run _ _ _ _ performance_keys_NoDup _ _ H1) as [Hp1 Hc].
      specialize (Hc (experiment_key t) k). rewrite decide_True in Hc by done.
      destruct Hc as (x & y & Hx & Hy & Hg).
      rewrite decide_False in Hrest by lia.
      split; [by rewrite Hp, Hp1 |].
      rewrite decide_True by (simpl; lia).
      exists config, x, y. rewrite Nat.sub_diag. split; [done |]. split; [done |].
      split; [done |]. eapply grown_same; [| exact Hrest]. by eapply same_grown.
    + assert (var_path r2 = var_path r /\ same_cell (experiment_key t) k r r2) as [Hp2 Hs2].
      { destruct (Nat.eqb i0 2 || Nat.eqb i0 3) eqn:Hflag.
        - destruct (accumulate_keys_run _ _ _ _ performance_keys_NoDup _ _ H1) as [Hp1 Hc].
          split; [done |].
          specialize (Hc (experiment_key t) k). rewrite decide_False in Hc.
          + by eapply same_cell_trans.
          + intros (Hkey & _). apply Hne. symmetry. apply experiment_key_inj; try done.
            apply orb_true_iff in Hflag as [E | E]; apply Nat.eqb_eq in E; auto.
        - injection H1 as <-. by split. }
      split; [by rewrite Hp |].
      destruct (decide (i0 <= t < i0 + length (config :: rest))%nat) as [Hr | Hr].
      * rewrite decide_True in Hrest by (simpl in Hr; lia).
        destruct Hrest as (cfg & x & y & Hl & Hx & Hy & Hg).
        exists cfg, x, y. split.
        { replace (t - i0)%nat with (Datatypes.S (t - Datatypes.S i0)) by lia. done. }
        split; [done |]. split; [done |]. by eapply same_grown.
      * rewrite decide_False in Hrest by (simpl in Hr; lia).
        by eapply same_cell_trans.
Qed.

Lemma fold_summary_run verbose path j st r r' t k :
  0 < verbose -> (t = 2 \/ t = 3)%nat -> k ∈ scalar_keys ->
  (t < length (experiment_configs st))%nat ->
  fold_summary verbose path j st r = Ok r' ->
  var_path r' = Some path
  /\ exists x y, labelled_metric t k st = Ok x /\ unlabelled_metric t k st = Ok y
                 /\ grown (experiment_key t) k x y r r'.
Proof.
  intros Hv Ht Hk Hlen. unfold fold_summary.
  replace (0 <? verbose) with true by (symmetry; by apply Z.ltb_lt).
  intros H. apply rbind_inv in H as (r1 & H1 & H2). injection H2 as <-.
  split; [done |].
  destruct (accumulate_configs_run _ t k _ _ Ht Hk _ _ _ H1) as [_ Hc].
  rewrite decide_True in Hc by lia.
  destruct Hc as (config & x & y & Hl & Hx & Hy & Hg).
  rewrite Nat.sub_0_r in Hl.
  exists x, y. unfold labelled_metric, unlabelled_metric. rewrite Hl.
  split; [done |]. split; [done |].
  eapply grown_same; [exact Hg |]. by split.
Qed.

End Aggregation.

End AccumulationFacts.

(** ** The pooled label lists *)

Module PoolFacts.
Import Keras Run KerasSpec RunSpec FreezeSpec GraphFacts HeadFacts HarOutputFacts
  FreezeFacts StoreFacts EventFacts ConfigStepFacts ResolutionFacts DispatchFacts
  MissingPreviousFacts ScheduleFacts FrozenFacts FreezingFacts ValidationFacts
  AccumulationFacts.
Local Open Scope string_scope.
Local Open Scope Z_scope.
Local Open Scope list_scope.
Local Open Scope run_scope.

Section Pools.
Context {S : Services} {T : Trainer}.

Global Instance same_length_preorder : PreOrder same_length.
Proof. split; [by intros st | intros st1 st2 st3 H1 H2; unfold same_length in *; congruence]. Qed.

Lemma grows_refl l : grows l l.
Proof. split; [done |]. intros idx x H. exists []. by rewrite app_nil_r. Qed.

Lemma grows_trans l1 l2 l3 : grows l1 l2 -> grows l2 l3 -> grows l1 l3.
Proof.
  intros [L1 G1] [L2 G2]. split; [congruence |]. intros idx x H.
  destruct (G1 _ _ H) as [y Hy]. destruct (G2 _ _ Hy) as [z Hz].
  exists (y ++ z). by rewrite app_assoc.
Qed.

Lemma grows_insert l idx x y : l !! idx = Some x -> grows l (<[idx := x ++ y]> l).
Proof.
  intros H. split; [apply length_insert |]. intros j z Hj.
  destruct (decide (j = idx)) as [-> | Hne].
  - rewrite H in Hj. injection Hj as <-. exists y.
    apply list_lookup_insert_eq. by eapply lookup_lt_Some.
  - exists []. rewrite app_nil_r. by rewrite list_lookup_insert_ne.
Qed.

Global Instance pools_grow_preorder : PreOrder pools_grow.
Proof.
  split.
  - intros st. split; apply grows_refl.
  - intros st1 st2 st3 [A B] [C D]. split; eapply grows_trans; eauto.
Qed.

Global Instance pools_same_preorder : PreOrder pools_same.
Proof.
  split; [by intros st |]. intros st1 st2 st3 [A B] [C D]. split; congruence.
Qed.

Lemma pools_same_grow st st' : pools_same st st' -> pools_grow st st'.
Proof. intros [A B]. split; [rewrite A | rewrite B]; apply grows_refl. Qed.

End Pools.

Ltac close_len := unfold same_length; simpl; rewrite ?length_insert; reflexivity.
Ltac close_same := split; reflexivity.
Ltac close_grow := apply pools_same_grow; split; reflexivity.

Ltac step_same H s s' :=
  let F := fresh "F" in
  assert (F : pools_same s s')
    by first
         [ match type of H with
           | ?c _ = Ok (?a, _) =>
               apply (fun P : preserves pools_same c => P s a s' H); preserves_go close_same
           end
         | clear - H; repeat (case_match; try discriminate); simplify_eq;
           split; reflexivity ].

Section PoolsRun.
Context {S : Services} {T : Trainer}.

Lemma run_experiment_length env i : preserves same_length (run_experiment env i).
Proof. preserves_go close_len. Qed.

Lemma evaluate_on_unlabelled_pools env i m pred r b :
  preserves pools_grow (evaluate_on_unlabelled env i m pred r b).
Proof.
  intros st u st' H. unfold evaluate_on_unlabelled in H.
  apply dbind_inv in H as (? & s1 & H1 & H); cbv beta in H. step_same H1 st s1.
  apply dbind_inv in H as (? & s2 & H2 & H); cbv beta in H. step_same H2 s1 s2.
  apply dbind_inv in H as (? & s3 & H3 & H); cbv beta in H. step_same H3 s2 s3.
  apply dbind_inv in H as (? & s4 & H4 & H); cbv beta in H. step_same H4 s3 s4.
  apply dbind_inv in H as (? & s5 & H5 & H); cbv beta in H. step_same H5 s4 s5.
  apply dbind_inv in H as (? & s6 & H6 & H); cbv beta in H. step_same H6 s5 s6.
  apply dbind_inv in H as (? & s7 & H7 & H); cbv beta in H. step_same H7 s6 s7.
  apply dbind_inv in H as (? & s8 & H8 & H); cbv beta in H. step_same H8 s7 s8.
  apply dbind_inv in H as (? & s9 & H9 & H); cbv beta in H. step_same H9 s8 s9.
  apply dbind_inv in H as (l & s10 & H10 & H); cbv beta in H. step_same H10 s9 s10.
  apply dbind_inv in H as (yt & s11 & H11 & H); cbv beta in H.
  apply dbind_inv in H as (? & s12 & H12 & H); cbv beta in H.
  apply dbind_inv in H as (yp & s13 & H13 & H); cbv beta in H.
  assert (pools_same st s10) as [Et Ep].
  { repeat (etransitivity; [eassumption |]). reflexivity. }
  destruct (y_true s10 !! (i - 2)%nat) as [c|] eqn:Eyt; [| done].
  injection H11 as -> <-. injection H12 as _ <-. simpl in H13.
  destruct (y_pred s10 !! (i - 2)%nat) as [c|] eqn:Eyp; [| done].
  injection H13 as -> <-. injection H as _ <-. simpl.
  split; simpl.
  - rewrite <- Et. by apply grows_insert.
  - rewrite <- Ep. by apply grows_insert.
Qed.

Lemma run_experiment_pools env i : preserves pools_grow (run_experiment env i).
Proof.
  preserves_walk ltac:(apply evaluate_on_unlabelled_pools) close_grow.
Qed.

Lemma run_from_preserves R `{!PreOrder R} env :
  (forall i, preserves R (run_experiment env i)) ->
  forall l, preserves R (run_from env l).
Proof.
  intros Hstep l. induction l as [|i l IH]; intros st a st' H.
  - injection H as _ <-. reflexivity.
  - cbn [run_from] in H. apply dbind_inv in H as (ctl & st1 & H1 & H2).
    transitivity st1; [by eapply Hstep |].
    destruct ctl; [by eapply IH |]. injection H2 as _ <-. reflexivity.
Qed.

Lemma run_experiments_preserves R `{!PreOrder R} env :
  (forall i, preserves R (run_experiment env i)) -> preserves R (run_experiments env).
Proof. intros Hstep st a st' H. by eapply run_from_preserves. Qed.

End PoolsRun.

End PoolFacts.

(** ** The loop over the folds *)

Module FoldFacts.
Import Keras Run KerasSpec RunSpec FreezeSpec GraphFacts HeadFacts HarOutputFacts
  FreezeFacts StoreFacts EventFacts ConfigStepFacts ResolutionFacts DispatchFacts
  MissingPreviousFacts ScheduleFacts FrozenFacts FreezingFacts ValidationFacts
  AccumulationFacts PoolFacts.
Local Open Scope string_scope.
Local Open Scope Z_scope.
Local Open Scope list_scope.
Local Open Scope run_scope.

Section Folds.
Context {S : Services} {T : Trainer}.

Section OneCell.
Variables (a : arguments) (pct : Q) (cf : config_file) (report_path : string).
Variables (t : nat) (k : string).
Hypothesis Hverbose : 0 < a_verbose a.
Hypothesis Ht : (t = 2 \/ t = 3)%nat.
Hypothesis Hk : k ∈ scalar_keys.
Hypothesis Hlen : (t < length (cf_experiment_configs cf))%nat.

Lemma run_fold_pools j sr sr' :
  run_fold a pct cf report_path j sr = Ok sr' -> pools_grow sr.1 sr'.1.
Proof.
  unfold run_fold. cbv zeta. intros H.
  apply rbind_inv in H as (b & _ & H).
  apply rbind_inv in H as ([ctl st1] & H1 & H).
  apply rbind_inv in H as (rep & _ & H). injection H as <-. simpl.
  apply (run_experiments_preserves pools_grow _ (run_experiment_pools _)) in H1.
  exact H1.
Qed.

Lemma run_fold_metric j sr sr' :
  run_fold a pct cf report_path j sr = Ok sr' ->
  var_path sr'.2 = Some report_path
  /\ exists x y, labelled_metric t k sr'.1 = Ok x /\ unlabelled_metric t k sr'.1 = Ok y
                 /\ grown (experiment_key t) k x y sr.2 sr'.2.
Proof.
  unfold run_fold. cbv zeta. intros H.
  apply rbind_inv in H as (b & _ & H).
  apply rbind_inv in H as ([ctl st1] & H1 & H).
  apply rbind_inv in H as (rep & H2 & H). injection H as <-. simpl in *.
  apply (run_experiments_preserves same_length _ (run_experiment_length _)) in H1.
  unfold same_length in H1. simpl in H1.
  eapply fold_summary_run; [done | done | done | | exact H2]. by rewrite H1.
Qed.

Lemma run_folds_pools js :
  forall sr sr', run_folds a pct cf report_path js sr = Ok sr' ->
  pools_grow sr.1 sr'.1
  /\ forall s, s ∈ fold_states a pct cf report_path js sr -> pools_grow s sr'.1.
Proof.
  induction js as [|j rest IH]; intros sr sr' H.
  - injection H as <-. split; [reflexivity |]. intros s Hs. inversion Hs.
  - cbn [run_folds] in H. apply rbind_inv in H as (sr1 & H1 & H2).
    destruct (IH _ _ H2) as [G1 G2]. cbn [fold_states]. rewrite H1.
    split; [etransitivity; [by eapply run_fold_pools | done] |].
    intros s Hs. apply elem_of_cons in Hs as [-> | Hs]; auto.
Qed.

Lemma run_folds_metric js :
  forall sr sr', run_folds a pct cf report_path js sr = Ok sr' ->
  let sts := fold_states a pct cf report_path js sr in
  length sts = length js
  /\ last (sr.1 :: sts) = Some sr'.1
  /\ (js <> [] -> var_path sr'.2 = Some report_path)
  /\ forall ol ou,
       metric (performance_labelled_dataset sr.2) (experiment_key t) k = Some ol ->
       metric (performance_unlabelled_dataset sr.2) (experiment_key t) k = Some ou ->
       exists vs us tl tu,
         Forall2 (fun s v => labelled_metric t k s = Ok v) sts vs
         /\ Forall2 (fun s u => unlabelled_metric t k s = Ok u) sts us
         /\ py_sum ol vs = Ok tl /\ py_sum ou us = Ok tu
         /\ metric (performance_labelled_dataset sr'.2) (experiment_key t) k = Some tl
         /\ metric (performance_unlabelled_dataset sr'.2) (experiment_key t) k = Some tu.
Proof.
  induction js as [|j rest IH]; intros sr sr' H.
  - injection H as <-. simpl. split; [done |]. split; [done |]. split; [done |].
    intros ol ou Hl Hu. exists [], [], ol, ou. repeat split; try done; constructor.
  - cbn [run_folds] in H. apply rbind_inv in H as (sr1 & H1 & H2).
    destruct (IH _ _ H2) as (L & La & P & M). cbn [fold_states]. rewrite H1. cbn zeta.
    destruct (run_fold_metric _ _ _ H1) as (P1 & x & y & Hx & Hy & Hg).
    split; [simpl; by rewrite L |]. split; [exact La |]. split.
    { intros _. destruct rest as [|j' rest']; [| by apply P].
      injection H2 as <-. exact P1. }
    intros ol ou Hl Hu.
    destruct Hg as (ol' & nl & ou' & nu & A & B & C & D & E & F).
    rewrite Hl in A. injection A as <-. rewrite Hu in D. injection D as <-.
    destruct (M nl nu C F) as (vs & us & tl & tu & Fv & Fu & Sv & Su & Ml & Mu).
    exists (x :: vs), (y :: us), tl, tu.
    split; [by constructor |]. split; [by constructor |].
    split; [simpl; by rewrite B |]. split; [simpl; by rewrite E |]. done.
Qed.

End OneCell.

End Folds.

End FoldFacts.

(** ** Division by the number of users *)

Module FinalisationFacts.
Import Keras Run KerasSpec RunSpec FreezeSpec GraphFacts HeadFacts HarOutputFacts
  FreezeFacts StoreFacts EventFacts ConfigStepFacts ResolutionFacts DispatchFacts
  MissingPreviousFacts ScheduleFacts FrozenFacts FreezingFacts ValidationFacts
  AccumulationFacts PoolFacts FoldFacts.
Local Open Scope string_scope.
Local Open Scope Z_scope.
Local Open Scope list_scope.
Local Open Scope run_scope.

Section Finalisation.
Context {S : Services} {T : Trainer}.

Lemma divided_same key k n r1 r2 r3 :
  divided key k n r1 r2 -> same_cell key k r2 r3 -> divided key k n r1 r3.
Proof.
  intros (vl & vl' & vu & vu' & A & B & C & D & E & F) [G H].
  exists vl, vl', vu, vu'. repeat split; congruence.
Qed.

Lemma same_divided key k n r1 r2 r3 :
  same_cell key k r1 r2 -> divided key k n r2 r3 -> divided key k n r1 r3.
Proof.
  intros [G H] (vl & vl' & vu & vu' & A & B & C & D & E & F).
  exists vl, vl', vu, vu'. repeat split; congruence.
Qed.

(** [perf[key][k] = perf[key][k] / n] *)
Lemma divide_run perf key k n perf' :
  rbind (perf_item perf key k) (fun v =>
  rbind (py_div v n) (fun v' => perf_set perf key k v')) = Ok perf' ->
  exists v v',
    metric perf key k = Some v /\ py_div v n = Ok v'
    /\ forall key' k',
         metric perf' key' k'
         = if decide (key' = key /\ k' = k) then Some v' else metric perf key' k'.
Proof.
  intros H. apply rbind_inv in H as (v & H1 & H). apply rbind_inv in H as (v' & H2 & H).
  exists v, v'. split; [by apply perf_item_metric |]. split; [done |].
  by apply perf_set_metric.
Qed.

Lemma normalise_key_run n r k r' t k0 :
  (t = 2 \/ t = 3)%nat ->
  normalise_key n r k = Ok r' ->
  var_path r' = var_path r
  /\ if decide (k0 = k /\ k <> "Confusion Matrix")
     then divided (experiment_key t) k0 n r r'
     else same_cell (experiment_key t) k0 r r'.
Proof.
  intros Ht. unfold normalise_key.
  destruct (String.eqb k "Confusion Matrix") eqn:Ecm.
  - intros [= <-]. split; [done |]. apply String.eqb_eq in Ecm.
    rewrite decide_False by tauto. apply same_cell_refl.
  - apply String.eqb_neq in Ecm. cbv zeta. intros H.
    apply rbind_inv in H as (pl1 & H1 & H). apply rbind_inv in H as (pl2 & H2 & H).
    apply rbind_inv in H as (pu1 & H3 & H). apply rbind_inv in H as (pu2 & H4 & H).
    injection H as <-. split; [done |].
    apply divide_run in H1 as (a1 & a1' & A1 & B1 & C1).
    apply divide_run in H2 as (a2 & a2' & A2 & B2 & C2).
    apply divide_run in H3 as (a3 & a3' & A3 & B3 & C3).
    apply divide_run in H4 as (a4 & a4' & A4 & B4 & C4).
    destruct (decide (k0 = k /\ k <> "Confusion Matrix")) as [[-> _] | Hn].
    + destruct Ht as [-> | ->].
      * exists a1, a1', a3, a3'. simpl. repeat split; try done.
        -- rewrite C2, decide_False by (intros [? _]; done).
           by rewrite C1, decide_True.
        -- rewrite C4, decide_False by (intros [? _]; done).
           by rewrite C3, decide_True.
      * rewrite C1, decide_False in A2 by (intros [? _]; done).
        rewrite C3, decide_False in A4 by (intros [? _]; done).
        exists a2, a2', a4, a4'. simpl. repeat split; try done.
        -- by rewrite C2, decide_True.
        -- by rewrite C4, decide_True.
    + split; simpl.
      * rewrite C2, decide_False by tauto. rewrite C1, decide_False by tauto. done.
      * rewrite C4, decide_False by tauto. rewrite C3, decide_False by tauto. done.
Qed.

Lemma normalise_keys_run n t k0 keys :
  (t = 2 \/ t = 3)%nat -> NoDup keys ->
  forall r r', normalise_keys n r keys = Ok r' ->
  var_path r' = var_path r
  /\ if decide (k0 ∈ keys /\ k0 <> "Confusion Matrix")
     then divided (experiment_key t) k0 n r r'
     else same_cell (experiment_key t) k0 r r'.
Proof.
  intros Ht. induction 1 as [|k1 keys Hk1 Hnd IH]; intros r r' H.
  - injection H as <-. split; [done |].
    rewrite decide_False by (intros [Hin _]; inversion Hin). apply same_cell_refl.
  - cbn [normalise_keys] in H. apply rbind_inv in H as (r1 & H1 & H2).
    destruct (IH _ _ H2) as [Hp Hrest].
    destruct (normalise_key_run _ _ _ _ t k0 Ht H1) as [Hp1 Hc].
    split; [congruence |].
    destruct (decide (k0 = k1 /\ k1 <> "Confusion Matrix")) as [[-> Hcm] | Hn].
    + rewrite decide_True by set_solver.
      rewrite decide_False in Hrest by tauto. by eapply divided_same.
    + destruct (decide (k0 ∈ keys /\ k0 <> "Confusion Matrix")) as [[Hin Hcm] | Hn'].
      * rewrite decide_True by set_solver. by eapply same_divided.
      * rewrite decide_False.
        -- by eapply same_cell_trans.
        -- intros [Hin Hcm]. apply elem_of_cons in Hin as [-> | Hin]; tauto.
Qed.

Lemma pooled_lookup l i x : pooled l i = Ok x -> l !! i = Some x.
Proof. unfold pooled. destruct (l !! i); [| done]. by intros [= ->]. Qed.

Lemma finalise_run n st r rep t :
  (t = 2 \/ t = 3)%nat ->
  finalise n st r = Ok rep ->
  var_path rep = var_path r
  /\ (forall k, k ∈ scalar_keys -> divided (experiment_key t) k n r rep)
  /\ exists yt yp cm,
       y_true st !! (t - 2)%nat = Some yt /\ y_pred st !! (t - 2)%nat = Some yp
       /\ confusion_matrix yt yp = Ok cm
       /\ metric (performance_labelled_dataset rep) (experiment_key t) "Confusion Matrix"
          = Some cm.
Proof.
  intros Ht. unfold finalise. intros H.
  apply rbind_inv in H as (r1 & H1 & H).
  apply rbind_inv in H as (c2 & _ & H). apply rbind_inv in H as (pu & Hpu & H).
  apply rbind_inv in H as (c3 & _ & H). apply rbind_inv in H as (pu' & Hpu' & H).
  apply rbind_inv in H as (t0 & Ht0 & H). apply rbind_inv in H as (p0 & Hp0 & H).
  apply rbind_inv in H as (cm2 & Hcm2 & H).
  apply rbind_inv in H as (pl & Hpl & H).
  apply rbind_inv in H as (t1 & Ht1 & H). apply rbind_inv in H as (p1 & Hp1 & H).
  apply rbind_inv in H as (cm3 & Hcm3 & H).
  apply rbind_inv in H as (pl' & Hpl' & H). injection H as <-.
  pose proof (perf_set_metric _ _ _ _ _ Hpu) as Mu.
  pose proof (perf_set_metric _ _ _ _ _ Hpu') as Mu'.
  pose proof (perf_set_metric _ _ _ _ _ Hpl) as Ml.
  pose proof (perf_set_metric _ _ _ _ _ Hpl') as Ml'.
  apply pooled_lookup in Ht0, Hp0, Ht1, Hp1.
  split; [| split].
  - simpl. by destruct (normalise_keys_run n t "Kappa" _ Ht performance_keys_NoDup _ _ H1).
  - intros k Hk. destruct (scalar_key_performance k Hk) as [Hin Hcm].
    destruct (normalise_keys_run n t k _ Ht performance_keys_NoDup _ _ H1) as [_ Hd].
    rewrite decide_True in Hd by done.
    eapply divided_same; [exact Hd |]. split; simpl.
    + rewrite Ml', decide_False by (intros [_ ?]; done).
      by rewrite Ml, decide_False by (intros [_ ?]; done).
    + rewrite Mu', decide_False by (intros [_ ?]; done).
      by rewrite Mu, decide_False by (intros [_ ?]; done).
  - destruct Ht as [-> | ->]; simpl.
    + exists t0, p0, cm2. split; [done |]. split; [done |]. split; [done |].
      rewrite Ml', decide_False by (intros [? _]; done). by rewrite Ml, decide_True.
    + exists t1, p1, cm3. split; [done |]. split; [done |]. split; [done |].
      by rewrite Ml', decide_True.
Qed.

(** Sums of plain numbers. *)
Lemma py_sum_floats (qs : list Q) (acc : value) (s : Q) (total : value) :
  as_number acc = Some s ->
  py_sum acc (map VFloat qs) = Ok total ->
  exists q, as_number total = Some q /\ (q == s + fold_right Qplus 0 qs)%Q.
Proof.
  revert acc s. induction qs as [|x qs IH]; intros acc s Hacc H.
  - injection H as <-. exists s. split; [done |]. simpl. ring.
  - cbn [map py_sum] in H. apply rbind_inv in H as (acc' & H1 & H2).
    assert (acc' = VFloat (s + x)) as ->.
    { unfold py_add in H1. simpl in H1. rewrite Hacc in H1.
      destruct (as_int acc); congruence. }
    destruct (IH (VFloat (s + x)) (s + x)%Q eq_refl H2) as (q & Hq & E).
    exists q. split; [done |]. rewrite E. simpl. ring.
Qed.

Lemma py_div_number (v : value) (s : Q) (n : nat) (v' : value) :
  as_number v = Some s -> py_div v n = Ok v' ->
  n <> 0%nat /\ v' = VFloat (s / inject_Z (Z.of_nat n)).
Proof.
  unfold py_div. intros ->. destruct (Nat.eqb n 0) eqn:E; [done |].
  apply Nat.eqb_neq in E. by intros [= <-].
Qed.

End Finalisation.

End FinalisationFacts.

(** ** What the folds pool *)

Module PooledFacts.
Import Keras Run KerasSpec RunSpec FreezeSpec GraphFacts HeadFacts HarOutputFacts
  FreezeFacts StoreFacts EventFacts ConfigStepFacts ResolutionFacts DispatchFacts
  MissingPreviousFacts ScheduleFacts FrozenFacts FreezingFacts ValidationFacts
  AccumulationFacts PoolFacts FoldFacts FinalisationFacts.
Local Open Scope string_scope.
Local Open Scope Z_scope.
Local Open Scope list_scope.
Local Open Scope run_scope.

Section Quiet.
Context {S : Services} {T : Trainer}.

Lemma config_set_run i k v st c :
  experiment_configs st !! i = Some c ->
  config_set i k v st
  = Ok (tt, set_configs (<[i := <[k := v]> c]> (experiment_configs st)) st).
Proof. intros Hc. unfold config_set, dbind, config_at. by rewrite Hc. Qed.

Lemma config_set_inv i k v st u st' :
  config_set i k v st = Ok (u, st') ->
  exists c, experiment_configs st !! i = Some c
            /\ st' = set_configs (<[i := <[k := v]> c]> (experiment_configs st)) st.
Proof.
  unfold config_set, dbind, config_at.
  destruct (experiment_configs st !! i) as [c|]; [| done].
  intros [= _ <-]. eauto.
Qed.

Global Instance labelled_same_preorder : PreOrder labelled_same.
Proof.
  split; [by intros st |].
  intros s1 s2 s3 H1 H2. unfold labelled_same in *. congruence.
Qed.

Lemma load_unlabelled_dataset_labelled pd path ws rep max v mutated merged label es :
  load_unlabelled_dataset pd path ws rep max v = Ok (mutated, merged, label, es) ->
  mutated !! "labelled" = pd !! "labelled" /\ merged !! "labelled" = pd !! "labelled".
Proof.
  unfold load_unlabelled_dataset. intros H.
  apply rbind_inv in H as (l & _ & H). apply rbind_inv in H as (r & _ & H).
  apply rbind_inv in H as (pd2 & Hpd2 & H).
  apply rbind_inv in H as (u & _ & H). apply rbind_inv in H as (l' & _ & H).
  injection H as <- <- _ _.
  assert (E : pd2 !! "labelled" = pd !! "labelled").
  { destruct max as [k|].
    - apply rbind_inv in Hpd2 as (u0 & _ & Hpd2). injection Hpd2 as <-.
      by rewrite !lookup_insert_ne.
    - injection Hpd2 as <-. by rewrite lookup_insert_ne. }
  split; [done |].
  unfold generate_unlabelled_datasets_variations. cbn [fst].
  rewrite <- !insert_union_l, (left_id ∅ (∪)). by rewrite !lookup_insert_ne.
Qed.

Global Instance quiet_preorder t K : PreOrder (quiet t K).
Proof.
  split.
  - intros st. repeat split; done.
  - intros s1 s2 s3 (A1 & B1 & L1 & D1) (A2 & B2 & L2 & D2).
    split; [congruence |]. split; [congruence |].
    split; [by etransitivity |]. intros k Hk. rewrite D2, D1; done.
Qed.

Lemma quiet_weaken t K K' st st' :
  (forall k, k ∈ K' -> k ∈ K) -> quiet t K st st' -> quiet t K' st st'.
Proof. intros Hsub (A & B & C & D). repeat split; auto. Qed.

Lemma quiet_appended t K s1 s2 s3 : quiet t K s1 s2 -> appended t s2 s3 -> appended t s1 s3.
Proof.
  intros (A & B & C & _) (l & m & h & yt & yp & Hl & Ht & Ht' & Hp & Hp').
  exists l, m, h, yt, yp. unfold labelled_same in C.
  repeat split; congruence.
Qed.

Lemma appended_quiet t K s1 s2 s3 : appended t s1 s2 -> quiet t K s2 s3 -> appended t s1 s3.
Proof.
  intros (l & m & h & yt & yp & Hl & Ht & Ht' & Hp & Hp') (A & B & _).
  exists l, m, h, yt, yp. repeat split; congruence.
Qed.

Lemma config_default_quiet t K idx entry set_value :
  idx <> t \/ entry ∉ K -> preserves (quiet t K) (config_default idx entry set_value).
Proof.
  intros Hor st v st' H.
  apply config_default_inv in H as (c & Hc & _ & Hcs & _ & Hpd & _ & _ & _ & _ & _ & Hyt & Hyp).
  split; [by rewrite Hyt |]. split; [by rewrite Hyp |].
  split; [unfold labelled_same; by rewrite Hpd |].
  intros k Hk. unfold config_field. rewrite Hcs.
  destruct (decide (t = idx)) as [-> | Hne].
  - rewrite list_lookup_insert_eq by (by eapply lookup_lt_Some). rewrite Hc.
    unfold memoized. destruct (c !! entry) eqn:E; [done |].
    destruct set_value; [| done].
    rewrite lookup_insert_ne; [done |]. intros ->. by destruct Hor.
  - by rewrite list_lookup_insert_ne.
Qed.

Lemma config_set_quiet t K idx entry v :
  idx <> t \/ entry ∉ K -> preserves (quiet t K) (config_set idx entry v).
Proof.
  intros Hor st u st' H. apply config_set_inv in H as (c & Hc & ->).
  split; [done |]. split; [done |]. split; [done |].
  intros k Hk. unfold config_field. simpl.
  destruct (decide (t = idx)) as [-> | Hne].
  - rewrite list_lookup_insert_eq by (by eapply lookup_lt_Some). rewrite Hc.
    rewrite lookup_insert_ne; [done |]. intros ->. by destruct Hor.
  - by rewrite list_lookup_insert_ne.
Qed.

(** What [evaluate_on_unlabelled] does to the pooled lists. *)
Lemma evaluate_on_unlabelled_pooled env i m pred r b st u st' :
  evaluate_on_unlabelled env i m pred r b st = Ok (u, st') ->
  exists l yt yp,
    prepared_datasets st !! "labelled" = Some (PBundle l)
    /\ y_true st !! (i - 2)%nat = Some yt
    /\ y_true st' = <[(i - 2)%nat := yt ++ np_argmax_rows (b_test l).2]> (y_true st)
    /\ y_pred st !! (i - 2)%nat = Some yp
    /\ y_pred st' = <[(i - 2)%nat := yp ++ np_argmax_rows pred]> (y_pred st)
    /\ labelled_same st st'
    /\ experiment_configs st' = experiment_configs st.
Proof.
  intros Hrun. unfold evaluate_on_unlabelled in Hrun.
  apply dbind_inv in Hrun as ([data label] & s1 & H1 & H). cbv beta in H.
  destruct (load_unlabelled_dataset _ _ _ _ _ _) as [[[[mutated data0] label0] es]|] eqn:Hl;
    [| done].
  injection H1 as <- <- <-.
  apply load_unlabelled_dataset_labelled in Hl as [Hmut _].
  apply dbind_inv in H as (unlabelled & s2 & H2 & H). cbv beta in H.
  unfold lift_result in H2. cbn [fst snd] in H2, H.
  destruct (get_array data0 "unlabelled") as [a0|] eqn:Ha; [| done].
  injection H2 as <- <-.
  apply dbind_inv in H as (classes & s3 & H3 & H). cbv beta in H.
  injection H3 as <- <-.
  apply dbind_inv in H as ([] & s4 & H4 & H). cbv beta in H. injection H4 as <-.
  apply dbind_inv in H as ([] & s5 & H5 & H). cbv beta in H.
  apply dbind_inv in H as (cm & s6 & H6 & H). cbv beta in H.
  unfold lift_result in H6.
  destruct (dict_item _ "Confusion Matrix") as [cm0|] eqn:Hcm; [| done].
  injection H6 as <- <-.
  apply dbind_inv in H as (old & s7 & H7 & H). cbv beta in H.
  destruct (conv s5 !! i) as [old0|] eqn:Hold; [| done]. injection H7 as <- <-.
  apply dbind_inv in H as (total & s8 & H8 & H). cbv beta in H.
  unfold lift_result in H8. destruct (np_add old0 cm0) as [total0|] eqn:Hadd; [| done].
  injection H8 as <- <-.
  apply dbind_inv in H as ([] & s9 & H9 & H). cbv beta in H. injection H9 as <-.
  apply dbind_inv in H as (l & s10 & H10 & H). cbv beta in H.
  unfold labelled in H10.
  destruct (get_bundle _ "labelled") as [l0|] eqn:Hb; [| done].
  injection H10 as <- <-.
  apply dbind_inv in H as (yt & s11 & H11 & H). cbv beta in H.
  destruct (y_true _ !! (i - 2)%nat) as [yt0|] eqn:Hyt; [| done].
  injection H11 as <- <-.
  apply dbind_inv in H as ([] & s12 & H12 & H). cbv beta in H. injection H12 as <-.
  apply dbind_inv in H as (yp & s13 & H13 & H). cbv beta in H.
  destruct (y_pred _ !! (i - 2)%nat) as [yp0|] eqn:Hyp; [| done].
  injection H13 as <- <-. injection H as _ <-.
  assert (Hs5 : experiment_configs s5 = experiment_configs st
                /\ prepared_datasets s5 = mutated
                /\ y_true s5 = y_true st /\ y_pred s5 = y_pred st).
  { destruct b; injection H5 as <-; done. }
  destruct Hs5 as (G1 & G2 & G3 & G4).
  simpl in Hb, Hyt, Hyp. simpl.
  rewrite G2 in Hb. rewrite G3 in Hyt. rewrite G4 in Hyp.
  unfold get_bundle in Hb. destruct (mutated !! "labelled") as [[bb|arr]|] eqn:Hm; try done.
  injection Hb as ->.
  exists l0, yt0, yp0. unfold labelled_same. simpl.
  rewrite G1, G2, G3, G4. rewrite <- Hmut. repeat split; done.
Qed.

Lemma evaluate_on_unlabelled_quiet env t K i m pred r b :
  (i - 2 <> t - 2)%nat -> preserves (quiet t K) (evaluate_on_unlabelled env i m pred r b).
Proof.
  intros Hne st u st' H.
  apply evaluate_on_unlabelled_pooled in H
    as (l & yt & yp & _ & _ & Et & _ & Ep & Hl & Hc).
  split; [rewrite Et; by apply list_lookup_insert_ne |].
  split; [rewrite Ep; by apply list_lookup_insert_ne |].
  split; [done |]. intros k _. unfold config_field. by rewrite Hc.
Qed.

End Quiet.

Ltac not_in_fields :=
  let H := fresh "H" in
  intros H; repeat (apply elem_of_cons in H as [H | H]; [discriminate H |]);
  by apply elem_of_nil in H.

Ltac quiet_special :=
  first
    [ apply config_default_quiet; first [left; assumption | right; not_in_fields]
    | apply config_set_quiet; first [left; assumption | right; not_in_fields]
    | lazymatch goal with
      | |- preserves _ (if Nat.eqb ?i ?n
                        then evaluate_on_unlabelled _ _ _ _ _ _ else dret tt) =>
          destruct (Nat.eqb_spec i n);
          [ apply evaluate_on_unlabelled_quiet; lia | apply preserves_dret; tc_solve ]
      end ].

Ltac close_quiet :=
  split; [simpl; reflexivity |]; split; [simpl; reflexivity |];
  split;
  [ unfold labelled_same; simpl;
    first [ reflexivity
          | match goal with
            | H : load_unlabelled_dataset _ _ _ _ _ _ = Ok _ |- _ =>
                apply load_unlabelled_dataset_labelled in H as [? ?]; assumption
            end ]
  | intros ? _; reflexivity ].

Ltac quiet_walk := preserves_walk quiet_special close_quiet.

Ltac quiet_from H :=
  lazymatch goal with
  | |- quiet ?t ?K ?st ?st' =>
      lazymatch type of H with
      | ?c _ = Ok (?a, _) =>
          let P := fresh "P" in
          assert (P : preserves (quiet t K) c) by quiet_walk; exact (P st a st' H)
      end
  end.

Section Either.
Context {S : Services} {T : Trainer}.

Lemma either_dbind {A B} t K (c : D A) (k : A -> D B) :
  preserves (quiet t K) c -> (forall a, either t K (k a)) -> either t K (dbind c k).
Proof.
  intros Hc Hk st b st2 H. apply dbind_inv in H as (a & st1 & H1 & H2).
  destruct (Hk _ _ _ _ H2) as [Q | Ap].
  - left. etransitivity; [by eapply Hc | done].
  - right. eapply quiet_appended; [by eapply Hc | done].
Qed.

Lemma either_quiet {A} t K (c : D A) : preserves (quiet t K) c -> either t K c.
Proof. intros Hc st a st' H. left. by eapply Hc. Qed.

Lemma either_weaken {A} t K K' (c : D A) :
  (forall k, k ∈ K' -> k ∈ K) -> either t K c -> either t K' c.
Proof.
  intros Hsub Hc st a st' H. destruct (Hc _ _ _ H) as [Q | Ap]; [left | by right].
  by eapply quiet_weaken.
Qed.

End Either.

Section Pooled.
Context {S : Services} {T : Trainer}.
Variable t : nat.
Hypothesis Ht : (t = 2 \/ t = 3)%nat.

(** An experiment other than [t] leaves [t] alone. *)
Lemma run_experiment_quiet env i :
  i <> t -> preserves (quiet t ["eval_results"; "type"]) (run_experiment env i).
Proof. intros Hne. quiet_walk. Qed.

(** Lines 659-745 for experiment [t], once the model to evaluate is
    there: the labels of the fold are pooled. *)
Lemma evaluation_appended env best st ctl st' :
  (l <- labelled ;;
   pred <- do_predict best (b_test l).1 None ;;
   let eval_results := evaluate_model_simple pred (b_test l).2 in
   _ <- (if Nat.eqb t 3 && Qeq_bool (percentage env) (1 # 2)
         then emit [LabelUnlabelledDataset best] else dret tt) ;;
   _ <- (if Nat.eqb t 2
         then evaluate_on_unlabelled env t best pred eval_results true
         else dret tt) ;;
   _ <- (if Nat.eqb t 3
         then evaluate_on_unlabelled env t best pred eval_results false
         else dret tt) ;;
   _ <- emit_verbose env [PrintEvalResults eval_results] ;;
   _ <- config_set t "eval_results" eval_results ;;
   dret Next) st = Ok (ctl, st') ->
  appended t st st'.
Proof.
  intros H.
  apply dbind_inv in H as (l & s1 & H1 & H). cbv beta in H.
  unfold labelled in H1. destruct (get_bundle _ "labelled") as [l0|] eqn:Hb; [| done].
  injection H1 as <- <-.
  unfold get_bundle in Hb.
  destruct (prepared_datasets st !! "labelled") as [[bb|arr]|] eqn:Hl; try done.
  injection Hb as ->.
  apply dbind_inv in H as (pred & s2 & H2 & H). cbv beta zeta in H.
  injection H2 as <- <-.
  apply dbind_inv in H as (u3 & s3 & H3 & H). cbv beta in H.
  assert (Q3 : quiet t [] st s3).
  { quiet_from H3. }
  apply dbind_inv in H as (u4 & s4 & H4 & H). cbv beta in H.
  apply dbind_inv in H as (u5 & s5 & H5 & H). cbv beta in H.
  assert (Q6 : quiet t [] s5 st').
  { quiet_from H. }
  assert (A45 : appended t s3 s5).
  { destruct Ht as [-> | ->]; simpl in H4, H5.
    - injection H5 as _ <-.
      apply evaluate_on_unlabelled_pooled in H4
        as (l & yt & yp & Hl4 & Hyt & Et & Hyp & Ep & _).
      exists l, best, (store st), yt, yp.
      destruct Q3 as (_ & _ & Hlab & _). unfold labelled_same in Hlab.
      assert (l = l0) as -> by congruence.
      split; [done |]. split; [done |].
      split; [rewrite Et; apply list_lookup_insert_eq; by eapply lookup_lt_Some |].
      split; [done |].
      rewrite Ep. apply list_lookup_insert_eq. by eapply lookup_lt_Some.
    - injection H4 as _ <-.
      apply evaluate_on_unlabelled_pooled in H5
        as (l & yt & yp & Hl4 & Hyt & Et & Hyp & Ep & _).
      exists l, best, (store st), yt, yp.
      destruct Q3 as (_ & _ & Hlab & _). unfold labelled_same in Hlab.
      assert (l = l0) as -> by congruence.
      split; [done |]. split; [done |].
      split; [rewrite Et; apply list_lookup_insert_eq; by eapply lookup_lt_Some |].
      split; [done |].
      rewrite Ep. apply list_lookup_insert_eq. by eapply lookup_lt_Some. }
  eapply quiet_appended; [exact Q3 |]. eapply appended_quiet; [exact A45 | exact Q6].
Qed.

Lemma eval_flag_branch_either env tag :
  either t ["eval_results"] (eval_flag_branch env t tag).
Proof.
  unfold eval_flag_branch.
  apply either_dbind; [quiet_walk | intros flag].
  destruct (truthy flag); [| apply either_quiet, preserves_dret; tc_solve].
  apply either_dbind; [quiet_walk | intros ty].
  apply either_dbind; [quiet_walk | intros best].
  destruct best as [best|]; [| apply either_quiet, preserves_dret; tc_solve].
  intros st ctl st' H. right. by eapply evaluation_appended.
Qed.

Lemma train_and_evaluate_either env ty prev tag lr epochs batch :
  either t ["eval_results"] (train_and_evaluate env t ty prev tag lr epochs batch).
Proof.
  unfold train_and_evaluate.
  apply either_dbind; [quiet_walk | intros _].
  apply either_dbind; [quiet_walk | intros _].
  apply either_dbind; [quiet_walk | intros ctl].
  destruct ctl; [apply eval_flag_branch_either |].
  apply either_quiet, preserves_dret; tc_solve.
Qed.

(** An experiment [t] of a type other than ['eval_har'] writes its
    ['eval_results'] only when it pools the labels. *)
Lemma dispatch_either env ty prev :
  eq_str ty "eval_har" = false -> either t ["eval_results"] (dispatch env t ty prev).
Proof.
  intros Hty. unfold dispatch. rewrite Hty.
  apply either_dbind; [quiet_walk | intros tag].
  apply either_dbind; [quiet_walk | intros lr].
  apply either_dbind; [quiet_walk | intros epochs].
  apply either_dbind; [quiet_walk | intros batch].
  apply either_dbind; [quiet_walk | intros opt].
  apply either_dbind; [quiet_walk | intros _].
  apply train_and_evaluate_either.
Qed.

Lemma dispatch_general env ty prev : either t [] (dispatch env t ty prev).
Proof.
  destruct (eq_str ty "eval_har") eqn:Hty.
  - unfold dispatch. rewrite Hty. apply either_quiet. quiet_walk.
  - eapply either_weaken; [| by apply dispatch_either].
    intros k Hk. by apply elem_of_nil in Hk.
Qed.

(** What experiment [t] does to its pooled lists. *)
Lemma run_experiment_either env st ctl st' :
  run_experiment env t st = Ok (ctl, st') ->
  (quiet t [] st st' \/ appended t st st')
  /\ (forall ty, config_field t "type" st = Some (VStr ty) -> ty <> "eval_har" ->
      quiet t ["eval_results"] st st' \/ appended t st st').
Proof.
  intros H. split.
  - revert H. generalize st'. generalize ctl. generalize st.
    change (either t [] (run_experiment env t)). unfold run_experiment.
    apply either_dbind; [quiet_walk | intros c].
    apply either_dbind; [quiet_walk | intros _].
    apply either_dbind; [quiet_walk | intros ty].
    destruct (eq_str ty "none"); [apply either_quiet, preserves_dret; tc_solve |].
    apply either_dbind; [quiet_walk | intros prev].
    apply dispatch_general.
  - intros ty Hty Hne. unfold run_experiment in H.
    apply dbind_inv in H as (c & s1 & H1 & H). cbv beta in H.
    apply dbind_inv in H as (u & s2 & H2 & H). cbv beta in H.
    apply dbind_inv in H as (tv & s3 & H3 & H). cbv beta in H.
    assert (Q1 : quiet t ["eval_results"] st s1).
    { quiet_from H1. }
    assert (Q2 : quiet t ["eval_results"] s1 s2).
    { quiet_from H2. }
    assert (Q3 : quiet t ["eval_results"] s2 s3).
    { quiet_from H3. }
    assert (tv = VStr ty) as ->.
    { assert (Hc2 : experiment_configs s2 = experiment_configs st).
      { unfold config_at in H1. destruct (experiment_configs st !! t); [| done].
        injection H1 as _ <-.
        unfold emit_verbose in H2. destruct (0 <? verbose env).
        - by injection H2 as _ <-.
        - by injection H2 as _ <-. }
      apply config_default_inv in H3 as (c3 & Hc3 & Hres & _).
      unfold config_field in Hty. rewrite <- Hc2, Hc3 in Hty.
      unfold resolved in Hres. rewrite Hty in Hres. by injection Hres as <-. }
    assert (Q : quiet t ["eval_results"] st s3).
    { etransitivity; [exact Q1 |]. etransitivity; [exact Q2 | exact Q3]. }
    assert (E : either t ["eval_results"]
                  (if eq_str (VStr ty) "none" then dret Next
                   else previous_config <- resolve_previous_config t ;;
                        dispatch env t (VStr ty) previous_config)).
    { destruct (eq_str (VStr ty) "none");
        [apply either_quiet, preserves_dret; tc_solve |].
      apply either_dbind; [quiet_walk | intros prev].
      apply dispatch_either. simpl. by apply String.eqb_neq. }
    destruct (E _ _ _ H) as [Q' | Ap].
    + left. by etransitivity.
    + right. by eapply quiet_appended.
Qed.

(** The experiments [l] of a fold, each run once. *)
Lemma run_from_either env l :
  NoDup l ->
  forall st ctl st', run_from env l st = Ok (ctl, st') ->
  (t ∉ l -> quiet t ["eval_results"; "type"] st st')
  /\ (quiet t [] st st' \/ appended t st st')
  /\ (forall ty, config_field t "type" st = Some (VStr ty) -> ty <> "eval_har" ->
      quiet t ["eval_results"] st st' \/ appended t st st').
Proof.
  induction 1 as [|i l Hi Hnd IH]; intros st ctl st' H.
  - injection H as _ <-. split; [reflexivity |]. split; [by left |]. intros. by left.
  - cbn [run_from] in H. apply dbind_inv in H as (c1 & s1 & H1 & H2).
    assert (Hrest : (t ∉ l -> quiet t ["eval_results"; "type"] s1 st')
                    /\ (quiet t [] s1 st' \/ appended t s1 st')
                    /\ (forall ty, config_field t "type" s1 = Some (VStr ty) ->
                          ty <> "eval_har" ->
                          quiet t ["eval_results"] s1 st' \/ appended t s1 st')).
    { destruct c1; [by eapply IH |]. injection H2 as _ <-.
      split; [reflexivity |]. split; [by left |]. intros. by left. }
    destruct Hrest as (R1 & R2 & R3).
    destruct (decide (i = t)) as [-> | Hne].
    + destruct (run_experiment_either _ _ _ _ H1) as [E1 E2].
      specialize (R1 Hi).
      assert (W0 : quiet t [] s1 st').
      { eapply quiet_weaken; [| exact R1]. intros k Hk. by apply elem_of_nil in Hk. }
      assert (W1 : quiet t ["eval_results"] s1 st').
      { eapply quiet_weaken; [| exact R1]. intros k Hk.
        apply list_elem_of_singleton in Hk as ->. by left. }
      split; [intros Hn; exfalso; apply Hn; by left |]. split.
      * destruct E1 as [Q | Ap]; [left; by etransitivity | right].
        by eapply appended_quiet.
      * intros ty Hty Hn. destruct (E2 ty Hty Hn) as [Q | Ap];
          [left; by etransitivity | right]. by eapply appended_quiet.
    + pose proof (run_experiment_quiet env i Hne _ _ _ H1) as Q.
      assert (W0 : quiet t [] st s1).
      { eapply quiet_weaken; [| exact Q]. intros k Hk. by apply elem_of_nil in Hk. }
      assert (W1 : quiet t ["eval_results"] st s1).
      { eapply quiet_weaken; [| exact Q]. intros k Hk.
        apply list_elem_of_singleton in Hk as ->. by left. }
      split; [| split].
      * intros Hn. etransitivity; [exact Q |]. apply R1. intros Hin. apply Hn. by right.
      * destruct R2 as [Q' | Ap]; [left; by etransitivity | right].
        by eapply quiet_appended.
      * intros ty Hty Hn.
        assert (Hty1 : config_field t "type" s1 = Some (VStr ty)).
        { destruct Q as (_ & _ & _ & D). rewrite D; [done |]. right. by left. }
        destruct (R3 ty Hty1 Hn) as [Q' | Ap]; [left; by etransitivity | right].
        by eapply quiet_appended.
Qed.

End Pooled.

Section PooledFolds.
Context {S : Services} {T : Trainer}.

Variables (a : arguments) (pct : Q) (cf : config_file) (report_path : string).
Variable t : nat.
Hypothesis Hverbose : 0 < a_verbose a.
Hypothesis Ht : (t = 2 \/ t = 3)%nat.
Hypothesis Hlen : (t < length (cf_experiment_configs cf))%nat.

Lemma run_fold_pooled j sr sr' yt0 yp0 :
  run_fold a pct cf report_path j sr = Ok sr' ->
  y_true sr.1 !! (t - 2)%nat = Some yt0 -> y_pred sr.1 !! (t - 2)%nat = Some yp0 ->
  exists c,
    y_true sr'.1 !! (t - 2)%nat = Some (yt0 ++ c.1)
    /\ y_pred sr'.1 !! (t - 2)%nat = Some (yp0 ++ c.2)
    /\ fold_chunk a pct cf t j c.
Proof.
  intros Hrun Hyt Hyp.
  destruct (run_fold_metric a pct cf report_path t "Kappa" Hverbose Ht
              ltac:(set_solver) Hlen _ _ _ Hrun) as (_ & x & _ & Hx & _).
  unfold run_fold in Hrun. cbv zeta in Hrun.
  apply rbind_inv in Hrun as ([b es] & Hb & H).
  apply rbind_inv in H as ([ctl st1] & H1 & H).
  apply rbind_inv in H as (rep & _ & H). injection H as <-. simpl in *.
  unfold run_experiments in H1.
  destruct (run_from_either t Ht _ _ (NoDup_seq _ _) _ _ _ H1) as (_ & G & Sp).
  assert (Hap : appended t
                  (set_configs (cf_experiment_configs cf)
                     (set_prepared (<["labelled" := PBundle b]> ∅)
                        (set_out (out sr.1 ++ es)
                           (set_clock (Datatypes.S (clock sr.1)) sr.1)))) st1 ->
                exists c, y_true st1 !! (t - 2)%nat = Some (yt0 ++ c.1)
                          /\ y_pred st1 !! (t - 2)%nat = Some (yp0 ++ c.2)
                          /\ fold_pooled a pct j c).
  { intros (l & m & h & yt & yp & Hl & Et & Et' & Ep & Ep'). simpl in Hl, Et, Ep.
    rewrite lookup_insert_eq in Hl. injection Hl as <-.
    rewrite Hyt in Et. injection Et as <-. rewrite Hyp in Ep. injection Ep as <-.
    eexists (_, _). split; [exact Et' |]. split; [exact Ep' |].
    by exists b, es, m, h. }
  destruct G as [Q | Ap].
  - destruct Q as (Qt & Qp & _). simpl in Qt, Qp.
    exists ([], []). simpl. rewrite !app_nil_r.
    split; [congruence |]. split; [congruence |]. split; [by left |].
    intros (c0 & ty & Hc0 & Hty & Hne & Hnone).
    destruct (Sp ty) as [Q' | Ap]; [unfold config_field; simpl; by rewrite Hc0 | done | |].
    + exfalso. destruct Q' as (_ & _ & _ & D).
      specialize (D "eval_results" ltac:(by left)).
      unfold config_field in D. simpl in D. rewrite Hc0, Hnone in D.
      unfold labelled_metric in Hx.
      destruct (experiment_configs st1 !! t) as [c1|]; [| done].
      unfold config_metric in Hx. by rewrite D in Hx.
    + destruct (Hap Ap) as ([c1 c2] & A & B & C). simpl in A, B.
      rewrite Qt, Hyt in A. injection A as A. rewrite Qp, Hyp in B. injection B as B.
      assert (c1 = []) as -> by (apply (app_inv_head yt0); by rewrite app_nil_r).
      assert (c2 = []) as -> by (apply (app_inv_head yp0); by rewrite app_nil_r).
      exact C.
  - destruct (Hap Ap) as (c & A & B & C). exists c.
    split; [done |]. split; [done |]. split; [by right | done].
Qed.

Lemma run_folds_pooled js :
  forall sr sr' yt0 yp0,
  run_folds a pct cf report_path js sr = Ok sr' ->
  y_true sr.1 !! (t - 2)%nat = Some yt0 -> y_pred sr.1 !! (t - 2)%nat = Some yp0 ->
  exists chunks,
    Forall2 (fold_chunk a pct cf t) js chunks
    /\ y_true sr'.1 !! (t - 2)%nat = Some (yt0 ++ concat chunks.*1)
    /\ y_pred sr'.1 !! (t - 2)%nat = Some (yp0 ++ concat chunks.*2).
Proof.
  induction js as [|j rest IH]; intros sr sr' yt0 yp0 H Hyt Hyp.
  - injection H as <-. exists []. simpl. rewrite !app_nil_r.
    split; [constructor | done].
  - cbn [run_folds] in H. apply rbind_inv in H as (sr1 & H1 & H2).
    destruct (run_fold_pooled _ _ _ _ _ H1 Hyt Hyp) as (c & A & B & C).
    destruct (IH _ _ _ _ H2 A B) as (chunks & F & A' & B').
    exists (c :: chunks). split; [by constructor |].
    cbn [fmap list_fmap concat]. by rewrite !app_assoc.
Qed.

End PooledFolds.

End PooledFacts.

(** ** The aggregate over the folds *)

Module AggregationFacts.
Import Keras Run KerasSpec RunSpec FreezeSpec GraphFacts HeadFacts HarOutputFacts
  FreezeFacts StoreFacts EventFacts ConfigStepFacts ResolutionFacts DispatchFacts
  MissingPreviousFacts ScheduleFacts FrozenFacts FreezingFacts ValidationFacts
  AccumulationFacts PoolFacts FoldFacts FinalisationFacts PooledFacts.
Local Open Scope string_scope.
Local Open Scope Z_scope.
Local Open Scope list_scope.
Local Open Scope run_scope.

Section AggregationTheorem.
Context {S : Services} {T : Trainer}.

Lemma initial_metric t k :
  (t = 2 \/ t = 3)%nat -> k ∈ scalar_keys ->
  metric initial_performance (experiment_key t) k = Some (VInt 0).
Proof.
  intros Ht Hk. unfold scalar_keys in Hk.
  repeat (apply elem_of_cons in Hk as [-> | Hk]; [destruct Ht as [-> | ->]; by vm_compute |]).
  inversion Hk.
Qed.

Lemma grows_prefix l l' idx x' :
  grows l l' -> l' !! idx = Some x' -> exists x, l !! idx = Some x /\ x `prefix_of` x'.
Proof.
  intros [Hlen Hg] H'.
  destruct (lookup_lt_is_Some_2 l idx) as [x Hx].
  { rewrite <- Hlen. by eapply lookup_lt_Some. }
  exists x. split; [done |]. destruct (Hg _ _ Hx) as [y Hy].
  rewrite H' in Hy. injection Hy as ->. by exists y.
Qed.

(** The mean of plain numbers. *)
Lemma mean_of_floats (qs : list Q) (total mean : value) (n : nat) :
  py_sum (VInt 0) (map VFloat qs) = Ok total -> py_div total n = Ok mean ->
  exists q, mean = VFloat q
            /\ (q == fold_right Qplus 0 qs / inject_Z (Z.of_nat n))%Q.
Proof.
  intros Hs Hd.
  destruct (py_sum_floats qs (VInt 0) (inject_Z 0) total eq_refl Hs) as (s & Hn & E).
  destruct (py_div_number _ _ _ _ Hn Hd) as [_ ->].
  eexists. split; [reflexivity |]. rewrite E. change (inject_Z 0) with 0%Q.
  by rewrite Qplus_0_l.
Qed.

(** With [verbose <= 0] no fold summary runs: nothing is accumulated,
    [path] stays unbound and the run ends in an exception where the
    result files are opened. *)
Lemma run_folds_quiet a pct cf report_path js :
  a_verbose a <= 0 ->
  forall sr sr', run_folds a pct cf report_path js sr = Ok sr' -> sr'.2 = sr.2.
Proof.
  intros Hq. induction js as [|j rest IH]; intros sr sr' H.
  - by injection H as <-.
  - cbn [run_folds] in H. apply rbind_inv in H as (sr1 & H1 & H2).
    rewrite (IH _ _ H2). unfold run_fold in H1. cbv zeta in H1.
    apply rbind_inv in H1 as (b & _ & H1). apply rbind_inv in H1 as (r & _ & H1).
    apply rbind_inv in H1 as (rep0 & H3 & H1). injection H1 as <-. simpl.
    unfold fold_summary in H3.
    replace (0 <? a_verbose a) with false in H3 by (symmetry; apply Z.ltb_ge; lia).
    by injection H3 as <-.
Qed.

Lemma run_percentage_quiet a pct cf report_path st :
  a_verbose a <= 0 ->
  exists e, run_percentage a pct cf report_path st None = Raise e.
Proof.
  intros Hq. destruct (run_percentage a pct cf report_path st None) as [[st' rep]|e] eqn:H;
    [| by exists e]. exfalso.
  unfold run_percentage in H. cbv zeta in H.
  apply rbind_inv in H as (sr & H1 & H). apply rbind_inv in H as (rep0 & H2 & H).
  apply run_folds_quiet in H1; [| done].
  destruct (finalise_run _ _ _ _ 2%nat ltac:(by left) H2) as (Hp & _).
  rewrite H1 in Hp. simpl in Hp. by rewrite Hp in H.
Qed.

(** C5.  Let a run over all users for one labelled-data percentage
    complete, either with [verbose > 0] or with no result path bound
    before it, as in the first pass over the percentages, and let [t] be
    2 or 3, an index of the experiment list.  There is one fold per
    user.  For every scalar metric [k] the entry of experiment [t] in
    the labelled results is [sum(vs) / len(users)], where [vs] lists
    [eval_results[k]] of experiment [t] at the end of each fold, and the
    entry in the unlabelled results is [sum(us) / len(users)] for the
    values [ev[t][k]] of the folds; on plain numbers these are the
    arithmetic means.  The labelled confusion matrix of experiment [t]
    is not a mean: it is [confusion_matrix] applied to the pooled lists
    [y_true[t - 2]] and [y_pred[t - 2]] of the final state.  These lists
    are the concatenation, in the order of the folds, of one pair of
    chunks per fold; the chunk of fold [j] is empty or holds the classes
    of the test windows of the user that fold [j] holds out and the
    classes a model predicts for them, and it is the latter for every
    fold when experiment [t] of the file is evaluated by its own
    ['eval_har'] flag.  No fold resets the lists: what a fold ends with
    is a prefix of them. *)
Theorem aggregate_over_folds (a : arguments) (pct : Q) (cf : config_file)
    (report_path : string) (st : state) (path : option string)
    (st' : state) (rep : report) (t : nat)
    (Hpath : path = None \/ 0 < a_verbose a)
    (Ht : (t = 2 \/ t = 3)%nat)
    (Hlen : (t < length (cf_experiment_configs cf))%nat)
    (Hrun : run_percentage a pct cf report_path st path = Ok (st', rep)) :
  let users := raw_users (pickle_load (a_labelled_dataset_path a)).1 in
  let folds := fold_states a pct cf report_path (seq 0 (length users))
                 (initial_pools st, initial_report path) in
  length folds = length users
  /\ last folds = Some st'
  /\ (forall k, k ∈ scalar_keys ->
      exists vs us tl tu al au,
        Forall2 (fun s v => labelled_metric t k s = Ok v) folds vs
        /\ Forall2 (fun s u => unlabelled_metric t k s = Ok u) folds us
        /\ py_sum (VInt 0) vs = Ok tl /\ py_div tl (length users) = Ok al
        /\ metric (performance_labelled_dataset rep) (experiment_key t) k = Some al
        /\ py_sum (VInt 0) us = Ok tu /\ py_div tu (length users) = Ok au
        /\ metric (performance_unlabelled_dataset rep) (experiment_key t) k = Some au
        /\ (forall qs, vs = map VFloat qs ->
            exists q, al = VFloat q
                      /\ (q == fold_right Qplus 0 qs
                               / inject_Z (Z.of_nat (length users)))%Q)
        /\ (forall qs, us = map VFloat qs ->
            exists q, au = VFloat q
                      /\ (q == fold_right Qplus 0 qs
                               / inject_Z (Z.of_nat (length users)))%Q))
  /\ exists yt yp cm chunks,
       y_true st' !! (t - 2)%nat = Some yt /\ y_pred st' !! (t - 2)%nat = Some yp
       /\ confusion_matrix yt yp = Ok cm
       /\ metric (performance_labelled_dataset rep) (experiment_key t) "Confusion Matrix"
          = Some cm
       /\ yt = concat chunks.*1 /\ yp = concat chunks.*2
       /\ Forall2 (fold_chunk a pct cf t) (seq 0 (length users)) chunks
       /\ forall s, s ∈ folds ->
            exists yt_s yp_s,
              y_true s !! (t - 2)%nat = Some yt_s /\ yt_s `prefix_of` yt
              /\ y_pred s !! (t - 2)%nat = Some yp_s /\ yp_s `prefix_of` yp.
Proof.
  intros users folds.
  assert (Hverbose : 0 < a_verbose a).
  { destruct Hpath as [-> | Hv]; [| done].
    destruct (Z.lt_ge_cases 0 (a_verbose a)) as [Hv | Hq]; [done |].
    destruct (run_percentage_quiet a pct cf report_path st ltac:(lia)) as [e He].
    rewrite He in Hrun. discriminate Hrun. }
  unfold run_percentage in Hrun. cbv zeta in Hrun.
  fold users in Hrun.
  apply rbind_inv in Hrun as ([st1 r1] & H1 & H).
  apply rbind_inv in H as (rep0 & H2 & H). simpl in H2, H.
  destruct (var_path rep0); [| done]. injection H as -> ->.
  destruct (finalise_run _ _ _ _ t Ht H2)
    as (_ & Hdiv & yt & yp & cm & Hyt & Hyp & Hok & Hcm).
  assert (Hcell : forall k, k ∈ scalar_keys ->
            exists vs us tl tu al au,
              Forall2 (fun s v => labelled_metric t k s = Ok v) folds vs
              /\ Forall2 (fun s u => unlabelled_metric t k s = Ok u) folds us
              /\ py_sum (VInt 0) vs = Ok tl /\ py_div tl (length users) = Ok al
              /\ metric (performance_labelled_dataset rep) (experiment_key t) k = Some al
              /\ py_sum (VInt 0) us = Ok tu /\ py_div tu (length users) = Ok au
              /\ metric (performance_unlabelled_dataset rep) (experiment_key t) k = Some au).
  { intros k Hk.
    destruct (run_folds_metric a pct cf report_path t k Hverbose Ht Hk Hlen _ _ _ H1)
      as (_ & _ & _ & M).
    destruct (M (VInt 0) (VInt 0) (initial_metric t k Ht Hk) (initial_metric t k Ht Hk))
      as (vs & us & tl & tu & Fv & Fu & Sv & Su & Ml & Mu).
    destruct (Hdiv k Hk) as (vl & vl' & vu & vu' & A & B & C & D & E & F).
    simpl in Ml, Mu. rewrite Ml in A. injection A as <-. rewrite Mu in D. injection D as <-.
    by exists vs, us, tl, tu, vl', vu'. }
  destruct (run_folds_metric a pct cf report_path t "Kappa" Hverbose Ht
              ltac:(set_solver) Hlen _ _ _ H1) as (L & La & _ & _).
  fold folds in L, La. rewrite length_seq in L. simpl in La.
  assert (folds <> []) as Hne.
  { intros E. destruct (Hcell "Kappa" ltac:(set_solver))
      as (vs & us & tl & tu & al & au & Fv & _ & Sv & Dv & _).
    rewrite E in Fv, L. inversion Fv; subst. injection Sv as <-.
    rewrite <- L in Dv. done. }
  split; [done |]. split.
  { destruct folds as [|s0 rest]; [done |]. exact La. }
  split.
  - intros k Hk.
    destruct (Hcell k Hk) as (vs & us & tl & tu & al & au & Fv & Fu & Sv & Dv & Ml & Su & Du & Mu).
    exists vs, us, tl, tu, al, au. repeat (split; [done |]). split.
    + intros qs ->. by eapply mean_of_floats.
    + intros qs ->. by eapply mean_of_floats.
  - assert (I0 : y_true (initial_pools st, initial_report path).1 !! (t - 2)%nat = Some []
                 /\ y_pred (initial_pools st, initial_report path).1 !! (t - 2)%nat
                    = Some []).
    { destruct Ht as [-> | ->]; by split. }
    destruct I0 as [It Ip].
    destruct (run_folds_pooled a pct cf report_path t Hverbose Ht Hlen _ _ _ _ _ H1 It Ip)
      as (chunks & Fc & Ct & Cp).
    simpl in Ct, Cp. rewrite Hyt in Ct. injection Ct as Ct.
    rewrite Hyp in Cp. injection Cp as Cp.
    exists yt, yp, cm, chunks. repeat (split; [done |]). intros fs Hfs.
    destruct (run_folds_pools a pct cf report_path _ _ _ H1) as [_ G].
    destruct (G fs Hfs) as [Gt Gp]. simpl in Gt, Gp.
    destruct (grows_prefix _ _ _ _ Gt Hyt) as (yt_s & A & B).
    destruct (grows_prefix _ _ _ _ Gp Hyp) as (yp_s & C & D).
    by exists yt_s, yp_s.
Qed.

End AggregationTheorem.

End AggregationFacts.

(** ** Runs of the small instance *)

Module Examples.
Import Keras Run KerasSpec RunSpec FreezeSpec GraphFacts HeadFacts HarOutputFacts
  FreezeFacts StoreFacts EventFacts ConfigStepFacts ResolutionFacts DispatchFacts
  MissingPreviousFacts ScheduleFacts FrozenFacts FreezingFacts ValidationFacts
  AccumulationFacts PoolFacts FoldFacts FinalisationFacts PooledFacts AggregationFacts
  Scenarios Toy.
Local Open Scope string_scope.
Local Open Scope Z_scope.
Local Open Scope list_scope.

Lemma Forall_is_print_no_training es : Forall is_print es -> no_training es = true.
Proof.
  induction 1 as [|e es He _ IH]; [done |]. simpl. rewrite IH. by destruct e.
Qed.

(** The first experiment points at its successor: the run completes and
    has trained. *)
Lemma forward_offset_not_rejected :
  ~ rejected_before_training (toy_env 0) (toy_state forward_configs).
Proof.
  intros H.
  assert (has_invalid_offset (experiment_configs (toy_state forward_configs))) as Hinv.
  { exists 0%nat, (config [("type", VStr "har_full_train");
                           ("previous_config_offset", VInt (-1))]), (-1).
    split; [reflexivity |]. split; [by vm_compute | lia]. }
  assert (match run_experiments (toy_env 0) (toy_state forward_configs) with
          | Ok (_, s) => no_training (out s)
          | Raise _ => true
          end = false) as X by (by vm_compute).
  destruct (run_experiments (toy_env 0) (toy_state forward_configs)) as [[ctl st']|e] eqn:E.
  - specialize (H Hinv ctl st' E). apply Forall_is_print_no_training in H.
    congruence.
  - discriminate X.
Qed.

(** C3.  On the experiment list [transform_train; none; har_full_train
    with eval_har] the first experiment loads the unlabelled pool, so
    ['unlabelled'] is in [prepared_datasets] when the third experiment
    starts and the pickled pool has been read once; the evaluation of
    the third experiment, at index 2, reads it a second time.  On the
    list [none; none; har_full_train with eval_har; transform_train] the
    evaluation at index 2 is the first to load the pool: it leaves
    ['unlabelled'] behind without ['unlabelled_combined'], and the
    [transform_train] step after it, finding ['unlabelled'] present,
    fails on the missing key. *)
Theorem unlabelled_pool_loaded_again :
  (exists st1 st2,
     run_from (toy_env 0) [0; 1]%nat (toy_state reload_configs) = Ok (Next, st1)
     /\ is_Some (prepared_datasets st1 !! "unlabelled")
     /\ pickle_reads "unlabelled.pkl" (out st1) = 1%nat
     /\ run_experiment (toy_env 0) 2 st1 = Ok (Next, st2)
     /\ pickle_reads "unlabelled.pkl" (out st2) = 2%nat)
  /\ run_experiments (toy_env 0) (toy_state stale_configs)
     = Raise (KeyError "unlabelled_combined").
Proof.
  split; [| apply outcome_raise; vm_compute; reflexivity].
  assert (match run_from (toy_env 0) [0; 1]%nat (toy_state reload_configs) with
          | Ok (Next, st1) =>
              match run_experiment (toy_env 0) 2 st1 with
              | Ok (Next, st2) =>
                  Some (match prepared_datasets st1 !! "unlabelled" with
                        | Some _ => true
                        | None => false
                        end,
                        pickle_reads "unlabelled.pkl" (out st1),
                        pickle_reads "unlabelled.pkl" (out st2))
              | _ => None
              end
          | _ => None
          end = Some (true, 1%nat, 2%nat)) as X by (vm_compute; reflexivity).
  destruct (run_from (toy_env 0) [0; 1]%nat (toy_state reload_configs))
    as [[[] st1]|]; try discriminate X.
  destruct (run_experiment (toy_env 0) 2 st1) as [[[] st2]|] eqn:E2; try discriminate X.
  injection X as X1 X2 X3. exists st1, st2.
  split; [reflexivity |]. split; [| by repeat split].
  destruct (prepared_datasets st1 !! "unlabelled"); [eauto | done].
Qed.

(** ** Instances of the theorems on the small instance *)

Lemma toy_load_model_wf : load_model_wf.
Proof.
  intros path h id h' H Hwf. simpl in H. unfold toy_load_model in H.
  apply bind_inv in H as (core & h1 & H1 & H2).
  eapply attach_full_har_classification_head_wf; [| | exact H2].
  - by eapply create_1d_conv_core_model_wf.
  - by eapply create_1d_conv_core_model_plain.
Qed.

Lemma wf_store_nil : wf_store [].
Proof. intros id l m H. by rewrite lookup_nil in H. Qed.

Lemma resolve_previous_config_spec_witness :
  exists st',
    resolve_previous_config 1
      (toy_state [config [("type", VStr "transform_train")];
                  config [("type", VStr "har_full_train");
                          ("previous_config_offset", VInt 1)]])
    = Ok (Some 0%nat, st').
Proof.
  pose (c := config [("type", VStr "har_full_train"); ("previous_config_offset", VInt 1)]).
  pose (st := toy_state [config [("type", VStr "transform_train")]; c]).
  assert (Hc : experiment_configs st !! 1%nat = Some c) by reflexivity.
  destruct (resolve_previous_config_spec 1 st c Hc) as (_ & _ & H & _).
  assert (Hoff : offset_of c = VInt 1) by (vm_compute; reflexivity).
  destruct (H 1 Hoff ltac:(lia)) as (st' & cp & Hr & _).
  exists st'. exact Hr.
Defined.

Lemma missing_previous_model_witness :
  exists st',
    run_experiment (toy_env 0) 0 (toy_state [config [("type", VStr "eval_har")]])
    = Ok (Next, st').
Proof.
  pose (c := config [("type", VStr "eval_har")]).
  pose (st := toy_state [c]).
  assert (Hc : experiment_configs st !! 0%nat = Some c) by reflexivity.
  assert (Hprev : previous_of (experiment_configs st) 0 c = Ok None)
    by (vm_compute; reflexivity).
  assert (Hlab : prepared_datasets st !! "labelled" = Some (PBundle toy_bundle))
    by reflexivity.
  destruct (missing_previous_model (toy_env 0) 0 st c [] None toy_bundle Hc Hprev I Hlab)
    as [H _].
  assert (Ht : c !! "type" = Some (VStr "eval_har")) by (vm_compute; reflexivity).
  destruct (H Ht) as (st' & es & c' & Hrun & _).
  exists st'. exact Hrun.
Defined.

Lemma training_rate_schedules_witness :
  exists ctl st' es,
    run_experiment (toy_env 0) 0 (toy_state [config [("type", VStr "transform_train")]])
      = Ok (ctl, st')
    /\ out st' = es
    /\ scheduled (step_decayed (VFloat (3 # 10000))) es.
Proof.
  pose (c := config [("type", VStr "transform_train")]).
  pose (st := toy_state [c]).
  assert (Hc : experiment_configs st !! 0%nat = Some c) by reflexivity.
  assert (Hok : match run_experiment (toy_env 0) 0 st with
                | Ok _ => true
                | Raise _ => false
                end = true) by (vm_compute; reflexivity).
  destruct (run_experiment (toy_env 0) 0 st) as [[ctl st']|e] eqn:Hrun.
  - destruct (training_rate_schedules (toy_env 0) 0 st c ctl st' Hc Hrun) as [H _].
    assert (Ht : c !! "type" = Some (VStr "transform_train")) by (vm_compute; reflexivity).
    destruct (H Ht) as (es & E & Hs).
    exists ctl, st', es. split; [first [exact Hrun | reflexivity] |]. split; [exact E | exact Hs].
  - discriminate Hok.
Defined.

Lemma freeze_layers_by_mode_witness :
  exists ctl st' es,
    run_experiment (toy_env 0) 0 (toy_state [config [("type", VStr "har_full_fine_tune")]])
      = Ok (ctl, st')
    /\ out st' = es
    /\ Exists is_train es
    /\ Forall (frozen_event (fun i => bool_decide (5 <= i)%nat)) es.
Proof.
  pose (c := config [("type", VStr "har_full_fine_tune")]).
  pose (st := toy_state [c]).
  assert (Hc : experiment_configs st !! 0%nat = Some c) by reflexivity.
  assert (Hok : match run_experiment (toy_env 0) 0 st with
                | Ok _ => true
                | Raise _ => false
                end = true) by (vm_compute; reflexivity).
  destruct (run_experiment (toy_env 0) 0 st) as [[ctl st']|e] eqn:Hrun.
  - destruct (freeze_layers_by_mode (toy_env 0) 0 st c ctl st' toy_load_model_wf
                wf_store_nil Hc Hrun) as (_ & _ & H).
    assert (Ht : c !! "type" = Some (VStr "har_full_fine_tune")) by (vm_compute; reflexivity).
    destruct (H Ht) as (es & E & Hx & Hf).
    exists ctl, st', es. split; [first [exact Hrun | reflexivity] |]. split; [exact E |]. split; [exact Hx | exact Hf].
  - discriminate Hok.
Defined.

Lemma configuration_errors_at_their_step_witness :
  run_experiment (toy_env 0) 1 (toy_state out_of_range_configs) = Raise IndexError.
Proof.
  pose (c := config [("type", VStr "har_full_train"); ("previous_config_offset", VInt 5)]).
  assert (Hc : experiment_configs (toy_state out_of_range_configs) !! 1%nat = Some c)
    by reflexivity.
  assert (Ht : c !! "type" = Some (VStr "har_full_train")) by (vm_compute; reflexivity).
  assert (Hoff : c !! "previous_config_offset" = Some (VInt 5)) by (vm_compute; reflexivity).
  assert (Hne : 5 <> 0) by lia.
  destruct (configuration_errors_at_their_step (toy_env 0) 1 (toy_state out_of_range_configs)
              c (VStr "har_full_train") 5 Hc Ht eq_refl Hoff Hne) as (_ & _ & H & _).
  apply H. left. simpl. lia.
Defined.

Lemma extract_core_model_attach_witness :
  exists m h',
    attach_linear_classification_head 8 2 (SGD (VFloat (3 # 100))) "Linear" core_store
      = Ok (m, h')
    /\ extract_core_model m h' = Ok (8%nat, h').
Proof.
  assert (Hcore : input_shape_of 8 core_store = Ok ([52; 3], core_store)) by reflexivity.
  destruct (extract_core_model_attach core_store 8 [52; 3] Hcore) as (_ & H & _).
  destruct (H 2 (SGD (VFloat (3 # 100))) "Linear") as (m & h' & Ha & He & _).
  exists m, h'. split; [exact Ha | exact He].
Defined.

Lemma har_output_is_last_witness :
  exists m h' mm har x,
    attach_multitask_transform_head 8 transform_funcs_names (Adam (VFloat (3 # 10000)))
      true (Some 2) 1024 "StudentPreTrain" core_store = Ok (m, h')
    /\ get_model m h' = Ok (mm, h')
    /\ last (m_outputs mm) = Some (TCall har x)
    /\ h' !! har = Some (new_layer Softmax (Some "har")).
Proof.
  assert (Hcore : input_shape_of 8 core_store = Ok ([52; 3], core_store)) by reflexivity.
  destruct (har_output_is_last core_store 8 [52; 3] transform_funcs_names
              (Adam (VFloat (3 # 10000))) 2 1024 "StudentPreTrain" Hcore)
    as (m & h' & mm & har & x & Ha & Hm & _ & _ & Hl & Hh & _).
  exists m, h', mm, har, x. split; [exact Ha |]. split; [exact Hm |]. split; [exact Hl | exact Hh].
Defined.

Lemma aggregate_over_folds_witness :
  exists st' rep yt yp cm chunks,
    run_percentage (toy_args 1) (1 # 2) toy_config_file "reports" initial_state None
      = Ok (st', rep)
    /\ y_true st' !! 0%nat = Some yt /\ y_pred st' !! 0%nat = Some yp
    /\ confusion_matrix yt yp = Ok cm
    /\ metric (performance_labelled_dataset rep) "Experiment 2" "Confusion Matrix"
       = Some cm
    /\ yt = concat chunks.*1 /\ yp = concat chunks.*2
    /\ Forall2 (fold_pooled (toy_args 1) (1 # 2)) [0; 1]%nat chunks.
Proof.
  assert (Hself : evaluates_itself toy_config_file 2).
  { exists (config [("type", VStr "har_full_train"); ("eval_har", VBool true)]),
      "har_full_train".
    split; [reflexivity |]. split; [vm_compute; reflexivity |].
    split; [discriminate | vm_compute; reflexivity]. }
  assert (Hpath : @None string = None \/ 0 < a_verbose (toy_args 1))
    by (left; reflexivity).
  assert (Ht : (2 = 2 \/ 2 = 3)%nat) by (left; reflexivity).
  assert (Hlen : (2 < length (cf_experiment_configs toy_config_file))%nat) by (simpl; lia).
  assert (Hok : match run_percentage (toy_args 1) (1 # 2) toy_config_file "reports"
                        initial_state None with
                | Ok _ => true
                | Raise _ => false
                end = true) by (vm_compute; reflexivity).
  destruct (run_percentage (toy_args 1) (1 # 2) toy_config_file "reports" initial_state None)
    as [[st' rep]|e] eqn:Hrun.
  - destruct (aggregate_over_folds (toy_args 1) (1 # 2) toy_config_file "reports"
                initial_state None st' rep 2 Hpath Ht Hlen Hrun)
      as (_ & _ & _ & yt & yp & cm & chunks & Hyt & Hyp & Hok' & Hcm & Et & Ep & Hf & _).
    exists st', rep, yt, yp, cm, chunks.
    split; [first [exact Hrun | reflexivity] |]. split; [exact Hyt |].
    split; [exact Hyp |]. split; [exact Hok' |]. split; [exact Hcm |].
    split; [exact Et |]. split; [exact Ep |].
    eapply Forall2_impl; [exact Hf |]. intros j c [_ Hc]. exact (Hc Hself).
  - discriminate Hok.
Defined.

End Examples.

(** ** The feature extractor and the objects of the store *)

Module CoreModelFacts.
Import Keras Run KerasSpec RunSpec FreezeSpec GraphFacts HeadFacts HarOutputFacts
  FreezeFacts StoreFacts EventFacts ConfigStepFacts ResolutionFacts DispatchFacts
  MissingPreviousFacts ScheduleFacts FrozenFacts FreezingFacts ValidationFacts
  AccumulationFacts PoolFacts FoldFacts FinalisationFacts PooledFacts AggregationFacts
  Examples.
Local Open Scope string_scope.
Local Open Scope Z_scope.
Local Open Scope list_scope.
Local Open Scope nat_scope.
Local Open Scope keras_scope.

(** ** A model with a single path *)

Lemma max_pos_NoDup c i l p :
  NoDup c -> c !! p = Some l -> max_pos l c i = Some (i + p).
Proof.
  intros Hnd. revert i p. induction Hnd as [|x c Hx Hnd IH]; intros i p Hp; [done |].
  destruct p as [|p]; simpl in *.
  - injection Hp as ->. rewrite max_pos_none by done. rewrite Nat.eqb_refl.
    f_equal. lia.
  - rewrite (IH (S i) p Hp). f_equal. lia.
Qed.

Lemma first_visits_fresh seen l :
  NoDup l -> (forall x, x ∈ l -> x ∉ seen) -> first_visits seen l = l.
Proof.
  intros Hnd. revert seen. induction Hnd as [|x l Hx Hnd IH]; intros seen Hs; [done |].
  simpl. rewrite bool_decide_eq_false_2 by (apply Hs; set_solver).
  f_equal. apply IH. intros y Hy. specialize (Hs y). set_solver.
Qed.

Lemma first_visits_seen seen l :
  (forall x, x ∈ l -> x ∈ seen) -> first_visits seen l = [].
Proof.
  revert seen. induction l as [|x l IH]; intros seen Hs; [done |].
  simpl. rewrite bool_decide_eq_true_2 by (apply Hs; set_solver).
  apply IH. intros y Hy. apply Hs. set_solver.
Qed.

Lemma chain_cons t : exists l0 c, chain t = l0 :: c.
Proof. destruct t; simpl; eauto. Qed.

Section SinglePath.
Variable o : tensor.
Hypothesis Hnd : NoDup (chain o).

Lemma path_traversal : traversal [o] = chain o.
Proof.
  unfold traversal. simpl. rewrite app_nil_r.
  apply first_visits_fresh; [done | set_solver].
Qed.

Lemma path_depth p l : chain o !! p = Some l -> layer_depth [o] l = p.
Proof.
  intros Hp. unfold layer_depth. simpl.
  rewrite (max_pos_NoDup _ 0 _ _ Hnd Hp). simpl. lia.
Qed.

Lemma path_layers_at p l : chain o !! p = Some l -> layers_at [o] p = [l].
Proof.
  intros Hp. unfold layers_at. rewrite path_traversal.
  apply filter_unique; [done | by eapply list_elem_of_lookup_2 | by apply path_depth |].
  intros y Hy Hd. apply list_elem_of_lookup in Hy as [q Hq].
  rewrite (path_depth _ _ Hq) in Hd. subst q. congruence.
Qed.

Lemma path_upper k :
  k < length (chain o) ->
  reverse (seq 1 k) ≫= layers_at [o] = reverse (take k (drop 1 (chain o))).
Proof.
  induction k as [|k IH]; intros Hk; [done |].
  rewrite seq_S, reverse_snoc, bind_cons. change (1 + k) with (S k).
  destruct (lookup_lt_is_Some_2 (chain o) (S k) ltac:(lia)) as [l Hl].
  rewrite (path_layers_at _ _ Hl), IH by lia.
  erewrite take_S_r by (rewrite lookup_drop; exact Hl).
  by rewrite reverse_snoc.
Qed.

Lemma path_graph_layers inp :
  last (chain o) = Some inp -> graph_layers [TInput inp] [o] = reverse (chain o).
Proof.
  intros Hlast. unfold graph_layers.
  assert (max_depth [o] = length (chain o) - 1) as -> by (unfold max_depth; simpl; lia).
  destruct (chain_cons o) as (l0 & c & Ec).
  assert (chain o !! 0 = Some l0) as H0 by (by rewrite Ec).
  rewrite path_upper by (rewrite Ec; simpl; lia).
  rewrite (path_layers_at _ _ H0).
  unfold unreached_inputs. rewrite path_traversal.
  rewrite first_visits_seen.
  2:{ intros x Hx. simpl in Hx. apply list_elem_of_singleton in Hx as ->.
      rewrite last_lookup in Hlast. by eapply list_elem_of_lookup_2. }
  rewrite Ec. simpl. rewrite Nat.sub_0_r, drop_0, firstn_all.
  by rewrite reverse_cons.
Qed.

End SinglePath.

Lemma stack_graph_layers base n :
  graph_layers [TInput base] [stack base n] = seq base (S n).
Proof.
  rewrite path_graph_layers.
  - by rewrite stack_chain, reverse_involutive.
  - rewrite stack_chain, reverse_Permutation. apply NoDup_seq.
  - rewrite stack_chain, last_reverse. done.
Qed.

(** ** The base model *)

Lemma seq_offsets b :
  seq b 8 = [b + 0; b + 1; b + 2; b + 3; b + 4; b + 5; b + 6; b + 7].
Proof. cbn [seq]. repeat (f_equal; try lia). Qed.

(** What a successful call of [create_1d_conv_core_model] builds. *)
Lemma create_1d_conv_core_model_built shape name h :
  valid_window shape = true ->
  exists m h',
    create_1d_conv_core_model shape name h = Ok (length h + 8, h')
    /\ take (length h) h' = h
    /\ length h' = length h + 9
    /\ get_model (length h + 8) h' = Ok (m, h')
    /\ m_layers m = seq (length h) 8
    /\ (fun id => class_of h' id) <$> m_layers m = Some <$> core_classes shape
    /\ (forall id, id ∈ m_layers m -> flag h' id = Some true)
    /\ m_compiled m = None
    /\ input_shape_of (length h + 8) h' = Ok (shape, h').
Proof.
  intros Hvalid. rewrite create_1d_conv_core_model_run, Hvalid.
  set (mdl := plain_model [TInput (length h)] [stack (length h) 7] name).
  set (h' := (h ++ core_layers shape) ++ [mdl]).
  assert (Hlen : length (h ++ core_layers shape) = length h + 8)
    by (rewrite length_app; reflexivity).
  assert (Hm : h' !! (length h + 8) = Some mdl).
  { unfold h'. rewrite <- Hlen. by apply list_lookup_middle. }
  assert (Hlayer : forall i l, core_layers shape !! i = Some l ->
            h' !! (length h + i) = Some l).
  { intros i l Hi. unfold h'. rewrite <- app_assoc.
    rewrite (lookup_app_add _ _ _ i) by done.
    apply lookup_app_l_Some. exact Hi. }
  exists {| m_inputs := [TInput (length h)]; m_outputs := [stack (length h) 7];
            m_layers := graph_layers [TInput (length h)] [stack (length h) 7];
            m_compiled := None |}, h'.
  split; [reflexivity |].
  split; [unfold h'; by rewrite <- app_assoc, take_app_length |].
  split; [unfold h'; rewrite length_app, Hlen; simpl; lia |].
  split; [by eapply get_model_run |]. cbn [m_layers m_compiled].
  rewrite stack_graph_layers.
  split; [done |]. split.
  { rewrite seq_offsets. unfold class_of. cbn [fmap list_fmap].
    by rewrite (Hlayer 0 _ eq_refl), (Hlayer 1 _ eq_refl), (Hlayer 2 _ eq_refl),
      (Hlayer 3 _ eq_refl), (Hlayer 4 _ eq_refl), (Hlayer 5 _ eq_refl),
      (Hlayer 6 _ eq_refl), (Hlayer 7 _ eq_refl). }
  split.
  { intros id Hid. apply elem_of_seq in Hid.
    assert (exists i, id = length h + i /\ i < 8) as (i & -> & Hi)
      by (exists (id - length h); lia).
    unfold flag.
    destruct i as [|[|[|[|[|[|[|[|i]]]]]]]];
      [ rewrite (Hlayer 0 _ eq_refl) | rewrite (Hlayer 1 _ eq_refl)
      | rewrite (Hlayer 2 _ eq_refl) | rewrite (Hlayer 3 _ eq_refl)
      | rewrite (Hlayer 4 _ eq_refl) | rewrite (Hlayer 5 _ eq_refl)
      | rewrite (Hlayer 6 _ eq_refl) | rewrite (Hlayer 7 _ eq_refl) | lia ]; done. }
  split; [done |].
  unfold input_shape_of. erewrite bind_Ok by (by eapply get_model_run).
  cbn [m_inputs]. rewrite <- (Nat.add_0_r (length h)) at 1.
  by rewrite (Hlayer 0 _ eq_refl).
Qed.

(** X1.  [create_1d_conv_core_model] builds a model for a window shape
    [(steps, channels)] with at least one channel and at least 46 time
    steps, which the three convolutions without padding, of kernel sizes
    24, 16 and 8, need, and raises [ValueError] for every other shape, a
    window of 45 steps included.  When it succeeds it leaves the objects of the store as
    they are and adds nine: the eight layers and the model.  The model
    lists its layers input first, in the order they were built: input,
    three times a convolution followed by a dropout, global max
    pooling.  All of them are trainable, the model is not compiled and
    its input shape is the shape it was given. *)
Theorem create_1d_conv_core_model_layers (shape : list Z) (name : string)
    (h : list layer) :
  (valid_window shape = true <->
   exists steps channels, shape = [steps; channels] /\ (46 <= steps)%Z /\ (1 <= channels)%Z)
  /\ create_1d_conv_core_model [45%Z; 3%Z] name h = Raise ValueError
  /\ if valid_window shape then
       exists m h',
         create_1d_conv_core_model shape name h = Ok (length h + 8, h')
         /\ take (length h) h' = h
         /\ length h' = length h + 9
         /\ get_model (length h + 8) h' = Ok (m, h')
         /\ m_layers m = seq (length h) 8
         /\ (fun id => class_of h' id) <$> m_layers m = Some <$> core_classes shape
         /\ (forall id, id ∈ m_layers m -> flag h' id = Some true)
         /\ m_compiled m = None
         /\ input_shape_of (length h + 8) h' = Ok (shape, h')
     else create_1d_conv_core_model shape name h = Raise ValueError.
Proof.
  split; [| split].
  - unfold valid_window. split.
    + destruct shape as [|steps [|channels [|? ?]]]; try done.
      intros H. apply andb_true_iff in H as [H1 H2].
      apply Z.leb_le in H1, H2. by exists steps, channels.
    + intros (steps & channels & -> & H1 & H2).
      apply andb_true_iff. split; by apply Z.leb_le.
  - by rewrite create_1d_conv_core_model_run.
  - destruct (valid_window shape) eqn:Hvalid.
    + by apply create_1d_conv_core_model_built.
    + by rewrite create_1d_conv_core_model_run, Hvalid.
Qed.

(** X2.  Fine-tuning a base model that has just been created for a
    window shape the convolutions accept: [set_freeze_layers] with
    boundary 5 turns off training for the input layer, the first two
    convolutions and their dropouts, and leaves the third convolution,
    its dropout and the pooling layer trainable.  No other object of the
    store is touched. *)
Theorem fine_tune_fresh_core (shape : list Z) (name : string) (h : list layer)
    (Hshape : valid_window shape = true) :
  exists core h1 h2 m,
    create_1d_conv_core_model shape name h = Ok (core, h1)
    /\ set_freeze_layers core (Some 5%Z) h1 = Ok (tt, h2)
    /\ get_model core h2 = Ok (m, h2)
    /\ (fun id => class_of h2 id) <$> m_layers m = Some <$> core_classes shape
    /\ (fun id => flag h2 id) <$> m_layers m
       = Some <$> [false; false; false; false; false; true; true; true]
    /\ take (length h) h2 = h.
Proof.
  destruct (create_1d_conv_core_model_built shape name h Hshape)
    as (m & h1 & Hc & Htake & Hlen & Hm & Hl & Hcl & _ & _ & _).
  assert (Hp : Forall (plain h1) (m_layers m)).
  { apply (create_1d_conv_core_model_plain _ _ _ _ _ Hc).
    apply get_model_inv in Hm as (_ & l & Hlk & Hcls).
    unfold class_of. rewrite Hlk. simpl. by rewrite Hcls. }
  destruct (set_freeze_layers_run (length h + 8) (Some 5) h1 m Hm Hp)
    as (h2 & Hf & Hlen2 & Hclass & Hout & Hflag).
  exists (length h + 8), h1, h2, m. split; [done |]. split; [exact Hf |].
  split; [eapply get_model_class; eauto |].
  split; [rewrite <- Hcl; apply list_fmap_ext; intros; apply Hclass |].
  split.
  - assert (Hall : forall i id, m_layers m !! i = Some id ->
              flag h2 id = Some (bool_decide (5 <= i))).
    { intros i id Hi. apply Hflag; [done | |].
      - rewrite Hl in Hi. apply lookup_seq in Hi as [-> ?]. lia.
      - right. right. rewrite Hl. apply NoDup_seq. }
    rewrite Hl, seq_offsets in Hall |- *. cbn [fmap list_fmap].
    by rewrite (Hall 0 _ eq_refl), (Hall 1 _ eq_refl), (Hall 2 _ eq_refl),
      (Hall 3 _ eq_refl), (Hall 4 _ eq_refl), (Hall 5 _ eq_refl),
      (Hall 6 _ eq_refl), (Hall 7 _ eq_refl).
  - rewrite <- Htake at 2. apply list_eq. intros i.
    destruct (decide (i < length h)) as [Hi | Hi].
    + rewrite !lookup_take_lt by done. apply Hout. rewrite Hl, elem_of_seq. lia.
    + rewrite !lookup_take_ge by lia. done.
Qed.

(** ** Freezing with any boundary *)

Lemma slice_to_boundary {A} (l : list A) k :
  slice_to l k = take (slice_boundary (length l) k) l.
Proof. unfold slice_to, slice_boundary. by destruct (0 <=? k)%Z. Qed.

Lemma slice_from_boundary {A} (l : list A) k :
  slice_from l k = drop (slice_boundary (length l) k) l.
Proof. unfold slice_from, slice_boundary. by destruct (0 <=? k)%Z. Qed.

Lemma set_freeze_layers_boundary model k h m :
  get_model model h = Ok (m, h) ->
  set_freeze_layers model (Some k) h
  = set_freeze_layers model
      (Some (Z.of_nat (slice_boundary (length (m_layers m)) k))) h.
Proof.
  intros Hm. unfold set_freeze_layers. erewrite !bind_Ok by exact Hm.
  rewrite !slice_to_boundary, !slice_from_boundary.
  replace (slice_boundary (length (m_layers m))
             (Z.of_nat (slice_boundary (length (m_layers m)) k)))
    with (slice_boundary (length (m_layers m)) k); [done |].
  unfold slice_boundary at 2.
  replace (0 <=? Z.of_nat _)%Z with true by (symmetry; apply Z.leb_le; lia).
  by rewrite Nat2Z.id.
Qed.

(** X3.  [set_freeze_layers] with an integer boundary [k], on a model
    whose layers are distinct objects of the store, none of them a model
    with layers of its own: the layer at index
    [i] ends up trainable exactly when [i] is not below the point where
    the Python slices [layers[:k]] and [layers[k:]] meet, which for a
    negative [k] is [len(layers) + k] (0 when that is negative).  So
    [k = -2] leaves the last two layers trainable, and a [k] beyond the
    length freezes every layer.  Only the flags change: the store keeps
    its length, every object its class, and objects that are not layers
    of the model stay as they are. *)
Theorem set_freeze_layers_slice (model : nat) (k : Z) (h : list layer)
    (m : Keras.model)
    (Hm : get_model model h = Ok (m, h))
    (Hnd : NoDup (m_layers m))
    (Hall : Forall (fun id => id < length h) (m_layers m))
    (Hplain : Forall (plain h) (m_layers m)) :
  let cut := slice_boundary (length (m_layers m)) k in
  exists h',
    set_freeze_layers model (Some k) h = Ok (tt, h')
    /\ length h' = length h
    /\ (forall id, class_of h' id = class_of h id)
    /\ (forall id, id ∉ m_layers m -> h' !! id = h !! id)
    /\ (forall i id, m_layers m !! i = Some id ->
          flag h' id = Some (bool_decide (cut <= i)))
    /\ ((0 <= k)%Z -> cut = Z.to_nat k)
    /\ ((- Z.of_nat (length (m_layers m)) <= k < 0)%Z ->
        cut = length (m_layers m) - Z.to_nat (- k))
    /\ ((k < - Z.of_nat (length (m_layers m)))%Z -> cut = 0).
Proof.
  intros cut. rewrite (set_freeze_layers_boundary _ _ _ _ Hm). fold cut.
  destruct (set_freeze_layers_run model (Some cut) h m Hm Hplain)
    as (h' & Hf & Hlen & Hc & Ho & Hfl).
  exists h'. split; [exact Hf |]. split; [done |]. split; [done |]. split; [done |].
  split.
  { intros i id Hi. apply Hfl; [done | | auto].
    rewrite Forall_forall in Hall. apply Hall. by eapply list_elem_of_lookup_2. }
  unfold cut, slice_boundary.
  split; [| split]; intros Hk.
  - by replace (0 <=? k)%Z with true by (symmetry; apply Z.leb_le; lia).
  - replace (0 <=? k)%Z with false by (symmetry; apply Z.leb_gt; lia). lia.
  - replace (0 <=? k)%Z with false by (symmetry; apply Z.leb_gt; lia). lia.
Qed.

(** X22.  The flag that [set_freeze_layers] sets on a layer that is
    itself a model reaches the layers of that model.  On a model whose
    layers are an input, [a], [b] and a nested model that calls [a]
    again, freezing with boundary 3 turns training off for the input,
    [a] and [b] and on for the nested model, and with it for [a], which
    ends up trainable although its index is below the boundary.  The
    index rule of [set_freeze_layers] needs layers that are not
    models. *)
Theorem set_freeze_layers_reaches_nested :
  exists top h m h',
    shared_layer_model [] = Ok (top, h)
    /\ get_model top h = Ok (m, h)
    /\ m_layers m = [0; 1; 2; 4]
    /\ set_freeze_layers top (Some 3%Z) h = Ok (tt, h')
    /\ (fun id => flag h' id) <$> m_layers m
       = Some <$> [false; true; false; true]
    /\ flag h' 3 = Some true
    /\ ~ plain h 4.
Proof.
  eexists _, _, _, _. split; [reflexivity |]. split; [reflexivity |].
  split; [vm_compute; reflexivity |]. split; [reflexivity |].
  split; [vm_compute; reflexivity |]. split; [vm_compute; reflexivity |].
  intros Hp. eapply Hp. vm_compute. reflexivity.
Qed.

(** ** Models cut out of a model *)

Lemma layer_depth_max outputs x : layer_depth outputs x <= max_depth outputs.
Proof.
  apply layer_depth_le. intros o Ho.
  transitivity (length (chain o) - 1).
  - destruct (max_pos x (chain o) 0) as [p|] eqn:E; simpl; [| lia].
    apply max_pos_bound in E. lia.
  - unfold max_depth.
    apply (foldr_max_ge (fun o => length (chain o) - 1) outputs o Ho).
Qed.

Lemma graph_layers_complete inputs outputs x :
  x ∈ outputs ≫= chain \/ x ∈ inputs ≫= chain -> x ∈ graph_layers inputs outputs.
Proof.
  intros H. unfold graph_layers.
  destruct (decide (x ∈ traversal outputs)) as [Ht | Ht].
  - pose proof (layer_depth_max outputs x) as Hd.
    destruct (layer_depth outputs x) as [|d] eqn:E.
    + apply elem_of_app. right. apply elem_of_app. right.
      unfold layers_at. by apply list_elem_of_filter.
    + apply elem_of_app. left. apply list_elem_of_bind. exists (S d). split.
      * unfold layers_at. by apply list_elem_of_filter.
      * rewrite elem_of_reverse, elem_of_seq. lia.
  - apply elem_of_app. right. apply elem_of_app. left.
    unfold unreached_inputs. apply first_visits_elem; [| done].
    destruct H as [H | H]; [| done].
    exfalso. apply Ht. apply first_visits_elem; [done | set_solver].
Qed.

(** X4.  [extract_har_model] on a functional model: the objects of the
    store stay as they are and one object is added, the new model.  It
    has the inputs of the model it was cut from and the single output
    [outputs[output_index]], is compiled with the given optimizer and
    categorical cross-entropy, and each of its layers is a layer of the
    model it was cut from: the two models share their layers, none is
    copied. *)
Theorem extract_har_model_shares (multitask_model : nat) (optimizer : optimizer)
    (output_index : Z) (model_name : string) (h : list layer) (m : model)
    (e : nat) (h' : list layer)
    (Hm : get_model multitask_model h = Ok (m, h))
    (Hfun : m_layers m = graph_layers (m_inputs m) (m_outputs m))
    (Hrun : extract_har_model multitask_model optimizer output_index model_name h
            = Ok (e, h')) :
  exists me o p,
    e = length h
    /\ h' = h ++ [{| l_name := Some model_name; l_class := Functional me;
                     trainable := true |}]
    /\ index_pos (length (m_outputs m)) output_index = Ok p
    /\ m_outputs m !! p = Some o
    /\ m_inputs me = m_inputs m
    /\ m_outputs me = [o]
    /\ m_layers me ⊆ m_layers m
    /\ m_compiled me = Some {| c_optimizer := optimizer;
                               c_loss := [CategoricalCrossentropy];
                               c_metrics := har_metrics |}.
Proof.
  unfold extract_har_model in Hrun. erewrite bind_Ok in Hrun by exact Hm.
  destruct (index_pos (length (m_outputs m)) output_index) as [p|] eqn:Ep;
    simpl in Hrun; [| done].
  destruct (m_outputs m !! p) as [o|] eqn:Eo; [| done].
  rewrite Model_compile_run in Hrun. injection Hrun as <- <-.
  eexists _, o, p. split; [done |]. split; [reflexivity |].
  split; [done |]. split; [done |]. split; [done |]. split; [done |].
  split; [| done]. simpl. rewrite Hfun. intros x Hx.
  apply graph_layers_complete. apply graph_layers_elem in Hx as [Hx | Hx]; [| by right].
  left. simpl in Hx. rewrite app_nil_r in Hx.
  apply list_elem_of_bind. exists o. split; [done |]. by eapply list_elem_of_lookup_2.
Qed.

(** ** Attaching a head *)

Lemma attach_multitask_transform_head_inv core tasks opt with_har_head ho nu name h m h' :
  attach_multitask_transform_head core tasks opt with_har_head ho nu name h = Ok (m, h') ->
  exists shape n,
    input_shape_of core h = Ok (shape, h)
    /\ (with_har_head = true -> ho = Some n).
Proof.
  intros H. pose proof H as H0. unfold attach_multitask_transform_head in H0.
  apply bind_inv in H0 as (shape & h1 & Hs & _).
  pose proof (input_shape_of_inv _ _ _ _ Hs) as (-> & _).
  destruct with_har_head; [| exists shape, 0%Z; by split].
  destruct ho as [n|]; [exists shape, n; by split |].
  exfalso. unfold attach_multitask_transform_head in H.
  erewrite bind_Ok in H by exact Hs.
  erewrite bind_Ok in H by apply Input_run.
  erewrite bind_Ok in H by apply task_heads_run. done.
Qed.

(** X5.  Attaching a head never touches what is in the store: each of
    the three constructors, when it returns, has only added objects
    after the old ones, the new model last.  The full head adds five
    objects, the linear head four, the multi-task head two, two more for
    each task and three more with a HAR head; all of them are
    trainable.  Flags set on the core model beforehand are therefore
    still in place. *)
Theorem attach_head_extends (core : nat) (h : list layer) (m : nat) (h' : list layer) :
  let extends (added : nat) :=
    exists new, h' = h ++ new /\ length new = added /\ m = length h + added - 1
                /\ Forall (fun l => trainable l = true) new
                /\ forall id, flag h id <> None -> flag h' id = flag h id in
  (forall output_shape opt num_units name,
     attach_full_har_classification_head core output_shape opt num_units name h
       = Ok (m, h') -> extends 5)
  /\ (forall output_shape opt name,
     attach_linear_classification_head core output_shape opt name h = Ok (m, h') ->
     extends 4)
  /\ (forall tasks opt with_har_head har_output_shape num_units_har name,
     attach_multitask_transform_head core tasks opt with_har_head har_output_shape
       num_units_har name h = Ok (m, h') ->
     extends (2 + 2 * length tasks + (if with_har_head then 3 else 0))).
Proof.
  intros extends.
  assert (Hflag : forall new id, flag h id <> None -> flag (h ++ new) id = flag h id).
  { intros new id Hid. destruct (flag h id) as [b|] eqn:E; [| done].
    by apply flag_app. }
  split; [| split].
  - intros output_shape opt num_units name H. pose proof H as H0.
    unfold attach_full_har_classification_head in H0.
    apply bind_inv in H0 as (shape & h1 & Hs & _).
    pose proof (input_shape_of_inv _ _ _ _ Hs) as (-> & _).
    rewrite (attach_full_har_classification_head_run _ _ _ _ _ _ _ Hs) in H.
    injection H as <- <-. unfold extends. rewrite <- app_assoc.
    eexists. split; [reflexivity |].
    split; [done |]. split; [rewrite length_app; simpl; lia |].
    split; [repeat constructor | auto].
  - intros output_shape opt name H. pose proof H as H0.
    unfold attach_linear_classification_head in H0.
    apply bind_inv in H0 as (shape & h1 & Hs & _).
    pose proof (input_shape_of_inv _ _ _ _ Hs) as (-> & _).
    rewrite (attach_linear_classification_head_run _ _ _ _ _ _ Hs) in H.
    injection H as <- <-. unfold extends. rewrite <- app_assoc.
    eexists. split; [reflexivity |].
    split; [done |]. split; [rewrite length_app; simpl; lia |].
    split; [repeat constructor | auto].
  - intros tasks opt with_har_head ho nu name H.
    destruct (attach_multitask_transform_head_inv _ _ _ _ _ _ _ _ _ _ H)
      as (shape & n & Hs & Hho).
    rewrite (attach_multitask_transform_head_run _ _ _ _ _ n _ _ _ _ Hs Hho) in H.
    injection H as <- <-. unfold extends. rewrite <- app_assoc.
    eexists. split; [reflexivity |].
    assert (Hlen : length (multitask_head shape tasks with_har_head nu n)
                   = 1 + 2 * length tasks + (if with_har_head then 3 else 0)).
    { unfold multitask_head. rewrite !length_app, task_layers_length.
      by destruct with_har_head. }
    split; [rewrite length_app, Hlen; simpl; lia |].
    split; [rewrite length_app, Hlen; simpl; lia |].
    split; [| auto].
    apply Forall_app. split; [| repeat constructor].
    unfold multitask_head. apply Forall_app. split; [repeat constructor |].
    apply Forall_app. split.
    + clear. induction tasks as [|t r IH]; simpl; repeat constructor. exact IH.
    + destruct with_har_head; repeat constructor.
Qed.

End CoreModelFacts.

(** ** Config defaults and dataset preparation *)

Module DatasetFacts.
Import Keras Run KerasSpec RunSpec FreezeSpec GraphFacts HeadFacts HarOutputFacts
  FreezeFacts StoreFacts EventFacts ConfigStepFacts ResolutionFacts DispatchFacts
  MissingPreviousFacts ScheduleFacts FrozenFacts FreezingFacts ValidationFacts
  AccumulationFacts PoolFacts FoldFacts FinalisationFacts PooledFacts AggregationFacts
  Examples CoreModelFacts.
Local Open Scope string_scope.
Local Open Scope Z_scope.
Local Open Scope list_scope.
Local Open Scope run_scope.

Section Datasets.
Context {S : Services} {T : Trainer}.

Lemma default_value_none_iff now entry :
  default_value now entry = None <-> entry ∉ (documented_defaults now).*1.
Proof.
  unfold default_value, documented_defaults.
  repeat match goal with
         | |- context [String.eqb entry ?s] =>
             destruct (String.eqb_spec entry s) as [-> | ?];
             [split; [done | intros H; exfalso; apply H; simpl; rewrite !elem_of_cons; tauto] |]
         end.
  split; [intros _ | done].
  simpl. rewrite !not_elem_of_cons. repeat split; try done. apply not_elem_of_nil.
Qed.

(** X6.  [get_config_default_value_if_none] raises exactly when the
    field is absent from the config and is none of the fourteen fields
    of the default table; the exception is then the unbound local
    [default_value], with or without [set_value]. *)
Theorem get_config_default_value_if_none_fails_iff
    (now : string) (c : gmap string value) (entry : string) (set_value : bool) (e : exn) :
  get_config_default_value_if_none now c entry set_value = Raise e
  <-> (c !! entry = None
       /\ entry ∉ (documented_defaults now).*1
       /\ e = UnboundLocalError "default_value").
Proof.
  rewrite <- default_value_none_iff. unfold get_config_default_value_if_none.
  destruct (c !! entry) as [v|]; [split; [done | by intros [? _]] |].
  destruct (default_value now entry) as [d|].
  - destruct set_value; (split; [done | by intros (_ & ? & _)]).
  - split; [intros [= <-]; done | intros (_ & _ & ->); done].
Qed.

(** X7.  Once a field has been resolved with write-back, resolving it
    again, at any later time and with either flag, returns the same
    value, prints nothing and leaves the config as it is; this holds for
    ['tag'] too, whose default is the time of the first call.  The first
    call touches no other field and prints at most one line. *)
Theorem get_config_default_value_if_none_settled
    (now now' : string) (c c' : gmap string value) (entry : string) (v : value)
    (notes : list notice) (set_value : bool)
    (H : get_config_default_value_if_none now c entry true = Ok (v, c', notes)) :
  get_config_default_value_if_none now' c' entry set_value = Ok (v, c', [])
  /\ c' !! entry = Some v
  /\ (forall k, k <> entry -> c' !! k = c !! k)
  /\ (length notes <= 1)%nat.
Proof.
  unfold get_config_default_value_if_none in *.
  destruct (c !! entry) as [v0|] eqn:E.
  - injection H as <- <- <-. rewrite E. repeat split; first [done | simpl; lia].
  - destruct (default_value now entry) as [d|]; [| done].
    injection H as <- <- <-. rewrite lookup_insert_eq.
    repeat split; first [done | simpl; lia | intros k Hk; by rewrite lookup_insert_ne].
Qed.

Lemma length_repeat_rows {A} (l : list A) (n : nat) :
  length (l ≫= replicate n) = (n * length l)%nat.
Proof.
  induction l as [|x l IH]; [simpl; lia |].
  rewrite bind_cons, length_app, length_replicate, IH. cbn [length]. lia.
Qed.

Lemma repeat_rows_lookup {A} (l : list A) (n i : nat) x :
  l !! i = Some x -> forall r, (r < n)%nat -> (l ≫= replicate n) !! (i * n + r)%nat = Some x.
Proof.
  revert i. induction l as [|y l IH]; intros i Hi r Hr; [done |].
  rewrite bind_cons. destruct i as [|i]; simpl in Hi.
  - injection Hi as ->. rewrite lookup_app_l by (rewrite length_replicate; lia).
    simpl. by apply lookup_replicate_2.
  - rewrite lookup_app_r by (rewrite length_replicate; lia).
    rewrite length_replicate.
    replace (Datatypes.S i * n + r - n)%nat with (i * n + r)%nat by lia.
    by apply IH.
Qed.

(** X8.  [generate_unlabelled_datasets_variations] returns a dictionary
    of exactly two arrays: ['labelled_x_repeat'] holds every labelled
    window [labelled_repeat] times in a row, and ['unlabelled_combined']
    is the unlabelled windows followed by that array, so it has
    [len(unlabelled) + labelled_repeat * len(labelled)] rows.  The two
    shape lines are printed only when [verbose > 0]. *)
Theorem generate_unlabelled_datasets_variations_arrays
    (unlabelled_data_x labelled_data_x : list window) (labelled_repeat : nat)
    (verbose : Z) :
  let r := generate_unlabelled_datasets_variations unlabelled_data_x labelled_data_x
             labelled_repeat verbose in
  exists rep comb,
    r.1 !! "labelled_x_repeat" = Some (PArray rep)
    /\ r.1 !! "unlabelled_combined" = Some (PArray comb)
    /\ (forall k, k <> "labelled_x_repeat" -> k <> "unlabelled_combined" -> r.1 !! k = None)
    /\ length rep = (labelled_repeat * length labelled_data_x)%nat
    /\ (forall i x n, labelled_data_x !! i = Some x -> (n < labelled_repeat)%nat ->
          rep !! (i * labelled_repeat + n)%nat = Some x)
    /\ comb = unlabelled_data_x ++ rep
    /\ length comb
       = (length unlabelled_data_x + labelled_repeat * length labelled_data_x)%nat
    /\ r.2 = if 0 <? verbose
             then [PrintUnlabelledShape (length unlabelled_data_x);
                   PrintCombinedShape (length comb)]
             else [].
Proof.
  intros r. subst r. unfold generate_unlabelled_datasets_variations. cbn [fst snd].
  eexists _, _. split; [by rewrite lookup_insert_ne, lookup_insert_eq |].
  split; [by rewrite lookup_insert_eq |].
  split; [intros k H1 H2; by rewrite !lookup_insert_ne, lookup_empty |].
  split; [apply length_repeat_rows |].
  split; [intros i x n Hi Hn; by apply repeat_rows_lookup |].
  split; [done |].
  split; [by rewrite length_app, length_repeat_rows |].
  by destruct (0 <? verbose).
Qed.

Lemma prepare_dataset_empty_test path ws vsp v target :
  exists b es, prepare_dataset path ws get_empty_test_users vsp v target = Ok (b, es)
               /\ In (ReadPickle path) es
               /\ b_label_map b = default (enumerate_labels (np_sort (pickle_load path).2)) target.
Proof.
  unfold prepare_dataset, get_empty_test_users. eexists _, _. split; [reflexivity |].
  split; [| by destruct target].
  apply in_or_app. right. by left.
Qed.

(** X9.  [load_unlabelled_dataset] needs the ['labelled'] bundle: without
    it the call raises [KeyError] before the file is read.  Otherwise it
    returns.  The caller's dictionary gains ['unlabelled'] and nothing
    else; the array stored there is cut to [max_unlabelled_windows] rows
    when that is given.  The returned dictionary has the caller's
    entries and the two generated arrays, ['unlabelled_combined'] being
    the stored unlabelled windows followed by the repeated labelled
    training windows.  The file is labelled with the label map of the
    labelled bundle, and the two shape lines are printed whatever
    [verbose] is. *)
Theorem load_unlabelled_dataset_effect
    (pd : gmap string prepared) (path : string) (ws : Z) (labelled_repeat : nat)
    (max_unlabelled_windows : option Z) (verbose : Z) :
  match pd !! "labelled" with
  | None =>
      load_unlabelled_dataset pd path ws labelled_repeat max_unlabelled_windows verbose
      = Raise (KeyError "labelled")
  | Some (PArray _) =>
      load_unlabelled_dataset pd path ws labelled_repeat max_unlabelled_windows verbose
      = Raise IndexError
  | Some (PBundle l) =>
      exists file es0 u mutated merged,
        prepare_dataset path ws get_empty_test_users 0 verbose (Some (b_label_map l))
          = Ok (file, es0)
        /\ u = match max_unlabelled_windows with
               | None => (b_train file).1
               | Some k => slice_to (b_train file).1 k
               end
        /\ load_unlabelled_dataset pd path ws labelled_repeat max_unlabelled_windows verbose
           = Ok (mutated, merged, (b_train file).2,
                 es0 ++ [PrintUnlabelledShape (length u);
                         PrintCombinedShape
                           (length u + labelled_repeat * length (b_train l).1)])
        /\ mutated = <["unlabelled" := PArray u]> pd
        /\ merged !! "unlabelled" = Some (PArray u)
        /\ merged !! "labelled" = Some (PBundle l)
        /\ merged !! "unlabelled_combined"
           = Some (PArray (u ++ ((b_train l).1 ≫= replicate labelled_repeat)))
        /\ merged !! "labelled_x_repeat"
           = Some (PArray ((b_train l).1 ≫= replicate labelled_repeat))
        /\ (forall k, k <> "unlabelled" -> k <> "unlabelled_combined" ->
              k <> "labelled_x_repeat" -> merged !! k = pd !! k)
  end.
Proof.
  unfold load_unlabelled_dataset, get_bundle.
  destruct (pd !! "labelled") as [[l | a]|] eqn:El; [| done | done].
  destruct (prepare_dataset_empty_test path ws 0 verbose (Some (b_label_map l)))
    as (file & es0 & Hp & _ & _).
  cbn [rbind]. rewrite Hp. cbn [rbind fst snd].
  exists file, es0.
  destruct max_unlabelled_windows as [k|];
    unfold get_array; cbn [rbind];
    repeat (first [ rewrite lookup_insert_eq | rewrite insert_insert_eq
                  | rewrite lookup_insert_ne by done | rewrite El ];
            cbn [rbind]);
    unfold generate_unlabelled_datasets_variations; cbn [fst snd];
    change (0 <? 1) with true; cbn iota;
    (eexists _, _, _; split; [done |]; split; [reflexivity |];
     rewrite length_app, length_repeat_rows, <- !insert_union_l, (left_id ∅ (∪));
     split; [reflexivity |];
     split; [done |];
     split; [by rewrite !lookup_insert_ne, lookup_insert_eq by done |];
     split; [by rewrite !lookup_insert_ne by done |];
     split; [by rewrite lookup_insert_eq |];
     split; [by rewrite lookup_insert_ne, lookup_insert_eq by done |];
     intros k' H1 H2 H3; by rewrite !lookup_insert_ne by done).
Qed.

Lemma substring_full (s : string) : substring 0 (String.length s) s = s.
Proof. induction s as [|a s IH]; simpl; [done | by rewrite IH]. Qed.

Lemma str_in_refl (s : string) : str_in s s = true.
Proof.
  unfold str_in. destruct (index 0 s s) eqn:E; [done |].
  destruct s as [|a s]; [done |].
  exfalso. eapply (index_correct3 0 0); [exact E | done | lia | apply substring_full].
Qed.

(** X10.  For fold [j], [get_fixed_split_users] holds out the user at
    position [j] and raises [IndexError] when there is none.  The
    training users are, in their order, the users whose name does not
    occur inside the held-out name: the held-out user is never trained
    on, and neither is a user whose name is a part of that name. *)
Theorem get_fixed_split_users_split (j : nat) (har_users : list string) :
  match har_users !! j with
  | None => get_fixed_split_users j har_users = Raise IndexError
  | Some test_user =>
      exists train_users,
        get_fixed_split_users j har_users = Ok (train_users, OneUser test_user)
        /\ test_user ∉ train_users
        /\ sublist train_users har_users
        /\ (forall u, u ∈ train_users <-> u ∈ har_users /\ str_in u test_user = false)
  end.
Proof.
  unfold get_fixed_split_users. destruct (har_users !! j) as [t|]; [| done].
  eexists. split; [reflexivity |].
  split.
  { intros H. apply list_elem_of_filter in H as [H _]. by rewrite str_in_refl in H. }
  split; [apply sublist_filter |].
  intros u. rewrite list_elem_of_filter. tauto.
Qed.

Lemma enumerate_labels_snoc l x :
  enumerate_labels (l ++ [x]) = <[x := length l]> (enumerate_labels l).
Proof.
  unfold enumerate_labels. rewrite imap_app, foldl_app. simpl.
  by rewrite Nat.add_0_r.
Qed.

(** X11.  The label map that [prepare_dataset] builds sends a label to
    the last position at which it stands in the label list, and to
    nothing when it does not occur; so for a list without repetition the
    map is the inverse of indexing. *)
Theorem enumerate_labels_position (label_list : list string) (l : string) (i : nat) :
  enumerate_labels label_list !! l = Some i
  <-> (label_list !! i = Some l
       /\ forall j, (i < j)%nat -> label_list !! j <> Some l).
Proof.
  revert l i. induction label_list as [|x ll IH] using rev_ind; intros l i.
  - unfold enumerate_labels. simpl. rewrite lookup_empty, lookup_nil.
    split; [done | by intros [? _]].
  - rewrite enumerate_labels_snoc.
    assert (Hlast : (ll ++ [x]) !! length ll = Some x)
      by (by rewrite lookup_app_r, Nat.sub_diag).
    destruct (decide (l = x)) as [-> | Hne].
    + rewrite lookup_insert_eq. split.
      * intros [= <-]. split; [done |].
        intros j Hj. rewrite lookup_ge_None_2; [done |].
        rewrite length_app. simpl. lia.
      * intros [Hi Hafter]. f_equal.
        pose proof (lookup_lt_Some _ _ _ Hi) as Hlt.
        rewrite length_app in Hlt. simpl in Hlt.
        destruct (decide (i = length ll)) as [-> | Hd]; [done |].
        exfalso. apply (Hafter (length ll)); [lia | done].
    + rewrite lookup_insert_ne by done. rewrite IH. split.
      * intros [Hi Hafter]. split.
        -- rewrite lookup_app_l; [done | by eapply lookup_lt_Some].
        -- intros j Hj Hl.
           destruct (decide (j < length ll)%nat) as [Hlt | Hge].
           ++ rewrite lookup_app_l in Hl by done. by apply (Hafter j).
           ++ pose proof (lookup_lt_Some _ _ _ Hl) as Hb.
              rewrite length_app in Hb. simpl in Hb.
              assert (j = length ll) as -> by lia. congruence.
      * intros [Hi Hafter].
        assert (Hlt : (i < length ll)%nat).
        { pose proof (lookup_lt_Some _ _ _ Hi) as Hb.
          rewrite length_app in Hb. simpl in Hb.
          destruct (decide (i = length ll)) as [-> | Hd]; [congruence | lia]. }
        rewrite lookup_app_l in Hi by done. split; [done |].
        intros j Hj Hl. apply (Hafter j Hj).
        rewrite lookup_app_l; [done | by eapply lookup_lt_Some].
Qed.

Lemma enumerate_labels_absent (label_list : list string) (l : string) :
  l ∉ label_list -> enumerate_labels label_list !! l = None.
Proof.
  induction label_list as [|x ll IH] using rev_ind; intros Hl; [done |].
  rewrite enumerate_labels_snoc. rewrite not_elem_of_app in Hl. destruct Hl as [H1 H2].
  rewrite lookup_insert_ne; [by apply IH |].
  intros ->. apply H2. by left.
Qed.

Lemma enumerate_labels_size (label_list : list string) :
  NoDup label_list -> size (enumerate_labels label_list) = length label_list.
Proof.
  induction label_list as [|x ll IH] using rev_ind; intros Hnd; [done |].
  apply NoDup_app in Hnd as (Hl & Hx & _).
  rewrite enumerate_labels_snoc, map_size_insert_None.
  - rewrite IH by done. rewrite length_app. simpl. lia.
  - apply enumerate_labels_absent. intros Hin. apply (Hx x Hin). by left.
Qed.

(** X20.  A bundle that [prepare_dataset] returns is consistent: its
    output shape is the number of entries of its label map, given that
    the sorted label list of the file has no repetition or that a target
    map was passed; its input shape is the shape of a training window;
    and the file was read exactly once.  The call fails only when the
    function that splits the users fails. *)
Theorem prepare_dataset_bundle (dataset_path : string) (window_size : Z)
    (get_train_test_users : list string -> result (list string * users_arg))
    (validation_split_proportion : Q) (verbose : Z) (target : option (gmap string nat))
    (Hlabels : target = None -> NoDup (np_sort (pickle_load dataset_path).2)) :
  match get_train_test_users (raw_users (pickle_load dataset_path).1) with
  | Raise e =>
      prepare_dataset dataset_path window_size get_train_test_users
        validation_split_proportion verbose target = Raise e
  | Ok _ =>
      exists b es,
        prepare_dataset dataset_path window_size get_train_test_users
          validation_split_proportion verbose target = Ok (b, es)
        /\ b_output_shape b = size (b_label_map b)
        /\ b_label_map b
           = default (enumerate_labels (np_sort (pickle_load dataset_path).2)) target
        /\ b_input_shape b = shape_tail (b_train b).1
        /\ pickle_reads dataset_path es = 1%nat
        /\ (verbose <= 0 -> es = [ReadPickle dataset_path])
  end.
Proof.
  unfold prepare_dataset.
  destruct (get_train_test_users _) as [[tr te]|e]; [| done].
  eexists _, _. split; [reflexivity |]. cbn [b_output_shape b_label_map b_input_shape b_train].
  split.
  { destruct target as [t|]; [done |]. symmetry. apply enumerate_labels_size. by apply Hlabels. }
  split; [by destruct target |]. split; [done |].
  assert (Hread : reads dataset_path (ReadPickle dataset_path) = true)
    by apply String.eqb_refl.
  unfold pickle_reads.
  destruct (0 <? verbose) eqn:Ev.
  - split; [| intros Hv; apply Z.ltb_lt in Ev; lia].
    cbn [app]. rewrite filter_cons_False by done.
    rewrite filter_cons_True by done.
    rewrite filter_cons_False by done. done.
  - split; [| done]. cbn [app]. by rewrite filter_cons_True by done.
Qed.

End Datasets.

End DatasetFacts.

(** ** Skipped, self-training and evaluation experiments *)

Module ExperimentFacts.
Import Keras Run KerasSpec RunSpec FreezeSpec GraphFacts HeadFacts HarOutputFacts
  FreezeFacts StoreFacts EventFacts ConfigStepFacts ResolutionFacts DispatchFacts
  MissingPreviousFacts ScheduleFacts FrozenFacts FreezingFacts ValidationFacts
  AccumulationFacts PoolFacts FoldFacts FinalisationFacts PooledFacts AggregationFacts
  Examples CoreModelFacts DatasetFacts.
Local Open Scope string_scope.
Local Open Scope Z_scope.
Local Open Scope list_scope.
Local Open Scope run_scope.

Section Experiments.
Context {S : Services} {T : Trainer}.

(** X12.  An experiment whose type is ['none'], or that names no type,
    is skipped: the loop goes on to the next experiment, nothing but the
    start line and the notice of the default is printed, no dataset, no
    model and no result is touched, and the config keeps all its fields;
    only ['type'] is filled in.  The offset to the previous experiment
    is not looked at, so an offset that points nowhere goes unnoticed. *)
Theorem none_experiment_skipped (env : fold_env) (i : nat) (st : state)
    (c : gmap string value)
    (Hc : experiment_configs st !! i = Some c)
    (Ht : c !! "type" = None \/ c !! "type" = Some (VStr "none")) :
  exists st',
    run_experiment env i st = Ok (Next, st')
    /\ out st' = out st ++ skipped_lines env i c
    /\ experiment_configs st' = <[i := <["type" := VStr "none"]> c]> (experiment_configs st)
    /\ frame ["type"] st st'
    /\ var_model st' = var_model st /\ var_optimizer st' = var_optimizer st.
Proof.
  unfold run_experiment.
  erewrite dbind_Ok by (unfold config_at; by rewrite Hc).
  assert (Hs : emit_verbose env [PrintStarting i c] st = Ok (tt, started env i c st)).
  { unfold emit_verbose, started, emit. by destruct (0 <? verbose env). }
  erewrite dbind_Ok by exact Hs.
  pose proof (started_frame env i c st) as F0.
  destruct (started_config env i c st Hc) as [Hc0 _].
  assert (Hr : resolved (strftime_now (clock (started env i c st))) c "type"
               = Some (VStr "none")).
  { unfold resolved. by destruct Ht as [-> | ->]. }
  destruct (config_default_step i "type" true _ c _ Hc0 Hr) as (st' & H' & F1).
  erewrite dbind_Ok by exact H'. simpl. exists st'. split; [done |].
  apply config_default_inv in H'
    as (c1 & Hc1 & _ & Hcs & Hout & _ & _ & Ho & Hm & _).
  rewrite Hc0 in Hc1. injection Hc1 as <-.
  assert (Hst : experiment_configs (started env i c st) = experiment_configs st
                /\ out (started env i c st)
                   = out st ++ (if 0 <? verbose env then [PrintStarting i c] else [])
                /\ var_model (started env i c st) = var_model st
                /\ var_optimizer (started env i c st) = var_optimizer st).
  { unfold started. destruct (0 <? verbose env); simpl; by rewrite ?app_nil_r. }
  destruct Hst as (E1 & E2 & E3 & E4).
  split.
  { rewrite Hout, E2, <- app_assoc. unfold skipped_lines, memo_notice.
    by destruct (c !! "type"). }
  split.
  { rewrite Hcs, E1. unfold memoized. destruct Ht as [Hn | Hs'].
    - by rewrite Hn.
    - rewrite Hs'. f_equal. symmetry. by apply insert_id. }
  split.
  { etransitivity; [eapply frame_weaken; [| exact F0]; set_solver | exact F1]. }
  split; congruence.
Qed.

Lemma self_training_branch_schedule env i t prev tag epochs batch :
  preserves (out_ext (uses_schedule training_rate_schedule_self))
    (self_training_branch env i t prev tag epochs batch).
Proof. preserves_go close_out. Qed.

Lemma ensure_unlabelled_prints env v : preserves (out_ext is_print) (ensure_unlabelled env v).
Proof. preserves_go close_out. Qed.

Lemma previous_missing_prints prev : preserves (out_ext is_print) (previous_missing prev).
Proof. preserves_go close_out. Qed.

Lemma self_training_branch_trained env i t prev tag epochs batch st ctl st' :
  self_training_branch env i t prev tag epochs batch st = Ok (ctl, st') ->
  exists es, out st' = out st ++ es /\ self_trained ctl es.
Proof.
  unfold self_training_branch. intros H.
  apply dbind_inv in H as ([] & st1 & H1 & H).
  apply dbind_inv in H as (missing & st2 & H2 & H).
  destruct (ensure_unlabelled_prints _ _ _ _ _ H1) as (es1 & E1 & F1).
  destruct (previous_missing_prints _ _ _ _ H2) as (es2 & E2 & F2).
  assert (Hbreak : (_ <- emit [PrintErrorNoPreviousModel] ;; dret Break) st2 = Ok (ctl, st') ->
                   exists es, out st' = out st ++ es /\ self_trained ctl es).
  { intros [= <- <-]. simpl. exists (es1 ++ es2 ++ [PrintErrorNoPreviousModel]).
    rewrite E2, E1, <- !app_assoc. split; [done |]. split.
    - repeat (apply Forall_app; split); try done. by repeat constructor.
    - rewrite !elem_of_app. right. right. by left. }
  destruct missing; [destruct prev; by apply Hbreak |].
  destruct prev as [p|]; [| by apply Hbreak].
  match type of H with
  | ?k st2 = _ =>
      assert (Ht : trains k) by trains_go;
      assert (Hr : returns (eq Next) k) by returns_go
  end.
  destruct (Ht _ _ _ H) as (es3 & E3 & X3). rewrite <- (Hr _ _ _ H).
  exists (es1 ++ es2 ++ es3). rewrite E3, E2, E1, <- !app_assoc. split; [done |].
  simpl. rewrite !Exists_app. by right; right.
Qed.

Lemma eval_flag_branch_next env i tag : returns (eq Next) (eval_flag_branch env i tag).
Proof. unfold eval_flag_branch. returns_go. Qed.

(** X13.  A ['self_training'] or ['self_har'] experiment whose loop body
    completes has either left the loop without a call of the trainer,
    after the line about the missing previous model, or called the
    trainer; every call it makes carries the schedule whose rate at
    epoch [e] is [0.0003 * 0.5 ** (e // 15)], whatever the experiment's
    [initial_learning_rate] is. *)
Theorem self_training_rate_schedule (env : fold_env) (i : nat) (st : state)
    (c : gmap string value) (ctl : control) (st' : state) (t : string)
    (Hc : experiment_configs st !! i = Some c)
    (Hrun : run_experiment env i st = Ok (ctl, st'))
    (Ht : c !! "type" = Some (VStr t))
    (Hty : t = "self_training" \/ t = "self_har") :
  exists es,
    out st' = out st ++ es
    /\ self_trained ctl es
    /\ Forall (fun e => forall req h, e = Train req h ->
         callbacks req = [LearningRateScheduler training_rate_schedule_self]) es
    /\ forall epoch, exists r,
         training_rate_schedule_self epoch = Ok (VFloat r)
         /\ (r == (3 # 10000) * Qpower (1 # 2) (epoch / 15))%Q.
Proof.
  assert (eq_str (VStr t) "none" = false /\ eq_str (VStr t) "eval_har" = false
          /\ eq_str (VStr t) "transform_train" = false
          /\ eq_str (VStr t) "har_full_train" || eq_str (VStr t) "har_full_fine_tune"
             || eq_str (VStr t) "har_linear_train" = false
          /\ eq_str (VStr t) "self_training" || eq_str (VStr t) "self_har" = true)
    as (Hn & He & E1 & E2 & E3)
    by (destruct Hty as [-> | ->]; by vm_compute).
  destruct (run_experiment_reaches_training _ _ _ _ _ _ _ Hc Hrun Ht Hn He)
    as (st3 & prev & tv & es0 & ep & bs & E0 & F0 & _ & H).
  unfold train_and_evaluate in H. rewrite E1, E2, E3 in H.
  rewrite (dbind_Ok _ _ _ tt st3) in H by done.
  rewrite (dbind_Ok _ _ _ tt st3) in H by done.
  apply dbind_inv in H as (ctl1 & st4 & H1 & H2).
  destruct (self_training_branch_trained _ _ _ _ _ _ _ _ _ _ H1) as (es1 & Eo1 & X1).
  destruct (self_training_branch_schedule _ _ _ _ _ _ _ _ _ _ H1) as (es1' & Eo1' & S1).
  assert (es1' = es1) as -> by (rewrite Eo1 in Eo1'; by apply app_inv_head in Eo1').
  assert (Hsched : forall es, Forall (uses_schedule training_rate_schedule_self) es ->
            Forall (fun e => forall req h, e = Train req h ->
              callbacks req = [LearningRateScheduler training_rate_schedule_self]) es).
  { intros es F. eapply Forall_impl; [exact F |]. by intros e Hu req h ->. }
  assert (Hrate : forall epoch, exists r,
            training_rate_schedule_self epoch = Ok (VFloat r)
            /\ (r == (3 # 10000) * Qpower (1 # 2) (epoch / 15))%Q).
  { intros epoch. eexists. split; reflexivity. }
  destruct ctl1.
  - pose proof (eval_flag_branch_next _ _ _ _ _ _ H2) as <-.
    destruct (eval_flag_branch_plain (uses_schedule training_rate_schedule_self)
                _ _ _ _ _ _ H2) as (es2 & Eo2 & S2).
    exists (es0 ++ es1 ++ es2). rewrite Eo2, Eo1, E0, <- !app_assoc.
    split; [done |]. split.
    { simpl in *. rewrite !Exists_app. right. by left. }
    split; [| done]. apply Hsched.
    repeat (apply Forall_app; split); try done.
    eapply prints_ok; [tc_solve | done].
  - injection H2 as <- <-. destruct X1 as [P1 M1].
    exists (es0 ++ es1). rewrite Eo1, E0, <- !app_assoc.
    split; [done |]. split.
    { split; [by apply Forall_app | rewrite elem_of_app; by right]. }
    split; [| done]. apply Hsched. apply Forall_app. split; [| done].
    eapply prints_ok; [tc_solve | done].
Qed.

(** X14.  An ['eval_har'] experiment whose previous experiment recorded
    a model file of a type other than ['har_model'] and
    ['transform_with_har_model'] loads nothing.  It evaluates the model
    that an earlier ['eval_har'] experiment left in [model], and raises
    [NameError] when there is none. *)
Theorem eval_har_other_model_type (env : fold_env) (i p : nat) (tag : string)
    (st : state) (cp : gmap string value) (path ty : string)
    (Hp : experiment_configs st !! p = Some cp)
    (Hpath : cp !! "trained_model_path" = Some (VStr path)) (Hne : path <> "")
    (Hty : cp !! "trained_model_type" = Some (VStr ty))
    (Hhar : ty <> "har_model") (Htr : ty <> "transform_with_har_model") :
  match var_model st with
  | None => eval_har_branch env i (Some p) tag st = Raise (NameError "model")
  | Some m =>
      forall l ci,
        prepared_datasets st !! "labelled" = Some (PBundle l) ->
        experiment_configs st !! i = Some ci ->
        let r := evaluate_model_simple (predict m (store st) (b_test l).1 None)
                   (b_test l).2 in
        eval_har_branch env i (Some p) tag st
        = Ok (Next,
              set_configs (<[i := <["eval_results" := r]> ci]> (experiment_configs st))
                (set_out (out st ++ (if 0 <? verbose env then [PrintEvalResults r] else []))
                   st))
  end.
Proof.
  assert (Hmiss : previous_missing (Some p) st = Ok (false, st)).
  { unfold previous_missing.
    erewrite dbind_Ok by (by eapply config_default_present).
    unfold dret. simpl. do 2 f_equal. by apply String.eqb_neq. }
  assert (Htype : config_default p "trained_model_type" true st = Ok (VStr ty, st))
    by (by eapply config_default_present).
  assert (E1 : eq_str (VStr ty) "har_model" = false) by (by apply String.eqb_neq).
  assert (E2 : eq_str (VStr ty) "transform_with_har_model" = false)
    by (by apply String.eqb_neq).
  unfold eval_har_branch.
  erewrite dbind_Ok by exact Hmiss. cbv beta iota.
  erewrite dbind_Ok by exact Htype. rewrite E1.
  erewrite (dbind_Ok (dbind _ _)); cycle 1.
  { erewrite dbind_Ok by exact Htype. rewrite E2. reflexivity. }
  destruct (var_model st) as [m|] eqn:Em.
  - intros l ci Hl Hci.
    erewrite dbind_Ok by (by rewrite Em).
    erewrite dbind_Ok by (unfold labelled, get_bundle; by rewrite Hl).
    erewrite dbind_Ok by reflexivity.
    unfold emit_verbose. destruct (0 <? verbose env).
    + erewrite dbind_Ok by reflexivity.
      erewrite dbind_Ok by (apply config_set_run; exact Hci).
      reflexivity.
    + erewrite dbind_Ok by reflexivity.
      erewrite dbind_Ok by (apply config_set_run; exact Hci).
      unfold dret. do 2 f_equal.
      destruct st. unfold set_configs, set_out. simpl. by rewrite app_nil_r.
  - apply dbind_Raise. by rewrite Em.
Qed.

End Experiments.

End ExperimentFacts.

(** ** What an experiment records and what it leaves alone *)

Module RecordingFacts.
Import Keras Run KerasSpec RunSpec FreezeSpec GraphFacts HeadFacts HarOutputFacts
  FreezeFacts StoreFacts EventFacts ConfigStepFacts ResolutionFacts DispatchFacts
  MissingPreviousFacts ScheduleFacts FrozenFacts FreezingFacts ValidationFacts
  AccumulationFacts PoolFacts FoldFacts FinalisationFacts PooledFacts AggregationFacts
  Examples CoreModelFacts DatasetFacts ExperimentFacts.
Local Open Scope string_scope.
Local Open Scope Z_scope.
Local Open Scope list_scope.
Local Open Scope run_scope.

Section Kept.
Context {S : Services} {T : Trainer}.

Global Instance kept_preorder K : PreOrder (kept K).
Proof.
  split.
  - intros st j c Hj. eauto.
  - intros st1 st2 st3 H1 H2 j c Hj.
    destruct (H1 j c Hj) as (c1 & Hc1 & A1).
    destruct (H2 j c1 Hc1) as (c2 & Hc2 & A2).
    exists c2. split; [done |]. intros k v Hk Hv. apply A2; [done |]. by apply A1.
Qed.

Lemma config_default_kept K idx entry set_value :
  preserves (kept K) (config_default idx entry set_value).
Proof.
  intros st v st' H.
  apply config_default_inv in H as (c & Hc & _ & Hcs & _).
  intros j cj Hj. rewrite Hcs. destruct (decide (j = idx)) as [-> | Hne].
  - rewrite list_lookup_insert_eq by (by eapply lookup_lt_Some).
    eexists. split; [done |]. intros k v0 _ Hv.
    rewrite Hj in Hc. injection Hc as ->.
    unfold memoized. destruct (c !! entry) eqn:E; [done |].
    destruct set_value; [| done].
    rewrite lookup_insert_ne; [done | intros ->; congruence].
  - rewrite list_lookup_insert_ne by done. eauto.
Qed.

Lemma config_set_kept K idx k v : k ∈ K -> preserves (kept K) (config_set idx k v).
Proof.
  intros Hk st u st' H. apply config_set_inv in H as (c & Hc & ->).
  intros j cj Hj. simpl. destruct (decide (j = idx)) as [-> | Hne].
  - rewrite list_lookup_insert_eq by (by eapply lookup_lt_Some).
    eexists. split; [done |]. intros k' v' Hk' Hv.
    rewrite Hj in Hc. injection Hc as ->.
    rewrite lookup_insert_ne; [done | intros ->; done].
  - rewrite list_lookup_insert_ne by done. eauto.
Qed.

Global Instance clock_on_preorder : PreOrder clock_on.
Proof.
  split; [intros st; unfold clock_on; lia |].
  intros s1 s2 s3 H1 H2. unfold clock_on in *. lia.
Qed.

Lemma records_bind_r {A B} i ty (P : B -> Prop) (c : D A) (k : A -> D B) :
  preserves (out_ext is_print) c -> (forall a, records i ty P (k a)) ->
  records i ty P (dbind c k).
Proof.
  intros Hc Hk st b st2 H HP. apply dbind_inv in H as (a & st1 & H1 & H2).
  destruct (Hc _ _ _ H1) as (es0 & E0 & F0).
  destruct (Hk _ _ _ _ H2 HP) as (es1 & req & h & es2 & c' & E & F1 & F2 & R).
  exists (es0 ++ es1), req, h, es2, c'. rewrite E, E0, <- !app_assoc.
  split; [done |]. split; [by apply Forall_app |]. done.
Qed.

Lemma recorded_then i ty st st1 st2 :
  recorded i ty st st1 -> out_ext is_print st1 st2 -> kept ["eval_results"] st1 st2 ->
  recorded i ty st st2.
Proof.
  intros (es1 & req & h & es2 & c' & E & F1 & F2 & Hc & Hp & Ht) (es3 & E3 & F3) Hk.
  destruct (Hk i c' Hc) as (c'' & Hc'' & A).
  exists es1, req, h, (es2 ++ es3), c''. rewrite E3, E, <- !app_assoc.
  split; [done |]. split; [done |]. split; [by apply Forall_app |].
  split; [done |]. split; apply A; try done; set_solver.
Qed.

Lemma recorded_after i ty st st0 st' es0 :
  out st0 = out st ++ es0 -> Forall is_print es0 -> recorded i ty st0 st' ->
  recorded i ty st st'.
Proof.
  intros E0 F0 (es1 & req & h & es2 & c' & E & F1 & F2 & R).
  exists (es0 ++ es1), req, h, es2, c'. rewrite E, E0, <- !app_assoc.
  split; [done |]. split; [by apply Forall_app |]. done.
Qed.

Lemma records_train_set i ty (P : unit -> Prop) req :
  records i ty P
    (files <- do_train req ;;
     _ <- config_set i "trained_model_path" (VStr files.1) ;;
     config_set i "trained_model_type" (VStr ty)).
Proof.
  intros st a st' H _.
  apply dbind_inv in H as (files & st1 & H1 & H). injection H1 as <- <-.
  apply dbind_inv in H as (u & st2 & H2 & H3).
  apply config_set_inv in H2 as (c & Hc & ->).
  apply config_set_inv in H3 as (c1 & Hc1 & ->).
  simpl in Hc, Hc1.
  rewrite list_lookup_insert_eq in Hc1 by (by eapply lookup_lt_Some).
  injection Hc1 as <-.
  exists [], req, (store st), []. eexists. simpl.
  split; [done |]. split; [done |]. split; [done |].
  split.
  { rewrite list_lookup_insert_eq; [done |].
    rewrite length_insert. by eapply lookup_lt_Some. }
  split; [by rewrite lookup_insert_ne, lookup_insert_eq | by rewrite lookup_insert_eq].
Qed.

Lemma records_train_next i ty (P : control -> Prop) req ctl :
  records i ty P
    (files <- do_train req ;;
     _ <- config_set i "trained_model_path" (VStr files.1) ;;
     _ <- config_set i "trained_model_type" (VStr ty) ;;
     dret ctl).
Proof.
  intros st a st' H _.
  apply dbind_inv in H as (files & st1 & H1 & H). injection H1 as <- <-.
  apply dbind_inv in H as (u & st2 & H2 & H).
  apply dbind_inv in H as (u' & st3 & H3 & H). injection H as _ <-.
  apply config_set_inv in H2 as (c & Hc & ->).
  apply config_set_inv in H3 as (c1 & Hc1 & ->).
  simpl in Hc, Hc1.
  rewrite list_lookup_insert_eq in Hc1 by (by eapply lookup_lt_Some).
  injection Hc1 as <-.
  exists [], req, (store st), []. eexists. simpl.
  split; [done |]. split; [done |]. split; [done |].
  split.
  { rewrite list_lookup_insert_eq; [done |].
    rewrite length_insert. by eapply lookup_lt_Some. }
  split; [by rewrite lookup_insert_ne, lookup_insert_eq | by rewrite lookup_insert_eq].
Qed.

Lemma records_break i ty : records i ty (eq Next) (dret Break).
Proof. intros st a st' [= <- _] HP. discriminate HP. Qed.

Lemma records_draise {A} i ty (P : A -> Prop) e : records i ty P (draise e).
Proof. intros st a st' [=]. Qed.

End Kept.

Ltac close_kept :=
  let j := fresh "j" in let c := fresh "c" in let Hj := fresh "Hj" in
  intros j c Hj; exists c; split; [exact Hj | auto].

Ltac kept_special :=
  first [ apply config_default_kept
        | apply config_set_kept; try unfold result_fields; rewrite !elem_of_cons; tauto ].

Ltac close_labelled :=
  unfold labelled_same; simpl;
  first [ reflexivity
        | match goal with
          | H : load_unlabelled_dataset _ _ _ _ _ _ = Ok _ |- _ =>
              apply load_unlabelled_dataset_labelled in H as [? ?]; assumption
          end ].

Ltac close_clock := unfold clock_on; simpl; lia.

Ltac records_go :=
  lazymatch goal with
  | |- records _ _ _ (dbind (do_train _) _) =>
      first [apply records_train_set | apply records_train_next]
  | |- records _ _ _ (dbind (if ?b then do_train _ else do_train _) _) =>
      destruct b; first [apply records_train_set | apply records_train_next]
  | |- records _ _ _ (dbind _ _) =>
      apply records_bind_r; [preserves_go close_out | intros ?; records_go]
  | |- records _ _ _ (dret Break) => apply records_break
  | |- records _ _ _ (draise _) => apply records_draise
  | |- records _ _ _ (if ?b then _ else _) => destruct b; records_go
  | |- records _ _ _ (match ?x with _ => _ end) => destruct x; records_go
  end.

Ltac eval_types_in H :=
  repeat match type of H with
         | context [eq_str (VStr ?a) ?b] =>
             let v := eval vm_compute in (eq_str (VStr a) b) in
             change (eq_str (VStr a) b) with v in H
         end;
  cbv beta iota delta [orb] in H.

Ltac eval_types :=
  repeat match goal with
         | |- context [eq_str (VStr ?a) ?b] =>
             let v := eval vm_compute in (eq_str (VStr a) b) in
             change (eq_str (VStr a) b) with v
         end;
  cbv beta iota delta [orb].

Section Recording.
Context {S : Services} {T : Trainer}.

Lemma transform_train_branch_records env i prev tag lr epochs batch :
  records i "transform_model" (fun _ => True)
    (transform_train_branch env i prev tag lr epochs batch).
Proof. unfold transform_train_branch. records_go. Qed.

Lemma har_train_branch_records env i t prev tag lr epochs batch :
  records i "har_model" (fun _ => True)
    (har_train_branch env i t prev tag lr epochs batch).
Proof. unfold har_train_branch. records_go. Qed.

Lemma self_training_records env i prev tag epochs batch :
  records i "har_model" (eq Next)
    (self_training_branch env i (VStr "self_training") prev tag epochs batch).
Proof. unfold self_training_branch. eval_types. records_go. Qed.

Lemma self_har_records env i prev tag epochs batch :
  records i "transform_with_har_model" (eq Next)
    (self_training_branch env i (VStr "self_har") prev tag epochs batch).
Proof. unfold self_training_branch. eval_types. records_go. Qed.

Lemma eval_flag_branch_kept env i tag :
  preserves (kept ["eval_results"]) (eval_flag_branch env i tag).
Proof. preserves_walk kept_special close_kept. Qed.

Lemma train_and_evaluate_records env i t ty prev tag lr epochs batch st st' :
  recorded_type t = Some ty ->
  train_and_evaluate env i (VStr t) prev tag lr epochs batch st = Ok (Next, st') ->
  recorded i ty st st'.
Proof.
  unfold recorded_type. intros Hty H.
  assert (Hflag : forall st1, eval_flag_branch env i tag st1 = Ok (Next, st') ->
            recorded i ty st st1 -> recorded i ty st st').
  { intros st1 H2 R. eapply recorded_then; [exact R | |].
    - by eapply (eval_flag_branch_plain is_print).
    - by eapply eval_flag_branch_kept. }
  unfold train_and_evaluate in H.
  destruct (String.eqb_spec t "transform_train") as [-> | N1].
  { injection Hty as <-. eval_types_in H.
    apply dbind_inv in H as ([] & st1 & H1 & H).
    rewrite (dbind_Ok _ _ _ tt st1) in H by done.
    rewrite (dbind_Ok _ _ _ Next st1) in H by done.
    apply (Hflag st1 H). by eapply transform_train_branch_records. }
  destruct (String.eqb_spec t "har_full_train") as [-> | N2].
  { injection Hty as <-. eval_types_in H.
    rewrite (dbind_Ok _ _ _ tt st) in H by done.
    apply dbind_inv in H as ([] & st1 & H1 & H).
    rewrite (dbind_Ok _ _ _ Next st1) in H by done.
    apply (Hflag st1 H). by eapply har_train_branch_records. }
  destruct (String.eqb_spec t "har_full_fine_tune") as [-> | N3].
  { injection Hty as <-. eval_types_in H.
    rewrite (dbind_Ok _ _ _ tt st) in H by done.
    apply dbind_inv in H as ([] & st1 & H1 & H).
    rewrite (dbind_Ok _ _ _ Next st1) in H by done.
    apply (Hflag st1 H). by eapply har_train_branch_records. }
  destruct (String.eqb_spec t "har_linear_train") as [-> | N4].
  { injection Hty as <-. eval_types_in H.
    rewrite (dbind_Ok _ _ _ tt st) in H by done.
    apply dbind_inv in H as ([] & st1 & H1 & H).
    rewrite (dbind_Ok _ _ _ Next st1) in H by done.
    apply (Hflag st1 H). by eapply har_train_branch_records. }
  simpl in Hty.
  destruct (String.eqb_spec t "self_training") as [-> | N5].
  { injection Hty as <-. eval_types_in H.
    rewrite (dbind_Ok _ _ _ tt st) in H by done.
    rewrite (dbind_Ok _ _ _ tt st) in H by done.
    apply dbind_inv in H as (ctl & st1 & H1 & H).
    destruct ctl; [| done].
    apply (Hflag st1 H). by eapply self_training_records. }
  destruct (String.eqb_spec t "self_har") as [-> | N6]; [| done].
  injection Hty as <-. eval_types_in H.
  rewrite (dbind_Ok _ _ _ tt st) in H by done.
  rewrite (dbind_Ok _ _ _ tt st) in H by done.
  apply dbind_inv in H as (ctl & st1 & H1 & H).
  destruct ctl; [| done].
  apply (Hflag st1 H). by eapply self_har_records.
Qed.

(** X15.  Let the loop body of a training experiment complete and go on
    to the next experiment.  Then the trainer was called exactly once,
    everything else the experiment did to the outside being printed
    lines and loads, and the experiment's config holds the first file
    name which that call returned under ['trained_model_path'] and, under
    ['trained_model_type'], ['transform_model'] for ['transform_train'],
    ['har_model'] for the three HAR training types and for
    ['self_training'], and ['transform_with_har_model'] for
    ['self_har']. *)
Theorem training_records_model (env : fold_env) (i : nat) (st : state)
    (c : gmap string value) (st' : state) (t ty : string)
    (Hc : experiment_configs st !! i = Some c)
    (Hrun : run_experiment env i st = Ok (Next, st'))
    (Ht : c !! "type" = Some (VStr t))
    (Hty : recorded_type t = Some ty) :
  recorded i ty st st'.
Proof.
  assert (eq_str (VStr t) "none" = false /\ eq_str (VStr t) "eval_har" = false)
    as [Hn He].
  { unfold recorded_type in Hty. simpl. split; apply String.eqb_neq; intros ->; done. }
  destruct (run_experiment_reaches_training _ _ _ _ _ _ _ Hc Hrun Ht Hn He)
    as (st3 & prev & tv & es0 & ep & bs & E0 & F0 & _ & H).
  eapply recorded_after; [exact E0 | exact F0 |].
  by eapply train_and_evaluate_records.
Qed.

Lemma run_experiment_kept env i : preserves (kept result_fields) (run_experiment env i).
Proof. preserves_walk kept_special close_kept. Qed.

Lemma run_experiment_labelled env i : preserves labelled_same (run_experiment env i).
Proof. preserves_go close_labelled. Qed.

Lemma run_experiment_clock env i : preserves clock_on (run_experiment env i).
Proof. preserves_go close_clock. Qed.

Lemma run_experiment_out env i : preserves (out_ext any_event) (run_experiment env i).
Proof. preserves_go close_out. Qed.

(** X16.  What the loop over the experiments of a fold never does,
    however it ends: it does not add, drop or reorder configs; it does
    not change a field that a config has, the three result fields
    apart, so defaults only fill what is missing; it leaves the labelled
    bundle in place; and it only adds to what has been printed. *)
Theorem run_experiments_invariants (env : fold_env) (st : state) (ctl : control)
    (st' : state)
    (Hrun : run_experiments env st = Ok (ctl, st')) :
  length (experiment_configs st') = length (experiment_configs st)
  /\ (forall j c, experiment_configs st !! j = Some c ->
        exists c', experiment_configs st' !! j = Some c'
                   /\ forall k v, k ∉ result_fields -> c !! k = Some v -> c' !! k = Some v)
  /\ prepared_datasets st' !! "labelled" = prepared_datasets st !! "labelled"
  /\ out st `prefix_of` out st'
  /\ (clock st <= clock st')%nat.
Proof.
  split.
  { eapply (run_experiments_preserves same_length); [| exact Hrun].
    apply run_experiment_length. }
  split.
  { eapply (run_experiments_preserves (kept result_fields)); [| exact Hrun].
    apply run_experiment_kept. }
  split.
  { eapply (run_experiments_preserves labelled_same); [| exact Hrun].
    apply run_experiment_labelled. }
  split.
  { destruct (run_experiments_preserves (out_ext any_event) env
                (run_experiment_out env) _ _ _ Hrun) as (es & E & _).
    by exists es. }
  eapply (run_experiments_preserves clock_on); [| exact Hrun].
  apply run_experiment_clock.
Qed.

End Recording.

End RecordingFacts.

(** ** The run over the users *)

Module WholeRunFacts.
Import Keras Run KerasSpec RunSpec FreezeSpec GraphFacts HeadFacts HarOutputFacts
  FreezeFacts StoreFacts EventFacts ConfigStepFacts ResolutionFacts DispatchFacts
  MissingPreviousFacts ScheduleFacts FrozenFacts FreezingFacts ValidationFacts
  AccumulationFacts PoolFacts FoldFacts FinalisationFacts PooledFacts AggregationFacts
  Examples CoreModelFacts DatasetFacts ExperimentFacts RecordingFacts.
Local Open Scope string_scope.
Local Open Scope Z_scope.
Local Open Scope list_scope.
Local Open Scope run_scope.

Section WholeRun.
Context {S : Services} {T : Trainer}.

(** X17.  With [verbose <= 0] a run over the users never completes: no
    fold summary runs, so the accumulators stay as they were created
    and [path] stays unbound; if the folds and the final division go
    through, the run ends with [NameError] where the result files are
    opened. *)
Theorem quiet_run_never_completes (a : arguments) (pct : Q) (cf : config_file)
    (report_path : string) (st : state)
    (Hquiet : a_verbose a <= 0) :
  let users := raw_users (pickle_load (a_labelled_dataset_path a)).1 in
  (exists e, run_percentage a pct cf report_path st None = Raise e)
  /\ forall sr,
       run_folds a pct cf report_path (seq 0 (length users))
         (initial_pools st, initial_report None) = Ok sr ->
       sr.2 = initial_report None
       /\ forall rep, finalise (length users) sr.1 sr.2 = Ok rep ->
            run_percentage a pct cf report_path st None = Raise (NameError "path").
Proof.
  intros users.
  assert (Hfolds : forall sr,
            run_folds a pct cf report_path (seq 0 (length users))
              (initial_pools st, initial_report None) = Ok sr ->
            sr.2 = initial_report None
            /\ forall rep, finalise (length users) sr.1 sr.2 = Ok rep ->
                 run_percentage a pct cf report_path st None = Raise (NameError "path")).
  { intros sr Hsr.
    pose proof (run_folds_quiet a pct cf report_path _ Hquiet _ _ Hsr) as E.
    split; [exact E |]. intros rep Hrep.
    unfold run_percentage. cbv zeta. fold users. rewrite Hsr. cbn [rbind].
    rewrite Hrep. cbn [rbind].
    destruct (finalise_run _ _ _ _ 2%nat ltac:(by left) Hrep) as (Hp & _).
    rewrite E in Hp. simpl in Hp. by rewrite Hp. }
  split; [| exact Hfolds].
  unfold run_percentage. cbv zeta. fold users.
  destruct (run_folds a pct cf report_path (seq 0 (length users))
              (initial_pools st, initial_report None)) as [sr|e] eqn:Hsr;
    [| by exists e].
  cbn [rbind].
  destruct (finalise (length users) sr.1 sr.2) as [rep|e] eqn:Hrep; [| by exists e].
  destruct (Hfolds sr eq_refl) as [_ Hn]. specialize (Hn rep Hrep).
  unfold run_percentage in Hn. cbv zeta in Hn. fold users in Hn.
  rewrite Hsr in Hn. cbn [rbind] in Hn. rewrite Hrep in Hn. cbn [rbind] in Hn.
  eauto.
Qed.

(** X18.  When the labelled dataset has no user there is no fold, and
    the run ends with [ZeroDivisionError] at the first mean it forms. *)
Theorem no_users_division (a : arguments) (pct : Q) (cf : config_file)
    (report_path : string) (st : state) (path : option string)
    (Hnone : raw_users (pickle_load (a_labelled_dataset_path a)).1 = []) :
  run_percentage a pct cf report_path st path = Raise ZeroDivisionError.
Proof.
  unfold run_percentage. cbv zeta. rewrite Hnone.
  cbn [length seq run_folds rbind fst snd]. unfold finalise.
  assert (E : normalise_keys 0 (initial_report path) performance_keys
              = Raise ZeroDivisionError) by (vm_compute; reflexivity).
  by rewrite E.
Qed.

(** X19.  What [evaluate_on_unlabelled] leaves behind when it returns,
    for experiment [i]: [ev[i]] is the score of the model on the
    unlabelled windows, [conv[i]] has grown by its confusion matrix,
    [y_true[i - 2]] by the classes of the labelled test set and
    [y_pred[i - 2]] by the classes predicted for it.  The dictionary of
    datasets gains ['unlabelled'] and nothing else, and neither the
    configs nor the Keras objects change. *)
Theorem evaluate_on_unlabelled_effect (env : fold_env) (i : nat) (best_har_model : nat)
    (pred : labels) (eval_results : value) (print_results : bool)
    (st st' : state) (u : unit)
    (Hrun : evaluate_on_unlabelled env i best_har_model pred eval_results print_results st
            = Ok (u, st')) :
  exists mutated data label es unlabelled cm old total l yt yp,
    load_unlabelled_dataset (prepared_datasets st)
      (a_unlabelled_dataset_path (args env)) (a_window_size (args env))
      (labelled_repeat env) (a_max_unlabelled_windows (args env)) (verbose env)
    = Ok (mutated, data, label, es)
    /\ data !! "unlabelled" = Some (PArray unlabelled)
    /\ prepared_datasets st' = mutated
    /\ ev st' = <[i := evaluate_model_simple
                         (predict best_har_model (store st) unlabelled None) label]> (ev st)
    /\ dict_item (evaluate_model_simple
                    (predict best_har_model (store st) unlabelled None) label)
         "Confusion Matrix" = Ok cm
    /\ conv st !! i = Some old /\ np_add old cm = Ok total
    /\ conv st' = <[i := total]> (conv st)
    /\ mutated !! "labelled" = Some (PBundle l)
    /\ y_true st !! (i - 2)%nat = Some yt
    /\ y_true st' = <[(i - 2)%nat := yt ++ np_argmax_rows (b_test l).2]> (y_true st)
    /\ y_pred st !! (i - 2)%nat = Some yp
    /\ y_pred st' = <[(i - 2)%nat := yp ++ np_argmax_rows pred]> (y_pred st)
    /\ out st' = out st ++ es ++ (if print_results then [PrintEvalResults eval_results] else [])
    /\ experiment_configs st' = experiment_configs st
    /\ store st' = store st.
Proof.
  unfold evaluate_on_unlabelled in Hrun.
  apply dbind_inv in Hrun as ([data label] & s1 & H1 & H). cbv beta in H.
  destruct (load_unlabelled_dataset _ _ _ _ _ _) as [[[[mutated data0] label0] es]|] eqn:Hl;
    [| done].
  injection H1 as <- <- <-.
  apply dbind_inv in H as (unlabelled & s2 & H2 & H). cbv beta in H.
  unfold lift_result in H2. cbn [fst snd] in H2, H.
  destruct (get_array data0 "unlabelled") as [a0|] eqn:Ha; [| done].
  injection H2 as <- <-.
  apply dbind_inv in H as (classes & s3 & H3 & H). cbv beta in H.
  injection H3 as <- <-.
  apply dbind_inv in H as ([] & s4 & H4 & H). cbv beta in H. injection H4 as <-.
  apply dbind_inv in H as ([] & s5 & H5 & H). cbv beta in H.
  apply dbind_inv in H as (cm & s6 & H6 & H). cbv beta in H.
  unfold lift_result in H6.
  destruct (dict_item _ "Confusion Matrix") as [cm0|] eqn:Hcm; [| done].
  injection H6 as <- <-.
  apply dbind_inv in H as (old & s7 & H7 & H). cbv beta in H.
  destruct (conv s5 !! i) as [old0|] eqn:Hold; [| done]. injection H7 as <- <-.
  apply dbind_inv in H as (total & s8 & H8 & H). cbv beta in H.
  unfold lift_result in H8. destruct (np_add old0 cm0) as [total0|] eqn:Hadd; [| done].
  injection H8 as <- <-.
  apply dbind_inv in H as ([] & s9 & H9 & H). cbv beta in H. injection H9 as <-.
  apply dbind_inv in H as (l & s10 & H10 & H). cbv beta in H.
  unfold labelled in H10.
  destruct (get_bundle _ "labelled") as [l0|] eqn:Hb; [| done].
  injection H10 as <- <-.
  apply dbind_inv in H as (yt & s11 & H11 & H). cbv beta in H.
  destruct (y_true _ !! (i - 2)%nat) as [yt0|] eqn:Hyt; [| done].
  injection H11 as <- <-.
  apply dbind_inv in H as ([] & s12 & H12 & H). cbv beta in H. injection H12 as <-.
  apply dbind_inv in H as (yp & s13 & H13 & H). cbv beta in H.
  destruct (y_pred _ !! (i - 2)%nat) as [yp0|] eqn:Hyp; [| done].
  injection H13 as <- <-. injection H as _ <-.
  assert (Hs5 : experiment_configs s5 = experiment_configs st
                /\ prepared_datasets s5 = mutated /\ store s5 = store st
                /\ ev s5 = <[i := evaluate_model_simple
                                    (predict best_har_model (store st) a0 None) label0]>
                             (ev st)
                /\ conv s5 = conv st /\ y_true s5 = y_true st /\ y_pred s5 = y_pred st
                /\ out s5 = out st ++ es
                            ++ (if print_results then [PrintEvalResults eval_results] else [])).
  { destruct print_results.
    - injection H5 as <-. simpl. by rewrite <- app_assoc.
    - injection H5 as <-. simpl. by rewrite app_nil_r. }
  destruct Hs5 as (C1 & C2 & C3 & C4 & C5 & C6 & C7 & C8).
  simpl in Hold, Hb, Hyt, Hyp. simpl.
  rewrite C5 in Hold. rewrite C2 in Hb. rewrite C6 in Hyt. rewrite C7 in Hyp.
  unfold get_array in Ha. destruct (data0 !! "unlabelled") as [[b|arr]|] eqn:Hd; try done.
  injection Ha as ->.
  unfold get_bundle in Hb. destruct (mutated !! "labelled") as [[b|arr]|] eqn:Hm; try done.
  injection Hb as ->.
  exists mutated, data0, label0, es, a0, cm0, old0, total0, l0, yt0, yp0.
  rewrite C1, C2, C3, C4, C5, C6, C7, C8. repeat split; done.
Qed.

(** X21.  The two confusion matrices that [finalise] reports for
    experiment 2 and for experiment 3.  The unlabelled one is the
    running total [conv[t]] divided by the number of users.  The
    labelled one is not a mean: it is [confusion_matrix] computed afresh
    from the pooled label lists [y_true[t - 2]] and [y_pred[t - 2]],
    which has to succeed for [finalise] to return. *)
Theorem finalise_unlabelled_confusion (n : nat) (st : state) (r rep : report) (t : nat)
    (Ht : (t = 2 \/ t = 3)%nat)
    (Hrun : finalise n st r = Ok rep) :
  exists total mean yt yp cm,
    conv st !! t = Some total
    /\ py_div total n = Ok mean
    /\ metric (performance_unlabelled_dataset rep) (experiment_key t) "Confusion Matrix"
       = Some mean
    /\ y_true st !! (t - 2)%nat = Some yt /\ y_pred st !! (t - 2)%nat = Some yp
    /\ confusion_matrix yt yp = Ok cm
    /\ metric (performance_labelled_dataset rep) (experiment_key t) "Confusion Matrix"
       = Some cm.
Proof.
  destruct (finalise_run _ _ _ _ t Ht Hrun)
    as (_ & _ & yt & yp & cm & Hyt & Hyp & Hok & Hcm).
  unfold finalise in Hrun.
  apply rbind_inv in Hrun as (r1 & H1 & H).
  apply rbind_inv in H as (c2 & Hc2 & H). apply rbind_inv in H as (pu & Hpu & H).
  apply rbind_inv in H as (c3 & Hc3 & H). apply rbind_inv in H as (pu' & Hpu' & H).
  apply rbind_inv in H as (t0 & _ & H). apply rbind_inv in H as (p0 & _ & H).
  apply rbind_inv in H as (cm2 & _ & H).
  apply rbind_inv in H as (pl & _ & H).
  apply rbind_inv in H as (t1 & _ & H). apply rbind_inv in H as (p1 & _ & H).
  apply rbind_inv in H as (cm3 & _ & H).
  apply rbind_inv in H as (pl' & _ & H). injection H as <-.
  pose proof (perf_set_metric _ _ _ _ _ Hpu) as Mu.
  pose proof (perf_set_metric _ _ _ _ _ Hpu') as Mu'.
  apply rbind_inv in Hc2 as (x2 & Hx2 & Hd2). apply rbind_inv in Hc3 as (x3 & Hx3 & Hd3).
  unfold list_item in Hx2, Hx3.
  destruct (conv st !! 2%nat) as [y2|] eqn:E2; [| done]. injection Hx2 as ->.
  destruct (conv st !! 3%nat) as [y3|] eqn:E3; [| done]. injection Hx3 as ->.
  destruct Ht as [-> | ->]; simpl in *.
  - exists x2, c2, yt, yp, cm. split; [done |]. split; [done |].
    split; [| done].
    rewrite Mu', decide_False by (intros [? _]; done). by rewrite Mu, decide_True.
  - exists x3, c3, yt, yp, cm. split; [done |]. split; [done |].
    split; [| done]. by rewrite Mu', decide_True.
Qed.

End WholeRun.

End WholeRunFacts.

(** ** Further runs of the small instance *)

Module FurtherExamples.
Import Keras Run KerasSpec RunSpec FreezeSpec GraphFacts HeadFacts HarOutputFacts
  FreezeFacts StoreFacts EventFacts ConfigStepFacts ResolutionFacts DispatchFacts
  MissingPreviousFacts ScheduleFacts FrozenFacts FreezingFacts ValidationFacts
  AccumulationFacts PoolFacts FoldFacts FinalisationFacts PooledFacts AggregationFacts
  Examples CoreModelFacts DatasetFacts ExperimentFacts RecordingFacts WholeRunFacts
  Scenarios Toy.
Local Open Scope string_scope.
Local Open Scope Z_scope.
Local Open Scope list_scope.

Lemma set_freeze_layers_slice_witness :
  exists h',
    set_freeze_layers 8 (Some (-3)) core_store = Ok (tt, h')
    /\ flag h' 4 = Some false /\ flag h' 5 = Some true.
Proof.
  assert (Hm : { m | get_model 8 core_store = Ok (m, core_store)
                     /\ m_layers m = seq 0 8 }).
  { eexists. split; [reflexivity | vm_compute; reflexivity]. }
  destruct Hm as (m & Hm & Hl).
  assert (Hnd : NoDup (m_layers m)) by (rewrite Hl; apply NoDup_seq).
  assert (Hall : Forall (fun id => id < length core_store)%nat (m_layers m)).
  { rewrite Hl. apply Forall_forall. intros x Hx. apply elem_of_seq in Hx.
    change (length core_store) with 9%nat. lia. }
  assert (Hplain : Forall (plain core_store) (m_layers m)).
  { rewrite Hl. repeat constructor; intros m0 H0; vm_compute in H0; discriminate H0. }
  destruct (set_freeze_layers_slice 8 (-3) core_store m Hm Hnd Hall Hplain)
    as (h' & Hrun & _ & _ & _ & Hflag & _).
  exists h'. split; [exact Hrun |]. split.
  - rewrite (Hflag 4%nat 4%nat) by (by rewrite Hl). by rewrite Hl.
  - rewrite (Hflag 5%nat 5%nat) by (by rewrite Hl). by rewrite Hl.
Defined.

Lemma fine_tune_fresh_core_witness :
  exists core h1 h2 m,
    create_1d_conv_core_model [52; 3] "base_model" [] = Ok (core, h1)
    /\ set_freeze_layers core (Some 5) h1 = Ok (tt, h2)
    /\ get_model core h2 = Ok (m, h2)
    /\ (fun id => flag h2 id) <$> m_layers m
       = Some <$> [false; false; false; false; false; true; true; true].
Proof.
  assert (Hshape : valid_window [52; 3] = true) by reflexivity.
  destruct (fine_tune_fresh_core [52; 3] "base_model" [] Hshape)
    as (core & h1 & h2 & m & Hc & Hf & Hm & _ & Hflags & _).
  exists core, h1, h2, m. split; [exact Hc |]. split; [exact Hf |].
  split; [exact Hm | exact Hflags].
Defined.

Lemma extract_har_model_shares_witness :
  exists e h' me o,
    extract_har_model 29 (Adam (VFloat (3 # 10000))) (-1) "HAR" multitask_store
      = Ok (e, h')
    /\ e = length multitask_store
    /\ m_outputs me = [o]
    /\ h' = multitask_store
            ++ [{| l_name := Some "HAR"; l_class := Functional me; trainable := true |}].
Proof.
  assert (Hm : { m | get_model 29 multitask_store = Ok (m, multitask_store)
                     /\ m_layers m = graph_layers (m_inputs m) (m_outputs m) }).
  { eexists. split; [reflexivity | vm_compute; reflexivity]. }
  destruct Hm as (m & Hm & Hfun).
  assert (Hok : match extract_har_model 29 (Adam (VFloat (3 # 10000))) (-1) "HAR"
                        multitask_store with
                | Ok _ => true
                | Raise _ => false
                end = true) by (vm_compute; reflexivity).
  destruct (extract_har_model 29 (Adam (VFloat (3 # 10000))) (-1) "HAR" multitask_store)
    as [[e h']|err] eqn:Hrun.
  - destruct (extract_har_model_shares 29 (Adam (VFloat (3 # 10000))) (-1) "HAR"
                multitask_store m e h' Hm Hfun Hrun)
      as (me & o & p & He & Hh & _ & _ & _ & Ho & _).
    exists e, h', me, o. split; [reflexivity |]. split; [exact He |].
    split; [exact Ho | exact Hh].
  - discriminate Hok.
Defined.

Lemma attach_head_extends_witness :
  exists m h' new,
    attach_linear_classification_head 8 2 (SGD (VFloat (3 # 100))) "Linear" core_store
      = Ok (m, h')
    /\ h' = core_store ++ new /\ length new = 4%nat.
Proof.
  assert (Hok : match attach_linear_classification_head 8 2 (SGD (VFloat (3 # 100)))
                        "Linear" core_store with
                | Ok _ => true
                | Raise _ => false
                end = true) by (vm_compute; reflexivity).
  destruct (attach_linear_classification_head 8 2 (SGD (VFloat (3 # 100))) "Linear"
              core_store) as [[m h']|err] eqn:Hrun.
  - destruct (attach_head_extends 8 core_store m h') as (_ & Hlin & _).
    destruct (Hlin 2 (SGD (VFloat (3 # 100))) "Linear" Hrun) as (new & Hh & Hlen & _).
    exists m, h', new. split; [reflexivity |]. split; [exact Hh | exact Hlen].
  - discriminate Hok.
Defined.

Lemma get_config_default_value_if_none_settled_witness :
  get_config_default_value_if_none "20211231-235959" ∅ "tag" true
    = Ok (VStr "20211231-235959", <["tag" := VStr "20211231-235959"]> ∅,
          [InfoDefault "tag" (VStr "20211231-235959")])
  /\ get_config_default_value_if_none "20220101-000001"
       (<["tag" := VStr "20211231-235959"]> ∅) "tag" false
     = Ok (VStr "20211231-235959", <["tag" := VStr "20211231-235959"]> ∅, []).
Proof.
  assert (H : get_config_default_value_if_none "20211231-235959" ∅ "tag" true
              = Ok (VStr "20211231-235959", <["tag" := VStr "20211231-235959"]> ∅,
                    [InfoDefault "tag" (VStr "20211231-235959")])) by reflexivity.
  split; [exact H |].
  exact (proj1 (get_config_default_value_if_none_settled "20211231-235959"
                  "20220101-000001" ∅ _ "tag" _ _ false H)).
Defined.

Lemma none_experiment_skipped_witness :
  exists st',
    run_experiment (toy_env 1) 0
      (toy_state [config [("previous_config_offset", VInt 7)]]) = Ok (Next, st')
    /\ experiment_configs st'
       = [<["type" := VStr "none"]> (config [("previous_config_offset", VInt 7)])].
Proof.
  pose (c := config [("previous_config_offset", VInt 7)]).
  pose (st := toy_state [c]).
  assert (Hc : experiment_configs st !! 0%nat = Some c) by reflexivity.
  assert (Ht : c !! "type" = None \/ c !! "type" = Some (VStr "none"))
    by (left; vm_compute; reflexivity).
  destruct (none_experiment_skipped (toy_env 1) 0 st c Hc Ht)
    as (st' & Hrun & _ & Hcs & _).
  exists st'. split; [exact Hrun | exact Hcs].
Defined.

Lemma self_training_rate_schedule_witness :
  exists st' es,
    run_experiment (toy_env 0) 1 (toy_state teacher_configs) = Ok (Next, st')
    /\ out st' = es
    /\ Exists is_train es
    /\ Forall (fun e => forall req h, e = Train req h ->
         callbacks req = [LearningRateScheduler training_rate_schedule_self]) es.
Proof.
  pose (c := config [("type", VStr "self_training"); ("previous_config_offset", VInt 1);
                     ("initial_learning_rate", VFloat (1 # 100))]).
  pose (st := toy_state teacher_configs).
  assert (Hc : experiment_configs st !! 1%nat = Some c) by reflexivity.
  assert (Ht : c !! "type" = Some (VStr "self_training")) by (vm_compute; reflexivity).
  assert (Hok : match run_experiment (toy_env 0) 1 st with
                | Ok (Next, _) => true
                | _ => false
                end = true) by (vm_compute; reflexivity).
  destruct (run_experiment (toy_env 0) 1 st) as [[[|] st']|e] eqn:Hrun.
  - destruct (self_training_rate_schedule (toy_env 0) 1 st c Next st' "self_training"
                Hc Hrun Ht (or_introl eq_refl)) as (es & E & Hx & Hf & _).
    exists st', es. split; [first [exact Hrun | reflexivity] |].
    split; [exact E |]. split; [exact Hx | exact Hf].
  - discriminate Hok.
  - discriminate Hok.
Defined.

Lemma eval_har_other_model_type_witness :
  eval_har_branch (toy_env 0) 1 (Some 0%nat) "tag" (toy_state transform_only_configs)
  = Raise (NameError "model").
Proof.
  pose (cp := config [("type", VStr "none"); ("trained_model_path", VStr "transform.hdf5");
                      ("trained_model_type", VStr "transform_model")]).
  pose (st := toy_state transform_only_configs).
  assert (Hp : experiment_configs st !! 0%nat = Some cp) by reflexivity.
  assert (Hpath : cp !! "trained_model_path" = Some (VStr "transform.hdf5"))
    by (vm_compute; reflexivity).
  assert (Hne : "transform.hdf5" <> "") by discriminate.
  assert (Hty : cp !! "trained_model_type" = Some (VStr "transform_model"))
    by (vm_compute; reflexivity).
  assert (Hhar : "transform_model" <> "har_model") by discriminate.
  assert (Htr : "transform_model" <> "transform_with_har_model") by discriminate.
  exact (eval_har_other_model_type (toy_env 0) 1 0 "tag" st cp "transform.hdf5"
           "transform_model" Hp Hpath Hne Hty Hhar Htr).
Defined.

Lemma training_records_model_witness :
  exists st',
    run_experiment (toy_env 0) 0 (toy_state [config [("type", VStr "har_full_train")]])
      = Ok (Next, st')
    /\ recorded 0 "har_model" (toy_state [config [("type", VStr "har_full_train")]]) st'.
Proof.
  pose (c := config [("type", VStr "har_full_train")]).
  pose (st := toy_state [c]).
  assert (Hc : experiment_configs st !! 0%nat = Some c) by reflexivity.
  assert (Ht : c !! "type" = Some (VStr "har_full_train")) by (vm_compute; reflexivity).
  assert (Hty : recorded_type "har_full_train" = Some "har_model") by reflexivity.
  assert (Hok : match run_experiment (toy_env 0) 0 st with
                | Ok (Next, _) => true
                | _ => false
                end = true) by (vm_compute; reflexivity).
  destruct (run_experiment (toy_env 0) 0 st) as [[[|] st']|e] eqn:Hrun.
  - exists st'. split; [first [exact Hrun | reflexivity] |].
    exact (training_records_model (toy_env 0) 0 st c st' "har_full_train" "har_model"
             Hc Hrun Ht Hty).
  - discriminate Hok.
  - discriminate Hok.
Defined.

Lemma run_experiments_invariants_witness :
  exists ctl st',
    run_experiments (toy_env 0) (toy_state teacher_configs) = Ok (ctl, st')
    /\ length (experiment_configs st') = 2%nat
    /\ out (toy_state teacher_configs) `prefix_of` out st'.
Proof.
  pose (st := toy_state teacher_configs).
  assert (Hok : match run_experiments (toy_env 0) st with
                | Ok _ => true
                | Raise _ => false
                end = true) by (vm_compute; reflexivity).
  destruct (run_experiments (toy_env 0) st) as [[ctl st']|e] eqn:Hrun.
  - destruct (run_experiments_invariants (toy_env 0) st ctl st' Hrun)
      as (Hlen & _ & _ & Hout & _).
    exists ctl, st'. split; [first [exact Hrun | reflexivity] |].
    split; [exact Hlen | exact Hout].
  - discriminate Hok.
Defined.

Lemma quiet_run_never_completes_witness :
  a_verbose (toy_args 0) <= 0
  /\ exists e,
       run_percentage (toy_args 0) (1 # 2) toy_config_file "reports" initial_state None
       = Raise e.
Proof.
  assert (Hq : a_verbose (toy_args 0) <= 0) by (simpl; lia).
  split; [exact Hq |].
  exact (proj1 (quiet_run_never_completes (toy_args 0) (1 # 2) toy_config_file "reports"
                  initial_state Hq)).
Defined.

Lemma no_users_division_witness :
  @run_percentage no_user_services no_user_trainer (toy_args 1) (1 # 2) toy_config_file
    "reports" (@initial_state no_user_services) None
  = Raise ZeroDivisionError.
Proof.
  exact (@no_users_division no_user_services no_user_trainer (toy_args 1) (1 # 2)
           toy_config_file "reports" (@initial_state no_user_services) None eq_refl).
Defined.

Lemma evaluate_on_unlabelled_effect_witness :
  exists st' yp,
    evaluate_on_unlabelled (toy_env 0) 2 0 [[0%Q; 1%Q]] scores false (toy_state [])
      = Ok (tt, st')
    /\ y_pred (toy_state []) !! 0%nat = Some yp
    /\ y_pred st' = <[0%nat := yp ++ np_argmax_rows [[0%Q; 1%Q]]]> (y_pred (toy_state [])).
Proof.
  pose (st := toy_state []).
  assert (Hok : match evaluate_on_unlabelled (toy_env 0) 2 0 [[0%Q; 1%Q]] scores false st with
                | Ok _ => true
                | Raise _ => false
                end = true) by (vm_compute; reflexivity).
  destruct (evaluate_on_unlabelled (toy_env 0) 2 0 [[0%Q; 1%Q]] scores false st)
    as [[[] st']|e] eqn:Hrun.
  - destruct (evaluate_on_unlabelled_effect (toy_env 0) 2 0 [[0%Q; 1%Q]] scores false
                st st' tt Hrun)
      as (mu & da & la & es & un & cm & old & tot & l & yt & yp
          & _ & _ & _ & _ & _ & _ & _ & _ & _ & _ & _ & Hyp & Hyp' & _).
    exists st', yp. split; [first [exact Hrun | reflexivity] |].
    split; [exact Hyp | exact Hyp'].
  - discriminate Hok.
Defined.

Lemma finalise_unlabelled_confusion_witness :
  exists st r rep mean yt yp cm,
    run_folds (toy_args 1) (1 # 2) toy_config_file "reports" [0; 1]%nat
      (initial_pools initial_state, initial_report None) = Ok (st, r)
    /\ finalise 2 st r = Ok rep
    /\ metric (performance_unlabelled_dataset rep) "Experiment 3" "Confusion Matrix"
       = Some mean
    /\ y_true st !! 1%nat = Some yt /\ y_pred st !! 1%nat = Some yp
    /\ yt <> []
    /\ confusion_matrix yt yp = Ok cm
    /\ metric (performance_labelled_dataset rep) "Experiment 3" "Confusion Matrix"
       = Some cm.
Proof.
  assert (Ht : (3 = 2 \/ 3 = 3)%nat) by (right; reflexivity).
  assert (Hok : match run_folds (toy_args 1) (1 # 2) toy_config_file "reports" [0; 1]%nat
                        (initial_pools initial_state, initial_report None) with
                | Ok sr => match finalise 2 sr.1 sr.2 with
                           | Ok _ => true
                           | Raise _ => false
                           end
                | Raise _ => false
                end = true) by (vm_compute; reflexivity).
  destruct (run_folds (toy_args 1) (1 # 2) toy_config_file "reports" [0; 1]%nat
              (initial_pools initial_state, initial_report None))
    as [[st r]|e] eqn:Hfolds; [| discriminate Hok].
  cbn [fst snd] in Hok.
  destruct (finalise 2 st r) as [rep|e] eqn:Hrun; [| discriminate Hok].
  destruct (finalise_unlabelled_confusion 2 st r rep 3 Ht Hrun)
    as (total & mean & yt & yp & cm & _ & _ & Hm & Hyt & Hyp & Hcm & Hl).
  exists st, r, rep, mean, yt, yp, cm.
  split; [first [exact Hfolds | reflexivity] |].
  split; [first [exact Hrun | reflexivity] |]. split; [exact Hm |].
  split; [exact Hyt |]. split; [exact Hyp |]. split; [| split; [exact Hcm | exact Hl]].
  intros ->. discriminate Hcm.
Defined.

Lemma prepare_dataset_bundle_witness :
  exists b es,
    prepare_dataset "labelled.pkl" 52 (get_fixed_split_users 0) (1 # 2) 1 None = Ok (b, es)
    /\ b_output_shape b = size (b_label_map b)
    /\ pickle_reads "labelled.pkl" es = 1%nat.
Proof.
  assert (Hl : @None (gmap string nat) = None -> NoDup (np_sort (pickle_load "labelled.pkl").2)).
  { intros _. simpl. apply NoDup_cons. split; [| apply NoDup_singleton].
    rewrite list_elem_of_singleton. discriminate. }
  pose proof (prepare_dataset_bundle "labelled.pkl" 52 (get_fixed_split_users 0) (1 # 2) 1
                None Hl) as H.
  destruct H as (b & es & Hrun & Hshape & _ & _ & Hreads & _).
  exists b, es. split; [exact Hrun |]. split; [exact Hshape | exact Hreads].
Defined.

End FurtherExamples.
